(* ===== verification/_CoqProject ===== *)
-Q . S2P
Prelude.v
JsValue.v
Regex.v
Validation.v
Transport.v
Templates.v
Config.v
Handlers.v
Contract.v
Gateway.v
Helpers.v
ExpressApp.v
ContactForm.v
Navbar.v
Loader.v
Hero.v
Animations.v
Icons.v
MouseHooks.v
ThreeHooks.v
Canvas.v
Models.v
Sections.v
HeroScene.v
App.v
Views.v
Effects.v
HeroContent.v
ModelViews.v
StartUp.v
HeroCanvas.v
LoaderScreen.v
