(* ===== verification/Prelude.v ===== *)
(** * A verification development of the portfolio site and its contact service

    The repository is a personal portfolio: a React single-page front end
    ([src/src/]) and a small e-mail relay ([src/server/] for the Express
    server, [src/api/contact.js] for the serverless deployment).  A visitor
    fills the contact form ([src/src/components/Contact.jsx]); the form is
    validated in the browser, POSTed as JSON, passed through the Express
    pipeline (body parsers, CORS, routing) or the serverless function,
    validated again, and turned into two e-mails sent one after the other
    through an SMTP transport (nodemailer): a notification to the site
    owner and an acknowledgement to the visitor.  Every outcome is reported
    as a JSON envelope [{success, message, error?}].  Around the form the
    page has a navigation bar, a loading screen and browser helpers
    (timers, numbers, colours).

    ** Files, in dependency order

    - [Prelude] (this file): JavaScript strings as lists of UTF-16 code
      units ([jstr]), the decoding of Rocq string literals into them
      ([u16], [tpl]), ECMAScript white space ([is_js_space]),
      [String.prototype.trim] ([js_trim]) and [split] on one code unit
      ([split_on]) with their lemmas; the scope [portfolio_scope], the hint
      databases [portfolio]/[portfolio_rw] and the tactics [z_cases].
    - [JsValue]: values of a parsed request body, truthiness, [ToString]
      with the [TypeError] it throws on an object with an own [toString]
      member ([string_throws]), property reads (the last duplicate key
      wins) and [join].
    - [Regex]: regular expressions as an AST with an inductive language,
      a matcher by Brzozowski derivatives proved equal to it,
      [RegExp.prototype.test] with its anchors, and the e-mail pattern
      [/^[^\s@]+@[^\s@]+\.[^\s@]+$/] with the strings it accepts.
    - [Validation]: the inline checks of [sendContactEmail]
      (src/server/routes/email.js), [validatePayload] (src/api/contact.js)
      and the form's [validateForm]/[validateEmail] ([Client]).
    - [Transport]: the interface the handlers need from nodemailer's
      [sendMail] and the console (the class [MailTransport] with its laws
      [MailTransportLaws]: every call is recorded once, in order), the
      effect monad [M] over it with [let*], and a reference transport whose
      failures come from an oracle.
    - [Templates]: the template literals of the mails with their holes.
    - [Config]: environment variables, [Number] and [parseInt] on strings,
      [validateEnv], [createTransporter] and the Express transporter,
      with the dotenv loading, the configuration report and the
      [transporter.verify] callback of routes/email.js.
    - [Handlers]: [ServerRoutes] ([sendContactEmail], [sendTestEmail] and
      their mail options) and [ApiContact] (the serverless [handler]), each
      the whole handler with its guards, sends, console lines and catch,
      including the [TypeError] of building the admin's mail options when
      a field's [String] throws ([admin_interpolation]).
    - [Contract]: the abstract contract of a contact request, a step
      relation over phases, with its terminal outcomes.
    - [Gateway]: the refinement theorems (each handler run is a terminal
      run of the contract), the error paths and the exposure of errors.
    - [Helpers]: [debounce] and [throttle] (src/src/utils/helpers.js) run
      on time-ordered call lists, [useWindowSize], [clamp], [lerp],
      [getScrollProgress] over JavaScript numbers ([JsMath]: rationals,
      the infinities and NaN), [randomColor], and [isInViewport],
      [hasWebGLSupport] and [preloadImages] on what the browser answers
      ([Dom]).
    - [ExpressApp]: src/server/index.js: the CORS origin callback
      ([Cors]), the request pipeline with body parsing, request log,
      routes, 404 and error handler ([App.app]), and the start-up in
      module order with [PORT] and the banner of [app.listen] ([Boot]).
    - [ContactForm]: Contact.jsx as a state machine (state hooks and the
      request in flight; [handleChange], [handleSubmit], the settling of
      [fetch]) with its rendered view.
    - [Navbar]: Navbar.jsx as a step relation over a page layout.
    - [Loader]: the loading screen (Loader.jsx with App.jsx's [isLoading])
      as a step relation, and [ScrollToTop]'s scroll handler.
    - [Hero]: Hero.jsx's typewriter (its two kinds of timer and React's
      effect re-run rule), cursor trail and 3D error boundary.
    - [Animations]: the GSAP scroll hooks (useScrollAnimation.js) and
      Hero's scroll effect over the page's shared ScrollTrigger registry,
      with object identity for React's dependency comparison.
    - [Icons]: [iconMap] and [getIcon] with the object's prototype chain.
    - [MouseHooks]: useMouseTracking.js: the tracking handler composed
      with [Helpers]' throttle ([MouseTracking]), the cursor trail
      ([CursorTrail10]) and the magnetic cursor as a step relation over
      mouse moves, animation frames, strength changes and unmount, with
      every [requestAnimationFrame] loop still running ([Magnetic]).
    - [ThreeHooks]: use3DAnimation.js: the [useFrame] callbacks of the six
      hooks ([Rotation], [Float], [Mouse3D], [Hover] with its [meshRef]
      guard, [Wave]) and the
      particle loop [Particles.particles_loop], defined with Equations by
      the measure [length ps - i]; the sine and cosine bounds shared with
      [Canvas].
    - [Canvas]: Canvas/InteractiveElements.jsx: the particle memo with its
      [originalPositions] ref and the frame loop with the mouse repulsion
      ([ParticleField]), the orbiting satellites ([Orbiting]), the hero
      mesh with JavaScript's [%] ([Morph]) and the moving lights
      ([Lights]).
    - [Models]: Canvas/Models.jsx: the seven models on top of the hooks
      of [ThreeHooks] (the cube's hover and rotation as a reachability
      relation, the sphere's rotation, the per-render random particles).
    - [Sections]: the projects section's filter (sections/Projects.jsx)
      as a reachability relation with its rendered buttons and grid
      ([ProjectsSection]), the project card ([ProjectCard]), the journey
      timeline ([Timeline]), SectionBackground's particles and vignette
      ([Background]) and the footer's quick links ([Footer]), which reuse
      [Navbar]'s [scrollToSection] and [Client.toLowerCase].
    - [HeroScene]: Hero.jsx's mouse listener (both refs and the trail of
      [Hero]), its scroll progress and its renders, and the props each
      render passes to the 3D elements of [Canvas] ([HeroMouse]).
    - [App]: App.jsx's imports resolved against the repository's files
      ([AppModule]), its sections stacked as the page the navigation bar
      reads ([Page]), the hero's scroll buttons ([HeroButtons]) and the
      scroll button's class, progress ring and smooth scroll to the top
      ([ScrollRing]), and App's mount effect ([mount_effect]).
    - [Views]: what the content sections show of the portfolio data
      ([Data], one record per JSON object they read): About.jsx's
      highlights, the two Skills sections with SkillCategory.jsx's bars,
      the two Experience sections with ExperienceCard.jsx, Contact.jsx's
      details and social links, the whole footer (brand, quick links,
      social links and the bottom bar with the year of [new Date()]) and
      the journey's milestone cards, each with its React keys, links and
      the icon [getIcon] returns ([Icons]); [page_logs] collects the
      warnings of one render.
    - [Effects]: Scene.jsx and Effects.jsx as functions from props to
      React elements ([Scene3D]): default parameters, rest props and
      spreads, the [{flag && <X />}] children with React's rendering of
      falsy values, and the [TypeError] of a [null] camera.  No module
      imports these two files.
    - [HeroContent]: Hero.jsx's [HERO_CONFIG], its content block (the
      greeting, the typewriter line with its fallback, description and
      bio, the button labels, the stats), the canvas's pixel-ratio range
      and the View My Work button's own [style.transform] writes, on
      [Hero]'s typewriter state.
    - [ModelViews]: the element each model of Models.jsx renders from
      its props ([ModelJsx]), in the props language of [Effects].
    - [StartUp]: the first seconds of the page on one clock: App's render
      with the loader above a page mounted from the first render
      ([AppView]), the loader's ticks and timeout placed in time
      ([Clock]) and Hero's entrance timeline ([Entrance]).
    - [HeroCanvas]: what Hero renders around its content (the trail's
      dots, the canvas with its children inside the error boundary, the
      vignette, the scroll indicator: [HeroJsx]) and what the elements of
      InteractiveElements.jsx render ([ElementsJsx]), the particles' two
      [Float32Array]s filled by the memo's loop included.
    - [LoaderScreen]: the whole picture of the loading screen: the
      floating particles drawn in each render, the rings, the
      constellation with its lines, the orbiting particles and the texts.

    ** What the theorems show

    - Refinement: [sendContactEmail] and [handler] implement the contract:
      a 400 with no effect, or the admin mail then the visitor mail, 500 at
      the first failure, 200 only after both ([Gateway]).  A field whose
      [String] throws (a JSON object with its own [toString]) is answered
      500 by the [catch], before any mail; the serverless function checks
      its SMTP variables only after validation.
    - Validation: [validatePayload] accepts exactly the bodies with the
      four rules, an [email] whose [String] throws making it throw; the
      Express checks agree with it; the e-mail pattern
      accepts exactly [l@d.t]; every body the form posts passes the
      server ([ContactForm]).
    - The pipeline: no mail without an allowed origin, a parsed body and a
      mail route; every request gets a response; the CORS rule and how
      [CORS_ORIGINS] is split, trimmed and filtered; at start-up one
      environment, with
      [isProd] read after the imported module loaded the files
      ([ExpressApp]).
    - The browser: invariants of the contact form, the navigation bar (one
      link highlighted) and the loader (it stops, and stays stopped); the
      timers' contracts and the numeric helpers ([Helpers]); the
      typewriter keeps exactly one timer pending and shows every title
      (liveness), both for titles that are all non-empty; the cursor trail keeps the last twenty moves; no
      ScrollTrigger outlives its component, but a re-render can kill
      those of the others.
    - Types and bounds: every answer of the Express app other than a 200
      or a preflight has the error envelope's shape ([ExpressApp]); the
      normalised mouse stays in [[-1, 1]], the cursor trail holds the
      last ten moves, the magnetic cursor's gap shrinks geometrically
      ([MouseHooks]); a particle frame rewrites exactly the [y]
      coordinates, the hover scale stays between 1 and its target while
      frames are shorter than [duration], rotations compose additively
      ([ThreeHooks]); the interactive particles stay within one unit of
      their origin and lie on a shell of radius [[15, 25)], the hero
      mesh's scale and hue stay in range ([Canvas]); the cube's scale
      stays in [[1, 1.3]], the models' frames stay in range ([Models]);
      exactly one projects filter is active, the grid shows exactly the
      projects of the filter, timeline cards alternate sides, background
      particles stay inside their section, the footer's links reach the
      navigation bar's sections ([Sections]); every mouse move renders
      Hero again, and the scene it drives stays in range ([HeroScene]).
    - The page as a whole: on sections stacked in order the navigation bar
      lights exactly the section in view (a refinement of [handleScroll]
      by the abstract section in view), View My Work leads to the
      Projects link being lit, and the scroll ring's offset stays within
      its circumference ([App]); App.jsx itself does not build, since one
      of its imports names no file.
    - The content sections ([Views]): one render warns exactly once per
      icon name [iconMap] lacks, in render order; the footer and the
      contact section show the same social links, all opening a new tab
      with [noopener noreferrer]; a contact detail is a link exactly when
      its [link] is a non-empty string; the category keys of Skills.jsx
      are always distinct, those of sections/Skills.jsx exactly when the
      category names are.
    - The hero's typed line is never empty: a non-empty prefix of the
      current title, or the fallback ['Full Stack Developer'], which is on
      the screen at the start of every round ([HeroContent]).
    - Start-up ([StartUp]): whatever [Math.random()] draws, the loader
      covers the page, opaque, for the first 1650 ms, while Hero's
      entrance animation runs from 300 to 1100 ms: it is never seen.
    - The hero's scene ([HeroCanvas]): the six satellites form a regular
      hexagon of side 3 about the group's origin, satellite [i] at hue
      [60 i], and the typed arrays the memo fills hold exactly the
      coordinates it generates, three per particle; the trail's dots fade
      with their rank.
    - The loading screen ([LoaderScreen]): every constellation line reads
      existing particles, the floating particles stay on the screen, and
      they are drawn anew at every tick, each of the 350 draws showing.
    - The start-up banner shows exactly outside production and never
      names the production environment ([ExpressApp]).
    - The scene wrapper ([Effects]): a [SceneEffects] flag given as [0]
      or [NaN] renders the text ["0"] or ["NaN"] among the 3D elements,
      and no other text is rendered; [Scene] throws exactly for [camera={null}]; the caller's
      props override the canvas's and the sparkles' fixed attributes,
      except those the patterns take out; a caller's pointer handler
      replaces the cube's hover handlers ([ModelViews]).
    - Findings are stated as theorems or examples at concrete inputs: blank
      names accepted, the TLS flag for [SMTP_PORT=0465], error exposure,
      unescaped HTML, any [*.vercel.app] origin allowed, stale window size,
      animation loops never cancelled, particles that keep floating around
      the first memo run's positions, a hover that overshoots on a long
      frame.

    ** Bounds and fuel

    [to_hex] prints with fuel 8: enough for every [n < 16^8], and
    [randomColor]'s integers are below [0xFFFFFF].  The loader needs at
    most 51 ticks: each adds at least 2 to the progress, capped at 100;
    and in its first 1650 ms at most 10 ticks fire, each adding less than
    10, so the progress stays below 100.
    A typewriter round on a title of length [L] takes [2L + 3] timer
    callbacks; the liveness theorem composes rounds.
    Numbers are exact rationals: the code's arithmetic on them (sums of
    pixel values, [Math.random() * k]) does not depend on rounding.  The
    frame callbacks of [ThreeHooks] and [Canvas] use [Math.sin] and
    [Math.cos] and are modelled over the reals of the Standard Library;
    their theorems are about exact arithmetic, rounding of doubles is not
    modelled.  [particles_loop] needs no fuel: its measure decreases by 3
    at each step.

    ** Not modelled

    What three.js, drei and postprocessing do with the elements they
    receive;
    the velocities the particle memo stores and never reads; the JSON
    file src/src/data/portfolioData.json that [usePortfolioData] returns,
    which the repository does not hold (the views of [Views] take the
    data as a parameter), and the lists of constants.js other than
    [navLinks] (projects, skills, experience, socialLinks,
    emailJSConfig), which no module imports; Experience_old2.jsx and
    Projects_old.jsx, which nothing imports and which do not parse (each
    has two [export default]); CSS classes, layout markup and
    SVG; nodemailer and SMTP beyond the transport interface's laws; the
    formatting the console gives to error objects; [formatDate], which
    depends only on the runtime's locale data.  The repository has no
    package.json for the server, so the Express version is not pinned:
    [ExpressApp] follows Express 4, which the code is written for.  There
    [req.body] is [{}] when no parser read the body; under Express 5 it
    stays [undefined], and [sendContactEmail]'s destructuring would throw
    and be answered 500 by its [catch] instead of the 400 "All fields are
    required". *)

From stdpp Require Export base list strings.
From Stdlib Require Export ZArith Ascii.

Declare Scope portfolio_scope.
Delimit Scope portfolio_scope with pf.
Open Scope Z_scope.

Create HintDb portfolio.
Create Rewrite HintDb portfolio_rw.

(** ** JavaScript strings

    A JavaScript string is a sequence of UTF-16 code units; [.length]
    counts code units and regular expressions without the [u] flag match
    code unit by code unit.  We represent it as [list Z], each element in
    [0, 0xFFFF]. *)

Abbreviation jstr := (list Z) (only parsing).

Definition code_unit_ok (c : Z) : Prop := 0 <= c <= 0xFFFF.

(** Rocq string literals hold the UTF-8 bytes of the source text; [u16]
    turns them into the UTF-16 code units JavaScript sees. *)

Fixpoint utf8_bytes (s : string) : list Z :=
  match s with
  | EmptyString => []
  | String a s' => Z.of_N (N_of_ascii a) :: utf8_bytes s'
  end.

Definition cont (b : Z) (acc : Z) : Z := Z.lor (Z.shiftl acc 6) (Z.land b 0x3F).

(** Decoding of well-formed UTF-8 (the literals of this development are);
    a truncated sequence ends the string. *)
Fixpoint decode_utf8 (bs : list Z) : list Z :=
  match bs with
  | [] => []
  | b0 :: r =>
      if b0 <? 0x80 then b0 :: decode_utf8 r
      else match r with
           | [] => []
           | b1 :: r1 =>
               if b0 <? 0xE0 then cont b1 (Z.land b0 0x1F) :: decode_utf8 r1
               else match r1 with
                    | [] => []
                    | b2 :: r2 =>
                        if b0 <? 0xF0 then cont b2 (cont b1 (Z.land b0 0x0F)) :: decode_utf8 r2
                        else match r2 with
                             | [] => []
                             | b3 :: r3 =>
                                 cont b3 (cont b2 (cont b1 (Z.land b0 0x07))) :: decode_utf8 r3
                             end
                    end
           end
  end.

(** A code point as one code unit, or as a surrogate pair above the BMP. *)
Definition utf16_units (cp : Z) : list Z :=
  if cp <? 0x10000 then [cp]
  else [0xD800 + Z.shiftr (cp - 0x10000) 10; 0xDC00 + Z.land (cp - 0x10000) 0x3FF].

Definition u16 (s : string) : jstr :=
  List.flat_map utf16_units (decode_utf8 (utf8_bytes s)).

(** Template-literal text: Rocq literals cannot carry a double quote, and a
    JavaScript template literal cannot carry an unescaped backquote, so the
    templates of the code are written with a backquote (0x60) where the
    source has a double quote (0x22). *)
Definition tpl (s : string) : jstr :=
  List.map (fun c => if c =? 0x60 then 0x22 else c) (u16 s).

(** ** White space: ECMAScript's WhiteSpace and LineTerminator

    The set matched by [\s] in a regular expression and removed by
    [String.prototype.trim]: TAB, VT, FF, SP, NBSP, ZWNBSP, the Unicode
    space separators (category Zs) and LF, CR, LS, PS. *)

Definition is_js_space (c : Z) : bool :=
  (c =? 0x09) || (c =? 0x0A) || (c =? 0x0B) || (c =? 0x0C) || (c =? 0x0D)
  || (c =? 0x20) || (c =? 0xA0) || (c =? 0x1680)
  || ((0x2000 <=? c) && (c <=? 0x200A))
  || (c =? 0x2028) || (c =? 0x2029) || (c =? 0x202F) || (c =? 0x205F)
  || (c =? 0x3000) || (c =? 0xFEFF).

(** Letters, digits and the ASCII punctuation between are not white space. *)
Lemma is_js_space_letter c : 0x21 <= c <= 0x7E -> is_js_space c = false.
Proof.
  intros Hc. unfold is_js_space.
  repeat match goal with
         | |- context [?a =? ?b] => destruct (Z.eqb_spec a b); [lia|]
         | |- context [?a <=? ?b] => destruct (Z.leb_spec a b); [try lia|]
         end; reflexivity.
Qed.

Fixpoint trim_start (s : jstr) : jstr :=
  match s with
  | [] => []
  | c :: r => if is_js_space c then trim_start r else s
  end.

Definition trim_end (s : jstr) : jstr := rev (trim_start (rev s)).

(** [String.prototype.trim]: both ends. *)
Definition js_trim (s : jstr) : jstr := trim_end (trim_start s).

(** All code units are white space: the strings [trim] empties. *)
Definition all_space (s : jstr) : bool := forallb is_js_space s.

(** ** Tactics *)

(** Turn the boolean tests of the code into propositions. *)
Ltac bool_props :=
  repeat match goal with
         | H : (_ && _)%bool = true |- _ => apply andb_prop in H as [? ?]
         | H : (_ || _)%bool = false |- _ => apply orb_false_elim in H as [? ?]
         | H : negb _ = true |- _ => apply negb_true_iff in H
         | H : negb _ = false |- _ => apply negb_false_iff in H
         | H : (_ =? _) = true |- _ => apply Z.eqb_eq in H
         | H : (_ <? _) = true |- _ => apply Z.ltb_lt in H
         | H : (_ <? _) = false |- _ => apply Z.ltb_ge in H
         end.

(** Case on a boolean test [b] of the goal, keeping its value. *)
Ltac case_test b := let E := fresh "E" in destruct b eqn:E.

(** Split the goal on every integer comparison in it, and close the
    branches whose arithmetic is contradictory. *)
Ltac z_cases :=
  repeat match goal with
         | |- context [?a <=? ?b] => destruct (Z.leb_spec a b)
         | |- context [?a <? ?b] => destruct (Z.ltb_spec a b)
         | |- context [?a =? ?b] => destruct (Z.eqb_spec a b)
         end; try lia.

(** ** Generic lemmas on lists *)

Lemma forallb_pointwise {A} (f g : A -> bool) (l : list A) :
  (forall x, f x = g x) -> forallb f l = forallb g l.
Proof. intros H. induction l as [|x l IH]; simpl; [done|]. by rewrite H, IH. Qed.

(** A [flat_map] image split at a code unit [x] that only [x] itself
    produces, and produces alone, comes from a split of the source at [x]. *)
Lemma flat_map_split_at {A} (f : A -> list A) (x : A) (b : list A) (X Y : list A) :
  (forall c, In x (f c) -> c = x) -> f x = [x] ->
  flat_map f b = X ++ x :: Y ->
  exists b1 b2, b = b1 ++ x :: b2 /\ flat_map f b1 = X /\ flat_map f b2 = Y.
Proof.
  intros Honly Hx. revert X. induction b as [|c b IH]; intros X Hb; simpl in Hb.
  - by destruct X.
  - apply app_eq_app in Hb as [l [[HX Hl]|[HX Hl]]].
    + destruct l as [|y l]; simpl in *.
      * rewrite app_nil_r in HX. subst X.
        destruct (IH [] (eq_sym Hl)) as (b1 & b2 & -> & H1 & H2).
        exists (c :: b1), b2. simpl. by rewrite H1, app_nil_r.
      * injection Hl as <- Hl. assert (c = x) as ->.
        { apply Honly. rewrite HX. apply in_or_app. by right; left. }
        rewrite Hx in HX. destruct X as [|? [|? ?]]; [|done|done].
        injection HX as <-. exists [], b. by subst.
    + destruct (IH l Hl) as (b1 & b2 & -> & H1 & H2).
      exists (c :: b1), b2. simpl. by rewrite H1, HX.
Qed.

(** ** Lemmas on white space and trimming *)

Lemma trim_start_app_spaces (w s : jstr) :
  all_space w = true -> trim_start (w ++ s) = trim_start s.
Proof.
  induction w as [|c w IH]; simpl; [done|].
  intros [-> Hw]%andb_prop. by apply IH.
Qed.

Lemma trim_start_spaces_prefix (s : jstr) :
  exists w, s = w ++ trim_start s /\ all_space w = true.
Proof.
  induction s as [|c s [w [Hs Hw]]]; simpl.
  - by exists [].
  - destruct (is_js_space c) eqn:Ec.
    + exists (c :: w). simpl. rewrite Ec, Hw. split; [by rewrite <- Hs | done].
    + by exists [].
Qed.

Lemma trim_start_head (s : jstr) c r :
  trim_start s = c :: r -> is_js_space c = false.
Proof.
  induction s as [|d s IH]; simpl; [done|].
  destruct (is_js_space d) eqn:Ed; [exact IH|]. by intros [= -> _].
Qed.

Lemma trim_start_nil_iff (s : jstr) : trim_start s = [] <-> all_space s = true.
Proof.
  induction s as [|c s IH]; simpl; [done|].
  destruct (is_js_space c); simpl; [exact IH|]. split; discriminate.
Qed.

Lemma all_space_app (s t : jstr) :
  all_space (s ++ t) = (all_space s && all_space t)%bool.
Proof. apply forallb_app. Qed.

Lemma all_space_rev (s : jstr) : all_space (rev s) = all_space s.
Proof.
  induction s as [|c s IH]; simpl; [done|].
  rewrite all_space_app, IH. simpl. by rewrite andb_true_r, andb_comm.
Qed.

#[export] Hint Rewrite all_space_app all_space_rev : portfolio_rw.

Lemma all_space_trim_start (s : jstr) : all_space (trim_start s) = all_space s.
Proof.
  destruct (trim_start_spaces_prefix s) as [w [Hs Hw]].
  rewrite Hs at 2. by rewrite all_space_app, Hw.
Qed.

Lemma rev_eq_nil {A} (l : list A) : rev l = [] <-> l = [].
Proof.
  split; [|by intros ->]. destruct l as [|x l]; simpl; [done|].
  intros H. by apply app_eq_nil in H as [_ ?].
Qed.

(** [trim] empties exactly the all-white-space strings. *)
Lemma js_trim_nil_iff (s : jstr) : js_trim s = [] <-> all_space s = true.
Proof.
  unfold js_trim, trim_end. rewrite rev_eq_nil, trim_start_nil_iff, all_space_rev.
  by rewrite all_space_trim_start.
Qed.

Lemma trim_start_length (s : jstr) : (length (trim_start s) <= length s)%nat.
Proof. induction s as [|c s IH]; simpl; [lia|]. destruct (is_js_space c); simpl; lia. Qed.

Lemma js_trim_length (s : jstr) : (length (js_trim s) <= length s)%nat.
Proof.
  unfold js_trim, trim_end. rewrite length_rev.
  etrans; [apply trim_start_length|]. rewrite length_rev. apply trim_start_length.
Qed.

#[export] Hint Resolve trim_start_length js_trim_length : portfolio.

Lemma forallb_rev {A} (f : A -> bool) (l : list A) : forallb f (rev l) = forallb f l.
Proof. induction l as [|x l IH]; simpl; [done|]. rewrite forallb_app, IH. simpl. by rewrite andb_true_r, andb_comm. Qed.

(** A string with no white space at all: [trim] leaves it alone. *)
Definition no_space (s : jstr) : bool := forallb (fun c => negb (is_js_space c)) s.

Lemma trim_start_no_space (s : jstr) : no_space s = true -> trim_start s = s.
Proof.
  destruct s as [|c s]; [done|]. unfold no_space. simpl.
  by destruct (is_js_space c).
Qed.

Lemma js_trim_no_space (s : jstr) : no_space s = true -> js_trim s = s.
Proof.
  intros H. unfold js_trim, trim_end. rewrite (trim_start_no_space s H), trim_start_no_space.
  - apply rev_involutive.
  - unfold no_space. by rewrite forallb_rev.
Qed.

Lemma filter_negb_nil {A} (f : A -> bool) (l : list A) :
  List.filter (fun x => negb (f x)) l = [] <-> Forall (fun x => f x = true) l.
Proof.
  induction l as [|x l IH]; simpl; [split; auto|].
  rewrite Forall_cons. destruct (f x); simpl; [rewrite IH; intuition|split; [done|]].
  by intros [? _].
Qed.

(** ** [String.prototype.split] with a one-unit separator *)

(** [s.split(sep)]: the pieces between the occurrences of [sep]; the empty
    string gives one empty piece. *)
Fixpoint split_on (sep : Z) (s : jstr) : list jstr :=
  match s with
  | [] => [[]]
  | c :: r =>
      let pieces := split_on sep r in
      if c =? sep then [] :: pieces
      else match pieces with
           | p :: ps => (c :: p) :: ps
           | [] => [[c]]
           end
  end.

Lemma split_on_nonempty sep s : split_on sep s <> [].
Proof.
  induction s as [|c s IH]; simpl; [done|].
  destruct (c =? sep); [done|]. by destruct (split_on sep s).
Qed.

(** Splitting a piece without [sep] followed by more text. *)
Lemma split_on_app sep p rest :
  forallb (fun c => negb (c =? sep)) p = true ->
  split_on sep (p ++ sep :: rest) = p :: split_on sep rest.
Proof.
  induction p as [|c p IH]; simpl.
  - by rewrite Z.eqb_refl.
  - intros [Hc Hp]%andb_prop. rewrite IH by done. by rewrite (negb_true_iff _) in Hc; rewrite Hc.
Qed.

Lemma split_on_free sep p :
  forallb (fun c => negb (c =? sep)) p = true -> split_on sep p = [p].
Proof.
  induction p as [|c p IH]; simpl; [done|].
  intros [Hc Hp]%andb_prop. rewrite IH by done. by rewrite (negb_true_iff _) in Hc; rewrite Hc.
Qed.

(** ** Folds

    Handlers applied to a list of events are [fold_left]s; a property
    kept by every event of the list holds at the end. *)

Lemma fold_left_invariant {A B} (P : A -> Prop) (f : A -> B -> A) (l : list B) (a : A) :
  P a -> (forall a b, In b l -> P a -> P (f a b)) -> P (fold_left f l a).
Proof.
  revert a. induction l as [|b l IH]; intros a Ha Hf; [exact Ha|]. cbn.
  apply IH; [apply Hf; [left|]; done|]. intros a' b' Hb. apply Hf. by right.
Qed.

(** ** Exactly one selected

    A view that marks the entries equal to a selected key marks exactly
    one of them when the keys are distinct and the selection is one of
    them (the highlighted link of the navigation bar, the active filter
    button of the projects section). *)

Lemma count_selected `{EqDecision A} (a : A) (l : list A) :
  length (List.filter (fun b : bool => b) (map (fun x => bool_decide (a = x)) l)) =
  count_occ (fun x y : A => decide (x = y)) l a.
Proof.
  induction l as [|x l IH]; [done|]. cbn.
  case_bool_decide as Hx; destruct (decide (x = a)); subst; cbn; congruence || lia.
Qed.

Lemma exactly_one_selected `{EqDecision A} (a : A) (l : list A) :
  List.NoDup l -> In a l -> length (List.filter (fun b : bool => b) (map (fun x => bool_decide (a = x)) l)) = 1%nat.
Proof. intros Hl Ha. rewrite count_selected. exact (proj1 (NoDup_count_occ' _ l) Hl a Ha). Qed.

(** ** Indexed maps

    A list rendered with [.map((x, index) => ...)] is an [imap]; what a
    view reads of each entry is a [map] over it. *)

Lemma map_imap {A B C} (f : B -> C) (g : nat -> A -> B) (l : list A) :
  map f (imap g l) = imap (fun i x => f (g i x)) l.
Proof. revert g. induction l as [| x l IH]; intros g; cbn; [done | f_equal; apply IH]. Qed.

Lemma imap_index_free {A B} (f : A -> B) (l : list A) : imap (fun _ x => f x) l = map f l.
Proof. induction l as [| x l IH]; cbn; [done | f_equal; apply IH]. Qed.

