(* ===== verification/JsValue.v ===== *)
(** * Values of a parsed request body, as JavaScript sees them

    [express.json()] and Vercel's body parser turn the request body into a
    JavaScript value; [express.urlencoded({extended:true})] produces objects
    whose leaves are strings, arrays and objects.  The handlers read four
    properties of it by destructuring, test them for truthiness ([!name]),
    convert them to strings ([emailRegex.test(email)], template literals)
    and call [message.trim()].  This file models those values and the three
    operations, so that non-string fields are followed where the code lets
    them go.  Numbers are the integers (see [JNum]). *)

From S2P Require Import Prelude.
From Stdlib Require Import DecimalString.

(** A JSON value.  Objects keep their members in source order, duplicates
    included; [JSON.parse] gives the last duplicate's value ([get_prop]).
    Numbers are modelled by their integer value: the code only tests them
    for truthiness and converts them to strings, and non-integer numbers
    behave as non-zero integers there (truthy, no [@] in their text). *)
#[warnings="-register-all"]
Inductive jvalue :=
| JNull
| JBool (b : bool)
| JNum (n : Z)
| JStr (s : jstr)
| JArr (xs : list jvalue)
| JObj (members : list (jstr * jvalue)).

(** A property read gives a value or [undefined] ([None]). *)
Abbreviation jprop := (option jvalue) (only parsing).

(** ** Truthiness: [!v] is [negb (truthy v)] *)

Definition truthy (v : jvalue) : bool :=
  match v with
  | JNull => false
  | JBool b => b
  | JNum n => negb (n =? 0)
  | JStr s => match s with [] => false | _ => true end
  | JArr _ | JObj _ => true
  end.

Definition truthy_prop (p : jprop) : bool :=
  match p with None => false | Some v => truthy v end.

(** ** Errors

    A thrown JavaScript error, by its constructor name and its [message]
    (what [error.message] gives the handlers). *)
Record js_error := { err_name : jstr; err_message : jstr }.

(** ** [ToString] *)

Definition number_to_string (n : Z) : jstr :=
  u16 (NilZero.string_of_int (Z.to_int n)).

(** [Array.prototype.join(",")] on the element strings. *)
Fixpoint join (sep : jstr) (xs : list jstr) : jstr :=
  match xs with
  | [] => []
  | [x] => x
  | x :: r => x ++ sep ++ join sep r
  end.

(** [String(v)] and [`${v}`].  An array joins its elements with commas,
    [null] elements giving the empty string; a plain object prints as
    ["[object Object]"]. *)
Fixpoint to_js_string (v : jvalue) : jstr :=
  match v with
  | JNull => u16 "null"
  | JBool true => u16 "true"
  | JBool false => u16 "false"
  | JNum n => number_to_string n
  | JStr s => s
  | JArr xs =>
      join (u16 ",")
        ((fix elems (xs : list jvalue) : list jstr :=
            match xs with
            | [] => []
            | JNull :: r => [] :: elems r
            | x :: r => to_js_string x :: elems r
            end) xs)
  | JObj _ => u16 "[object Object]"
  end.

(** [String(undefined)] is ["undefined"], as a template literal prints a
    missing environment variable. *)
Definition prop_to_string (p : jprop) : jstr :=
  match p with None => u16 "undefined" | Some v => to_js_string v end.

(** When [String(v)] throws.  [ToString] of an object calls its
    [toString] member: an own member of that name parsed from JSON is not
    callable, [OrdinaryToPrimitive] falls back to [valueOf], which gives
    the object back, and V8 throws a [TypeError].  An array throws when one
    of the elements [join] converts does ([null] is skipped).  Every other
    value converts; [to_js_string] is its string when this is [false]. *)
Fixpoint string_throws (v : jvalue) : bool :=
  match v with
  | JArr xs =>
      (fix elems (xs : list jvalue) : bool :=
         match xs with
         | [] => false
         | x :: r => string_throws x || elems r
         end) xs
  | JObj ms => existsb (fun m => bool_decide (m.1 = u16 "toString")) ms
  | _ => false
  end.

Definition prop_throws (p : jprop) : bool :=
  match p with None => false | Some v => string_throws v end.

(** The error [String(v)] and [`${v}`] throw then. *)
Definition to_primitive_error : js_error :=
  {| err_name := u16 "TypeError"; err_message := u16 "Cannot convert object to primitive value" |}.

(** ** Property reads *)

(** The value of the last member named [k]. *)
Fixpoint lookup_last (k : jstr) (ms : list (jstr * jvalue)) : jprop :=
  match ms with
  | [] => None
  | (k', v) :: r =>
      match lookup_last k r with
      | Some w => Some w
      | None => if decide (k = k') then Some v else None
      end
  end.

(** [v.k] for the property names the handlers read ([name], [email],
    [subject], [message]): only an object has them as own properties, and
    neither [Object.prototype], [Array.prototype] nor the wrappers of
    primitives define them. *)
Definition get_prop (v : jvalue) (k : jstr) : jprop :=
  match v with
  | JObj ms => lookup_last k ms
  | _ => None
  end.

(** A string-valued property, as the code needs for [.trim()]. *)
Definition as_string (p : jprop) : option jstr :=
  match p with Some (JStr s) => Some s | _ => None end.

(** ** Lemmas *)

Lemma truthy_prop_some_str (s : jstr) :
  truthy_prop (Some (JStr s)) = true <-> s <> [].
Proof. destruct s; simpl; split; congruence. Qed.

Lemma lookup_last_app k ms1 ms2 :
  lookup_last k (ms1 ++ ms2) =
  match lookup_last k ms2 with Some w => Some w | None => lookup_last k ms1 end.
Proof.
  induction ms1 as [|[k' v] ms1 IH]; simpl.
  - by destruct (lookup_last k ms2).
  - rewrite IH. by destruct (lookup_last k ms2).
Qed.

(** A member that no later member shadows is the one read. *)
Lemma lookup_last_shadow k v ms1 ms2 :
  lookup_last k ms2 = None -> lookup_last k (ms1 ++ (k, v) :: ms2) = Some v.
Proof.
  intros H. rewrite lookup_last_app. simpl. rewrite H.
  by rewrite decide_True.
Qed.

#[export] Hint Resolve lookup_last_shadow : portfolio.

(** The [TypeError] V8 throws for [message.trim()] when [message] is not a
    string: [trim] is [undefined] on numbers, booleans, arrays and objects. *)
Definition trim_type_error : js_error :=
  {| err_name := u16 "TypeError"; err_message := u16 "message.trim is not a function" |}.

(** [xs.join(sep).split(sep)] gives [xs] back when no element holds [sep]. *)
Lemma split_join sep xs :
  xs <> [] -> Forall (fun p => forallb (fun c => negb (c =? sep)) p = true) xs ->
  split_on sep (join [sep] xs) = xs.
Proof.
  induction xs as [|x [|y r] IH]; [done| |]; intros _ Hall; inversion Hall as [|? ? Hx Hr]; subst.
  - by apply split_on_free.
  - change (join [sep] (x :: y :: r)) with (x ++ sep :: join [sep] (y :: r)).
    rewrite split_on_app by done. by rewrite IH.
Qed.

Lemma join_in_head sep (c : Z) y ys : In c y -> In c (join sep (y :: ys)).
Proof. intros H. destruct ys; cbn [join]; [done|]. apply in_or_app. by left. Qed.

Lemma join_in_tail sep (c : Z) y ys : In c (join sep ys) -> In c (join sep (y :: ys)).
Proof.
  intros H. destruct ys as [|z ys]; [done|]. change (In c (y ++ sep ++ join sep (z :: ys))).
  apply in_or_app. right. apply in_or_app. by right.
Qed.

(** Induction on values, with the hypothesis for every element of an
    array. *)
Fixpoint jvalue_ind_elems (P : jvalue -> Prop) (f_null : P JNull) (f_bool : forall b, P (JBool b))
    (f_num : forall n, P (JNum n)) (f_str : forall s, P (JStr s))
    (f_arr : forall xs, Forall P xs -> P (JArr xs)) (f_obj : forall ms, P (JObj ms))
    (v : jvalue) : P v :=
  match v with
  | JNull => f_null
  | JBool b => f_bool b
  | JNum n => f_num n
  | JStr s => f_str s
  | JArr xs =>
      f_arr xs ((fix go (xs : list jvalue) : Forall P xs :=
                   match xs with
                   | [] => List.Forall_nil _
                   | x :: r => List.Forall_cons _ x r
                                 (jvalue_ind_elems P f_null f_bool f_num f_str f_arr f_obj x) (go r)
                   end) xs)
  | JObj ms => f_obj ms
  end.

(** A value whose [String] throws would print a space where it throws: its
    [to_js_string] holds ["[object Object]"]. *)
Lemma string_throws_space v : string_throws v = true -> In 32 (to_js_string v).
Proof.
  induction v as [| | | |xs IH|ms] using jvalue_ind_elems; try discriminate.
  - cbn [string_throws to_js_string]. induction IH as [|x r Hx _ IHr]; [discriminate|].
    intros [H|H]%orb_true_iff.
    + destruct x; try discriminate; apply join_in_head; by apply Hx.
    + destruct x; apply join_in_tail; by apply IHr.
  - intros _. vm_compute. tauto.
Qed.

Lemma prop_throws_space p : prop_throws p = true -> In 32 (prop_to_string p).
Proof. destruct p; [apply string_throws_space | discriminate]. Qed.

(** A string converts. *)
Lemma prop_throws_str s : prop_throws (Some (JStr s)) = false.
Proof. reflexivity. Qed.
