(* ===== verification/Regex.v ===== *)
(** * The regular expressions of the code

    Three regular-expression literals decide what the service accepts:
    [/^[^\s@]+@[^\s@]+\.[^\s@]+$/] (the e-mail shape, in
    src/server/routes/email.js, src/api/contact.js and
    src/src/utils/helpers.js) and [/\.vercel\.app$/] (the CORS origin
    check of src/server/index.js).  None has a flag, a capture, a
    back-reference or a look-around, so [RegExp.prototype.test] answers
    whether some substring of the input, starting at position 0 when the
    pattern begins with [^] and ending at the end when it ends with [$],
    belongs to the pattern's regular language: the backtracking matcher of
    ECMAScript tries every start position and every way through [+], and
    fails only when no such substring exists.

    [Module Syntax] gives the AST and its language [in_lang] (an inductive
    relation), [Module Deriv] an executable matcher by Brzozowski
    derivatives, proved to decide [in_lang], and [Module Test] the anchored
    [test] with its correctness; [Module EmailPattern] characterises the
    addresses the e-mail pattern accepts. *)

From S2P Require Import Prelude.

Module Syntax.

(** The items of a bracket class: [\s], a code unit, a range. *)
Inductive class_item :=
| CSpace
| CChar (c : Z)
| CRange (lo hi : Z).

Inductive regex :=
| REmpty
| REps
| RChar (c : Z)
| RClass (negated : bool) (items : list class_item)
| RCat (r1 r2 : regex)
| RAlt (r1 r2 : regex)
| RStar (r : regex).

(** [r+] *)
Definition RPlus (r : regex) : regex := RCat r (RStar r).

Definition item_matches (i : class_item) (c : Z) : bool :=
  match i with
  | CSpace => is_js_space c
  | CChar d => c =? d
  | CRange lo hi => (lo <=? c) && (c <=? hi)
  end.

(** [[...]] and [[^...]] *)
Definition class_matches (negated : bool) (items : list class_item) (c : Z) : bool :=
  xorb negated (existsb (fun i => item_matches i c) items).

Inductive in_lang : regex -> jstr -> Prop :=
| L_eps : in_lang REps []
| L_char c : in_lang (RChar c) [c]
| L_class n its c : class_matches n its c = true -> in_lang (RClass n its) [c]
| L_cat r1 r2 s1 s2 : in_lang r1 s1 -> in_lang r2 s2 -> in_lang (RCat r1 r2) (s1 ++ s2)
| L_alt_l r1 r2 s : in_lang r1 s -> in_lang (RAlt r1 r2) s
| L_alt_r r1 r2 s : in_lang r2 s -> in_lang (RAlt r1 r2) s
| L_star_nil r : in_lang (RStar r) []
| L_star_cons r s1 s2 : in_lang r s1 -> in_lang (RStar r) s2 -> in_lang (RStar r) (s1 ++ s2).

#[export] Hint Constructors in_lang : portfolio.

Lemma in_lang_cat_iff r1 r2 s :
  in_lang (RCat r1 r2) s <-> exists s1 s2, s = s1 ++ s2 /\ in_lang r1 s1 /\ in_lang r2 s2.
Proof.
  split.
  - intros H. inversion H; subst. eauto.
  - intros (s1 & s2 & -> & H1 & H2). by constructor.
Qed.

Lemma in_lang_alt_iff r1 r2 s : in_lang (RAlt r1 r2) s <-> in_lang r1 s \/ in_lang r2 s.
Proof. split; [intros H; inversion H; auto | intros [H|H]; auto with portfolio]. Qed.

Lemma in_lang_char_iff c s : in_lang (RChar c) s <-> s = [c].
Proof. split; [intros H; by inversion H | intros ->; constructor]. Qed.

Lemma in_lang_empty s : ~ in_lang REmpty s.
Proof. intros H. inversion H. Qed.

Lemma in_lang_eps_iff s : in_lang REps s <-> s = [].
Proof. split; [intros H; by inversion H | intros ->; constructor]. Qed.

(** A non-empty word of [r*] starts with a non-empty word of [r]. *)
Lemma in_lang_star_cons r c s :
  in_lang (RStar r) (c :: s) ->
  exists s1 s2, s = s1 ++ s2 /\ in_lang r (c :: s1) /\ in_lang (RStar r) s2.
Proof.
  intros H. remember (RStar r) as rs eqn:Er. remember (c :: s) as t eqn:Et.
  revert c s Et. induction H; intros c' s' Et; try discriminate.
  injection Er as <-. destruct s1 as [|d s1]; simpl in Et.
  - by apply IHin_lang2.
  - injection Et as -> <-. eauto.
Qed.

End Syntax.

Module Deriv.
Import Syntax.

(** Concatenation and alternation that drop [REmpty] and [REps] where the
    language allows; they keep the derivatives small. *)
Definition cat (r1 r2 : regex) : regex :=
  match r1, r2 with
  | REmpty, _ | _, REmpty => REmpty
  | REps, _ => r2
  | _, REps => r1
  | _, _ => RCat r1 r2
  end.

Definition alt (r1 r2 : regex) : regex :=
  match r1, r2 with
  | REmpty, _ => r2
  | _, REmpty => r1
  | _, _ => RAlt r1 r2
  end.

Fixpoint nullable (r : regex) : bool :=
  match r with
  | REmpty | RChar _ | RClass _ _ => false
  | REps | RStar _ => true
  | RCat r1 r2 => nullable r1 && nullable r2
  | RAlt r1 r2 => nullable r1 || nullable r2
  end.

Fixpoint deriv (c : Z) (r : regex) : regex :=
  match r with
  | REmpty | REps => REmpty
  | RChar d => if c =? d then REps else REmpty
  | RClass n its => if class_matches n its c then REps else REmpty
  | RCat r1 r2 =>
      if nullable r1 then alt (cat (deriv c r1) r2) (deriv c r2)
      else cat (deriv c r1) r2
  | RAlt r1 r2 => alt (deriv c r1) (deriv c r2)
  | RStar r1 => cat (deriv c r1) (RStar r1)
  end.

(** Whole-word membership. *)
Fixpoint matches (r : regex) (s : jstr) : bool :=
  match s with
  | [] => nullable r
  | c :: s' => matches (deriv c r) s'
  end.

(** Some prefix of [s] is in the language: one pass of derivatives,
    testing [nullable] at every position. *)
Fixpoint matches_prefix (r : regex) (s : jstr) : bool :=
  nullable r ||
  match s with
  | [] => false
  | c :: s' => matches_prefix (deriv c r) s'
  end.

Lemma cat_empty_l r s : in_lang (RCat REmpty r) s <-> in_lang REmpty s.
Proof.
  rewrite in_lang_cat_iff.
  split; [intros (? & ? & _ & H & _) | intros H]; by apply in_lang_empty in H.
Qed.

Lemma cat_empty_r r s : in_lang (RCat r REmpty) s <-> in_lang REmpty s.
Proof.
  rewrite in_lang_cat_iff.
  split; [intros (? & ? & _ & _ & H) | intros H]; by apply in_lang_empty in H.
Qed.

Lemma cat_eps_l r s : in_lang (RCat REps r) s <-> in_lang r s.
Proof.
  rewrite in_lang_cat_iff. setoid_rewrite in_lang_eps_iff.
  split; [by intros (? & ? & -> & -> & ?) | by exists [], s].
Qed.

Lemma cat_eps_r r s : in_lang (RCat r REps) s <-> in_lang r s.
Proof.
  rewrite in_lang_cat_iff. setoid_rewrite in_lang_eps_iff.
  split; [intros (? & ? & -> & ? & ->); by rewrite app_nil_r | exists s, []; by rewrite app_nil_r].
Qed.

Lemma cat_iff r1 r2 s : in_lang (cat r1 r2) s <-> in_lang (RCat r1 r2) s.
Proof.
  destruct r1, r2; simpl;
    first [reflexivity | symmetry; first [apply cat_empty_l | apply cat_empty_r
                                          | apply cat_eps_l | apply cat_eps_r]].
Qed.

Lemma alt_iff r1 r2 s : in_lang (alt r1 r2) s <-> in_lang (RAlt r1 r2) s.
Proof.
  rewrite in_lang_alt_iff.
  destruct r1, r2; simpl; try rewrite in_lang_alt_iff;
    split; intros H; try destruct H as [H|H];
    try (by apply in_lang_empty in H); auto.
Qed.

#[export] Hint Rewrite cat_iff alt_iff in_lang_cat_iff in_lang_alt_iff : portfolio_rw.

Lemma nullable_iff r : nullable r = true <-> in_lang r [].
Proof.
  induction r as [| |c|n its|r1 IH1 r2 IH2|r1 IH1 r2 IH2|r IH]; simpl.
  - split; [done|]. intros H; by inversion H.
  - split; auto with portfolio.
  - split; [done|]. intros H; by inversion H.
  - split; [done|]. intros H; by inversion H.
  - rewrite andb_true_iff, IH1, IH2, in_lang_cat_iff. split.
    + intros [? ?]. by exists [], [].
    + intros (s1 & s2 & Hs & ? & ?). symmetry in Hs.
      apply app_eq_nil in Hs as [-> ->]. done.
  - by rewrite orb_true_iff, IH1, IH2, in_lang_alt_iff.
  - split; auto with portfolio.
Qed.

(** The derivative by [c] is the language of the words that follow [c]. *)
Lemma deriv_iff r c s : in_lang (deriv c r) s <-> in_lang r (c :: s).
Proof.
  revert s.
  induction r as [| |d|n its|r1 IH1 r2 IH2|r1 IH1 r2 IH2|r IH]; intros s; simpl.
  - split; intros H; inversion H.
  - split; intros H; inversion H.
  - destruct (Z.eqb_spec c d) as [->|Hne]; rewrite ?in_lang_eps_iff.
    + split; [intros ->; constructor | intros H; by inversion H].
    + split; [intros H; by inversion H | intros H; inversion H; subst; congruence].
  - destruct (class_matches n its c) eqn:Ec; rewrite ?in_lang_eps_iff.
    + split; [intros ->; by constructor | intros H; by inversion H].
    + split; [intros H; by inversion H | intros H; inversion H; subst; congruence].
  - rewrite in_lang_cat_iff. destruct (nullable r1) eqn:En.
    + rewrite alt_iff, in_lang_alt_iff, cat_iff, in_lang_cat_iff, IH2.
      setoid_rewrite IH1. apply nullable_iff in En. split.
      * intros [(s1 & s2 & -> & ? & ?)|?]; [by exists (c :: s1), s2 | by exists [], (c :: s)].
      * intros ([|d s1] & s2 & Hs & ? & ?); simpl in Hs; [subst; by right|].
        injection Hs as <- ->. left. eauto.
    + rewrite cat_iff, in_lang_cat_iff. setoid_rewrite IH1. split.
      * intros (s1 & s2 & -> & ? & ?). by exists (c :: s1), s2.
      * intros ([|d s1] & s2 & Hs & H1 & ?); simpl in Hs.
        -- apply nullable_iff in H1. congruence.
        -- injection Hs as <- ->. eauto.
  - by rewrite alt_iff, !in_lang_alt_iff, IH1, IH2.
  - rewrite cat_iff, in_lang_cat_iff. setoid_rewrite IH. split.
    + intros (s1 & s2 & -> & ? & ?). change (c :: s1 ++ s2) with ((c :: s1) ++ s2).
      by constructor.
    + intros H. apply in_lang_star_cons in H. naive_solver.
Qed.

(** The executable matcher decides the language. *)
Lemma matches_iff r s : matches r s = true <-> in_lang r s.
Proof.
  revert r. induction s as [|c s IH]; intros r; simpl.
  - apply nullable_iff.
  - by rewrite IH, deriv_iff.
Qed.

Lemma matches_prefix_iff r s :
  matches_prefix r s = true <-> exists v w, s = v ++ w /\ in_lang r v.
Proof.
  revert r. induction s as [|c s IH]; intros r; simpl; rewrite orb_true_iff, nullable_iff.
  - split; [intros [H|H]; [by exists [], [] | done] |].
    intros (v & w & Hs & H). symmetry in Hs. apply app_eq_nil in Hs as [-> ->]. by left.
  - rewrite IH. setoid_rewrite deriv_iff. split.
    + intros [H|(v & w & -> & H)]; [by exists [], (c :: s) | by exists (c :: v), w].
    + intros ([|d v] & w & Hs & H); [by left|]. simpl in Hs. injection Hs as -> ->.
      right. eauto.
Qed.

End Deriv.

(** ** Words of a class under [*] and [+] *)
Module ClassWords.
Import Syntax.

Lemma star_class_iff n its s :
  in_lang (RStar (RClass n its)) s <-> forallb (class_matches n its) s = true.
Proof.
  split.
  - intros H. remember (RStar (RClass n its)) as r eqn:Er. revert Er.
    induction H; intros Er; try discriminate; [done|].
    injection Er as ->. inversion H; subst. simpl.
    match goal with Hc : class_matches _ _ _ = true |- _ => rewrite Hc end.
    by apply IHin_lang2.
  - induction s as [|c s IH]; simpl; [constructor|].
    intros [Hc Hs]%andb_prop. apply (L_star_cons _ [c] s); auto with portfolio.
Qed.

(** [[...]+]: a non-empty word of the class. *)
Lemma plus_class_iff n its s :
  in_lang (RPlus (RClass n its)) s <-> s <> [] /\ forallb (class_matches n its) s = true.
Proof.
  unfold RPlus. rewrite in_lang_cat_iff. setoid_rewrite star_class_iff. split.
  - intros (s1 & s2 & -> & H1 & H2). inversion H1 as [| |? ? c Hc| | | | |]; subst.
    simpl. by rewrite Hc, H2.
  - intros [Hne Hall]. destruct s as [|c s]; [done|]. simpl in Hall.
    apply andb_prop in Hall as [Hc Hs]. exists [c], s. auto with portfolio.
Qed.

End ClassWords.

(** ** [RegExp.prototype.test] *)
Module Test.
Import Syntax Deriv.

(** A regular-expression literal: its [^] and [$] anchors and its body. *)
Record regexp := { anchor_start : bool; anchor_end : bool; body : regex }.

Fixpoint suffixes (s : jstr) : list jstr :=
  s :: match s with [] => [] | _ :: r => suffixes r end.

(** A match starting at the front of [t]. *)
Definition match_at (re : regexp) (t : jstr) : bool :=
  if anchor_end re then matches (body re) t else matches_prefix (body re) t.

(** [re.test(s)]: a match at the start, or at any position. *)
Definition test (re : regexp) (s : jstr) : bool :=
  if anchor_start re then match_at re s else existsb (match_at re) (suffixes s).

(** What [test] answers: some substring of [s], at the front if the
    pattern is [^]-anchored and at the end if it is [$]-anchored, is a
    word of the body. *)
Definition test_spec (re : regexp) (s : jstr) : Prop :=
  exists u v w, s = u ++ v ++ w /\ (anchor_start re = true -> u = []) /\
                (anchor_end re = true -> w = []) /\ in_lang (body re) v.

Lemma suffixes_iff s t : In t (suffixes s) <-> exists u, s = u ++ t.
Proof.
  revert t. induction s as [|c s IH]; intros t; simpl.
  - split; [intros [<-|[]]; by exists [] |].
    intros ([|? ?] & Hu); [by left | done].
  - rewrite IH. split.
    + intros [<-|(u & ->)]; [by exists [] | by exists (c :: u)].
    + intros ([|d u] & Hu); [by left|]. injection Hu as -> ->. right. eauto.
Qed.

Lemma match_at_iff re t :
  match_at re t = true <->
  exists v w, t = v ++ w /\ (anchor_end re = true -> w = []) /\ in_lang (body re) v.
Proof.
  unfold match_at. destruct (anchor_end re).
  - rewrite matches_iff. split.
    + intros H. exists t, []. rewrite app_nil_r. auto.
    + intros (v & w & -> & Hw & H). rewrite Hw; [|done]. by rewrite app_nil_r.
  - rewrite matches_prefix_iff.
    split; [intros (v & w & Ht & H) | intros (v & w & Ht & _ & H)]; by exists v, w.
Qed.

(** [test] decides [test_spec]. *)
Theorem test_iff re s : test re s = true <-> test_spec re s.
Proof.
  unfold test, test_spec. destruct (anchor_start re).
  - rewrite match_at_iff. split.
    + intros (v & w & -> & Hw & H). by exists [], v, w.
    + intros (u & v & w & -> & Hu & Hw & H). rewrite Hu; [|done]. by exists v, w.
  - rewrite existsb_exists. setoid_rewrite suffixes_iff. setoid_rewrite match_at_iff.
    split.
    + intros (t & (u & ->) & (v & w & -> & Hw & H)). by exists u, v, w.
    + intros (u & v & w & -> & _ & Hw & H). exists (v ++ w). split; [by exists u|].
      by exists v, w.
Qed.

End Test.

(** ** The e-mail pattern [/^[^\s@]+@[^\s@]+\.[^\s@]+$/] *)
Module EmailPattern.
Import Syntax Deriv Test ClassWords.

(** [[^\s@]] *)
Definition not_space_or_at : regex := RClass true [CSpace; CChar 64].

(** The literal of src/server/routes/email.js line 62, src/api/contact.js
    line 42 and src/src/utils/helpers.js line 40: [@] is 64, [\.] is 46. *)
Definition emailRegex : regexp :=
  {| anchor_start := true; anchor_end := true;
     body := RCat (RPlus not_space_or_at)
               (RCat (RChar 64)
                 (RCat (RPlus not_space_or_at)
                   (RCat (RChar 46) (RPlus not_space_or_at)))) |}.

(** A code unit allowed in the three parts of an address. *)
Definition addr_char (c : Z) : bool := negb (is_js_space c) && negb (c =? 64).

Definition addr_part (s : jstr) : Prop := s <> [] /\ forallb addr_char s = true.

Lemma plus_addr_iff s : in_lang (RPlus not_space_or_at) s <-> addr_part s.
Proof.
  unfold not_space_or_at, addr_part. rewrite plus_class_iff.
  erewrite forallb_pointwise; [reflexivity|].
  intros c. unfold class_matches, addr_char. simpl.
  by destruct (is_js_space c), (c =? 64).
Qed.

#[local] Opaque RPlus.

Lemma body_iff v :
  in_lang (body emailRegex) v <->
  exists l d t, v = l ++ 64 :: d ++ 46 :: t /\ addr_part l /\ addr_part d /\ addr_part t.
Proof.
  cbn [body emailRegex]. repeat setoid_rewrite in_lang_cat_iff.
  setoid_rewrite plus_addr_iff. setoid_rewrite in_lang_char_iff. split.
  - intros (l & ? & -> & Hl & ? & ? & -> & -> & d & ? & -> & Hd & ? & t & -> & -> & Ht).
    by exists l, d, t.
  - intros (l & d & t & -> & Hl & Hd & Ht).
    exists l, (64 :: d ++ 46 :: t). do 2 (split; [done|]).
    exists [64], (d ++ 46 :: t). do 2 (split; [done|]).
    exists d, (46 :: t). do 2 (split; [done|]).
    by exists [46], t.
Qed.

(** The addresses the pattern accepts, by their parts. *)
Lemma emailRegex_test_iff s :
  test emailRegex s = true <->
  exists l d t, s = l ++ 64 :: d ++ 46 :: t /\ addr_part l /\ addr_part d /\ addr_part t.
Proof.
  rewrite test_iff. unfold test_spec. setoid_rewrite body_iff. simpl. split.
  - intros (u & v & w & -> & Hu & Hw & H). rewrite Hu, Hw by done.
    by rewrite app_nil_r.
  - intros H. exists [], s, []. rewrite app_nil_r. auto.
Qed.

Lemma addr_chars_Forall s :
  forallb addr_char s = true <-> Forall (fun c => is_js_space c = false /\ c <> 64) s.
Proof.
  rewrite forallb_forall, List.Forall_forall. unfold addr_char.
  split; intros H c Hc; specialize (H c Hc).
  - apply andb_prop in H as [H1 H2]. apply negb_true_iff in H1, H2. split; [done|].
    by apply Z.eqb_neq.
  - destruct H as [-> H]. by rewrite (proj2 (Z.eqb_neq c 64) H).
Qed.

(** C5: The addresses the pattern accepts: a local part, [@], a domain part,
    [.], a last part, each non-empty, and no white space and no other [@]
    anywhere. *)
Theorem emailRegex_accepts s :
  test emailRegex s = true <->
  exists l d t, s = l ++ [64] ++ d ++ [46] ++ t /\ l <> [] /\ d <> [] /\ t <> [] /\
    Forall (fun c => is_js_space c = false /\ c <> 64) (l ++ d ++ t).
Proof.
  rewrite emailRegex_test_iff. unfold addr_part. setoid_rewrite addr_chars_Forall.
  setoid_rewrite Forall_app. setoid_rewrite Forall_app. simpl. split.
  - intros (l & d & t & -> & [? ?] & [? ?] & [? ?]). exists l, d, t. tauto.
  - intros (l & d & t & -> & ? & ? & ? & ? & ? & ?). exists l, d, t. tauto.
Qed.

Lemma addr_part_count_at s : forallb addr_char s = true -> count_occ Z.eq_dec s 64 = 0%nat.
Proof.
  induction s as [|c s IH]; simpl; [done|].
  intros [Hc Hs]%andb_prop. unfold addr_char in Hc. bool_props.
  destruct (Z.eq_dec c 64) as [->|]; [done | auto].
Qed.

Lemma addr_part_no_space s : forallb addr_char s = true -> forallb (fun c => negb (is_js_space c)) s = true.
Proof.
  intros H. apply forallb_forall. intros c Hc. eapply forallb_forall in H; [|done].
  unfold addr_char in H. by apply andb_prop in H as [H _].
Qed.

(** An address the pattern accepts has exactly one [@] and no white
    space. *)
Corollary emailRegex_one_at s :
  test emailRegex s = true ->
  count_occ Z.eq_dec s 64 = 1%nat /\ forallb (fun c => negb (is_js_space c)) s = true.
Proof.
  intros (l & d & t & -> & [_ Hl] & [_ Hd] & [_ Ht])%emailRegex_test_iff.
  rewrite count_occ_app, count_occ_cons_eq, count_occ_app, count_occ_cons_neq by done.
  rewrite !addr_part_count_at by done. split; [lia|].
  rewrite !forallb_app. simpl. rewrite forallb_app. simpl.
  by rewrite !addr_part_no_space by done.
Qed.

(** The last part may end with a dot: the pattern only needs one [.]
    with a character on each side somewhere after the [@]. *)
Example emailRegex_trailing_dot : test emailRegex (u16 "a@b.c.") = true.
Proof. vm_compute. reflexivity. Qed.

(** A domain that starts with its dot is refused. *)
Example emailRegex_leading_dot : test emailRegex (u16 "a@.com") = false.
Proof. vm_compute. reflexivity. Qed.

Example emailRegex_not_an_email : test emailRegex (u16 "not-an-email") = false.
Proof. vm_compute. reflexivity. Qed.

Lemma emailRegex_one_at_witness :
  test emailRegex (u16 "ada@example.com") = true /\
  count_occ Z.eq_dec (u16 "ada@example.com") 64 = 1%nat /\
  forallb (fun c => negb (is_js_space c)) (u16 "ada@example.com") = true.
Proof.
  assert (H : test emailRegex (u16 "ada@example.com") = true) by (vm_compute; reflexivity).
  split; [exact H|]. exact (emailRegex_one_at _ H).
Defined.

End EmailPattern.
