(* ===== verification/Validation.v ===== *)
(** * Validation of a contact submission

    The same three rules guard both deployments of the gateway, in this
    order, the first failure answering 400 with its message:
    - [!name || !email || !subject || !message]: "All fields are required";
    - [!emailRegex.test(email)]: "Invalid email format";
    - [message.trim().length < 10]: "Message must be at least 10 characters
      long".
    [Module Server] is the inline code of [sendContactEmail]
    (src/server/routes/email.js, lines 51-76), [validatePayload] the
    function of src/api/contact.js (lines 37-50).  The rules run on whatever
    the body parser produced, so a field can be a number, a boolean, an
    array or an object: the verdict [Throws] records the [TypeError] of
    [message.trim()], and that of [emailRegex.test(email)] when
    [String(email)] throws (an object with an own [toString] member, see
    [string_throws]), which the handlers' [catch] turns into a 500.

    [Module Client] is the browser's [validateForm] (Contact.jsx, lines
    34-59) with [validateEmail] (src/src/utils/helpers.js, lines 38-41);
    its theorem is that a form it accepts is accepted by the server. *)

From S2P Require Import Prelude JsValue Regex.
Import Regex.Test Regex.EmailPattern.

Inductive verdict :=
| Valid
| Invalid (msg : jstr)
| Throws (e : js_error).

Definition msg_required : jstr := u16 "All fields are required".
Definition msg_bad_email : jstr := u16 "Invalid email format".
Definition msg_short : jstr := u16 "Message must be at least 10 characters long".

Definition k_name : jstr := u16 "name".
Definition k_email : jstr := u16 "email".
Definition k_subject : jstr := u16 "subject".
Definition k_message : jstr := u16 "message".

(** [message.trim()] on a value that is not a string. *)
Definition trim_error (p : jprop) : js_error :=
  match p with
  | None => {| err_name := u16 "TypeError";
               err_message := u16 "Cannot read properties of undefined (reading 'trim')" |}
  | Some JNull => {| err_name := u16 "TypeError";
                     err_message := u16 "Cannot read properties of null (reading 'trim')" |}
  | Some _ => trim_type_error
  end.

(** The third rule: [if (message.trim().length < 10)]. *)
Definition message_rule (message : jprop) : verdict :=
  match message with
  | Some (JStr m) => if (length (js_trim m) <? 10)%nat then Invalid msg_short else Valid
  | _ => Throws (trim_error message)
  end.

Module Server.

(** Lines 51-76 of src/server/routes/email.js: destructure [req.body],
    then the three rules. *)
Definition checks (body : jvalue) : verdict :=
  let name := get_prop body k_name in
  let email := get_prop body k_email in
  let subject := get_prop body k_subject in
  let message := get_prop body k_message in
  if negb (truthy_prop name) || negb (truthy_prop email)
     || negb (truthy_prop subject) || negb (truthy_prop message)
  then Invalid msg_required
  else if prop_throws email then Throws to_primitive_error
  else if negb (test emailRegex (prop_to_string email)) then Invalid msg_bad_email
  else message_rule message.

End Server.

(** [validatePayload(body)] of src/api/contact.js: [body || {}] guards a
    missing body; [null] stands for "no error". *)
Definition validatePayload (body : jprop) : verdict :=
  let obj := match body with
             | Some v => if truthy v then v else JObj []
             | None => JObj []
             end in
  let name := get_prop obj k_name in
  let email := get_prop obj k_email in
  let subject := get_prop obj k_subject in
  let message := get_prop obj k_message in
  if negb (truthy_prop name) || negb (truthy_prop email)
     || negb (truthy_prop subject) || negb (truthy_prop message)
  then Invalid msg_required
  else if prop_throws email then Throws to_primitive_error
  else if negb (test emailRegex (prop_to_string email)) then Invalid msg_bad_email
  else message_rule message.

(** ** Lemmas *)

(** A falsy value never passes the e-mail pattern: its string is one of
    ["undefined"], ["null"], ["false"], ["0"], [""], none with an [@]. *)
Lemma falsy_fails_email (p : jprop) :
  truthy_prop p = false -> test emailRegex (prop_to_string p) = false.
Proof.
  destruct p as [[|[]|n|[|c s]|xs|ms]|]; simpl; try discriminate; try reflexivity.
  intros Hn. apply negb_false_iff, Z.eqb_eq in Hn as ->. reflexivity.
Qed.

(** [String(email)] throws only where it would print ["[object Object]"],
    which has a space: such an [email] never passes the pattern. *)
Lemma throws_fails_email (p : jprop) :
  prop_throws p = true -> test emailRegex (prop_to_string p) = false.
Proof.
  intros Ht%prop_throws_space. destruct (test _ _) eqn:E; [|done].
  apply emailRegex_one_at in E as [_ E]. eapply forallb_forall in E; [|exact Ht].
  discriminate.
Qed.

Lemma email_passes_converts (p : jprop) :
  test emailRegex (prop_to_string p) = true -> prop_throws p = false.
Proof.
  intros H. destruct (prop_throws p) eqn:E; [|done]. by rewrite throws_fails_email in H.
Qed.

Lemma email_passes_truthy (p : jprop) :
  test emailRegex (prop_to_string p) = true -> truthy_prop p = true.
Proof.
  intros H. destruct (truthy_prop p) eqn:E; [done|].
  by rewrite falsy_fails_email in H.
Qed.

(** A falsy body is replaced by [{}], whose fields all read [undefined]:
    the same as reading them from the falsy value itself. *)
Lemma get_prop_falsy v k : truthy v = false -> get_prop v k = None.
Proof. by destruct v. Qed.

Lemma message_rule_valid (m : jprop) :
  message_rule m = Valid <-> exists s, m = Some (JStr s) /\ (10 <= length (js_trim s))%nat.
Proof.
  unfold message_rule. destruct m as [[| | |s| |]|]; try (split; [done | by intros (? & [=] & _)]).
  destruct (length (js_trim s) <? 10)%nat eqn:E.
  - apply Nat.ltb_lt in E. split; [done|]. intros (s' & [= <-] & ?). lia.
  - apply Nat.ltb_ge in E. split; [eauto | done].
Qed.

Lemma trimmed_long_nonempty (s : jstr) : (10 <= length (js_trim s))%nat -> s <> [].
Proof. intros H ->. cbv in H. lia. Qed.

#[export] Hint Resolve email_passes_truthy email_passes_converts get_prop_falsy : portfolio.

(** The rule chain both deployments run, on the four fields as read. *)
Definition rules (name email subject message : jprop) : verdict :=
  if negb (truthy_prop name) || negb (truthy_prop email)
     || negb (truthy_prop subject) || negb (truthy_prop message)
  then Invalid msg_required
  else if prop_throws email then Throws to_primitive_error
  else if negb (test emailRegex (prop_to_string email)) then Invalid msg_bad_email
  else message_rule message.

Lemma checks_rules b :
  Server.checks b =
  rules (get_prop b k_name) (get_prop b k_email) (get_prop b k_subject) (get_prop b k_message).
Proof. reflexivity. Qed.

Lemma validatePayload_rules v :
  validatePayload (Some v) =
  rules (get_prop v k_name) (get_prop v k_email) (get_prop v k_subject) (get_prop v k_message).
Proof.
  unfold validatePayload. destruct (truthy v) eqn:E; [reflexivity|].
  rewrite !(get_prop_falsy v) by done. reflexivity.
Qed.

Lemma rules_valid_iff n e s m :
  rules n e s m = Valid <->
  truthy_prop n = true /\ truthy_prop s = true /\
  test emailRegex (prop_to_string e) = true /\ message_rule m = Valid.
Proof.
  unfold rules. split.
  - destruct (truthy_prop n), (truthy_prop e), (truthy_prop s), (truthy_prop m);
      simpl; try discriminate.
    destruct (prop_throws e) eqn:Et; [discriminate|].
    destruct (test emailRegex (prop_to_string e)); simpl; [done | discriminate].
  - intros (Hn & Hs & He & Hm).
    assert (truthy_prop m = true) as Hm'.
    { apply message_rule_valid in Hm as (ms & -> & Hlen).
      by apply truthy_prop_some_str, trimmed_long_nonempty. }
    by rewrite Hn, Hs, (email_passes_truthy _ He), Hm', (email_passes_converts _ He), He.
Qed.

(** The first rule that fails decides the message. *)
Lemma rules_required n e s m :
  (truthy_prop n && truthy_prop e && truthy_prop s && truthy_prop m)%bool = false ->
  rules n e s m = Invalid msg_required.
Proof.
  unfold rules. intros H.
  destruct (truthy_prop n), (truthy_prop e), (truthy_prop s), (truthy_prop m);
    simpl in *; congruence.
Qed.

Lemma rules_email_throws n e s m :
  (truthy_prop n && truthy_prop e && truthy_prop s && truthy_prop m)%bool = true ->
  prop_throws e = true ->
  rules n e s m = Throws to_primitive_error.
Proof.
  unfold rules. intros H Ht. rewrite Ht.
  destruct (truthy_prop n), (truthy_prop e), (truthy_prop s), (truthy_prop m);
    simpl in *; congruence.
Qed.

Lemma rules_bad_email n e s m :
  (truthy_prop n && truthy_prop e && truthy_prop s && truthy_prop m)%bool = true ->
  prop_throws e = false -> test emailRegex (prop_to_string e) = false ->
  rules n e s m = Invalid msg_bad_email.
Proof.
  unfold rules. intros H Ht He. rewrite Ht, He.
  destruct (truthy_prop n), (truthy_prop e), (truthy_prop s), (truthy_prop m);
    simpl in *; congruence.
Qed.

Lemma rules_message n e s m :
  (truthy_prop n && truthy_prop e && truthy_prop s && truthy_prop m)%bool = true ->
  test emailRegex (prop_to_string e) = true ->
  rules n e s m = message_rule m.
Proof.
  unfold rules. intros H He. rewrite (email_passes_converts _ He), He.
  destruct (truthy_prop n), (truthy_prop e), (truthy_prop s), (truthy_prop m);
    simpl in *; congruence.
Qed.

(** ** The browser's validation *)
Module Client.

Inductive form_field := FName | FEmail | FSubject | FMessage.

#[export] Instance form_field_eq_dec : EqDecision form_field.
Proof. solve_decision. Defined.

(** [formData]: the four controlled inputs, always strings. *)
Record form_data := { f_name : jstr; f_email : jstr; f_subject : jstr; f_message : jstr }.

(** [!s.trim()] *)
Definition blank (s : jstr) : bool := match js_trim s with [] => true | _ => false end.

(** [JSON.stringify(formData)] as the server's [express.json()] parses it
    back: an object with the four string members in this order. *)
Definition form_body (f : form_data) : jvalue :=
  JObj [(k_name, JStr (f_name f)); (k_email, JStr (f_email f));
        (k_subject, JStr (f_subject f)); (k_message, JStr (f_message f))].

(** What a case table does, for every character: it maps it to at
    least one character of the same kind for the e-mail pattern (white
    space, [@], other); [@] and [.] map to themselves and nothing else
    maps to them.  Unicode's lower-case mapping has these properties. *)
Record case_table_ok (lower_unit : Z -> list Z) : Prop := {
  lower_nonempty : forall c, lower_unit c <> [];
  lower_kind : forall c u, In u (lower_unit c) -> addr_char u = addr_char c;
  lower_at : lower_unit 64 = [64];
  lower_at_only : forall c, In 64 (lower_unit c) -> c = 64;
  lower_dot : lower_unit 46 = [46];
  lower_dot_only : forall c, In 46 (lower_unit c) -> c = 46
}.

Section WithCaseTable.

(** [String.prototype.toLowerCase] replaces each character by its
    lower-case mapping from Unicode's case tables; [lower_unit] is that
    table, and the lemmas below only use the properties of it stated as
    hypotheses. *)
Context (lower_unit : Z -> list Z).

Definition toLowerCase (s : jstr) : jstr := flat_map lower_unit s.

(** [validateEmail(email)]: [re.test(String(email).toLowerCase())]. *)
Definition validateEmail (email : jvalue) : bool :=
  test emailRegex (toLowerCase (to_js_string email)).

(** The checks of [validateForm]: the [newErrors] object, its keys in
    insertion order. *)
Definition form_errors (f : form_data) : list (form_field * jstr) :=
  (if blank (f_name f) then [(FName, u16 "Name is required")] else []) ++
  (if blank (f_email f) then [(FEmail, u16 "Email is required")]
   else if negb (validateEmail (JStr (f_email f)))
        then [(FEmail, u16 "Please enter a valid email")] else []) ++
  (if blank (f_subject f) then [(FSubject, u16 "Subject is required")] else []) ++
  (if blank (f_message f) then [(FMessage, u16 "Message is required")]
   else if (length (js_trim (f_message f)) <? 10)%nat
        then [(FMessage, u16 "Message must be at least 10 characters")] else []).

Context (Hlower : case_table_ok lower_unit).

Lemma addr_part_lower a : addr_part (toLowerCase a) <-> addr_part a.
Proof.
  unfold addr_part, toLowerCase. rewrite !forallb_forall. split.
  - intros [Hne Hall]. split; [by intros ->|]. intros c Hc.
    destruct (lower_unit c) as [|u us] eqn:Ec; [by destruct (lower_nonempty _ Hlower c)|].
    rewrite <- (lower_kind _ Hlower c u) by (rewrite Ec; by left).
    apply Hall, in_flat_map. exists c. rewrite Ec. split; [done | by left].
  - intros [Hne Hall]. split.
    + destruct a as [|c a]; [done|]. simpl.
      destruct (lower_unit c) eqn:Ec; [by destruct (lower_nonempty _ Hlower c) | done].
    + intros u (c & Hc & Hu)%in_flat_map. rewrite (lower_kind _ Hlower c u Hu). by apply Hall.
Qed.

(** Lower-casing neither adds nor removes an accepted address. *)
Lemma test_lower_iff e : test emailRegex (toLowerCase e) = test emailRegex e.
Proof.
  apply Bool.eq_iff_eq_true. rewrite !emailRegex_test_iff. split.
  - intros (l' & d' & t' & He & Hl & Hd & Ht).
    destruct (flat_map_split_at lower_unit 64 e l' (d' ++ 46 :: t') (lower_at_only _ Hlower) (lower_at _ Hlower) He)
      as (a & b & -> & Ha & Hb).
    destruct (flat_map_split_at lower_unit 46 b d' t' (lower_dot_only _ Hlower) (lower_dot _ Hlower) Hb)
      as (d & t & -> & Hd' & Ht').
    exists a, d, t. split; [done|].
    rewrite <- (addr_part_lower a), <- (addr_part_lower d), <- (addr_part_lower t).
    unfold toLowerCase. by rewrite Ha, Hd', Ht'.
  - intros (l & d & t & -> & Hl & Hd & Ht). exists (toLowerCase l), (toLowerCase d), (toLowerCase t).
    rewrite (addr_part_lower l), (addr_part_lower d), (addr_part_lower t).
    split; [|done]. unfold toLowerCase.
    rewrite !flat_map_app. simpl. rewrite (lower_at _ Hlower). simpl. rewrite flat_map_app. simpl.
    by rewrite (lower_dot _ Hlower).
Qed.

Lemma blank_false_nonempty (x : jstr) : blank x = false -> x <> [].
Proof. by intros H ->. Qed.

Lemma form_body_props f :
  get_prop (form_body f) k_name = Some (JStr (f_name f)) /\
  get_prop (form_body f) k_email = Some (JStr (f_email f)) /\
  get_prop (form_body f) k_subject = Some (JStr (f_subject f)) /\
  get_prop (form_body f) k_message = Some (JStr (f_message f)).
Proof. repeat split. Qed.

(** A form the browser accepts passes the server's validation: the
    client's rules are at least as strict as the server's. *)
Lemma form_accepted_valid f :
  form_errors f = [] -> validatePayload (Some (form_body f)) = Valid.
Proof.
  unfold form_errors.
  destruct (blank (f_name f)) eqn:Hn; [discriminate|]. simpl.
  destruct (blank (f_email f)) eqn:He; [discriminate|].
  destruct (validateEmail (JStr (f_email f))) eqn:Hv; [|discriminate]. simpl.
  destruct (blank (f_subject f)) eqn:Hs; [discriminate|]. simpl.
  destruct (blank (f_message f)) eqn:Hm; [discriminate|].
  destruct (length (js_trim (f_message f)) <? 10)%nat eqn:Hl; [discriminate|].
  intros _. apply Nat.ltb_ge in Hl.
  rewrite validatePayload_rules. destruct (form_body_props f) as (-> & -> & -> & ->).
  apply rules_valid_iff. repeat split.
  - by apply truthy_prop_some_str, blank_false_nonempty.
  - by apply truthy_prop_some_str, blank_false_nonempty.
  - unfold validateEmail in *. simpl in *. by rewrite <- test_lower_iff.
  - apply message_rule_valid. eauto.
Qed.

End WithCaseTable.

(** The case table restricted to Basic Latin: [A]-[Z] to [a]-[z]. *)
Definition ascii_lower (c : Z) : list Z :=
  [if (65 <=? c) && (c <=? 90) then c + 32 else c].

Lemma ascii_lower_ok : case_table_ok ascii_lower.
Proof.
  unfold ascii_lower.
  assert (forall c, (65 <=? c) && (c <=? 90) = true -> 65 <= c <= 90) as Hr.
  { intros c [E1 E2]%andb_prop. apply Z.leb_le in E1, E2. lia. }
  split; try done.
  - intros c u [<-|[]]. destruct ((65 <=? c) && (c <=? 90)) eqn:E; [|done].
    apply Hr in E. unfold addr_char. rewrite !is_js_space_letter by lia.
    destruct (Z.eqb_spec c 64), (Z.eqb_spec (c + 32) 64); simpl; done || lia.
  - intros c [Hc|[]]. destruct ((65 <=? c) && (c <=? 90)) eqn:E; [|done].
    apply Hr in E. lia.
  - intros c [Hc|[]]. destruct ((65 <=? c) && (c <=? 90)) eqn:E; [|done].
    apply Hr in E. lia.
Qed.

End Client.

(** ** Properties of the validators *)

(** C4: A submission passes [validatePayload] exactly when [name] and
    [subject] are truthy, [String(email)] has the shape [l@d.t], and
    [message] is a string whose trimmed length is at least 10. *)
Theorem validatePayload_valid_iff (v : jvalue) :
  validatePayload (Some v) = Valid <->
  truthy_prop (get_prop v k_name) = true /\ truthy_prop (get_prop v k_subject) = true /\
  test emailRegex (prop_to_string (get_prop v k_email)) = true /\
  exists m, get_prop v k_message = Some (JStr m) /\ (10 <= length (js_trim m))%nat.
Proof. by rewrite validatePayload_rules, rules_valid_iff, message_rule_valid. Qed.

(** C6: The two deployments validate alike: the inline checks of
    [sendContactEmail] give the verdict of [validatePayload] on every body
    the Express parsers can produce. *)
Theorem server_validation_agrees (b : jvalue) : Server.checks b = validatePayload (Some b).
Proof. by rewrite checks_rules, validatePayload_rules. Qed.

(** C16: A truthy [message] that is not a string passes the first two rules and
    makes [message.trim()] throw: the request is not answered 400. *)
Theorem validatePayload_message_not_string (v m : jvalue) :
  truthy_prop (get_prop v k_name) = true -> truthy_prop (get_prop v k_subject) = true ->
  test emailRegex (prop_to_string (get_prop v k_email)) = true ->
  get_prop v k_message = Some m -> truthy m = true -> (forall s, m <> JStr s) ->
  validatePayload (Some v) = Throws trim_type_error.
Proof.
  intros Hn Hs He Hm Ht Hstr. rewrite validatePayload_rules, Hm, rules_message.
  - destruct m as [| | |s| |]; [discriminate | reflexivity | reflexivity
                                 | by destruct (Hstr s) | reflexivity | reflexivity].
  - rewrite Hn, Hs, (email_passes_truthy _ He). exact Ht.
  - exact He.
Qed.

(** ** Concrete submissions *)

(** The spec's example submission, as [express.json()] parses it. *)
Definition ada_body : jvalue :=
  JObj [(k_name, JStr (u16 "Ada")); (k_email, JStr (u16 "ada@example.com"));
        (k_subject, JStr (u16 "Hi")); (k_message, JStr (u16 "Loved your site!"))].

Definition ada_form : Client.form_data :=
  {| Client.f_name := u16 "Ada"; Client.f_email := u16 "ada@example.com";
     Client.f_subject := u16 "Hi"; Client.f_message := u16 "Loved your site!" |}.

(** The same with a number as [message]. *)
Definition numeric_message_body : jvalue :=
  JObj [(k_name, JStr (u16 "Ada")); (k_email, JStr (u16 "ada@example.com"));
        (k_subject, JStr (u16 "Hi")); (k_message, JNum 1234567890)].

Lemma validatePayload_message_not_string_witness :
  validatePayload (Some numeric_message_body) = Throws trim_type_error.
Proof.
  apply (validatePayload_message_not_string numeric_message_body (JNum 1234567890));
    [vm_compute; reflexivity .. | intros s; discriminate].
Defined.


(** An [email] that is an object with its own [toString] member:
    [emailRegex.test(email)] throws, and the request is answered by the
    [catch], not with 400. *)
Example validatePayload_email_object :
  validatePayload (Some (JObj [(k_name, JStr (u16 "Ada"));
                               (k_email, JObj [(u16 "toString", JStr (u16 "ada@example.com"))]);
                               (k_subject, JStr (u16 "Hi")); (k_message, JStr (u16 "Loved your site!"))]))
  = Throws to_primitive_error.
Proof. vm_compute. reflexivity. Qed.

(** Only [name] and [subject] that are white space pass the server's
    rules, which test them for truthiness, not after [trim()]. *)
Example blank_name_accepted :
  validatePayload (Some (JObj [(k_name, JStr (u16 "   ")); (k_email, JStr (u16 "ada@example.com"));
                              (k_subject, JStr (u16 " ")); (k_message, JStr (u16 "Loved your site!"))]))
  = Valid.
Proof. vm_compute. reflexivity. Qed.

(** The browser rejects the same form. *)
Example blank_name_rejected_by_form :
  Client.form_errors Client.ascii_lower
    {| Client.f_name := u16 "   "; Client.f_email := u16 "ada@example.com";
       Client.f_subject := u16 " "; Client.f_message := u16 "Loved your site!" |}
  = [(Client.FName, u16 "Name is required"); (Client.FSubject, u16 "Subject is required")].
Proof. vm_compute. reflexivity. Qed.
