(* ===== verification/Transport.v ===== *)
(** * The mail transport and the effects of a request

    The handlers call two effectful services: nodemailer's
    [transporter.sendMail(options)] (a promise that resolves or rejects)
    and the console.  [MailTransport] is the interface the gateway relies
    on, stated as a type class over the state [W] of the outside world;
    [MailTransportLaws] is what an implementation promises: each call is
    recorded once, in order, in the world's trace of events, and a send
    either resolves or rejects with an error.  The handlers are written in
    the monad [M W] of computations that may throw a JavaScript error, so
    that [try]/[catch] and [await] read as in the source.  [oracle_world] is
    a reference transport whose n-th send fails as an oracle says; it
    satisfies the laws, and the concrete examples of [Gateway] run on it. *)

From S2P Require Import Prelude JsValue.

(** The options object of [transporter.sendMail]: [to] and [replyTo] carry
    the value they are given (an environment string, or the submitted
    [email] as parsed); [text] and [replyTo] are absent from some mails. *)
Record mail_options := {
  mo_from : jstr;
  mo_to : jprop;
  mo_subject : jstr;
  mo_replyTo : jprop;
  mo_text : option jstr;
  mo_html : jstr
}.

(** What the outside world sees of a request, in order. *)
Inductive event :=
| ESend (m : mail_options)
| ELog (line : jstr)
| EError (label : jstr) (e : js_error)
| EErrorText (label : jstr) (msg : jstr).

Definition is_send (ev : event) : option mail_options :=
  match ev with ESend m => Some m | _ => None end.

(** The mails a trace has sent, in order. *)
Definition sends (tr : list event) : list mail_options := omap is_send tr.

Class MailTransport (W : Type) := {
  (** [await transporter.sendMail(m)]: [None] when the promise resolves,
      [Some e] when it rejects with [e]. *)
  send_mail : mail_options -> W -> option js_error * W;
  (** [console.log] and [console.error]. *)
  console : event -> W -> W;
  trace : W -> list event
}.

Class MailTransportLaws (W : Type) `{MailTransport W} := {
  send_mail_trace m w : trace (snd (send_mail m w)) = trace w ++ [ESend m];
  console_trace ev w : trace (console ev w) = trace w ++ [ev]
}.

(** ** The effect monad *)

(** A computation returns a value ([inl]) or throws ([inr]). *)
Definition M (W A : Type) : Type := W -> (A + js_error) * W.

Definition ret {W A} (a : A) : M W A := fun w => (inl a, w).

Definition bind {W A B} (c : M W A) (k : A -> M W B) : M W B :=
  fun w => match c w with
           | (inl a, w') => k a w'
           | (inr e, w') => (inr e, w')
           end.

Definition throw {W A} (e : js_error) : M W A := fun w => (inr e, w).

(** [try { c } catch (error) { h(error) }] *)
Definition try_catch {W A} (c : M W A) (h : js_error -> M W A) : M W A :=
  fun w => match c w with
           | (inl a, w') => (inl a, w')
           | (inr e, w') => h e w'
           end.

Notation "'let*' x ':=' c 'in' k" := (bind c (fun x => k))
  (at level 10, x pattern, c at level 100, k at level 200) : portfolio_scope.

Section Effects.
Context `{MailTransport W}.

Definition sendMail (m : mail_options) : M W unit :=
  fun w => let '(r, w') := send_mail m w in
           match r with None => (inl tt, w') | Some e => (inr e, w') end.

Definition console_log (line : jstr) : M W unit := fun w => (inl tt, console (ELog line) w).

Definition console_error (label : jstr) (e : js_error) : M W unit :=
  fun w => (inl tt, console (EError label e) w).

(** [console.error(label, error.message)] *)
Definition console_error_text (label msg : jstr) : M W unit :=
  fun w => (inl tt, console (EErrorText label msg) w).

End Effects.

(** ** Lemmas for running handlers *)

Section Run.
Context `{MailTransportLaws W}.

Lemma run_bind {A B} (c : M W A) (k : A -> M W B) w :
  bind c k w = match c w with (inl a, w') => k a w' | (inr e, w') => (inr e, w') end.
Proof. reflexivity. Qed.

Lemma run_try_catch {A} (c : M W A) h w :
  try_catch c h w = match c w with (inl a, w') => (inl a, w') | (inr e, w') => h e w' end.
Proof. reflexivity. Qed.

Lemma sendMail_trace m w : trace (snd (sendMail m w)) = trace w ++ [ESend m].
Proof.
  unfold sendMail. rewrite <- send_mail_trace.
  destruct (send_mail m w) as [[e|] w']; reflexivity.
Qed.

Lemma sendMail_result m w :
  fst (sendMail m w) = match fst (send_mail m w) with None => inl tt | Some e => inr e end.
Proof. unfold sendMail. by destruct (send_mail m w) as [[e|] w']. Qed.

Lemma console_log_trace line w :
  trace (snd (console_log line w)) = trace w ++ [ELog line].
Proof. apply console_trace. Qed.

Lemma console_error_trace label e w :
  trace (snd (console_error label e w)) = trace w ++ [EError label e].
Proof. apply console_trace. Qed.

Lemma send_mail_world m w r w' :
  send_mail m w = (r, w') -> trace w' = trace w ++ [ESend m].
Proof. intros E. pose proof (send_mail_trace m w) as Ht. by rewrite E in Ht. Qed.

End Run.

Lemma sends_app tr1 tr2 : sends (tr1 ++ tr2) = sends tr1 ++ sends tr2.
Proof. apply omap_app. Qed.

#[export] Hint Rewrite @sends_app : portfolio_rw.

(** Rewrite the trace of a world reached by sends and console lines. *)
Ltac world_trace :=
  cbn [fst snd];
  repeat match goal with
         | E : send_mail _ _ = (_, ?w') |- context [trace ?w'] =>
             rewrite (send_mail_world _ _ _ _ E)
         | |- context [trace (@console _ _ ?ev ?w)] => rewrite (console_trace ev w)
         end;
  rewrite ?sends_app; simpl; rewrite <- ?app_assoc; simpl; rewrite ?app_nil_r.

(** ** A reference transport

    The n-th call of [sendMail] (counting from 0 over the whole trace)
    fails when [ow_fail n] says so. *)
Record oracle_world := { ow_trace : list event; ow_fail : nat -> option js_error }.

#[export] Instance oracle_transport : MailTransport oracle_world := {
  send_mail m w :=
    (ow_fail w (length (sends (ow_trace w))),
     {| ow_trace := ow_trace w ++ [ESend m]; ow_fail := ow_fail w |});
  console ev w := {| ow_trace := ow_trace w ++ [ev]; ow_fail := ow_fail w |};
  trace := ow_trace
}.

#[export] Instance oracle_transport_laws : MailTransportLaws oracle_world.
Proof. split; reflexivity. Qed.
