(* ===== verification/Templates.v ===== *)
(** * The bodies of the e-mails

    Every mail body of the gateway is a JavaScript template literal: text
    with [${...}] holes for the submitted fields, two environment variables
    and the local time.  A [template] is that literal as a list of text
    segments and holes, copied from the source (with a backquote where the
    source has a double quote, see [tpl] in [Prelude]); [render] fills the
    holes.  [Module ServerMail] holds the literals of
    src/server/routes/email.js, [Module ApiMail] those of
    src/api/contact.js. *)

From S2P Require Import Prelude.

(** The expressions the templates interpolate. *)
Inductive hole :=
| HName          (** [${name}] *)
| HEmail         (** [${email}] *)
| HSubject       (** [${subject}] *)
| HMessage       (** [${message}] *)
| HFromName      (** [${process.env.SMTP_FROM_NAME}] *)
| HFromEmail     (** [${process.env.SMTP_FROM_EMAIL}] *)
| HDate.         (** [${new Date().toLocaleString()}] *)

Inductive segment :=
| Lit (s : jstr)
| Hole (h : hole).

Abbreviation template := (list segment) (only parsing).

(** Evaluation of a template literal, given the string of each hole. *)
Definition render (t : template) (val : hole -> jstr) : jstr :=
  flat_map (fun sg => match sg with Lit s => s | Hole h => val h end) t.

Lemma render_app t1 t2 val : render (t1 ++ t2) val = render t1 val ++ render t2 val.
Proof. apply flat_map_app. Qed.

(** The holes a template interpolates, in order. *)
Definition holes (t : template) : list hole :=
  omap (fun sg => match sg with Hole h => Some h | Lit _ => None end) t.

Module ServerMail.

(** The admin copy's [html], lines 87-124. *)
Definition admin_html : template :=
    [Lit (tpl "
        <div style=`font-family: 'Segoe UI', Tahoma, Geneva, Verdana, sans-serif; line-height: 1.6; color: #333; max-width: 600px; margin: 0 auto;`>
          <div style=`background: linear-gradient(135deg, #667eea 0%, #764ba2 100%); padding: 30px; border-radius: 8px 8px 0 0; text-align: center;`>
            <h2 style=`color: #fff; margin: 0;`>📨 New Contact Form Submission</h2>
          </div>
          
          <div style=`background-color: #f9f9f9; padding: 30px; border-radius: 0 0 8px 8px; border: 1px solid #e0e0e0; border-top: none;`>
            <div style=`margin-bottom: 20px;`>
              <p style=`margin: 0; color: #666;`><strong style=`color: #333;`>From:</strong></p>
              <p style=`margin: 5px 0 0 0; font-size: 16px; color: #333;`>");
     Hole HName;
     Lit (tpl "</p>
            </div>

            <div style=`margin-bottom: 20px;`>
              <p style=`margin: 0; color: #666;`><strong style=`color: #333;`>Email:</strong></p>
              <p style=`margin: 5px 0 0 0;`><a href=`mailto:");
     Hole HEmail;
     Lit (tpl "` style=`color: #667eea; text-decoration: none;`>");
     Hole HEmail;
     Lit (tpl "</a></p>
            </div>

            <div style=`margin-bottom: 20px;`>
              <p style=`margin: 0; color: #666;`><strong style=`color: #333;`>Subject:</strong></p>
              <p style=`margin: 5px 0 0 0; font-size: 16px; color: #333;`>");
     Hole HSubject;
     Lit (tpl "</p>
            </div>

            <hr style=`border: none; border-top: 2px solid #e0e0e0; margin: 25px 0;`>

            <div>
              <p style=`margin: 0 0 10px 0; color: #666;`><strong style=`color: #333;`>Message:</strong></p>
              <div style=`background-color: #fff; padding: 15px; border-left: 4px solid #667eea; border-radius: 4px;`>
                <p style=`margin: 0; white-space: pre-wrap; color: #333; line-height: 1.8;`>");
     Hole HMessage;
     Lit (tpl "</p>
              </div>
            </div>
          </div>

          <div style=`margin-top: 20px; padding: 15px; background-color: #f0f0f0; border-radius: 8px; text-align: center; font-size: 12px; color: #999;`>
            <p style=`margin: 0;`>This email was sent from your portfolio website contact form.</p>
            <p style=`margin: 5px 0 0 0;`>Sent on: ");
     Hole HDate;
     Lit (tpl "</p>
          </div>
        </div>
      ")].

(** The admin copy's [text], lines 125-137. *)
Definition admin_text : template :=
    [Lit (tpl "
New Contact Form Submission

From: ");
     Hole HName;
     Lit (tpl "
Email: ");
     Hole HEmail;
     Lit (tpl "
Subject: ");
     Hole HSubject;
     Lit (tpl "

Message:
");
     Hole HMessage;
     Lit (tpl "

---
This email was sent from your portfolio website contact form.
      ")].

(** The visitor copy's [html], lines 148-177. *)
Definition visitor_html : template :=
    [Lit (tpl "
        <div style=`font-family: 'Segoe UI', Tahoma, Geneva, Verdana, sans-serif; line-height: 1.6; color: #333; max-width: 600px; margin: 0 auto;`>
          <div style=`background: linear-gradient(135deg, #667eea 0%, #764ba2 100%); padding: 30px; border-radius: 8px 8px 0 0; text-align: center;`>
            <h2 style=`color: #fff; margin: 0;`>✅ Thank You, ");
     Hole HName;
     Lit (tpl "!</h2>
          </div>
          
          <div style=`background-color: #f9f9f9; padding: 30px; border-radius: 0 0 8px 8px; border: 1px solid #e0e0e0; border-top: none;`>
            <p style=`color: #333; font-size: 16px;`>Thanks for getting in touch! I've received your message and will get back to you as soon as possible.</p>

            <div style=`background-color: #fff; padding: 20px; border-left: 4px solid #667eea; border-radius: 4px; margin: 20px 0;`>
              <p style=`margin: 0 0 10px 0; color: #999; font-size: 14px;`><strong>Your Message:</strong></p>
              <p style=`margin: 0; white-space: pre-wrap; color: #333; line-height: 1.8;`>");
     Hole HMessage;
     Lit (tpl "</p>
            </div>

            <p style=`color: #666; font-size: 15px; margin: 20px 0;`>
              ⏱️ <strong>I typically respond within 24-48 hours.</strong>
            </p>

            <p style=`color: #333; margin-top: 30px;`>
              Best regards,<br>
              <strong style=`font-size: 18px;`>");
     Hole HFromName;
     Lit (tpl "</strong>
            </p>
          </div>

          <div style=`margin-top: 20px; padding: 15px; background-color: #f0f0f0; border-radius: 8px; text-align: center; font-size: 12px; color: #999;`>
            <p style=`margin: 0;`>This is an automated response. Please don't reply to this email.</p>
            <p style=`margin: 5px 0 0 0;`>If you have any urgent concerns, you can reach out directly.</p>
          </div>
        </div>
      ")].

(** The visitor copy's [text], lines 178-190. *)
Definition visitor_text : template :=
    [Lit (tpl "
Thank you, ");
     Hole HName;
     Lit (tpl "!

Thanks for getting in touch. I've received your message and will get back to you as soon as possible.

Your Message:
");
     Hole HMessage;
     Lit (tpl "

I typically respond within 24-48 hours.

Best regards,
");
     Hole HFromName;
     Lit (tpl "
      ")].

(** The test mail's [html], lines 225-236. *)
Definition test_html : template :=
    [Lit (tpl "
        <div style=`font-family: 'Segoe UI', Tahoma, Geneva, Verdana, sans-serif; padding: 30px; text-align: center;`>
          <div style=`background: linear-gradient(135deg, #667eea 0%, #764ba2 100%); padding: 30px; border-radius: 8px; color: white;`>
            <h2 style=`margin: 0; font-size: 24px;`>✅ SMTP Configured Successfully!</h2>
            <p style=`margin: 10px 0 0 0; font-size: 16px;`>Your email configuration is working properly.</p>
          </div>
          <p style=`margin-top: 20px; color: #666;`>
            <strong>Test sent at:</strong> ");
     Hole HDate;
     Lit (tpl "<br>
            Your portfolio contact form is ready to receive messages! 🎉
          </p>
        </div>
      ")].

End ServerMail.

Module ApiMail.

(** The admin copy's [text], line 72. *)
Definition admin_text : template :=
    [Lit (tpl "From: ");
     Hole HName;
     Lit (tpl "
Email: ");
     Hole HEmail;
     Lit (tpl "
Subject: ");
     Hole HSubject;
     Lit (tpl "

");
     Hole HMessage].

(** The admin copy's [html], lines 73-91. *)
Definition admin_html : template :=
    [Lit (tpl "
        <div style=`font-family: 'Segoe UI', Tahoma, Geneva, Verdana, sans-serif; line-height: 1.6; color: #333; max-width: 600px; margin: 0 auto;`>
          <div style=`background: linear-gradient(135deg, #667eea 0%, #764ba2 100%); padding: 30px; border-radius: 8px 8px 0 0; text-align: center;`>
            <h2 style=`color: #fff; margin: 0;`>New Contact Form Submission</h2>
          </div>
          <div style=`background-color: #f9f9f9; padding: 30px; border-radius: 0 0 8px 8px; border: 1px solid #e0e0e0; border-top: none;`>
            <p><strong>From:</strong> ");
     Hole HName;
     Lit (tpl "</p>
            <p><strong>Email:</strong> <a href=`mailto:");
     Hole HEmail;
     Lit (tpl "` style=`color: #667eea; text-decoration: none;`>");
     Hole HEmail;
     Lit (tpl "</a></p>
            <p><strong>Subject:</strong> ");
     Hole HSubject;
     Lit (tpl "</p>
            <hr style=`border: none; border-top: 2px solid #e0e0e0; margin: 25px 0;` />
            <div style=`background-color: #fff; padding: 15px; border-left: 4px solid #667eea; border-radius: 4px;`>
              <p style=`margin: 0; white-space: pre-wrap; color: #333; line-height: 1.8;`>");
     Hole HMessage;
     Lit (tpl "</p>
            </div>
          </div>
          <div style=`margin-top: 20px; padding: 15px; background-color: #f0f0f0; border-radius: 8px; text-align: center; font-size: 12px; color: #999;`>
            <p style=`margin: 0;`>Sent on: ");
     Hole HDate;
     Lit (tpl "</p>
          </div>
        </div>
      ")].

(** The visitor copy's [text], line 98. *)
Definition visitor_text : template :=
    [Lit (tpl "Hi ");
     Hole HName;
     Lit (tpl ",

Thanks for reaching out! I've received your message and will reply soon.

Your message:
");
     Hole HMessage;
     Lit (tpl "

— ");
     Hole HFromName].

(** The visitor copy's [html], lines 99-114. *)
Definition visitor_html : template :=
    [Lit (tpl "
        <div style=`font-family: 'Segoe UI', Tahoma, Geneva, Verdana, sans-serif; line-height: 1.6; color: #333; max-width: 600px; margin: 0 auto;`>
          <div style=`background: linear-gradient(135deg, #667eea 0%, #764ba2 100%); padding: 30px; border-radius: 8px 8px 0 0; text-align: center;`>
            <h2 style=`color: #fff; margin: 0;`>Thank you, ");
     Hole HName;
     Lit (tpl "!</h2>
          </div>
          <div style=`background-color: #f9f9f9; padding: 30px; border-radius: 0 0 8px 8px; border: 1px solid #e0e0e0; border-top: none;`>
            <p style=`color: #333; font-size: 16px;`>Thanks for getting in touch! I've received your message and will get back to you soon.</p>
            <div style=`background-color: #fff; padding: 20px; border-left: 4px solid #667eea; border-radius: 4px; margin: 20px 0;`>
              <p style=`margin: 0 0 10px 0; color: #999; font-size: 14px;`><strong>Your Message:</strong></p>
              <p style=`margin: 0; white-space: pre-wrap; color: #333; line-height: 1.8;`>");
     Hole HMessage;
     Lit (tpl "</p>
            </div>
            <p style=`color: #666; font-size: 15px; margin: 20px 0;`>I typically respond within 24-48 hours.</p>
            <p style=`color: #333; margin-top: 30px;`>Best regards,<br><strong style=`font-size: 18px;`>");
     Hole HFromName;
     Lit (tpl "</strong></p>
          </div>
        </div>
      ")].

End ApiMail.

(** ** Lemmas *)

(** A hole of a template puts its value, unchanged, into the rendered text. *)
Lemma render_hole t h val : In h (holes t) -> exists a b, render t val = a ++ val h ++ b.
Proof.
  induction t as [|[s|h'] t IH]; cbn; [done| |].
  - intros Hin. destruct (IH Hin) as (a & b & Hr). exists (s ++ a), b.
    unfold render in Hr. by rewrite Hr, <- app_assoc.
  - intros [->|Hin]; [by exists [], (render t val)|].
    destruct (IH Hin) as (a & b & Hr). exists (val h' ++ a), b.
    unfold render in Hr. by rewrite Hr, <- app_assoc.
Qed.
