(* ===== verification/Config.v ===== *)
(** * The SMTP transporter configuration

    Both deployments read the SMTP settings from the environment.  The
    Express server builds its transporter once, when
    src/server/routes/email.js is loaded (lines 17-25): the host defaults to
    [smtp.gmail.com], the port is [parseInt(SMTP_PORT) || 587] and TLS is on
    when [SMTP_PORT === '465'].  The serverless function builds it on every
    request ([createTransporter], src/api/contact.js lines 23-35), after
    [validateEnv] (lines 16-21) has thrown if a variable is missing; its port
    is [Number(SMTP_PORT) || 587] and TLS is on when [port === 465].

    The Express side also loads src/.env.local then src/.env with dotenv
    (routes/email.js lines 11-12), prints a configuration report (lines
    27-31) and logs the outcome of [transporter.verify] (lines 36-44).

    This file models the two conversions of the environment string,
    [parseInt] and [Number] (ECMAScript's StringToNumber), with values as
    exact rationals: the code compares them with small integers, and the
    rounding of a literal to a double is not modelled. *)

From stdpp Require Import gmap.
From Stdlib Require Import QArith.
From S2P Require Import Prelude JsValue.

(** [process.env]: variable names to their string values. *)
Abbreviation env := (gmap string jstr) (only parsing).

(** [process.env.K]: a string or [undefined]. *)
Definition env_get (e : env) (k : string) : jprop :=
  match e !! k with Some s => Some (JStr s) | None => None end.

(** [`${process.env.K}`]: ["undefined"] for a missing variable. *)
Definition env_str (e : env) (k : string) : jstr := prop_to_string (env_get e k).

(** [process.env.K === 'v'] *)
Definition env_is (e : env) (k : string) (v : string) : bool :=
  bool_decide (e !! k = Some (u16 v)).

(** A JavaScript number, as far as these conversions produce it. *)
Inductive jsnum := NFin (q : Q) | NPosInf | NNegInf | NNaN.

(** [x || d]: [NaN] and [0] are falsy. *)
Definition num_or (n : jsnum) (d : Q) : jsnum :=
  match n with
  | NNaN => NFin d
  | NFin q => if Qeq_bool q 0 then NFin d else n
  | _ => n
  end.

(** [n === k] for a finite [k]. *)
Definition num_eq (n : jsnum) (k : Q) : bool :=
  match n with NFin q => Qeq_bool q k | _ => false end.

(** ** Digits *)

Definition digit_val (radix : Z) (c : Z) : option Z :=
  let v := if (48 <=? c) && (c <=? 57) then Some (c - 48)
           else if (97 <=? c) && (c <=? 122) then Some (c - 87)
           else if (65 <=? c) && (c <=? 90) then Some (c - 55)
           else None in
  match v with Some d => if d <? radix then Some d else None | None => None end.

(** The longest prefix of digits of [radix]: their values and the rest. *)
Fixpoint take_digits (radix : Z) (s : jstr) : list Z * jstr :=
  match s with
  | c :: r =>
      match digit_val radix c with
      | Some d => let '(ds, rest) := take_digits radix r in (d :: ds, rest)
      | None => ([], s)
      end
  | [] => ([], [])
  end.

Definition digits_value (radix : Z) (ds : list Z) : Z :=
  fold_left (fun acc d => acc * radix + d) ds 0.

(** ** [parseInt(string)] with no radix *)
Definition parseInt (s : jstr) : jsnum :=
  let s1 := trim_start s in
  let '(sign, s2) := match s1 with
                     | 45 :: r => (-1, r)
                     | 43 :: r => (1, r)
                     | _ => (1, s1)
                     end in
  let '(radix, s3) := match s2 with
                      | 48 :: 120 :: r | 48 :: 88 :: r => (16, r)
                      | _ => (10, s2)
                      end in
  match take_digits radix s3 with
  | ([], _) => NNaN
  | (ds, _) => NFin (inject_Z (sign * digits_value radix ds))
  end.

(** ** [Number(string)]: StringToNumber *)

(** [ExponentPart] after the [e]: an optional sign and digits, to the end. *)
Definition parse_exponent (s : jstr) : option Z :=
  let '(sign, r) := match s with 45 :: r => (-1, r) | 43 :: r => (1, r) | _ => (1, s) end in
  match take_digits 10 r with
  | ([], _) => None
  | (ds, []) => Some (sign * digits_value 10 ds)
  | _ => None
  end.

Definition pow10 (e : Z) : Q :=
  if 0 <=? e then inject_Z (10 ^ e) else Qinv (inject_Z (10 ^ (- e))).

(** [StrUnsignedDecimalLiteral] (without [Infinity]), to the end. *)
Definition parse_unsigned_decimal (s : jstr) : option Q :=
  let '(ip, r1) := take_digits 10 s in
  let '(fp, r2) := match r1 with
                   | 46 :: r => take_digits 10 r
                   | _ => ([], r1)
                   end in
  match ip, fp with
  | [], [] => None
  | _, _ =>
      let mant := Qmult (inject_Z (digits_value 10 (ip ++ fp)))
                        (pow10 (- Z.of_nat (length fp))) in
      match r2 with
      | [] => Some mant
      | e :: r3 =>
          if (e =? 101) || (e =? 69) then
            match parse_exponent r3 with Some x => Some (Qmult mant (pow10 x)) | None => None end
          else None
      end
  end.

Definition u_Infinity : jstr := u16 "Infinity".

(** [StrDecimalLiteral]: a sign, then [Infinity] or an unsigned literal. *)
Definition parse_decimal (s : jstr) : jsnum :=
  let '(neg, r) := match s with 45 :: r => (true, r) | 43 :: r => (false, r) | _ => (false, s) end in
  if bool_decide (r = u_Infinity) then (if neg then NNegInf else NPosInf)
  else match parse_unsigned_decimal r with
       | Some q => NFin (if neg then Qopp q else q)
       | None => NNaN
       end.

(** [NonDecimalIntegerLiteral]: [0b], [0o] or [0x] and digits, to the end. *)
Definition parse_non_decimal (radix : Z) (s : jstr) : jsnum :=
  match take_digits radix s with
  | ([], _) => NNaN
  | (ds, []) => NFin (inject_Z (digits_value radix ds))
  | _ => NNaN
  end.

Definition Number (s : jstr) : jsnum :=
  match js_trim s with
  | [] => NFin 0
  | 48 :: b :: r =>
      if (b =? 120) || (b =? 88) then parse_non_decimal 16 r
      else if (b =? 111) || (b =? 79) then parse_non_decimal 8 r
      else if (b =? 98) || (b =? 66) then parse_non_decimal 2 r
      else parse_decimal (48 :: b :: r)
  | t => parse_decimal t
  end.

(** ** The transporter options *)

(** The options of [nodemailer.createTransport]. *)
Record transport_config := {
  tc_host : jstr;
  tc_port : jsnum;
  tc_secure : bool;
  tc_user : jprop;
  tc_pass : jprop
}.

(** The server's transporter, src/server/routes/email.js lines 17-25. *)
Definition server_transporter (e : env) : transport_config :=
  {| tc_host := if truthy_prop (env_get e "SMTP_HOST") then env_str e "SMTP_HOST"
                else u16 "smtp.gmail.com";
     tc_port := num_or (parseInt (env_str e "SMTP_PORT")) 587;
     tc_secure := env_is e "SMTP_PORT" "465";
     tc_user := env_get e "SMTP_USER";
     tc_pass := env_get e "SMTP_PASS" |}.

(** [dotenv.config] twice, src/server/routes/email.js lines 11-12: the
    variables of .env.local, then those of .env, each added only where
    the environment has none yet (dotenv does not override). *)
Definition dotenv_load (proc local dotenv : env) : env := proc ∪ local ∪ dotenv.

Definition set_or_not (e : env) (k : string) : jstr :=
  if truthy_prop (env_get e k) then u16 "✓ Set" else u16 "✗ Not set".

(** The configuration report, lines 27-31: [process.env.SMTP_PORT || 587]
    prints the variable itself when it is a non-empty string. *)
Definition startup_log (e : env) : list jstr :=
  [u16 "🔧 SMTP Configuration:";
   u16 "   Host: " ++ (if truthy_prop (env_get e "SMTP_HOST") then env_str e "SMTP_HOST" else u16 "smtp.gmail.com");
   u16 "   Port: " ++ (if truthy_prop (env_get e "SMTP_PORT") then env_str e "SMTP_PORT" else u16 "587");
   u16 "   User: " ++ set_or_not e "SMTP_USER";
   u16 "   Pass: " ++ set_or_not e "SMTP_PASS"].

Inductive stream := Stdout | Stderr.

(** The callback of [transporter.verify], lines 36-44, given the error's
    message if the check failed; [console.error] joins its two arguments
    with a space. *)
Definition verify_log (error : option jstr) : list (stream * jstr) :=
  match error with
  | Some msg =>
      [(Stderr, u16 "❌ SMTP Configuration Error: " ++ msg);
       (Stderr, u16 "   Reason: Check that your app password is correct and has spaces");
       (Stderr, u16 "   Gmail app passwords should be: XXXX XXXX XXXX XXXX (with spaces)")]
  | None => [(Stdout, u16 "✅ SMTP Server Connected and Ready for Sending Emails")]
  end.

(** [requiredEnv], src/api/contact.js lines 6-14. *)
Definition requiredEnv : list string :=
  ["SMTP_HOST"; "SMTP_PORT"; "SMTP_USER"; "SMTP_PASS"; "SMTP_FROM_EMAIL";
   "SMTP_FROM_NAME"; "CONTACT_RECIPIENT_EMAIL"].

(** [requiredEnv.filter((key) => !process.env[key])] *)
Definition missingEnv (e : env) : list string :=
  List.filter (fun k => negb (truthy_prop (env_get e k))) requiredEnv.

(** [validateEnv()], lines 16-21: the error it throws, if any. *)
Definition validateEnv (e : env) : option js_error :=
  match missingEnv e with
  | [] => None
  | ms => Some {| err_name := u16 "Error";
                  err_message := u16 "Missing SMTP env vars: " ++ join (u16 ", ") (map u16 ms) |}
  end.

(** [createTransporter()], lines 23-35: throws what [validateEnv] throws,
    or returns the options. *)
Definition createTransporter (e : env) : transport_config + js_error :=
  match validateEnv e with
  | Some err => inr err
  | None =>
      let port := num_or (Number (env_str e "SMTP_PORT")) 587 in
      inl {| tc_host := env_str e "SMTP_HOST";
             tc_port := port;
             tc_secure := num_eq port 465;
             tc_user := env_get e "SMTP_USER";
             tc_pass := env_get e "SMTP_PASS" |}
  end.

(** A deployment's SMTP variables, with the port as given. *)
Definition smtp_env (port : jstr) : env :=
  <["SMTP_HOST" := u16 "smtp.gmail.com"]> (<["SMTP_PORT" := port]>
  (<["SMTP_USER" := u16 "owner@example.com"]> (<["SMTP_PASS" := u16 "app password"]>
  (<["SMTP_FROM_NAME" := u16 "Vishal"]> (<["SMTP_FROM_EMAIL" := u16 "owner@example.com"]>
  (<["CONTACT_RECIPIENT_EMAIL" := u16 "owner@example.com"]> ∅)))))).

(** ** Decimal digit strings *)

Definition is_dec_digit (c : Z) : bool := (48 <=? c) && (c <=? 57).

(** The value of a string of decimal digits. *)
Definition dec_value (s : jstr) : Z := digits_value 10 (map (fun c => c - 48) s).

(** Split a goal on the ten digits a code unit can be. *)
Ltac dec_digit_cases c :=
  match goal with
  | H : is_dec_digit c = true |- _ =>
      unfold is_dec_digit in H; apply andb_prop in H as [H1 H2];
      apply Z.leb_le in H1; apply Z.leb_le in H2;
      assert (c = 48 \/ c = 49 \/ c = 50 \/ c = 51 \/ c = 52 \/ c = 53 \/ c = 54 \/
              c = 55 \/ c = 56 \/ c = 57) as Hc by lia; clear H1 H2;
      repeat destruct Hc as [-> | Hc]; [..| subst c]
  end.

Lemma dec_digit_no_space (s : jstr) : forallb is_dec_digit s = true -> no_space s = true.
Proof.
  unfold no_space. rewrite !forallb_forall. intros H c Hc.
  specialize (H c Hc). apply andb_prop in H as [H1 H2]. apply Z.leb_le in H1. apply Z.leb_le in H2.
  by rewrite is_js_space_letter by lia.
Qed.

Lemma take_digits_dec (s : jstr) :
  forallb is_dec_digit s = true -> take_digits 10 s = (map (fun c => c - 48) s, []).
Proof.
  induction s as [|c s IH]; simpl; [done|]. intros [Hc Hs]%andb_prop.
  rewrite IH by done. unfold digit_val. unfold is_dec_digit in Hc. rewrite Hc.
  apply andb_prop in Hc as [H1 H2]. apply Z.leb_le in H1. apply Z.leb_le in H2.
  by rewrite (proj2 (Z.ltb_lt (c - 48) 10)) by lia.
Qed.

Lemma not_Infinity c r : c <> 73 -> c :: r <> u_Infinity.
Proof. intros Hc E. apply Hc. unfold u_Infinity in E. vm_compute in E. by injection E. Qed.

Lemma parseInt_dec (s : jstr) :
  s <> [] -> forallb is_dec_digit s = true -> parseInt s = NFin (inject_Z (dec_value s)).
Proof.
  intros Hne Hd. unfold parseInt. rewrite trim_start_no_space by (by apply dec_digit_no_space).
  unfold dec_value. destruct s as [|c r]; [done|].
  pose proof Hd as Hd'. simpl in Hd'. apply andb_prop in Hd' as [Hc Hr].
  dec_digit_cases c; try (cbn -[take_digits]; rewrite !take_digits_dec by done; cbn; by rewrite Z.mul_1_l).
  destruct r as [|b r]; [reflexivity|].
  simpl in Hr. apply andb_prop in Hr as [Hb _].
  dec_digit_cases b; cbn -[take_digits]; rewrite !take_digits_dec by done; cbn; by rewrite Z.mul_1_l.
Qed.

Lemma parse_unsigned_decimal_dec (s : jstr) :
  s <> [] -> forallb is_dec_digit s = true ->
  parse_unsigned_decimal s = Some (inject_Z (dec_value s)).
Proof.
  intros Hne Hd. unfold parse_unsigned_decimal. rewrite take_digits_dec by done.
  destruct s as [|c r]; [done|]. cbn -[digits_value]. rewrite app_nil_r.
  unfold inject_Z, Qmult, dec_value. simpl. by rewrite Z.mul_1_r.
Qed.

Lemma parse_decimal_dec (s : jstr) :
  s <> [] -> forallb is_dec_digit s = true -> parse_decimal s = NFin (inject_Z (dec_value s)).
Proof.
  intros Hne Hd. destruct s as [|c r]; [done|].
  pose proof Hd as Hd'. simpl in Hd'. apply andb_prop in Hd' as [Hc _].
  unfold parse_decimal.
  dec_digit_cases c; cbn -[parse_unsigned_decimal u_Infinity];
    (rewrite bool_decide_eq_false_2 by (apply not_Infinity; lia));
    by rewrite (parse_unsigned_decimal_dec _ Hne Hd).
Qed.

Lemma Number_dec (s : jstr) :
  s <> [] -> forallb is_dec_digit s = true -> Number s = NFin (inject_Z (dec_value s)).
Proof.
  intros Hne Hd. unfold Number. rewrite js_trim_no_space by (by apply dec_digit_no_space).
  rewrite <- (parse_decimal_dec s) by done.
  destruct s as [|c r]; [by destruct Hne|].
  pose proof Hd as Hd'. simpl in Hd'. apply andb_prop in Hd' as [Hc Hd'].
  dec_digit_cases c; try reflexivity.
  destruct r as [|b r]; [reflexivity|]. simpl in Hd'. apply andb_prop in Hd' as [Hb _].
  dec_digit_cases b; reflexivity.
Qed.

(** ** The two transporters *)

Lemma env_str_some (e : env) k s : e !! k = Some s -> env_str e k = s.
Proof. intros H. unfold env_str, env_get. by rewrite H. Qed.

(** [validateEnv] passes exactly when every variable of [requiredEnv] is
    set to a non-empty string. *)
Theorem validateEnv_none_iff (e : env) :
  validateEnv e = None <-> Forall (fun k => exists s, e !! k = Some s /\ s <> []) requiredEnv.
Proof.
  unfold validateEnv. transitivity (missingEnv e = []).
  { by destruct (missingEnv e). }
  unfold missingEnv. rewrite filter_negb_nil. apply Forall_iff. intros k.
  unfold env_get. destruct (e !! k) as [s|]; cbn -[truthy_prop].
  - rewrite truthy_prop_some_str. split; [eauto|by intros (? & [= ->] & ?)].
  - split; [done|]. by intros (s & ? & _).
Qed.

(** C18: On a port written as decimal digits, [parseInt] and [Number] agree:
    both deployments connect to the same port. *)
Theorem transporter_port_agrees (e : env) s tc :
  e !! "SMTP_PORT" = Some s -> s <> [] -> forallb is_dec_digit s = true ->
  createTransporter e = inl tc -> tc_port tc = tc_port (server_transporter e).
Proof.
  intros Hp Hne Hd Hc. unfold createTransporter in Hc.
  destruct (validateEnv e); [done|]. injection Hc as <-. simpl.
  rewrite (env_str_some _ _ _ Hp), parseInt_dec, Number_dec by done. reflexivity.
Qed.

(** The server turns TLS on only for the port 465. *)
Theorem server_secure_port (e : env) :
  tc_secure (server_transporter e) = true -> tc_port (server_transporter e) = NFin 465.
Proof.
  simpl. unfold env_is. intros Hs%bool_decide_eq_true_1.
  rewrite (env_str_some _ _ _ Hs). vm_compute. reflexivity.
Qed.

(** ** Examples *)

(** [SMTP_PORT=0465]: both deployments connect to the port 465, but only
    the serverless one turns TLS on; the server speaks plain SMTP to the
    TLS port. *)
Example server_tls_mismatch :
  tc_port (server_transporter (smtp_env (u16 "0465"))) = NFin 465 /\
  tc_secure (server_transporter (smtp_env (u16 "0465"))) = false /\
  exists tc, createTransporter (smtp_env (u16 "0465")) = inl tc /\
             tc_port tc = NFin 465 /\ tc_secure tc = true.
Proof.
  vm_compute. do 2 (split; [reflexivity|]).
  eexists. split; [reflexivity|]. split; reflexivity.
Qed.

(** The process environment wins over .env.local, which wins over .env. *)
Lemma dotenv_priority proc local dotenv k :
  dotenv_load proc local dotenv !! k =
  match proc !! k with
  | Some v => Some v
  | None => match local !! k with Some v => Some v | None => dotenv !! k end
  end.
Proof. unfold dotenv_load. rewrite !lookup_union. by destruct (proc !! k), (local !! k), (dotenv !! k). Qed.

(** The start-up report prints [SMTP_PORT] as it is written, while the
    transporter connects to [parseInt] of it, or 587: the two differ for a
    value such as [abc] ([startup_port_abc]). *)
Lemma startup_port_line (e : env) s :
  e !! "SMTP_PORT" = Some s -> s <> [] ->
  nth 2 (startup_log e) [] = u16 "   Port: " ++ s
  /\ tc_port (server_transporter e) = num_or (parseInt s) 587.
Proof.
  intros Hs Hne. unfold startup_log, server_transporter. cbn [nth tc_port].
  rewrite (env_str_some e _ s Hs). unfold env_get. rewrite Hs. cbn [truthy_prop truthy].
  by destruct s.
Qed.

Example startup_port_abc :
  nth 2 (startup_log (smtp_env (u16 "abc"))) [] = u16 "   Port: abc"
  /\ tc_port (server_transporter (smtp_env (u16 "abc"))) = NFin 587.
Proof. split; vm_compute; reflexivity. Qed.

Lemma transporter_port_agrees_witness :
  exists tc, createTransporter (smtp_env (u16 "465")) = inl tc /\
  tc_port tc = tc_port (server_transporter (smtp_env (u16 "465"))).
Proof.
  eexists. split; [vm_compute; reflexivity|].
  apply (transporter_port_agrees (smtp_env (u16 "465")) (u16 "465")); vm_compute; try reflexivity.
  discriminate.
Defined.

Lemma server_secure_port_witness :
  tc_secure (server_transporter (smtp_env (u16 "465"))) = true /\
  tc_port (server_transporter (smtp_env (u16 "465"))) = NFin 465.
Proof.
  assert (H : tc_secure (server_transporter (smtp_env (u16 "465"))) = true)
    by (vm_compute; reflexivity).
  split; [exact H|]. exact (server_secure_port _ H).
Defined.
