(* ===== verification/Handlers.v ===== *)
(** * The request handlers of the contact gateway

    [Module ServerRoutes] models src/server/routes/email.js: the handlers
    [sendContactEmail] (POST /api/contact on the Express server) and
    [sendTestEmail] (POST /api/email/test).  [Module ApiContact] models
    the serverless function of src/api/contact.js: [handler], with its
    method guard, [validatePayload], [createTransporter] (whose
    [validateEnv] throws when a variable is missing) and the same two
    mails.  Each handler is the whole function: its early returns, both
    mail options objects, both awaited sends, the console lines and the
    [catch] that turns any thrown error into a 500 envelope, the
    [TypeError] of a field whose [String] throws included.  The handlers
    run in the monad [M W] over any transport with the laws of
    [MailTransportLaws]; the process environment and the local time string
    are the [context].  The theorems about these handlers are in
    [Gateway]. *)

From stdpp Require Import gmap.
From S2P Require Import Prelude JsValue Regex Validation Transport Templates Config.
Import Regex.Test Regex.EmailPattern.

Local Open Scope portfolio_scope.

(** ** Requests, responses and the environment *)

(** What a handler reads besides the request: the environment and what
    [new Date().toLocaleString()] prints. *)
Record context := { cx_env : env; cx_now : jstr }.

Record request := { req_method : jstr; req_body : jprop }.

(** [res.status(s).json(obj)], with the headers [res.setHeader] set.  The
    JSON body is the object's members in order; [JSON.stringify] leaves out
    a member whose value is [undefined]. *)
Record response := {
  res_status : Z;
  res_headers : list (jstr * list jstr);
  res_json : list (jstr * jvalue)
}.

(** [{ success, message, error }], [error] absent when [undefined]. *)
Definition envelope (success : bool) (message : jstr) (error : option jstr) :
  list (jstr * jvalue) :=
  [(u16 "success", JBool success); (u16 "message", JStr message)] ++
  match error with Some e => [(u16 "error", JStr e)] | None => [] end.

Definition reply (status : Z) (json : list (jstr * jvalue)) : response :=
  {| res_status := status; res_headers := []; res_json := json |}.

Definition msg_sent : jstr := u16 "Email sent successfully! I will get back to you soon.".
Definition msg_send_failed : jstr := u16 "Failed to send email. Please try again later.".

(** [`${process.env.SMTP_FROM_NAME} <${process.env.SMTP_FROM_EMAIL}>`] *)
Definition log_admin_sent (email : jprop) : jstr :=
  u16 "✅ Admin email sent for submission from " ++ prop_to_string email.
Definition log_visitor_sent (email : jprop) : jstr :=
  u16 "✅ Visitor confirmation email sent to " ++ prop_to_string email.

Definition from_line (e : env) : jstr :=
  env_str e "SMTP_FROM_NAME" ++ u16 " <" ++ env_str e "SMTP_FROM_EMAIL" ++ u16 ">".

(** The values of the template holes for a submission. *)
Definition hole_values (cx : context) (name email subject message : jprop) : hole -> jstr :=
  fun h => match h with
           | HName => prop_to_string name
           | HEmail => prop_to_string email
           | HSubject => prop_to_string subject
           | HMessage => prop_to_string message
           | HFromName => env_str (cx_env cx) "SMTP_FROM_NAME"
           | HFromEmail => env_str (cx_env cx) "SMTP_FROM_EMAIL"
           | HDate => cx_now cx
           end.

(** Building [adminMailOptions], in either deployment, evaluates template
    literals that interpolate all four fields, and [`${v}`] throws when
    [String(v)] does ([string_throws]).  The visitor's options are built
    from a subset of the same fields, so only the admin's can throw. *)
Definition admin_interpolation (name email subject message : jprop) : option js_error :=
  if existsb prop_throws [name; email; subject; message] then Some to_primitive_error else None.

Module ServerRoutes.
Section Handlers.
Context `{MailTransport W}.

(** [adminMailOptions], lines 82-138. *)
Definition adminMailOptions (cx : context) (name email subject message : jprop) : mail_options :=
  let v := hole_values cx name email subject message in
  {| mo_from := from_line (cx_env cx);
     mo_to := env_get (cx_env cx) "CONTACT_RECIPIENT_EMAIL";
     mo_subject := u16 "New Contact Form Submission: " ++ prop_to_string subject;
     mo_replyTo := email;
     mo_text := Some (render ServerMail.admin_text v);
     mo_html := render ServerMail.admin_html v |}.

(** [visitorMailOptions], lines 144-191. *)
Definition visitorMailOptions (cx : context) (name email subject message : jprop) : mail_options :=
  let v := hole_values cx name email subject message in
  {| mo_from := from_line (cx_env cx);
     mo_to := email;
     mo_subject := u16 "✅ Thank you for reaching out!";
     mo_replyTo := None;
     mo_text := Some (render ServerMail.visitor_text v);
     mo_html := render ServerMail.visitor_html v |}.

(** The [catch (error)] block of [sendContactEmail], lines 205-212: the
    error's message is exposed only when [NODE_ENV] is ["development"]. *)
Definition contactCatch (cx : context) (error : js_error) : M W response :=
  let* _ := console_error (u16 "❌ Email sending error:") error in
  ret (reply 500 (envelope false msg_send_failed
                    (if env_is (cx_env cx) "NODE_ENV" "development"
                     then Some (err_message error) else None))).

(** [sendContactEmail(req, res)], lines 49-213. *)
Definition sendContactEmail (cx : context) (body : jvalue) : M W response :=
  try_catch
    (let name := get_prop body k_name in
     let email := get_prop body k_email in
     let subject := get_prop body k_subject in
     let message := get_prop body k_message in
     match Server.checks body with
     | Invalid msg => ret (reply 400 (envelope false msg None))
     | Throws e => throw e
     | Valid =>
         match admin_interpolation name email subject message with
         | Some e => throw e
         | None =>
         let admin := adminMailOptions cx name email subject message in
         let visitor := visitorMailOptions cx name email subject message in
         let* _ := sendMail admin in
         let* _ := console_log (log_admin_sent email) in
         let* _ := sendMail visitor in
         let* _ := console_log (log_visitor_sent email) in
         ret (reply 200 (envelope true msg_sent None))
         end
     end)
    (contactCatch cx).

(** [testMailOptions], lines 221-237. *)
Definition testMailOptions (cx : context) : mail_options :=
  {| mo_from := from_line (cx_env cx);
     mo_to := env_get (cx_env cx) "CONTACT_RECIPIENT_EMAIL";
     mo_subject := u16 "✅ SMTP Configuration Test - Portfolio";
     mo_replyTo := None;
     mo_text := None;
     mo_html := render ServerMail.test_html (hole_values cx None None None None) |}.

(** [sendTestEmail(req, res)], lines 219-252. *)
Definition sendTestEmail (cx : context) : M W response :=
  try_catch
    (let* _ := sendMail (testMailOptions cx) in
     ret (reply 200 (envelope true (u16 "✅ Test email sent successfully! Check your inbox.") None)))
    (fun error =>
       let* _ := console_error (u16 "❌ Test email error:") error in
       ret (reply 500 (envelope false (u16 "Failed to send test email") (Some (err_message error))))).

End Handlers.
End ServerRoutes.

Module ApiContact.
Section Handler.
Context `{MailTransport W}.

(** [isProd], line 4. *)
Definition isProd (e : env) : bool := env_is e "NODE_ENV" "production".

(** [adminMailOptions], lines 67-92. *)
Definition adminMailOptions (cx : context) (name email subject message : jprop) : mail_options :=
  let v := hole_values cx name email subject message in
  {| mo_from := from_line (cx_env cx);
     mo_to := env_get (cx_env cx) "CONTACT_RECIPIENT_EMAIL";
     mo_subject := u16 "New Contact Form Submission: " ++ prop_to_string subject;
     mo_replyTo := email;
     mo_text := Some (render ApiMail.admin_text v);
     mo_html := render ApiMail.admin_html v |}.

(** [visitorMailOptions], lines 94-115. *)
Definition visitorMailOptions (cx : context) (name email subject message : jprop) : mail_options :=
  let v := hole_values cx name email subject message in
  {| mo_from := from_line (cx_env cx);
     mo_to := email;
     mo_subject := u16 "Thank you for reaching out!";
     mo_replyTo := None;
     mo_text := Some (render ApiMail.visitor_text v);
     mo_html := render ApiMail.visitor_html v |}.

(** The [catch (error)] block, lines 121-130: logged and exposed only
    outside production. *)
Definition handlerCatch (cx : context) (error : js_error) : M W response :=
  let* _ := (if isProd (cx_env cx) then ret tt
              else console_error_text (u16 "Email error:") (err_message error)) in
  ret (reply 500 (envelope false msg_send_failed
                    (if isProd (cx_env cx) then None else Some (err_message error)))).

(** [const { name, email, subject, message } = req.body;] on the body
    [validatePayload] accepted. *)
Definition destructure_body (body : jprop) : M W jvalue :=
  match body with
  | Some v => ret v
  | None => throw {| err_name := u16 "TypeError";
                     err_message := u16 "Cannot destructure property 'name' of 'req.body' as it is undefined." |}
  end.

(** [handler(req, res)], lines 52-131. *)
Definition handler (cx : context) (req : request) : M W response :=
  if negb (bool_decide (req_method req = u16 "POST")) then
    ret {| res_status := 405; res_headers := [(u16 "Allow", [u16 "POST"])];
           res_json := envelope false (u16 "Method Not Allowed") None |}
  else
    try_catch
      (match validatePayload (req_body req) with
       | Invalid msg => ret (reply 400 (envelope false msg None))
       | Throws e => throw e
       | Valid =>
           let* body := destructure_body (req_body req) in
           let name := get_prop body k_name in
           let email := get_prop body k_email in
           let subject := get_prop body k_subject in
           let message := get_prop body k_message in
           let* _ := match createTransporter (cx_env cx) with
                     | inl _ => ret tt
                     | inr e => throw e
                     end in
           match admin_interpolation name email subject message with
           | Some e => throw e
           | None =>
           let* _ := sendMail (adminMailOptions cx name email subject message) in
           let* _ := sendMail (visitorMailOptions cx name email subject message) in
           ret (reply 200 (envelope true msg_sent None))
           end
       end)
      (handlerCatch cx).

End Handler.
End ApiContact.
