(* ===== verification/Contract.v ===== *)
(** * The contract of the contact gateway

    The state machine a contact submission goes through, as the spec
    describes the gateway's behaviour: a step relation on phases, labelled
    with the mail each step sends, its runs, and the status each terminal
    phase answers with.  [Gateway] proves that both handlers implement it. *)

From S2P Require Import Prelude.

(** The linear state machine of a contact submission:
    [Received -> Validated -> AdminSent -> VisitorSent -> Succeeded], a
    rejection after [Received], and a failure at either send.  Each step is
    labelled with the mail it sends.  A thrown error before any send (a
    step from [Received] to [Failed]) is part of the contract because the
    code's single [catch] answers it like a send failure; so is a failure
    to set the transport up before the first send ([Validated] to
    [Failed], the serverless [createTransporter]). *)
Module Contract.

Inductive phase := Received | Validated | AdminSent | VisitorSent | Succeeded | Rejected | Failed.

Inductive mail_kind := AdminCopy | VisitorCopy.

Inductive step : phase -> option mail_kind -> phase -> Prop :=
| st_validate : step Received None Validated
| st_reject : step Received None Rejected
| st_crash : step Received None Failed
| st_setup_fail : step Validated None Failed
| st_admin_ok : step Validated (Some AdminCopy) AdminSent
| st_admin_fail : step Validated (Some AdminCopy) Failed
| st_visitor_ok : step AdminSent (Some VisitorCopy) VisitorSent
| st_visitor_fail : step AdminSent (Some VisitorCopy) Failed
| st_done : step VisitorSent None Succeeded.

(** Runs, with the mails they send in order. *)
Inductive run : phase -> list mail_kind -> phase -> Prop :=
| run_refl p : run p [] p
| run_step p l q ks r : step p l q -> run q ks r -> run p (option_list l ++ ks) r.

#[export] Hint Constructors step run : portfolio.

Definition terminal (p : phase) : bool :=
  match p with Succeeded | Rejected | Failed => true | _ => false end.

(** The status each terminal phase answers with. *)
Definition status_of (p : phase) : Z :=
  match p with Succeeded => 200 | Rejected => 400 | _ => 500 end.

(** The terminal runs from [Received]: what they send and where they end. *)
Definition terminal_outcome (p : phase) (ks : list mail_kind) : Prop :=
  (p = Rejected /\ ks = []) \/ (p = Failed /\ ks = []) \/
  (p = Failed /\ ks = [AdminCopy]) \/ (p = Failed /\ ks = [AdminCopy; VisitorCopy]) \/
  (p = Succeeded /\ ks = [AdminCopy; VisitorCopy]).

(** A terminal run from [Received] sends nothing, the admin copy alone,
    or the admin copy then the visitor copy; it succeeds only after both. *)
Lemma run_received ks p :
  run Received ks p -> terminal p = true -> terminal_outcome p ks.
Proof.
  unfold terminal_outcome. intros Hrun Ht.
  repeat match goal with
         | H : step _ _ _ |- _ => inversion H; subst; clear H
         | H : run ?p _ _ |- _ => tryif is_var p then fail else (inversion H; subst; clear H)
         end; simpl in *; try discriminate; tauto.
Qed.

(** The terminal runs from [Received]. *)
Lemma run_rejected : run Received [] Rejected.
Proof. apply (run_step _ None Rejected []); constructor. Qed.

Lemma run_crashed : run Received [] Failed.
Proof. apply (run_step _ None Failed []); constructor. Qed.

Lemma run_admin_failed : run Received [AdminCopy] Failed.
Proof.
  apply (run_step _ None Validated [AdminCopy]); [constructor|].
  apply (run_step _ (Some AdminCopy) Failed []); constructor.
Qed.

Lemma run_visitor_failed : run Received [AdminCopy; VisitorCopy] Failed.
Proof.
  apply (run_step _ None Validated [AdminCopy; VisitorCopy]); [constructor|].
  apply (run_step _ (Some AdminCopy) AdminSent [VisitorCopy]); [constructor|].
  apply (run_step _ (Some VisitorCopy) Failed []); constructor.
Qed.

Lemma run_succeeded : run Received [AdminCopy; VisitorCopy] Succeeded.
Proof.
  apply (run_step _ None Validated [AdminCopy; VisitorCopy]); [constructor|].
  apply (run_step _ (Some AdminCopy) AdminSent [VisitorCopy]); [constructor|].
  apply (run_step _ (Some VisitorCopy) VisitorSent []); [constructor|].
  apply (run_step _ None Succeeded []); constructor.
Qed.

(** Each outcome is the end of a terminal run. *)
Lemma outcome_run p ks : terminal_outcome p ks -> run Received ks p /\ terminal p = true.
Proof.
  intros [[-> ->]|[[-> ->]|[[-> ->]|[[-> ->]|[-> ->]]]]]; (split; [|reflexivity]);
    auto using run_rejected, run_crashed, run_admin_failed, run_visitor_failed, run_succeeded.
Qed.

(** Only a run that sent both mails ends in [Succeeded]. *)
Lemma outcome_status_200 p ks : terminal_outcome p ks -> status_of p = 200 -> ks = [AdminCopy; VisitorCopy].
Proof. by intros [[-> ->]|[[-> ->]|[[-> ->]|[[-> ->]|[-> ->]]]]]. Qed.

End Contract.
