(* ===== verification/Gateway.v ===== *)
(** * The handlers implement the contract

    [sendContactEmail_refines] and [handler_refines] show that every run of
    the two handlers of [Handlers] is a terminal run of [Contract]: same
    status, and the mails of the run sent in order, over any transport with
    the laws of [MailTransportLaws].  The corollaries pin down each outcome
    (a failed first send stops the second, a rejection has no effect, a
    field whose [String] throws stops both sends, a method other than POST
    has no effect, a missing SMTP variable is found after validation), and
    the section on error exposure shows when the error's message reaches
    the client.  The witnesses run the handlers on [oracle_world]. *)

From stdpp Require Import gmap.
From S2P Require Import Prelude JsValue Regex Validation Transport Templates Config Handlers Contract.

Local Open Scope portfolio_scope.

(** ** The mails of a contract step *)

(** The mail a contract step sends, as [sendContactEmail] builds it. *)
Definition server_mail `{MailTransport W} (cx : context) (body : jvalue)
    (k : Contract.mail_kind) : mail_options :=
  let n := get_prop body k_name in
  let e := get_prop body k_email in
  let s := get_prop body k_subject in
  let m := get_prop body k_message in
  match k with
  | Contract.AdminCopy => ServerRoutes.adminMailOptions cx n e s m
  | Contract.VisitorCopy => ServerRoutes.visitorMailOptions cx n e s m
  end.

(** Whether building the admin's mail options throws, on a body. *)
Definition interp_error (body : jvalue) : option js_error :=
  admin_interpolation (get_prop body k_name) (get_prop body k_email)
    (get_prop body k_subject) (get_prop body k_message).

Definition api_body (req : request) : jvalue :=
  match req_body req with Some v => v | None => JObj [] end.

(** The mail a contract step sends, as [handler] builds it. *)
Definition api_mail `{MailTransport W} (cx : context) (v : jvalue)
    (k : Contract.mail_kind) : mail_options :=
  let n := get_prop v k_name in
  let e := get_prop v k_email in
  let s := get_prop v k_subject in
  let m := get_prop v k_message in
  match k with
  | Contract.AdminCopy => ApiContact.adminMailOptions cx n e s m
  | Contract.VisitorCopy => ApiContact.visitorMailOptions cx n e s m
  end.

(** The [error] member of a response body, as the client reads it. *)
Definition error_field (r : response) : jprop := lookup_last (u16 "error") (res_json r).

(** ** Concrete inputs *)

(** An environment with every variable the code reads, and a clock. *)
Definition demo_env : env :=
  <["SMTP_HOST" := u16 "smtp.gmail.com"]> (<["SMTP_PORT" := u16 "587"]>
  (<["SMTP_USER" := u16 "owner@example.com"]> (<["SMTP_PASS" := u16 "app password"]>
  (<["SMTP_FROM_NAME" := u16 "Vishal"]> (<["SMTP_FROM_EMAIL" := u16 "owner@example.com"]>
  (<["CONTACT_RECIPIENT_EMAIL" := u16 "owner@example.com"]>
  (<["NODE_ENV" := u16 "production"]> ∅))))))).

Definition demo_cx : context := {| cx_env := demo_env; cx_now := u16 "1/2/2026, 10:00:00 AM" |}.

Definition smtp_error : js_error :=
  {| err_name := u16 "Error"; err_message := u16 "Invalid login: 535 Authentication failed" |}.

(** A transport whose sends all resolve, and one whose [n]-th send rejects. *)
Definition world_ok : oracle_world := {| ow_trace := []; ow_fail := fun _ => None |}.
Definition world_fail_at (n : nat) : oracle_world :=
  {| ow_trace := []; ow_fail := fun k => if Nat.eqb k n then Some smtp_error else None |}.

(** The spec's second example: a malformed address. *)
Definition bob_body : jvalue :=
  JObj [(k_name, JStr (u16 "Bob")); (k_email, JStr (u16 "not-an-email"));
        (k_subject, JStr (u16 "Hi")); (k_message, JStr (u16 "Loved your site!"))].

Definition ada_req : request := {| req_method := u16 "POST"; req_body := Some ada_body |}.
Definition bob_req : request := {| req_method := u16 "POST"; req_body := Some bob_body |}.
Definition get_req : request := {| req_method := u16 "GET"; req_body := None |}.

(** The deployment with [SMTP_PASS] unset. *)
Definition no_pass_cx : context :=
  {| cx_env := delete "SMTP_PASS" demo_env; cx_now := cx_now demo_cx |}.

(** ** [sendContactEmail] implements the contract *)

Section ServerRuns.
Context `{Hlaws : MailTransportLaws W}.

(** [sendContactEmail] step by step: the verdict, then each awaited send. *)
Lemma sendContactEmail_unfold cx body w :
  ServerRoutes.sendContactEmail cx body w =
  match Server.checks body with
  | Invalid msg => (inl (reply 400 (envelope false msg None)), w)
  | Throws e => ServerRoutes.contactCatch cx e w
  | Valid =>
      match interp_error body with
      | Some e => ServerRoutes.contactCatch cx e w
      | None =>
      match send_mail (server_mail cx body Contract.AdminCopy) w with
      | (Some e, w1) => ServerRoutes.contactCatch cx e w1
      | (None, w1) =>
          match send_mail (server_mail cx body Contract.VisitorCopy)
                  (console (ELog (log_admin_sent (get_prop body k_email))) w1) with
          | (Some e, w3) => ServerRoutes.contactCatch cx e w3
          | (None, w3) => (inl (reply 200 (envelope true msg_sent None)),
                           console (ELog (log_visitor_sent (get_prop body k_email))) w3)
          end
      end
      end
  end.
Proof.
  unfold ServerRoutes.sendContactEmail, try_catch.
  destruct (Server.checks body); [|reflexivity|reflexivity].
  unfold interp_error. destruct (admin_interpolation _ _ _ _); [reflexivity|].
  unfold bind, sendMail, console_log, ret. simpl.
  destruct (send_mail _ w) as [[e|] w1]; [reflexivity|].
  destruct (send_mail _ _) as [[e|] w3]; reflexivity.
Qed.

Lemma contactCatch_status cx e w :
  exists resp, fst (ServerRoutes.contactCatch cx e w) = inl resp /\ res_status resp = 500 /\
  trace (snd (ServerRoutes.contactCatch cx e w)) = trace w ++ [EError (u16 "❌ Email sending error:") e].
Proof. eexists. split; [reflexivity|]. split; [reflexivity|]. apply console_trace. Qed.

(** The outcome of a run of [sendContactEmail], as a row of the contract's
    table of terminal runs. *)
Lemma sendContactEmail_outcome cx body w :
  exists p ks resp,
    Contract.terminal_outcome p ks /\
    fst (ServerRoutes.sendContactEmail cx body w) = inl resp /\
    res_status resp = Contract.status_of p /\
    sends (trace (snd (ServerRoutes.sendContactEmail cx body w))) =
      sends (trace w) ++ map (server_mail cx body) ks.
Proof.
  unfold Contract.terminal_outcome.
  rewrite sendContactEmail_unfold. destruct (Server.checks body) as [|msg|e].
  - destruct (interp_error body) as [e|].
    { destruct (contactCatch_status cx e w) as (resp & Hr & Hs & Ht).
      exists Contract.Failed, [], resp. do 3 (split; [tauto|]). rewrite Ht. world_trace. done. }
    destruct (send_mail _ w) as [[e|] w1] eqn:E1.
    + destruct (contactCatch_status cx e w1) as (resp & Hr & Hs & Ht).
      exists Contract.Failed, [Contract.AdminCopy], resp.
      do 3 (split; [tauto|]). rewrite Ht. world_trace. done.
    + destruct (send_mail (server_mail cx body Contract.VisitorCopy)
                  (console (ELog (log_admin_sent (get_prop body k_email))) w1))
        as [[e|] w3] eqn:E3.
      * destruct (contactCatch_status cx e w3) as (resp & Hr & Hs & Ht).
        exists Contract.Failed, [Contract.AdminCopy; Contract.VisitorCopy], resp.
        do 3 (split; [tauto|]). rewrite Ht. world_trace. done.
      * exists Contract.Succeeded, [Contract.AdminCopy; Contract.VisitorCopy].
        eexists. do 3 (split; [tauto|]). world_trace. done.
  - exists Contract.Rejected, [], (reply 400 (envelope false msg None)).
    do 3 (split; [tauto|]). by rewrite app_nil_r.
  - destruct (contactCatch_status cx e w) as (resp & Hr & Hs & Ht).
    exists Contract.Failed, [], resp. do 3 (split; [tauto|]). rewrite Ht. world_trace. done.
Qed.

(** C1: Every run of [sendContactEmail] is a terminal run of the contract: it
    answers with the phase's status and sends the mails of the run, in
    order, and nothing else. *)
Theorem sendContactEmail_refines cx body w :
  exists p ks resp,
    Contract.run Contract.Received ks p /\ Contract.terminal p = true /\
    fst (ServerRoutes.sendContactEmail cx body w) = inl resp /\
    res_status resp = Contract.status_of p /\
    sends (trace (snd (ServerRoutes.sendContactEmail cx body w))) =
      sends (trace w) ++ map (server_mail cx body) ks.
Proof.
  destruct (sendContactEmail_outcome cx body w) as (p & ks & resp & Ho & Hrest).
  destruct (Contract.outcome_run _ _ Ho). by exists p, ks, resp.
Qed.

(** A rejected admin copy: 500, and the visitor copy is never attempted. *)
Theorem sendContactEmail_first_send_fails cx body w e w1 :
  Server.checks body = Valid -> interp_error body = None ->
  send_mail (server_mail cx body Contract.AdminCopy) w = (Some e, w1) ->
  exists resp, fst (ServerRoutes.sendContactEmail cx body w) = inl resp /\ res_status resp = 500 /\
    sends (trace (snd (ServerRoutes.sendContactEmail cx body w))) =
      sends (trace w) ++ [server_mail cx body Contract.AdminCopy].
Proof.
  intros Hc Hi E1. rewrite sendContactEmail_unfold, Hc, Hi, E1.
  destruct (contactCatch_status cx e w1) as (resp & Hr & Hs & Ht).
  exists resp. do 2 (split; [done|]). rewrite Ht. world_trace. done.
Qed.

(** C13: A rejected visitor copy after a delivered admin copy: still 500, with
    no compensation for the mail already sent. *)
Theorem sendContactEmail_second_send_fails cx body w w1 e w3 :
  Server.checks body = Valid -> interp_error body = None ->
  send_mail (server_mail cx body Contract.AdminCopy) w = (None, w1) ->
  send_mail (server_mail cx body Contract.VisitorCopy)
    (console (ELog (log_admin_sent (get_prop body k_email))) w1) = (Some e, w3) ->
  exists resp, fst (ServerRoutes.sendContactEmail cx body w) = inl resp /\ res_status resp = 500 /\
    sends (trace (snd (ServerRoutes.sendContactEmail cx body w))) =
      sends (trace w) ++ [server_mail cx body Contract.AdminCopy; server_mail cx body Contract.VisitorCopy].
Proof.
  intros Hc Hi E1 E3. rewrite sendContactEmail_unfold, Hc, Hi, E1, E3.
  destruct (contactCatch_status cx e w3) as (resp & Hr & Hs & Ht).
  exists resp. do 2 (split; [done|]). rewrite Ht. world_trace. done.
Qed.

(** C14: A rejected submission is answered 400 with the violated rule's message
    and leaves the world as it was: no mail, no console line. *)
Theorem sendContactEmail_rejects cx body w msg :
  Server.checks body = Invalid msg ->
  ServerRoutes.sendContactEmail cx body w = (inl (reply 400 (envelope false msg None)), w).
Proof. intros Hc. by rewrite sendContactEmail_unfold, Hc. Qed.

(** C8: A submission that passes the checks with a [name] or [subject] whose
    [String] throws (an object with an own [toString] member): building
    the admin's mail options throws, the [catch] logs the [TypeError] and
    answers 500, and no mail is sent. *)
Theorem sendContactEmail_field_throws cx body w :
  Server.checks body = Valid ->
  (prop_throws (get_prop body k_name) || prop_throws (get_prop body k_subject))%bool = true ->
  exists resp, fst (ServerRoutes.sendContactEmail cx body w) = inl resp /\ res_status resp = 500 /\
    trace (snd (ServerRoutes.sendContactEmail cx body w)) =
      trace w ++ [EError (u16 "❌ Email sending error:") to_primitive_error].
Proof.
  intros Hc Ht. rewrite sendContactEmail_unfold, Hc.
  assert (interp_error body = Some to_primitive_error) as ->.
  { unfold interp_error, admin_interpolation. cbn [existsb].
    apply orb_true_iff in Ht as [->|Ht]; [done|].
    rewrite Ht. by rewrite !orb_true_r. }
  apply contactCatch_status.
Qed.

End ServerRuns.

(** ** The serverless [handler] implements the contract *)

Section ApiRuns.
Context `{Hlaws : MailTransportLaws W}.

(** Any other method than POST is answered 405 with [Allow: POST], whatever
    the body, and nothing else happens. *)
Theorem handler_non_post cx req w :
  req_method req <> u16 "POST" ->
  ApiContact.handler cx req w =
  (inl {| res_status := 405; res_headers := [(u16 "Allow", [u16 "POST"])];
          res_json := envelope false (u16 "Method Not Allowed") None |}, w).
Proof.
  intros Hm. unfold ApiContact.handler. by rewrite bool_decide_eq_false_2.
Qed.

Lemma handlerCatch_status cx e w :
  exists resp, fst (ApiContact.handlerCatch cx e w) = inl resp /\ res_status resp = 500 /\
  sends (trace (snd (ApiContact.handlerCatch cx e w))) = sends (trace w).
Proof.
  unfold ApiContact.handlerCatch, bind, ret, console_error_text.
  destruct (ApiContact.isProd (cx_env cx)); eexists; (split; [reflexivity|]); (split; [reflexivity|]);
    [done|]. cbn [fst snd].
  rewrite (console_trace _ w), sends_app. simpl. by rewrite app_nil_r.
Qed.

Lemma validatePayload_undefined : validatePayload None = Invalid msg_required.
Proof. vm_compute. reflexivity. Qed.

(** [handler] on a POST, step by step: the body [validatePayload] accepts
    is an object, so the destructuring does not throw. *)
Lemma handler_unfold_post cx req w :
  req_method req = u16 "POST" ->
  ApiContact.handler cx req w =
  match validatePayload (req_body req) with
  | Invalid msg => (inl (reply 400 (envelope false msg None)), w)
  | Throws e => ApiContact.handlerCatch cx e w
  | Valid =>
      match createTransporter (cx_env cx) with
      | inr e => ApiContact.handlerCatch cx e w
      | inl _ =>
          match interp_error (api_body req) with
          | Some e => ApiContact.handlerCatch cx e w
          | None =>
          match send_mail (api_mail cx (api_body req) Contract.AdminCopy) w with
          | (Some e, w1) => ApiContact.handlerCatch cx e w1
          | (None, w1) =>
              match send_mail (api_mail cx (api_body req) Contract.VisitorCopy) w1 with
              | (Some e, w2) => ApiContact.handlerCatch cx e w2
              | (None, w2) => (inl (reply 200 (envelope true msg_sent None)), w2)
              end
          end
          end
      end
  end.
Proof.
  intros Hm. unfold ApiContact.handler. rewrite bool_decide_eq_true_2 by done.
  unfold negb, try_catch, api_body.
  destruct (req_body req) as [v|] eqn:Eb;
    [|rewrite validatePayload_undefined; reflexivity].
  destruct (validatePayload (Some v)); [|reflexivity|reflexivity].
  unfold ApiContact.destructure_body, bind, ret, throw, sendMail.
  destruct (createTransporter (cx_env cx)); [|reflexivity].
  unfold interp_error. destruct (admin_interpolation _ _ _ _); [reflexivity|].
  destruct (send_mail _ w) as [[e|] w1]; [reflexivity|].
  destruct (send_mail _ w1) as [[e|] w2]; reflexivity.
Qed.

(** The outcome of a POST run of [handler], as a row of the contract's
    table of terminal runs. *)
Lemma handler_outcome cx req w :
  req_method req = u16 "POST" ->
  exists p ks resp,
    Contract.terminal_outcome p ks /\
    fst (ApiContact.handler cx req w) = inl resp /\
    res_status resp = Contract.status_of p /\
    sends (trace (snd (ApiContact.handler cx req w))) =
      sends (trace w) ++ map (api_mail cx (api_body req)) ks.
Proof.
  intros Hm. unfold Contract.terminal_outcome. rewrite handler_unfold_post by done.
  destruct (validatePayload (req_body req)) as [|msg|e].
  - destruct (createTransporter (cx_env cx)) as [tc|e].
    2:{ destruct (handlerCatch_status cx e w) as (resp & Hr & Hs & Ht).
        exists Contract.Failed, [], resp. do 3 (split; [tauto|]). by rewrite Ht, app_nil_r. }
    destruct (interp_error (api_body req)) as [e|].
    { destruct (handlerCatch_status cx e w) as (resp & Hr & Hs & Ht).
      exists Contract.Failed, [], resp. do 3 (split; [tauto|]). by rewrite Ht, app_nil_r. }
    destruct (send_mail _ w) as [[e|] w1] eqn:E1.
    + destruct (handlerCatch_status cx e w1) as (resp & Hr & Hs & Ht).
      exists Contract.Failed, [Contract.AdminCopy], resp.
      do 3 (split; [tauto|]). rewrite Ht. world_trace. done.
    + destruct (send_mail (api_mail cx (api_body req) Contract.VisitorCopy) w1)
        as [[e|] w2] eqn:E2.
      * destruct (handlerCatch_status cx e w2) as (resp & Hr & Hs & Ht).
        exists Contract.Failed, [Contract.AdminCopy; Contract.VisitorCopy], resp.
        do 3 (split; [tauto|]). rewrite Ht. world_trace. done.
      * exists Contract.Succeeded, [Contract.AdminCopy; Contract.VisitorCopy].
        eexists. do 3 (split; [tauto|]). world_trace. done.
  - exists Contract.Rejected, [], (reply 400 (envelope false msg None)).
    do 3 (split; [tauto|]). by rewrite app_nil_r.
  - destruct (handlerCatch_status cx e w) as (resp & Hr & Hs & Ht).
    exists Contract.Failed, [], resp. do 3 (split; [tauto|]). by rewrite Ht, app_nil_r.
Qed.

(** C2: Every POST run of [handler] is a terminal run of the contract: it
    answers with the phase's status and sends the mails of the run, in
    order, and nothing else. *)
Theorem handler_refines cx req w :
  req_method req = u16 "POST" ->
  exists p ks resp,
    Contract.run Contract.Received ks p /\ Contract.terminal p = true /\
    fst (ApiContact.handler cx req w) = inl resp /\
    res_status resp = Contract.status_of p /\
    sends (trace (snd (ApiContact.handler cx req w))) =
      sends (trace w) ++ map (api_mail cx (api_body req)) ks.
Proof.
  intros Hm. destruct (handler_outcome cx req w Hm) as (p & ks & resp & Ho & Hrest).
  destruct (Contract.outcome_run _ _ Ho). by exists p, ks, resp.
Qed.

(** C15: A missing SMTP variable is found only after the submission has
    been validated: a valid submission fails with 500 and no mail is sent,
    and a rejected one is still answered 400 with the rule's message,
    leaving the world as it was. *)
Theorem handler_env_missing cx req w e :
  req_method req = u16 "POST" -> validateEnv (cx_env cx) = Some e ->
  (validatePayload (req_body req) = Valid ->
   exists resp, fst (ApiContact.handler cx req w) = inl resp /\ res_status resp = 500 /\
     sends (trace (snd (ApiContact.handler cx req w))) = sends (trace w)) /\
  (forall msg, validatePayload (req_body req) = Invalid msg ->
   ApiContact.handler cx req w = (inl (reply 400 (envelope false msg None)), w)).
Proof.
  intros Hm He. rewrite handler_unfold_post by done. split.
  - intros ->. unfold createTransporter. rewrite He. apply handlerCatch_status.
  - by intros msg ->.
Qed.

End ApiRuns.

(** ** What the client learns of an error *)

Lemma envelope_error_field b m e :
  lookup_last (u16 "error") (envelope b m e) = option_map JStr e.
Proof. unfold envelope. rewrite lookup_last_app. destruct e; vm_compute; reflexivity. Qed.

Section Exposure.
Context `{Hlaws : MailTransportLaws W}.

(** The answers [sendContactEmail] can give. *)
Lemma sendContactEmail_responses cx body w resp :
  fst (ServerRoutes.sendContactEmail cx body w) = inl resp ->
  (exists msg, resp = reply 400 (envelope false msg None)) \/
  resp = reply 200 (envelope true msg_sent None) \/
  exists e, resp = reply 500 (envelope false msg_send_failed
                 (if env_is (cx_env cx) "NODE_ENV" "development" then Some (err_message e) else None)).
Proof.
  rewrite sendContactEmail_unfold.
  destruct (Server.checks body) as [|msg|e]; cbn [fst]; intros Hr.
  - destruct (interp_error body) as [e|]; [injection Hr as <-; eauto|].
    destruct (send_mail _ w) as [[e|] w1]; [injection Hr as <-; eauto|].
    destruct (send_mail _ _) as [[e|] w3]; injection Hr as <-; eauto.
  - injection Hr as <-; eauto.
  - injection Hr as <-; eauto.
Qed.

(** The answers [handler] can give. *)
Lemma handler_responses cx req w resp :
  fst (ApiContact.handler cx req w) = inl resp ->
  resp = {| res_status := 405; res_headers := [(u16 "Allow", [u16 "POST"])];
            res_json := envelope false (u16 "Method Not Allowed") None |} \/
  (exists msg, resp = reply 400 (envelope false msg None)) \/
  resp = reply 200 (envelope true msg_sent None) \/
  exists e, resp = reply 500 (envelope false msg_send_failed
                 (if ApiContact.isProd (cx_env cx) then None else Some (err_message e))).
Proof.
  destruct (decide (req_method req = u16 "POST")) as [Hm|Hm].
  2:{ unfold ApiContact.handler. rewrite bool_decide_eq_false_2 by done.
      intros Hr. injection Hr as <-. by left. }
  unfold ApiContact.handlerCatch, bind, ret, console_error_text.
  rewrite handler_unfold_post by done.
  unfold ApiContact.handlerCatch, bind, ret, console_error_text.
  destruct (validatePayload (req_body req)) as [|msg|e]; cbn [fst]; intros Hr.
  - destruct (createTransporter _); [|destruct (ApiContact.isProd _); injection Hr as <-; eauto 10].
    destruct (interp_error _); [destruct (ApiContact.isProd _); injection Hr as <-; eauto 10|].
    destruct (send_mail _ w) as [[e|] w1];
      [destruct (ApiContact.isProd _); injection Hr as <-; eauto 10|].
    destruct (send_mail _ w1) as [[e|] w2];
      [destruct (ApiContact.isProd _)|]; injection Hr as <-; eauto 10.
  - injection Hr as <-; eauto.
  - destruct (ApiContact.isProd _); injection Hr as <-; eauto 10.
Qed.

(** C17: The Express server tells the client the error's message only in a
    500 answer, and only when [NODE_ENV] is ["development"]. *)
Theorem sendContactEmail_error_exposure cx body w resp :
  fst (ServerRoutes.sendContactEmail cx body w) = inl resp ->
  (is_Some (error_field resp) <->
   res_status resp = 500 /\ env_is (cx_env cx) "NODE_ENV" "development" = true).
Proof.
  intros Hr. unfold error_field.
  destruct (sendContactEmail_responses _ _ _ _ Hr) as [[msg ->]|[->|[e ->]]];
    cbn [res_json res_status reply]; rewrite envelope_error_field;
    [ | | destruct (env_is _ _ _)]; rewrite is_Some_alt; cbn; intuition congruence.
Qed.

(** The serverless function tells the client the error's message exactly
    in its 500 answers outside production. *)
Theorem handler_error_exposure cx req w resp :
  fst (ApiContact.handler cx req w) = inl resp ->
  (is_Some (error_field resp) <->
   res_status resp = 500 /\ ApiContact.isProd (cx_env cx) = false).
Proof.
  intros Hr. unfold error_field.
  destruct (handler_responses _ _ _ _ Hr) as [->|[[msg ->]|[->|[e ->]]]];
    cbn [res_json res_status reply]; rewrite envelope_error_field;
    [| | | destruct (ApiContact.isProd _)]; rewrite is_Some_alt; cbn; intuition congruence.
Qed.

(** [sendTestEmail] sends the test mail once, whatever happens; it answers
    200 when the send resolves, and otherwise 500 with the error's message,
    in production too. *)
Theorem sendTestEmail_spec cx w :
  sends (trace (snd (ServerRoutes.sendTestEmail cx w))) =
    sends (trace w) ++ [ServerRoutes.testMailOptions cx] /\
  fst (ServerRoutes.sendTestEmail cx w) =
    inl (match fst (send_mail (ServerRoutes.testMailOptions cx) w) with
         | None => reply 200 (envelope true (u16 "✅ Test email sent successfully! Check your inbox.") None)
         | Some e => reply 500 (envelope false (u16 "Failed to send test email") (Some (err_message e)))
         end).
Proof.
  unfold ServerRoutes.sendTestEmail, try_catch, bind, ret, sendMail, console_error.
  destruct (send_mail _ w) as [[e|] w1] eqn:E; world_trace; done.
Qed.

End Exposure.

(** ** The submission in the mail bodies *)

(** Both deployments put the submitted [message] into the admin copy's
    HTML exactly as it was sent: no escaping, so markup in a message is
    markup in the mail. *)
Theorem admin_html_embeds_message cx n e s m :
  (exists a b, mo_html (ServerRoutes.adminMailOptions cx n e s m) = a ++ prop_to_string m ++ b) /\
  (exists a b, mo_html (ApiContact.adminMailOptions cx n e s m) = a ++ prop_to_string m ++ b).
Proof.
  split; apply (render_hole _ HMessage (hole_values cx n e s m)); vm_compute; intuition.
Qed.

(** ** Witnesses on the reference transport *)

Lemma sendContactEmail_first_send_fails_witness :
  exists resp, fst (ServerRoutes.sendContactEmail demo_cx ada_body (world_fail_at 0)) = inl resp /\
    res_status resp = 500 /\
    sends (trace (snd (ServerRoutes.sendContactEmail demo_cx ada_body (world_fail_at 0)))) =
      sends (trace (world_fail_at 0)) ++ [server_mail demo_cx ada_body Contract.AdminCopy].
Proof.
  apply (sendContactEmail_first_send_fails demo_cx ada_body (world_fail_at 0) smtp_error
           {| ow_trace := [ESend (server_mail demo_cx ada_body Contract.AdminCopy)];
              ow_fail := ow_fail (world_fail_at 0) |}); vm_compute; reflexivity.
Defined.

Lemma sendContactEmail_second_send_fails_witness :
  exists resp, fst (ServerRoutes.sendContactEmail demo_cx ada_body (world_fail_at 1)) = inl resp /\
    res_status resp = 500 /\
    sends (trace (snd (ServerRoutes.sendContactEmail demo_cx ada_body (world_fail_at 1)))) =
      sends (trace (world_fail_at 1)) ++
      [server_mail demo_cx ada_body Contract.AdminCopy; server_mail demo_cx ada_body Contract.VisitorCopy].
Proof.
  apply (sendContactEmail_second_send_fails demo_cx ada_body (world_fail_at 1)
           {| ow_trace := [ESend (server_mail demo_cx ada_body Contract.AdminCopy)];
              ow_fail := ow_fail (world_fail_at 1) |} smtp_error
           {| ow_trace := [ESend (server_mail demo_cx ada_body Contract.AdminCopy);
                           ELog (log_admin_sent (get_prop ada_body k_email));
                           ESend (server_mail demo_cx ada_body Contract.VisitorCopy)];
              ow_fail := ow_fail (world_fail_at 1) |}); vm_compute; reflexivity.
Defined.

Lemma sendContactEmail_rejects_witness :
  ServerRoutes.sendContactEmail demo_cx bob_body world_ok =
    (inl (reply 400 (envelope false msg_bad_email None)), world_ok).
Proof. apply sendContactEmail_rejects. vm_compute. reflexivity. Defined.


(** Ada's submission with an object as [subject]. *)
Definition object_subject_body : jvalue :=
  JObj [(k_name, JStr (u16 "Ada")); (k_email, JStr (u16 "ada@example.com"));
        (k_subject, JObj [(u16 "toString", JStr (u16 "Hi"))]);
        (k_message, JStr (u16 "Loved your site!"))].

Lemma sendContactEmail_field_throws_witness :
  exists resp, fst (ServerRoutes.sendContactEmail demo_cx object_subject_body world_ok) = inl resp /\
    res_status resp = 500 /\
    trace (snd (ServerRoutes.sendContactEmail demo_cx object_subject_body world_ok)) =
      trace world_ok ++ [EError (u16 "❌ Email sending error:") to_primitive_error].
Proof.
  apply (sendContactEmail_field_throws demo_cx object_subject_body world_ok);
    vm_compute; reflexivity.
Defined.

Lemma handler_non_post_witness :
  u16 "GET" <> u16 "POST" /\
  ApiContact.handler demo_cx get_req world_ok =
  (inl {| res_status := 405; res_headers := [(u16 "Allow", [u16 "POST"])];
          res_json := envelope false (u16 "Method Not Allowed") None |}, world_ok).
Proof.
  assert (Hm : u16 "GET" <> u16 "POST") by (vm_compute; discriminate).
  split; [exact Hm|]. exact (handler_non_post demo_cx get_req world_ok Hm).
Defined.

Lemma handler_refines_witness :
  exists p ks resp,
    Contract.run Contract.Received ks p /\ Contract.terminal p = true /\
    fst (ApiContact.handler demo_cx ada_req world_ok) = inl resp /\
    res_status resp = Contract.status_of p /\
    sends (trace (snd (ApiContact.handler demo_cx ada_req world_ok))) =
      sends (trace world_ok) ++ map (api_mail demo_cx (api_body ada_req)) ks.
Proof. apply (handler_refines demo_cx ada_req world_ok). reflexivity. Defined.

Lemma handler_env_missing_witness :
  (exists resp, fst (ApiContact.handler no_pass_cx ada_req world_ok) = inl resp /\
    res_status resp = 500 /\
    sends (trace (snd (ApiContact.handler no_pass_cx ada_req world_ok))) = sends (trace world_ok)) /\
  ApiContact.handler no_pass_cx bob_req world_ok =
    (inl (reply 400 (envelope false msg_bad_email None)), world_ok).
Proof.
  assert (He : validateEnv (cx_env no_pass_cx) =
               Some {| err_name := u16 "Error"; err_message := u16 "Missing SMTP env vars: SMTP_PASS" |})
    by (vm_compute; reflexivity).
  split.
  - apply (proj1 (handler_env_missing no_pass_cx ada_req world_ok _ eq_refl He)).
    vm_compute. reflexivity.
  - apply (proj2 (handler_env_missing no_pass_cx bob_req world_ok _ eq_refl He)).
    vm_compute. reflexivity.
Defined.

Lemma sendContactEmail_error_exposure_witness :
  exists resp, fst (ServerRoutes.sendContactEmail demo_cx ada_body (world_fail_at 0)) = inl resp /\
  (is_Some (error_field resp) <->
   res_status resp = 500 /\ env_is (cx_env demo_cx) "NODE_ENV" "development" = true).
Proof.
  eexists. split; [vm_compute; reflexivity|].
  apply (sendContactEmail_error_exposure demo_cx ada_body (world_fail_at 0)).
  vm_compute. reflexivity.
Defined.

Lemma handler_error_exposure_witness :
  exists resp, fst (ApiContact.handler demo_cx ada_req (world_fail_at 1)) = inl resp /\
  (is_Some (error_field resp) <->
   res_status resp = 500 /\ ApiContact.isProd (cx_env demo_cx) = false).
Proof.
  eexists. split; [vm_compute; reflexivity|].
  apply (handler_error_exposure demo_cx ada_req (world_fail_at 1)).
  vm_compute. reflexivity.
Defined.

Lemma sendContactEmail_refines_witness :
  exists p ks resp,
    Contract.run Contract.Received ks p /\ Contract.terminal p = true /\
    fst (ServerRoutes.sendContactEmail demo_cx ada_body world_ok) = inl resp /\
    res_status resp = Contract.status_of p /\
    sends (trace (snd (ServerRoutes.sendContactEmail demo_cx ada_body world_ok))) =
      sends (trace world_ok) ++ map (server_mail demo_cx ada_body) ks.
Proof. exact (sendContactEmail_refines demo_cx ada_body world_ok). Defined.

Lemma sendTestEmail_spec_witness :
  sends (trace (snd (ServerRoutes.sendTestEmail demo_cx (world_fail_at 0)))) =
    sends (trace (world_fail_at 0)) ++ [ServerRoutes.testMailOptions demo_cx] /\
  fst (ServerRoutes.sendTestEmail demo_cx (world_fail_at 0)) =
    inl (match fst (send_mail (ServerRoutes.testMailOptions demo_cx) (world_fail_at 0)) with
         | None => reply 200 (envelope true (u16 "✅ Test email sent successfully! Check your inbox.") None)
         | Some e => reply 500 (envelope false (u16 "Failed to send test email") (Some (err_message e)))
         end).
Proof. exact (sendTestEmail_spec demo_cx (world_fail_at 0)). Defined.
