(* ===== verification/Helpers.v ===== *)
(** * The browser helpers: src/src/utils/helpers.js

    [debounce] and [throttle] wrap a function in a closure with one timer
    variable; here a wrapped function is run on a time-ordered list of
    calls (time in milliseconds, arguments), a timer due at or before the
    time of a call having fired before that call runs.  [debounce]
    returns the calls of [func] it makes, [throttle] the calls it lets
    through with their times.  The numeric helpers work on JavaScript
    numbers ([jsnum] of [Config]: exact rationals, the infinities and
    NaN), [randomColor] on the integer [Math.floor(Math.random() *
    16777215)] it formats, and [useWindowSize] (src/src/hooks/useWindowSize.js)
    is the client of [throttle].  [isInViewport], [hasWebGLSupport] and
    [preloadImages] ([Dom]) take what the browser answers as inputs: the
    bounding rectangle and window sizes, what [getContext] does, the
    image load events with the times they fire. *)

From Stdlib Require Import QArith Qround Lqa.
From S2P Require Import Prelude JsValue Config.

(** ** Timers *)

Module Debounce.

(** [debounce(func, wait)] on calls at times [t1 <= t2 <= ...]:
    [pending] is the timeout [later] is scheduled on (its due time and the
    arguments it calls [func] with).  Each call clears it and schedules a
    new one; the last one fires after the last call. *)
Fixpoint run {A} (wait : Z) (pending : option (Z * A)) (cs : list (Z * A)) : list A :=
  match cs with
  | [] => match pending with Some (_, a) => [a] | None => [] end
  | (t, a) :: rest =>
      let fired := match pending with
                   | Some (due, a0) => if due <=? t then [a0] else []
                   | None => []
                   end in
      fired ++ run wait (Some (t + wait, a)) rest
  end.

Definition debounce {A} (wait : Z) (cs : list (Z * A)) : list A := run wait None cs.

(** What a debounced function is meant to do: call [func] with the
    arguments of each call that is followed by [wait] ms of quiet. *)
Fixpoint quiet_calls {A} (wait : Z) (cs : list (Z * A)) : list A :=
  match cs with
  | [] => []
  | [(_, a)] => [a]
  | (t, a) :: (((t', _) :: _) as rest) => (if t + wait <=? t' then [a] else []) ++ quiet_calls wait rest
  end.

End Debounce.

Module Throttle.

(** [throttle(func, limit)]: [until] is when the timeout resets
    [inThrottle]; a call while it is set is dropped, otherwise it runs and
    sets it for [limit] ms.  The calls that ran, with their times. *)
Fixpoint run {A} (limit : Z) (until : option Z) (cs : list (Z * A)) : list (Z * A) :=
  match cs with
  | [] => []
  | (t, a) :: rest =>
      let inThrottle := match until with Some u => t <? u | None => false end in
      if inThrottle then run limit until rest
      else (t, a) :: run limit (Some (t + limit)) rest
  end.

Definition throttle {A} (limit : Z) (cs : list (Z * A)) : list (Z * A) := run limit None cs.

(** Consecutive calls at least [limit] apart. *)
Fixpoint spaced {A} (limit : Z) (cs : list (Z * A)) : Prop :=
  match cs with
  | (t, _) :: (((t', _) :: _) as rest) => t + limit <= t' /\ spaced limit rest
  | _ => True
  end.

End Throttle.

(** Time-ordered calls. *)
Fixpoint ordered {A} (cs : list (Z * A)) : Prop :=
  match cs with
  | (t, _) :: (((t', _) :: _) as rest) => t <= t' /\ ordered rest
  | _ => True
  end.

(** ** [useWindowSize] *)

Module WindowSize.

Record size := { width : Z; height : Z }.

(** The hook's value: the state and the three flags, lines 28-33. *)
Record hook_value := { hv_size : size; isMobile : bool; isTablet : bool; isDesktop : bool }.

Definition value_of (s : size) : hook_value :=
  {| hv_size := s; isMobile := width s <? 768;
     isTablet := (768 <=? width s) && (width s <? 1024); isDesktop := 1024 <=? width s |}.

(** The state after the mount call of [handleResize] (line 23) and the
    [resize] events after it, each with the window's size when it
    happens: the throttled [handleResize] (lines 15-20) reads the size
    when it runs. *)
Definition state_after (mount : Z * size) (resizes : list (Z * size)) : size :=
  match List.last (Throttle.throttle 200 (mount :: resizes)) mount with (_, s) => s end.

End WindowSize.

(** ** Numbers *)

Module JsMath.

Definition is_nan (x : jsnum) : bool := match x with NNaN => true | _ => false end.

(** [x < y], false when either is NaN. *)
Definition lt (x y : jsnum) : bool :=
  match x, y with
  | NNaN, _ | _, NNaN => false
  | NFin a, NFin b => negb (Qle_bool b a)
  | NNegInf, NNegInf | NPosInf, _ => false
  | NNegInf, _ | _, NPosInf => true
  | _, NNegInf => false
  end.

(** [Math.max(x, y)] and [Math.min(x, y)]: NaN if either is. *)
Definition max (x y : jsnum) : jsnum :=
  if is_nan x || is_nan y then NNaN else if lt x y then y else x.
Definition min (x y : jsnum) : jsnum :=
  if is_nan x || is_nan y then NNaN else if lt y x then y else x.

Definition add (x y : jsnum) : jsnum :=
  match x, y with
  | NNaN, _ | _, NNaN | NPosInf, NNegInf | NNegInf, NPosInf => NNaN
  | NPosInf, _ | _, NPosInf => NPosInf
  | NNegInf, _ | _, NNegInf => NNegInf
  | NFin a, NFin b => NFin (a + b)
  end.

Definition neg (x : jsnum) : jsnum :=
  match x with NFin a => NFin (- a) | NPosInf => NNegInf | NNegInf => NPosInf | NNaN => NNaN end.

Definition sub (x y : jsnum) : jsnum := add x (neg y).

(** The sign of a non-NaN number: [Gt], [Eq] or [Lt] against 0. *)
Definition sign (x : jsnum) : comparison :=
  match x with NFin a => (a ?= 0)%Q | NPosInf => Gt | NNegInf => Lt | NNaN => Eq end.

Definition inf_of (c : comparison) : jsnum :=
  match c with Gt => NPosInf | Lt => NNegInf | Eq => NNaN end.

Definition sign_mul (c d : comparison) : comparison :=
  match c, d with Eq, _ | _, Eq => Eq | Gt, Gt | Lt, Lt => Gt | _, _ => Lt end.

Definition mul (x y : jsnum) : jsnum :=
  match x, y with
  | NNaN, _ | _, NNaN => NNaN
  | NFin a, NFin b => NFin (a * b)
  | _, _ => inf_of (sign_mul (sign x) (sign y))
  end.

(** [x / y]; a zero divisor is [+0] (the code never divides by [-0]). *)
Definition div (x y : jsnum) : jsnum :=
  match x, y with
  | NNaN, _ | _, NNaN => NNaN
  | NFin a, NFin b => if Qeq_bool b 0 then inf_of (sign x) else NFin (a / b)
  | NFin _, _ => NFin 0
  | _, NFin b => inf_of (sign_mul (sign x) (if Qeq_bool b 0 then Gt else sign y))
  | _, _ => NNaN
  end.

(** [x || y] on numbers: [0] and NaN are falsy. *)
Definition or_else (x y : jsnum) : jsnum :=
  match x with NNaN => y | NFin a => if Qeq_bool a 0 then y else x | _ => x end.

End JsMath.

(** [clamp(value, min, max)], lines 51-53. *)
Definition clamp (value lo hi : jsnum) : jsnum := JsMath.min (JsMath.max value lo) hi.

(** [lerp(start, end, factor)], lines 56-58. *)
Definition lerp (start stop factor : jsnum) : jsnum :=
  JsMath.add start (JsMath.mul (JsMath.sub stop start) factor).

(** [getScrollProgress()], lines 90-94, given [document.body.scrollTop],
    [document.documentElement.scrollTop], [scrollHeight] and
    [clientHeight]. *)
Definition getScrollProgress (bodyTop docTop scrollHeight clientHeight : jsnum) : jsnum :=
  let winScroll := JsMath.or_else bodyTop docTop in
  let height := JsMath.sub scrollHeight clientHeight in
  JsMath.div winScroll height.

(** [randomColor()], lines 72-74: [Math.floor(Math.random() * 16777215)]
    printed in base 16, with no padding. *)
Definition hex_digit (d : Z) : Z := if d <? 10 then 48 + d else 87 + d.

Fixpoint to_hex_rev (fuel : nat) (n : Z) : list Z :=
  match fuel with
  | O => []
  | S f => hex_digit (n mod 16) :: (if n <? 16 then [] else to_hex_rev f (n / 16))
  end.

(** [n.toString(16)] for [0 <= n < 16^8]. *)
Definition to_hex (n : Z) : jstr := rev (to_hex_rev 8 n).

Definition color_index (r : Q) : Z := Qfloor (r * inject_Z 16777215).

Definition randomColor (r : Q) : jstr := u16 "#" ++ to_hex (color_index r).

(** ** The DOM helpers, on what the browser answers *)

Module Dom.

(** [a >= b] and [a <= b]: false when either is NaN. *)
Definition ge (a b : jsnum) : bool := negb (JsMath.is_nan a || JsMath.is_nan b) && negb (JsMath.lt a b).
Definition le (a b : jsnum) : bool := ge b a.

Record rect := { r_top : jsnum; r_left : jsnum; r_bottom : jsnum; r_right : jsnum }.

(** [isInViewport(element)], lines 61-69, given the element's bounding
    rectangle, [window.innerHeight], [window.innerWidth] and the
    document element's [clientHeight] and [clientWidth]. *)
Definition isInViewport (r : rect) (innerHeight innerWidth clientHeight clientWidth : jsnum) : bool :=
  ge (r_top r) (NFin 0) && ge (r_left r) (NFin 0)
  && le (r_bottom r) (JsMath.or_else innerHeight clientHeight)
  && le (r_right r) (JsMath.or_else innerWidth clientWidth).

(** What [canvas.getContext(kind)] does: a context, [null], or a throw. *)
Inductive context := CtxObject | CtxNull | CtxThrows.

Record webgl_env := {
  createElement_throws : bool;
  has_WebGLRenderingContext : bool;   (** [window.WebGLRenderingContext] is truthy *)
  getContext : jstr -> context }.

(** [hasWebGLSupport()], lines 77-87: the [try] returns
    [!!(ctor && (getContext('webgl') || getContext('experimental-webgl')))],
    a throw anywhere in it gives [false]. *)
Definition hasWebGLSupport (e : webgl_env) : bool :=
  if createElement_throws e then false
  else if negb (has_WebGLRenderingContext e) then false
  else match getContext e (u16 "webgl") with
       | CtxObject => true
       | CtxThrows => false
       | CtxNull => match getContext e (u16 "experimental-webgl") with CtxObject => true | _ => false end
       end.

(** An image load: its [onload] or its [onerror] with the event, at the
    time the browser settles it. *)
Inductive load := Loaded | Failed (event : jstr).

Inductive all_result := Resolved (images : list jstr) | Rejected (reason : jstr).

(** The first rejection in time; of two at the same time, the earlier in
    the list. *)
Fixpoint first_failure (ls : list (jstr * load * Q)) : option (jstr * Q) :=
  match ls with
  | [] => None
  | (_, Loaded, _) :: r => first_failure r
  | (_, Failed ev, t) :: r =>
      match first_failure r with
      | Some (ev', t') => if Qlt_le_dec t' t then Some (ev', t') else Some (ev, t)
      | None => Some (ev, t)
      end
  end.

(** [preloadImages(imageUrls)], lines 97-108: [Promise.all] of one
    promise per URL, resolved with the images (known by their URL) in the
    order of the URLs, or rejected by the first [onerror]. *)
Definition preloadImages (ls : list (jstr * load * Q)) : all_result :=
  match first_failure ls with
  | Some (ev, _) => Rejected ev
  | None => Resolved (map (fun x => x.1.1) ls)
  end.

End Dom.

(** ** Properties of the timers *)

Section Timers.
Context {A : Type}.

Lemma debounce_run_pending (wait t : Z) (a : A) rest :
  Debounce.run wait (Some (t + wait, a)) rest = Debounce.quiet_calls wait ((t, a) :: rest).
Proof.
  revert t a. induction rest as [|[t' a'] rest IH]; intros t a; [done|].
  cbn [Debounce.run]. rewrite IH. reflexivity.
Qed.

(** C21: [debounce] calls [func] once for each call followed by [wait] ms
    without another call, with that call's arguments, and for the last
    call. *)
Theorem debounce_quiet (wait : Z) (cs : list (Z * A)) :
  Debounce.debounce wait cs = Debounce.quiet_calls wait cs.
Proof. destruct cs as [|[t a] rest]; [done|]. apply debounce_run_pending. Qed.

Lemma throttle_run_after (limit u : Z) (cs : list (Z * A)) t a r :
  Throttle.run limit (Some u) cs = (t, a) :: r -> u <= t.
Proof.
  induction cs as [|[t0 a0] cs IH]; cbn; [done|].
  destruct (Z.ltb_spec t0 u); [exact IH|]. intros [= -> -> _]. done.
Qed.

Lemma throttle_run_spaced (limit : Z) reset (cs : list (Z * A)) :
  Throttle.spaced limit (Throttle.run limit reset cs).
Proof.
  revert reset. induction cs as [|[t a] cs IH]; intros reset; cbn; [done|].
  destruct (match reset with Some u => t <? u | None => false end); [apply IH|].
  specialize (IH (Some (t + limit))).
  destruct (Throttle.run limit (Some (t + limit)) cs) as [|[t' a'] r] eqn:E; [done|].
  split; [|exact IH]. exact (throttle_run_after _ _ _ _ _ _ E).
Qed.

Lemma throttle_run_in (limit : Z) reset (cs : list (Z * A)) c :
  In c (Throttle.run limit reset cs) -> In c cs.
Proof.
  revert reset. induction cs as [|[t a] cs IH]; intros reset; cbn; [done|].
  destruct (match reset with Some u => t <? u | None => false end).
  - intros H. right. exact (IH _ H).
  - intros [<-|H]; [by left | right; exact (IH _ H)].
Qed.

(** The calls [throttle] lets through are at least [limit] ms apart. *)
Theorem throttle_spaced (limit : Z) (cs : list (Z * A)) :
  Throttle.spaced limit (Throttle.throttle limit cs).
Proof. apply throttle_run_spaced. Qed.

End Timers.

(** The three flags of [useWindowSize] split the widths: exactly one
    holds. *)
Theorem window_flags_partition s :
  let v := WindowSize.value_of s in
  (WindowSize.isMobile v && negb (WindowSize.isTablet v) && negb (WindowSize.isDesktop v)) ||
  (negb (WindowSize.isMobile v) && WindowSize.isTablet v && negb (WindowSize.isDesktop v)) ||
  (negb (WindowSize.isMobile v) && negb (WindowSize.isTablet v) && WindowSize.isDesktop v) = true.
Proof.
  cbn. destruct (Z.ltb_spec (WindowSize.width s) 768), (Z.leb_spec 768 (WindowSize.width s)),
    (Z.ltb_spec (WindowSize.width s) 1024), (Z.leb_spec 1024 (WindowSize.width s)); cbn; lia.
Qed.

(** A resize 50 ms after the mount call is dropped and never read again:
    the hook reports a desktop window of 1920 px while the window is
    800 px wide. *)
Example window_size_stale :
  WindowSize.state_after (0, {| WindowSize.width := 1920; WindowSize.height := 1080 |})
    [(50, {| WindowSize.width := 800; WindowSize.height := 600 |})]
  = {| WindowSize.width := 1920; WindowSize.height := 1080 |}.
Proof. reflexivity. Qed.

(** ** Properties of [randomColor] *)

Lemma digit_val_hex d : 0 <= d < 16 -> digit_val 16 (hex_digit d) = Some d.
Proof. intros Hd. unfold digit_val, hex_digit. z_cases; cbn; z_cases; f_equal; lia. Qed.

Lemma digits_value_snoc r ds d : digits_value r (ds ++ [d]) = digits_value r ds * r + d.
Proof. unfold digits_value. by rewrite fold_left_app. Qed.

Lemma take_digits_hex ds :
  Forall (fun d => 0 <= d < 16) ds -> take_digits 16 (map hex_digit ds) = (ds, []).
Proof.
  induction 1 as [|d ds Hd _ IH]; [done|]. cbn. by rewrite digit_val_hex, IH.
Qed.

(** The values of the digits [to_hex_rev] prints, least significant first. *)
Fixpoint hex_vals (fuel : nat) (n : Z) : list Z :=
  match fuel with
  | O => []
  | S f => n mod 16 :: (if n <? 16 then [] else hex_vals f (n / 16))
  end.

Lemma to_hex_rev_vals f n : to_hex_rev f n = map hex_digit (hex_vals f n).
Proof. revert n. induction f as [|f IH]; intros n; [done|]. cbn. destruct (n <? 16); by rewrite ?IH. Qed.

Lemma hex_vals_range f n : Forall (fun d => 0 <= d < 16) (hex_vals f n).
Proof.
  revert n. induction f as [|f IH]; intros n; [constructor|]. cbn.
  constructor; [apply Z.mod_pos_bound; lia|]. destruct (n <? 16); [constructor|apply IH].
Qed.

Lemma hex_vals_S f n : hex_vals (S f) n = n mod 16 :: (if n <? 16 then [] else hex_vals f (n / 16)).
Proof. reflexivity. Qed.

Lemma hex_vals_value f n :
  0 <= n < 16 ^ Z.of_nat (S f) -> digits_value 16 (rev (hex_vals (S f) n)) = n.
Proof.
  revert n. induction f as [|f IH]; intros n Hn; rewrite hex_vals_S; cbn [rev]; rewrite digits_value_snoc.
  - assert (Hlt : n < 16) by (cbn in Hn; lia).
    replace (n <? 16) with true by (symmetry; apply Z.ltb_lt; lia). cbn. rewrite Z.mod_small; lia.
  - destruct (Z.ltb_spec n 16).
    + cbn. rewrite Z.mod_small; lia.
    + rewrite IH.
      * pose proof (Z.div_mod n 16). lia.
      * split; [apply Z.div_pos; lia|]. apply Z.div_lt_upper_bound; [lia|].
        rewrite Nat2Z.inj_succ, Z.pow_succ_r in Hn; lia.
Qed.

(** [parseInt('0x' + n.toString(16))] gives [n] back. *)
Lemma hex_roundtrip n :
  0 <= n < 16 ^ 8 -> parseInt (u16 "0x" ++ to_hex n) = NFin (inject_Z n).
Proof.
  intros Hn. assert (E : u16 "0x" = [48; 120]) by reflexivity. rewrite E.
  unfold to_hex. rewrite to_hex_rev_vals, <- map_rev. unfold parseInt. cbn -[take_digits map rev hex_vals].
  rewrite take_digits_hex by (apply Forall_rev, hex_vals_range).
  pose proof (hex_vals_value 7 n Hn) as Hv.
  destruct (rev (hex_vals 8 n)) as [|d ds] eqn:Er.
  - apply (f_equal (@length Z)) in Er. rewrite length_rev in Er. discriminate.
  - by rewrite Z.mul_1_l, Hv.
Qed.


Section Colors.
Local Open Scope Q_scope.

Lemma color_index_bounds r : 0 <= r < 1 -> (0 <= color_index r <= 16777214)%Z.
Proof.
  intros [H0 H1]. unfold color_index.
  set (x := r * inject_Z 16777215).
  assert (Hx0 : 0 <= x) by (apply Qmult_le_0_compat; [exact H0 | unfold Qle; simpl; lia]).
  assert (Hx1 : x < inject_Z 16777215).
  { unfold x. rewrite <- (Qmult_1_l (inject_Z 16777215)) at 2.
    apply Qmult_lt_r; [unfold Qlt; simpl; lia | exact H1]. }
  pose proof (Qfloor_le x) as Hle. split.
  - pose proof (Qfloor_resp_le 0 x Hx0) as H. exact H.
  - assert (Hz : inject_Z (Qfloor x) < inject_Z 16777215) by (eapply Qle_lt_trans; eauto).
    rewrite <- Zlt_Qlt in Hz. lia.
Qed.

(** [randomColor()] prints, after [#], an integer of [0 .. 0xFFFFFE] in
    base 16: [#ffffff] never comes out, and the digits read back to the
    integer. *)
Theorem randomColor_spec r :
  0 <= r < 1 ->
  exists n, (0 <= n <= 16777214)%Z /\ randomColor r = u16 "#" ++ to_hex n /\
            parseInt (u16 "0x" ++ to_hex n) = NFin (inject_Z n).
Proof.
  intros Hr. exists (color_index r). pose proof (color_index_bounds r Hr) as Hb.
  split; [exact Hb|]. split; [reflexivity|]. apply hex_roundtrip. lia.
Qed.

End Colors.

(** Without padding, small indices give short strings: [Math.random()]
    returning [0] gives [#0], which is no colour, and [0.001] gives the
    four-digit [#4189], which CSS reads as a translucent [#441188]. *)
Example randomColor_short :
  randomColor 0 = u16 "#0" /\ randomColor (1 # 1000) = u16 "#4189".
Proof. split; vm_compute; reflexivity. Qed.

(** ** Properties of the numeric helpers *)

Section Numbers.
Local Open Scope Q_scope.

(** [clamp] keeps a number inside [[min, max]] and leaves the numbers
    already there unchanged; NaN goes through unchanged. *)
Theorem clamp_spec a lo hi :
  lo <= hi ->
  (exists c, clamp (NFin a) (NFin lo) (NFin hi) = NFin c /\ lo <= c <= hi /\
             (lo <= a <= hi -> c == a)) /\
  clamp NNaN (NFin lo) (NFin hi) = NNaN.
Proof.
  intros Hlh. split; [|reflexivity].
  unfold clamp, JsMath.max, JsMath.min, JsMath.lt. cbn [JsMath.is_nan orb negb].
  destruct (Qle_bool lo a) eqn:E1; cbn [negb].
  - apply Qle_bool_iff in E1. destruct (Qle_bool a hi) eqn:E2; cbn [negb].
    + apply Qle_bool_iff in E2. exists a. repeat split; auto; intros _; reflexivity.
    + exists hi. repeat split; auto using Qle_refl.
      intros [_ H]. apply Qle_bool_iff in H. congruence.
  - destruct (Qle_bool lo hi) eqn:E2; cbn [negb].
    + exists lo. repeat split; auto using Qle_refl.
      intros [H _]. apply Qle_bool_iff in H. congruence.
    + apply Qle_bool_iff in Hlh. congruence.
Qed.

(** Scroll progress is in [[0, 1]] on a page that scrolls. *)
Theorem getScrollProgress_range s sh ch :
  0 <= s -> s <= sh - ch -> 0 < sh - ch ->
  exists q, getScrollProgress (NFin 0) (NFin s) (NFin sh) (NFin ch) = NFin q /\ 0 <= q <= 1.
Proof.
  intros H0 H1 H2. unfold getScrollProgress, JsMath.or_else, JsMath.sub, JsMath.add, JsMath.neg, JsMath.div.
  cbn [Qeq_bool]. replace (Qeq_bool (sh + - ch) 0) with false.
  2:{ symmetry. apply not_true_iff_false. intros E%Qeq_bool_iff. rewrite E in H2. discriminate. }
  exists (s / (sh + - ch)). split; [reflexivity|]. split.
  - apply Qle_shift_div_l; [exact H2|]. by rewrite Qmult_0_l.
  - apply Qle_shift_div_r; [exact H2|]. by rewrite Qmult_1_l.
Qed.

End Numbers.

(** On a page that does not scroll the progress is [0 / 0]: NaN. *)
Example getScrollProgress_flat_page :
  getScrollProgress (NFin 0) (NFin 0) (NFin 800) (NFin 800) = NNaN.
Proof. reflexivity. Qed.

(** ** Properties of the DOM helpers *)

Section DomProps.
Import Dom.
Local Open Scope Q_scope.

Lemma ge_fin a b : ge (NFin a) (NFin b) = true -> b <= a.
Proof. unfold ge. cbn. rewrite negb_involutive. apply Qle_bool_iff. Qed.

(** An element [isInViewport] accepts is no taller than the viewport
    ([window.innerHeight], or the document's [clientHeight] when that is
    0): a section taller than the window is never in view. *)
Lemma isInViewport_fits r ih iw ch cw t b h :
  isInViewport r ih iw ch cw = true ->
  r_top r = NFin t -> r_bottom r = NFin b -> JsMath.or_else ih ch = NFin h -> b - t <= h.
Proof.
  unfold isInViewport, le. intros H Ht Hb Hh. rewrite Ht, Hb, Hh in H.
  apply andb_prop in H as [H _]. apply andb_prop in H as [H H3]. apply andb_prop in H as [H1 _].
  apply ge_fin in H1, H3. lra.
Qed.

Lemma first_failure_none ls : first_failure ls = None <-> Forall (fun x => x.1.2 = Loaded) ls.
Proof.
  induction ls as [| [[u [| ev]] t] ls IH]; cbn; [split; [intros _; apply List.Forall_nil | done] | |].
  - rewrite IH. split; [by constructor | by inversion 1].
  - split; [destruct (first_failure ls) as [[ev1 t1] |]; [destruct (Qlt_le_dec t1 t) |]; discriminate | inversion 1; discriminate].
Qed.

Lemma first_failure_some ls ev t :
  first_failure ls = Some (ev, t) ->
  (exists u, In (u, Failed ev, t) ls) /\ forall u' ev' t', In (u', Failed ev', t') ls -> t <= t'.
Proof.
  revert ev t. induction ls as [| [[u [| ev0]] t0] ls IH]; intros ev t; cbn; [done | |].
  - intros (Hin & Hmin)%IH. split; [destruct Hin as [u' Hu]; exists u'; by right |].
    intros u' ev' t' [[=] | Hi]. by apply (Hmin u' ev').
  - destruct (first_failure ls) as [[ev1 t1] |] eqn:E.
    + destruct (IH ev1 t1 eq_refl) as ([u1 Hu1] & Hmin).
      destruct (Qlt_le_dec t1 t0); intros [= <- <-]; (split; [| intros u' ev' t' [[= _ _ <-] | Hi]]).
      * exists u1. by right.
      * lra.
      * by apply (Hmin u' ev').
      * exists u. by left.
      * lra.
      * apply Qle_trans with t1; [done | by apply (Hmin u' ev')].
    + intros [= <- <-]. split; [exists u; by left |].
      intros u' ev' t' [[= _ _ <-] | Hi]; [lra |].
      apply first_failure_none in E. rewrite List.Forall_forall in E. apply E in Hi. discriminate.
Qed.

(** [preloadImages] resolves exactly when every image loads, with the
    images in the order of the URLs; otherwise it rejects with the event
    of an image that failed first. *)
Theorem preloadImages_spec ls :
  (forall imgs, preloadImages ls = Resolved imgs <->
     Forall (fun x => x.1.2 = Loaded) ls /\ imgs = map (fun x => x.1.1) ls)
  /\ (forall ev, preloadImages ls = Rejected ev ->
     exists u t, In (u, Failed ev, t) ls /\ forall u' ev' t', In (u', Failed ev', t') ls -> t <= t').
Proof.
  unfold preloadImages. split.
  - intros imgs. destruct (first_failure ls) as [[ev t] |] eqn:E.
    + split; [discriminate | intros [Hall _]]. apply first_failure_none in Hall. congruence.
    + split; [intros [= <-]; split; [by apply first_failure_none | done] | by intros [_ ->]].
  - intros ev. destruct (first_failure ls) as [[ev' t] |] eqn:E; [| discriminate]. intros [= <-].
    destruct (first_failure_some ls ev' t E) as ([u Hu] & Hmin). exists u, t. auto.
Qed.

(** [hasWebGLSupport] is true exactly when nothing throws, the
    constructor exists and one of the two contexts is created; a
    [getContext('webgl')] that throws gives false without trying
    ['experimental-webgl']. *)
Lemma hasWebGLSupport_spec e :
  hasWebGLSupport e = true <->
  createElement_throws e = false /\ has_WebGLRenderingContext e = true /\
  (getContext e (u16 "webgl") = CtxObject \/
   getContext e (u16 "webgl") = CtxNull /\ getContext e (u16 "experimental-webgl") = CtxObject).
Proof.
  unfold hasWebGLSupport.
  destruct (createElement_throws e), (has_WebGLRenderingContext e), (getContext e (u16 "webgl")),
    (getContext e (u16 "experimental-webgl")); cbn; intuition congruence.
Qed.

End DomProps.

(** ** Witnesses *)

Lemma randomColor_spec_witness :
  exists n, (0 <= n <= 16777214)%Z /\ randomColor (1 # 2) = u16 "#" ++ to_hex n /\
            parseInt (u16 "0x" ++ to_hex n) = NFin (inject_Z n).
Proof. apply randomColor_spec. split; unfold Qle, Qlt; cbn; lia. Defined.

Lemma getScrollProgress_range_witness :
  exists q, getScrollProgress (NFin 0) (NFin 300) (NFin 1600) (NFin 800) = NFin q /\ (0 <= q <= 1)%Q.
Proof. apply getScrollProgress_range; unfold Qle, Qlt; cbn; lia. Defined.

Lemma clamp_spec_witness :
  (exists c, clamp (NFin 5) (NFin 0) (NFin 1) = NFin c /\ (0 <= c <= 1)%Q /\
             ((0 <= 5 <= 1)%Q -> (c == 5)%Q)) /\
  clamp NNaN (NFin 0) (NFin 1) = NNaN.
Proof. apply clamp_spec. unfold Qle; cbn; lia. Defined.
