(* ===== verification/ExpressApp.v ===== *)
(** * The Express application: src/server/index.js

    The server's request pipeline, in the order [app.use] installs it:
    [express.json] and [express.urlencoded] (whose outcome, a parsed body
    or an error with a status, is the input [body_parse]), the [cors]
    middleware with the origin callback of lines 44-55, the request log
    outside production, the four routes, the 404 handler and the error
    handler.  [Module Cors] holds the origin lists and the callback,
    [Module App] the pipeline; the route handlers are those of
    [Handlers.ServerRoutes].  The [cors] package and Express's router are
    libraries: their behaviour for the options the file passes is written
    out here (reflected origin and credentials headers, a 204 answer to
    every [OPTIONS] request, case-insensitive routes with an optional
    trailing slash).  [Module Boot] runs the start-up in module order:
    the imported routes/email.js first, then the body of index.js, with
    [PORT] and the banner [app.listen]'s callback prints outside
    production (lines 140-154).  The repository pins no Express version
    (it has no package.json for the server); the model follows Express 4,
    where [req.body] is [{}] when no parser read the body (Express 5
    leaves it [undefined]). *)

From stdpp Require Import gmap.
From S2P Require Import Prelude JsValue Regex Validation Transport Templates Config Handlers Contract Gateway.
Import Regex.Syntax Regex.Test.

Local Open Scope portfolio_scope.

(** A regular expression for a fixed string. *)
Definition lit (s : jstr) : regex := fold_right (fun c r => RCat (RChar c) r) REps s.

Module Cors.

(** [vercelDomain], lines 25-27. *)
Definition vercelDomain (e : env) : option jstr :=
  if truthy_prop (env_get e "VERCEL_URL") then Some (u16 "https://" ++ env_str e "VERCEL_URL")
  else None.

(** [defaultOrigins], lines 29-35: [.filter(Boolean)] keeps all five. *)
Definition defaultOrigins : list jstr :=
  [u16 "http://localhost:5173"; u16 "http://localhost:3000"; u16 "https://localhost:3000";
   u16 "https://localhost:5173"; u16 "https://vishalsodmise.vercel.app"].

(** [process.env.CORS_ORIGINS || process.env.CLIENT_URL || vercelDomain || ''] *)
Definition origins_source (e : env) : jstr :=
  if truthy_prop (env_get e "CORS_ORIGINS") then env_str e "CORS_ORIGINS"
  else if truthy_prop (env_get e "CLIENT_URL") then env_str e "CLIENT_URL"
  else match vercelDomain e with Some d => d | None => [] end.

(** [envOrigins], lines 38-41: split on commas, trim, drop the empty ones. *)
Definition envOrigins (e : env) : list jstr :=
  List.filter (fun o => match o with [] => false | _ => true end)
    (map js_trim (split_on 44 (origins_source e))).

(** [/\.vercel\.app$/] *)
Definition vercelRegex : regexp :=
  {| anchor_start := false; anchor_end := true; body := lit (u16 ".vercel.app") |}.

Definition cors_error : js_error := {| err_name := u16 "Error"; err_message := u16 "Not allowed by CORS" |}.

(** The [origin] callback, lines 45-50: the error it passes, if any, and
    whether the origin is allowed.  A missing or empty [Origin] header is
    allowed. *)
Definition origin (e : env) (o : option jstr) : option js_error * bool :=
  match o with
  | None | Some [] => (None, true)
  | Some s =>
      let allowed := defaultOrigins ++ envOrigins e in
      let isWhitelisted := existsb (fun a => bool_decide (a = s)) allowed || test vercelRegex s in
      (if isWhitelisted then None else Some cors_error, isWhitelisted)
  end.

(** The headers [cors] sets on an allowed request ([credentials: true]):
    the origin reflected when there is one. *)
Definition cors_headers (o : option jstr) : list (jstr * list jstr) :=
  match o with
  | Some (c :: r) => [(u16 "Access-Control-Allow-Origin", [c :: r])]
  | _ => []
  end ++ [(u16 "Vary", [u16 "Origin"]); (u16 "Access-Control-Allow-Credentials", [u16 "true"])].

(** What a preflight adds: [methods] and [allowedHeaders]. *)
Definition preflight_headers : list (jstr * list jstr) :=
  [(u16 "Access-Control-Allow-Methods", [u16 "GET,POST,OPTIONS"]);
   (u16 "Access-Control-Allow-Headers", [u16 "Content-Type"])].

End Cors.

Module App.

(** What [express.json()] / [express.urlencoded()] leave for the next
    middleware: no body of theirs ([req.body] is then [{}]), a parsed body,
    or an error with its [status] (400 for malformed JSON, 413 over the
    [10kb] limit) and [message]. *)
Inductive body_parse :=
| BodyAbsent
| BodyParsed (v : jvalue)
| BodyError (status : Z) (message : jstr).

Record http_request := {
  hr_method : jstr;
  hr_path : jstr;
  hr_origin : option jstr;
  hr_body : body_parse
}.

(** A handler's context, and what [new Date().toISOString()] prints. *)
Record app_context := { ax_cx : context; ax_iso : jstr }.

(** An error passed to [next(err)]: its [status], if any, and [message]. *)
Record next_error := { ne_status : option Z; ne_message : jstr }.

(** [isProd], line 11. *)
Definition isProd (e : env) : bool := env_is e "NODE_ENV" "production".

(** ** Routing: Express's path matching

    A route path matches case-insensitively (ASCII letters), with an
    optional trailing slash: [path-to-regexp] turns ["/api/health"] into
    [/^\/api\/health\/?$/i] and ["/"] into [/^\/?$/i]. *)
Definition ascii_upper (c : Z) : Z := if (97 <=? c) && (c <=? 122) then c - 32 else c.

Definition route_forms (route : jstr) : list jstr :=
  match last route with
  | Some 47 => [route; removelast route]
  | _ => [route; route ++ [47]]
  end.

Definition route_matches (route path : jstr) : bool :=
  existsb (fun f => bool_decide (map ascii_upper path = map ascii_upper f)) (route_forms route).

(** [app.post(route, ...)] and [app.get(route, ...)]: [get] also answers
    [HEAD]. *)
Definition is_post (req : http_request) (route : string) : bool :=
  bool_decide (hr_method req = u16 "POST") && route_matches (u16 route) (hr_path req).

Definition is_get (req : http_request) (route : string) : bool :=
  (bool_decide (hr_method req = u16 "GET") || bool_decide (hr_method req = u16 "HEAD"))
  && route_matches (u16 route) (hr_path req).

Section Pipeline.
Context `{MailTransport W}.

(** The request log, lines 61-66. *)
Definition requestLog (ax : app_context) (req : http_request) : M W unit :=
  console_log (ax_iso ax ++ u16 " - " ++ hr_method req ++ u16 " " ++ hr_path req).

(** GET /api/health, lines 86-92. *)
Definition health (ax : app_context) : response :=
  reply 200 [(u16 "status", JStr (u16 "ok")); (u16 "message", JStr (u16 "Server is running"));
             (u16 "timestamp", JStr (ax_iso ax))].

(** GET /, lines 98-108. *)
Definition root : response :=
  reply 200 [(u16 "name", JStr (u16 "Portfolio Email Service")); (u16 "version", JStr (u16 "1.0.0"));
             (u16 "endpoints", JObj [(u16 "contact", JStr (u16 "POST /api/contact"));
                                     (u16 "health", JStr (u16 "GET /api/health"));
                                     (u16 "test", JStr (u16 "POST /api/email/test"))])].

(** The 404 handler, lines 115-121. *)
Definition notFound (req : http_request) : response :=
  reply 404 [(u16 "success", JBool false); (u16 "message", JStr (u16 "Endpoint not found"));
             (u16 "path", JStr (hr_path req))].

(** The error handler, lines 126-136: [err.status || 500], and the message
    only when [NODE_ENV] is ["development"]. *)
Definition errorHandler (ax : app_context) (err : next_error) : M W response :=
  let e := cx_env (ax_cx ax) in
  let* _ := (if isProd e then ret tt else console_error_text (u16 "❌ Error:") (ne_message err)) in
  ret (reply (match ne_status err with Some s => if s =? 0 then 500 else s | None => 500 end)
             [(u16 "success", JBool false);
              (u16 "message", JStr (if env_is e "NODE_ENV" "development" then ne_message err
                                    else u16 "Internal server error"))]).

(** The routes, lines 74-108, then the 404 handler. *)
Definition routes (ax : app_context) (req : http_request) (body : jvalue) : M W response :=
  if is_post req "/api/contact" then ServerRoutes.sendContactEmail (ax_cx ax) body
  else if is_post req "/api/email/test" then ServerRoutes.sendTestEmail (ax_cx ax)
  else if is_get req "/api/health" then ret (health ax)
  else if is_get req "/" then ret root
  else ret (notFound req).

Definition with_headers (hs : list (jstr * list jstr)) (r : response) : response :=
  {| res_status := res_status r; res_headers := hs ++ res_headers r; res_json := res_json r |}.

(** The whole application: body parsers, [cors] (which ends every
    [OPTIONS] request with 204 and no body), the log, the routes. *)
Definition app (ax : app_context) (req : http_request) : M W response :=
  let e := cx_env (ax_cx ax) in
  match hr_body req with
  | BodyError st msg => errorHandler ax {| ne_status := Some st; ne_message := msg |}
  | _ =>
      let body := match hr_body req with BodyParsed v => v | _ => JObj [] end in
      match Cors.origin e (hr_origin req) with
      | (Some err, _) => errorHandler ax {| ne_status := None; ne_message := err_message err |}
      | (None, _) =>
          let hs := Cors.cors_headers (hr_origin req) in
          if bool_decide (hr_method req = u16 "OPTIONS") then
            ret {| res_status := 204; res_headers := hs ++ Cors.preflight_headers; res_json := [] |}
          else
            let* _ := (if isProd e then ret tt else requestLog ax req) in
            let* r := routes ax req body in
            ret (with_headers hs r)
      end
  end.

End Pipeline.
End App.

(** ** Start-up: the order in which the two modules run

    [index.js] imports [routes/email.js], so the imported module's body
    runs first: its two [dotenv.config] calls (email.js lines 11-12,
    src/.env.local then src/.env), its transporter and its report.  Then
    [index.js] runs: [isProd] (line 11) reads [NODE_ENV], and its own two
    [dotenv.config] calls (lines 14-15) load the same two files again. *)

Module Boot.

Record booted := { b_env : env; b_isProd : bool; b_transporter : transport_config; b_report : list jstr }.

(** The process environment and the variables of the two files. *)
Definition boot (proc local dotenv : env) : booted :=
  let e1 := dotenv_load proc local dotenv in
  let prod := App.isProd e1 in
  let e2 := dotenv_load e1 local dotenv in
  {| b_env := e2; b_isProd := prod; b_transporter := server_transporter e1; b_report := startup_log e1 |}.

(** [PORT], line 18: [process.env.PORT || 5000]. *)
Definition port (e : env) : jstr := if truthy_prop (env_get e "PORT") then env_str e "PORT" else u16 "5000".

(** The banner of [app.listen]'s callback, lines 141-152, with
    [CLIENT_URL || 'http://localhost:5173'] and
    [NODE_ENV || 'development'] read when the server listens. *)
Definition banner (e : env) : jstr :=
  let clientUrl := if truthy_prop (env_get e "CLIENT_URL") then env_str e "CLIENT_URL" else u16 "http://localhost:5173" in
  let envName := if truthy_prop (env_get e "NODE_ENV") then env_str e "NODE_ENV" else u16 "development" in
  u16 "
╔════════════════════════════════════════╗
║   📧 Portfolio Email Service Started   ║
╠════════════════════════════════════════╣
║ Server: http://localhost:" ++ port e ++ u16 "
║ Environment: " ++ envName ++ u16 "
║ CORS Origin: " ++ clientUrl ++ u16 "
╚════════════════════════════════════════╝
    ".

(** What [app.listen(PORT, ...)] logs, lines 140-154: the banner, unless
    [isProd]. *)
Definition listen_log (b : booted) : list jstr := if b_isProd b then [] else [banner (b_env b)].

End Boot.

(** ** Concrete requests *)

Definition demo_ax : App.app_context := {| App.ax_cx := demo_cx; App.ax_iso := u16 "2026-01-02T10:00:00.000Z" |}.

Definition contact_post (origin : jstr) : App.http_request :=
  {| App.hr_method := u16 "POST"; App.hr_path := u16 "/api/contact";
     App.hr_origin := Some origin; App.hr_body := App.BodyParsed ada_body |}.

Definition contact_get : App.http_request :=
  {| App.hr_method := u16 "GET"; App.hr_path := u16 "/api/contact";
     App.hr_origin := Some (u16 "http://localhost:5173"); App.hr_body := App.BodyAbsent |}.



(** ** The origin check *)

Lemma lit_iff s v : in_lang (lit s) v <-> v = s.
Proof.
  revert v. induction s as [|c s IH]; intros v; simpl.
  - apply in_lang_eps_iff.
  - rewrite in_lang_cat_iff. setoid_rewrite in_lang_char_iff. setoid_rewrite IH.
    split; [by intros (? & ? & -> & -> & ->) | intros ->; by exists [c], s].
Qed.
(** [/\.vercel\.app$/.test(o)]: [o] ends with [.vercel.app]. *)
Lemma vercel_test_iff o : test Cors.vercelRegex o = true <-> exists u, o = u ++ u16 ".vercel.app".
Proof.
  rewrite test_iff. unfold test_spec. cbn [anchor_start anchor_end body Cors.vercelRegex].
  setoid_rewrite lit_iff. split.
  - intros (u & v & w & -> & _ & Hw & ->). rewrite (Hw eq_refl), app_nil_r. by exists u.
  - intros [u ->]. exists u, (u16 ".vercel.app"), []. rewrite app_nil_r. by repeat split.
Qed.

Lemma origin_error_iff e o : fst (Cors.origin e o) = None <-> snd (Cors.origin e o) = true.
Proof.
  unfold Cors.origin. destruct o as [[|c r]|]; [done| |done]. cbv zeta.
  destruct (existsb _ _ || test _ _); simpl; split; congruence.
Qed.

(** C10: The origins [cors] lets through: the listed ones and any site under
    [.vercel.app]. *)
Theorem cors_allowed_iff e o :
  o <> [] ->
  (snd (Cors.origin e (Some o)) = true <->
   In o (Cors.defaultOrigins ++ Cors.envOrigins e) \/ exists u, o = u ++ u16 ".vercel.app").
Proof.
  intros Ho. destruct o as [|c r]; [done|]. unfold Cors.origin. cbv zeta. cbn [snd].
  rewrite orb_true_iff, existsb_exists, vercel_test_iff.
  split; (intros [H|H]; [left|by right]).
  - destruct H as (a & Ha & Heq%bool_decide_eq_true_1). by subst.
  - exists (c :: r). split; [done|]. by apply bool_decide_eq_true_2.
Qed.


(** ** Runs of the application *)

Import App.

Lemma post_not_options : u16 "POST" <> u16 "OPTIONS".
Proof. vm_compute. discriminate. Qed.

Lemma get_not_options : u16 "GET" <> u16 "OPTIONS".
Proof. vm_compute. discriminate. Qed.

Lemma get_not_post : u16 "GET" <> u16 "POST".
Proof. vm_compute. discriminate. Qed.

(** The body of an error answer: [{ success: false, message, ... }], the
    shape the browser's [handleSubmit] reads. *)
Definition error_envelope (r : response) : Prop :=
  exists msg rest, res_json r = (u16 "success", JBool false) :: (u16 "message", JStr msg) :: rest.

Section AppRuns.
Context `{Hlaws : MailTransportLaws W}.

Lemma errorHandler_run ax err w :
  fst (App.errorHandler ax err w) =
    inl (reply (match App.ne_status err with Some s => if s =? 0 then 500 else s | None => 500 end)
           [(u16 "success", JBool false);
            (u16 "message", JStr (if env_is (cx_env (ax_cx ax)) "NODE_ENV" "development"
                                  then App.ne_message err else u16 "Internal server error"))]) /\
  sends (trace (snd (App.errorHandler ax err w))) = sends (trace w).
Proof.
  unfold App.errorHandler, bind, ret, console_error_text.
  destruct (App.isProd _); split; try reflexivity. world_trace. done.
Qed.

Lemma log_sends ax req w (b : bool) :
  sends (trace (snd ((if b then ret tt else App.requestLog ax req) w))) = sends (trace w) /\
  fst ((if b then ret tt else App.requestLog ax req) w) = inl tt.
Proof.
  destruct b; [done|]. unfold App.requestLog, console_log. cbn [fst snd].
  split; [|done]. world_trace. done.
Qed.

(** [app] on a request that reaches the routes. *)
Lemma app_routed ax req w :
  (forall st msg, hr_body req <> App.BodyError st msg) ->
  fst (Cors.origin (cx_env (ax_cx ax)) (hr_origin req)) = None ->
  hr_method req <> u16 "OPTIONS" ->
  App.app ax req w =
  (let w1 := snd ((if App.isProd (cx_env (ax_cx ax)) then ret tt else App.requestLog ax req) w) in
   match App.routes ax req (match hr_body req with App.BodyParsed v => v | _ => JObj [] end) w1 with
   | (inl r, w2) => (inl (App.with_headers (Cors.cors_headers (hr_origin req)) r), w2)
   | (inr err, w2) => (inr err, w2)
   end).
Proof.
  intros Hb Ho Hm. unfold App.app.
  destruct (hr_body req) as [|v|st msg] eqn:Eb; [| |by destruct (Hb st msg)];
  destruct (Cors.origin _ _) as [[err|] ok]; try discriminate; cbv zeta;
  rewrite bool_decide_eq_false_2 by done; unfold bind at 1;
  destruct (log_sends ax req w (App.isProd (cx_env (ax_cx ax)))) as [_ Hl];
  destruct ((if App.isProd _ then ret tt else App.requestLog ax req) w) as [[[]|e] w1];
  try discriminate; reflexivity.
Qed.

Lemma origin_ok e o err ok : Cors.origin e o = (err, ok) -> err = None -> ok = true.
Proof. intros E ->. pose proof (origin_error_iff e o) as Hx. rewrite E in Hx. by apply Hx. Qed.

(** C7: A POST to [/api/contact] with a parsed body from an allowed origin
    runs [sendContactEmail] on that body, after the request log outside
    production, and answers with its response and the [cors] headers. *)
Theorem app_contact ax req w v :
  hr_body req = BodyParsed v -> fst (Cors.origin (cx_env (ax_cx ax)) (hr_origin req)) = None ->
  is_post req "/api/contact" = true ->
  App.app ax req w =
  (let w1 := snd ((if isProd (cx_env (ax_cx ax)) then ret tt else requestLog ax req) w) in
   match ServerRoutes.sendContactEmail (ax_cx ax) v w1 with
   | (inl r, w2) => (inl (with_headers (Cors.cors_headers (hr_origin req)) r), w2)
   | (inr err, w2) => (inr err, w2)
   end).
Proof.
  intros Hb Ho Hp. pose proof Hp as Hm. apply andb_prop in Hm as [Hm%bool_decide_eq_true_1 _].
  rewrite app_routed; [| by rewrite Hb | done | rewrite Hm; apply post_not_options].
  unfold routes. by rewrite Hp, Hb.
Qed.

(** C3: No mail leaves the server unless the request is a POST to one of the
    two mail routes, from an allowed origin, with a body the parsers
    accepted. *)
Theorem app_no_mail ax req w :
  ((is_post req "/api/contact" || is_post req "/api/email/test") = false \/
   snd (Cors.origin (cx_env (ax_cx ax)) (hr_origin req)) = false \/
   exists st msg, hr_body req = BodyError st msg) ->
  sends (trace (snd (App.app ax req w))) = sends (trace w).
Proof.
  intros Hcase. unfold App.app.
  destruct (hr_body req) as [|v|st msg] eqn:Eb; [| |by apply errorHandler_run].
  all: destruct (Cors.origin _ _) as [[err|] ok] eqn:Eo; [by apply errorHandler_run|].
  all: pose proof (origin_ok _ _ _ _ Eo eq_refl) as ->; cbn [snd] in Hcase; cbv zeta.
  all: destruct Hcase as [Hr|[Hr|(st & msg & Hr)]]; try discriminate.
  all: apply orb_false_iff in Hr as [Hc Ht].
  all: case_bool_decide; [reflexivity|].
  all: unfold bind at 1; destruct (log_sends ax req w (isProd (cx_env (ax_cx ax)))) as [Hs Hl].
  all: destruct ((if isProd _ then ret tt else requestLog ax req) w) as [[[]|e] w1]; [|discriminate].
  all: unfold routes; rewrite Hc, Ht; cbn [fst snd] in Hs |- *.
  all: destruct (is_get req "/api/health"); [|destruct (is_get req "/")]; exact Hs.
Qed.
Lemma origin_error_is_cors e o err ok : Cors.origin e o = (Some err, ok) -> err = Cors.cors_error.
Proof.
  unfold Cors.origin. destruct o as [[|c r]|]; [done| |done]. cbv zeta.
  destruct (existsb _ _ || test _ _); congruence.
Qed.

(** A refused origin is answered by the error handler: 500, without the
    [cors] headers, the reason shown only in development. *)
Theorem cors_rejected ax req w :
  (forall st msg, hr_body req <> BodyError st msg) ->
  snd (Cors.origin (cx_env (ax_cx ax)) (hr_origin req)) = false ->
  fst (App.app ax req w) =
    inl (reply 500 [(u16 "success", JBool false);
                    (u16 "message", JStr (if env_is (cx_env (ax_cx ax)) "NODE_ENV" "development"
                                          then u16 "Not allowed by CORS"
                                          else u16 "Internal server error"))]).
Proof.
  intros Hb Ho. unfold App.app.
  destruct (Cors.origin _ _) as [[err|] ok] eqn:Eo.
  2:{ by rewrite (origin_ok _ _ _ _ Eo eq_refl) in Ho. }
  rewrite (origin_error_is_cors _ _ _ _ Eo).
  destruct (hr_body req) as [|v|st msg]; [| |by destruct (Hb st msg)]; apply errorHandler_run.
Qed.

Lemma routes_total ax req body w : exists r, fst (routes ax req body w) = inl r.
Proof.
  unfold routes.
  destruct (is_post req "/api/contact").
  { destruct (sendContactEmail_outcome (ax_cx ax) body w) as (p & ks & r & _ & Hr & _). eauto. }
  destruct (is_post req "/api/email/test").
  { unfold ServerRoutes.sendTestEmail, try_catch, bind, ret, sendMail, console_error.
    destruct (send_mail _ w) as [[e|] w1]; eauto. }
  destruct (is_get req "/api/health"); [eauto|]. destruct (is_get req "/"); eauto.
Qed.

(** C19: Every request is answered: no path through the pipeline ends without
    a response. *)
Theorem app_total ax req w : exists r, fst (App.app ax req w) = inl r.
Proof.
  unfold App.app.
  destruct (hr_body req) as [|v|st msg]; [| |eexists; apply errorHandler_run].
  all: destruct (Cors.origin _ _) as [[err|] ok]; [eexists; apply errorHandler_run|]; cbv zeta.
  all: case_bool_decide; [eauto|].
  all: unfold bind at 1; destruct (log_sends ax req w (isProd (cx_env (ax_cx ax)))) as [_ Hl].
  all: destruct ((if isProd _ then ret tt else requestLog ax req) w) as [[[]|e] w1]; [|discriminate].
  all: unfold bind; match goal with |- context [@routes _ _ ?a ?q ?bd ?ww] =>
         destruct (routes_total a q bd ww) as [r Hr]; destruct (routes a q bd ww) as [[r'|e] w2] end;
       cbn [fst] in Hr; [eauto|discriminate].
Qed.

Lemma errorHandler_envelope ax err w r : fst (errorHandler ax err w) = inl r -> error_envelope r.
Proof. rewrite (proj1 (errorHandler_run ax err w)). intros [= <-]. eexists _, []. reflexivity. Qed.

Lemma routes_envelope ax req body w r :
  fst (routes ax req body w) = inl r -> res_status r = 200 \/ error_envelope r.
Proof.
  unfold routes. destruct (is_post req "/api/contact").
  { intros Hr. destruct (sendContactEmail_responses _ _ _ _ Hr) as [[msg ->]|[->|[e ->]]];
      [right; by exists msg, [] | by left | right; eexists _, _; reflexivity]. }
  destruct (is_post req "/api/email/test").
  { unfold ServerRoutes.sendTestEmail, try_catch, bind, ret, sendMail, console_error.
    destruct (send_mail _ w) as [[e|] w1]; intros [= <-]; [right; eexists _, _; reflexivity | by left]. }
  destruct (is_get req "/api/health"); [intros [= <-]; by left|].
  destruct (is_get req "/"); intros [= <-]; [by left | right; eexists _, _; reflexivity].
Qed.

(** The answers of the pipeline: the error handler's, the preflight's,
    or a route's with the CORS headers added. *)
Lemma app_answers ax req w r :
  fst (App.app ax req w) = inl r ->
  (exists err w', fst (errorHandler ax err w') = inl r) \/ res_status r = 204 \/
  (exists body w1 r0, fst (routes ax req body w1) = inl r0 /\ r = with_headers (Cors.cors_headers (hr_origin req)) r0).
Proof.
  unfold App.app.
  destruct (hr_body req) as [|v|st msg]; [| |left; eauto].
  all: destruct (Cors.origin _ _) as [[err|] ok]; [left; eauto|]; cbv zeta.
  all: case_bool_decide; [intros [= <-]; by right; left|].
  all: unfold bind at 1; destruct (log_sends ax req w (isProd (cx_env (ax_cx ax)))) as [_ Hl].
  all: destruct ((if isProd _ then ret tt else requestLog ax req) w) as [[[]|e] w1]; [|discriminate].
  all: unfold bind; match goal with |- context [@routes _ _ ?a ?q ?bd ?ww] =>
         destruct (routes a q bd ww) as [[r'|e] w2] eqn:E end; intros Hr; [|discriminate].
  all: right; right; injection Hr as <-; do 3 eexists; rewrite E; eauto.
Qed.

(** C28: Every answer of the Express app other than a success (200) or a
    preflight (204) is a JSON object that starts with [success: false]
    and a string [message]: the validation, CORS, body-parser, 404 and
    mail-failure answers all have the shape the client reads. *)
Theorem app_error_envelope ax req w r :
  fst (App.app ax req w) = inl r -> res_status r <> 200 -> res_status r <> 204 -> error_envelope r.
Proof.
  intros Hr H200 H204. destruct (app_answers ax req w r Hr) as [(err & w' & He)|[Hs|(body & w1 & r0 & Hr0 & ->)]].
  - exact (errorHandler_envelope _ _ _ _ He).
  - done.
  - destruct (routes_envelope _ _ _ _ _ Hr0) as [Hs|(msg & rest & Hj)]; [done|]. by exists msg, rest.
Qed.

Lemma routes_not_found ax req body :
  is_post req "/api/contact" = false -> is_post req "/api/email/test" = false ->
  is_get req "/api/health" = false -> is_get req "/" = false ->
  routes (W:=W) ax req body = ret (notFound req).
Proof. intros H1 H2 H3 H4. unfold routes. by rewrite H1, H2, H3, H4. Qed.

(** The Express server has no GET route for [/api/contact]: it answers 404,
    where the serverless function answers 405. *)
Theorem get_contact_404 ax req w :
  hr_method req = u16 "GET" -> hr_path req = u16 "/api/contact" ->
  (forall st msg, hr_body req <> BodyError st msg) ->
  fst (Cors.origin (cx_env (ax_cx ax)) (hr_origin req)) = None ->
  exists r, fst (App.app ax req w) = inl r /\ res_status r = 404.
Proof.
  intros Hm Hp Hb Ho. rewrite app_routed by (done || rewrite Hm; apply get_not_options).
  rewrite routes_not_found.
  2,3: unfold is_post; rewrite Hm; by rewrite bool_decide_eq_false_2 by apply get_not_post.
  2,3: unfold is_get; rewrite Hm, Hp; by vm_compute.
  destruct (log_sends ax req w (isProd (cx_env (ax_cx ax)))) as [_ Hl].
  destruct ((if isProd _ then ret tt else requestLog ax req) w) as [[[]|e] w1]; [|discriminate].
  by eexists.
Qed.
End AppRuns.

(** C37: The server sees one environment, the process's completed by the two
    files: the second loading changes nothing, and [isProd], though its
    line comes before [index.js]'s own [dotenv.config], reads [NODE_ENV]
    after the imported module has loaded the files, so a [NODE_ENV] set
    only in src/.env.local takes effect. *)
Theorem boot_env proc local dotenv :
  Boot.b_env (Boot.boot proc local dotenv) = dotenv_load proc local dotenv
  /\ Boot.b_isProd (Boot.boot proc local dotenv) = App.isProd (Boot.b_env (Boot.boot proc local dotenv))
  /\ Boot.b_transporter (Boot.boot proc local dotenv) = server_transporter (Boot.b_env (Boot.boot proc local dotenv)).
Proof.
  assert (E : dotenv_load (dotenv_load proc local dotenv) local dotenv = dotenv_load proc local dotenv).
  { apply map_eq. intros k. rewrite !dotenv_priority.
    by destruct (proc !! k), (local !! k), (dotenv !! k). }
  unfold Boot.boot. cbn [Boot.b_env Boot.b_isProd Boot.b_transporter]. by rewrite E.
Qed.

Lemma dotenv_load_idem proc local dotenv :
  dotenv_load (dotenv_load proc local dotenv) local dotenv = dotenv_load proc local dotenv.
Proof. apply map_eq. intros k. rewrite !dotenv_priority. by destruct (proc !! k), (local !! k), (dotenv !! k). Qed.

(** The start-up banner shows exactly outside production, and the
    environment it names is never [production]: [isProd] and the banner
    read the same [NODE_ENV]. *)
Lemma listen_banner proc local dotenv :
  let b := Boot.boot proc local dotenv in
  (Boot.listen_log b = [] <-> Boot.b_env b !! "NODE_ENV" = Some (u16 "production")) /\
  (Boot.listen_log b <> [] -> Boot.listen_log b = [Boot.banner (Boot.b_env b)] /\
                              Boot.b_env b !! "NODE_ENV" <> Some (u16 "production")).
Proof.
  cbv zeta. unfold Boot.listen_log, Boot.boot. cbn [Boot.b_isProd Boot.b_env]. rewrite dotenv_load_idem.
  unfold App.isProd, env_is. destruct (decide (dotenv_load proc local dotenv !! "NODE_ENV" = Some (u16 "production"))) as [E|E].
  - rewrite bool_decide_eq_true_2 by exact E. split; [done|]. intros []. done.
  - rewrite bool_decide_eq_false_2 by exact E. split; [split; [discriminate|contradiction]|]. by split.
Qed.

(** ** Examples and witnesses *)

(** Any site deployed under [vercel.app], anyone's, passes the origin
    check, with credentials allowed. *)
Example cors_allows_any_vercel_site :
  Cors.origin ∅ (Some (u16 "https://attacker.vercel.app")) = (None, true).
Proof. vm_compute. reflexivity. Qed.

Lemma cors_allowed_iff_witness :
  u16 "https://attacker.vercel.app" <> [] /\
  (snd (Cors.origin ∅ (Some (u16 "https://attacker.vercel.app"))) = true <->
   In (u16 "https://attacker.vercel.app") (Cors.defaultOrigins ++ Cors.envOrigins ∅) \/
   exists u, u16 "https://attacker.vercel.app" = u ++ u16 ".vercel.app").
Proof.
  assert (H : u16 "https://attacker.vercel.app" <> []) by (vm_compute; discriminate).
  split; [exact H|]. exact (cors_allowed_iff ∅ _ H).
Defined.


Lemma app_contact_witness :
  App.app demo_ax (contact_post (u16 "http://localhost:5173")) world_ok =
  (let w1 := snd ((if App.isProd (cx_env (App.ax_cx demo_ax)) then ret tt
                   else App.requestLog demo_ax (contact_post (u16 "http://localhost:5173"))) world_ok) in
   match ServerRoutes.sendContactEmail (App.ax_cx demo_ax) ada_body w1 with
   | (inl r, w2) => (inl (App.with_headers (Cors.cors_headers (App.hr_origin (contact_post (u16 "http://localhost:5173")))) r), w2)
   | (inr err, w2) => (inr err, w2)
   end).
Proof. apply app_contact; vm_compute; reflexivity. Defined.

Lemma app_no_mail_witness :
  sends (trace (snd (App.app demo_ax contact_get world_ok))) = sends (trace world_ok).
Proof. apply app_no_mail. left. vm_compute. reflexivity. Defined.

Lemma cors_rejected_witness :
  fst (App.app demo_ax (contact_post (u16 "https://evil.example")) world_ok) =
    inl (reply 500 [(u16 "success", JBool false);
                    (u16 "message", JStr (if env_is (cx_env (App.ax_cx demo_ax)) "NODE_ENV" "development"
                                          then u16 "Not allowed by CORS"
                                          else u16 "Internal server error"))]).
Proof. apply cors_rejected; [intros st msg; discriminate | vm_compute; reflexivity]. Defined.

Lemma get_contact_404_witness :
  exists r, fst (App.app demo_ax contact_get world_ok) = inl r /\ res_status r = 404.
Proof.
  apply get_contact_404; [reflexivity | reflexivity | intros st msg; discriminate |].
  vm_compute. reflexivity.
Defined.

Lemma app_error_envelope_witness :
  exists r, fst (App.app demo_ax contact_get world_ok) = inl r /\ res_status r = 404 /\ error_envelope r.
Proof.
  exists (App.with_headers (Cors.cors_headers (hr_origin contact_get)) (App.notFound contact_get)).
  assert (Hr : fst (App.app demo_ax contact_get world_ok) = inl (App.with_headers (Cors.cors_headers (hr_origin contact_get)) (App.notFound contact_get)))
    by (vm_compute; reflexivity).
  split; [exact Hr|]. split; [reflexivity|].
  apply (app_error_envelope _ _ _ _ Hr); vm_compute; discriminate.
Defined.

Lemma app_total_witness : exists r, fst (App.app demo_ax contact_get world_ok) = inl r.
Proof. exact (app_total demo_ax contact_get world_ok). Defined.
