(* ===== verification/ContactForm.v ===== *)
(** * The contact form component: src/src/components/Contact.jsx

    The React component as a state machine.  Its state is the four
    [useState] hooks ([formData], [errors], [isSubmitting],
    [submitStatus]) and the request in flight, if any; its events are the
    three things that change that state: an input's [onChange]
    ([handleChange], lines 25-32), the form's [onSubmit] ([handleSubmit]
    up to the [await], lines 61-83) and the settling of the [fetch]
    promise (lines 85-108).  [view] is what the JSX of lines 185-336
    shows of the state: the inputs, their error lines, the button and the
    status banner.  The submit button is [disabled] while [isSubmitting],
    and a disabled default button blocks implicit submission too, so a
    submit event only happens when no request is in flight ([step]). *)

From S2P Require Import Prelude JsValue Regex Validation.
Import Validation.Client.

Module ContactForm.

(** [e.target.name]: the input that changed. *)
Definition get_field (f : form_data) (k : form_field) : jstr :=
  match k with FName => f_name f | FEmail => f_email f | FSubject => f_subject f | FMessage => f_message f end.

(** [setFormData((prev) => ({ ...prev, [name]: value }))] *)
Definition set_field (f : form_data) (k : form_field) (v : jstr) : form_data :=
  {| f_name := if decide (k = FName) then v else f_name f;
     f_email := if decide (k = FEmail) then v else f_email f;
     f_subject := if decide (k = FSubject) then v else f_subject f;
     f_message := if decide (k = FMessage) then v else f_message f |}.

Definition blank_form : form_data := {| f_name := []; f_email := []; f_subject := []; f_message := [] |}.

(** The [errors] object: its keys in insertion order. *)
Abbreviation errors := (list (form_field * jstr)) (only parsing).

(** [errors[name]] *)
Definition error_of (es : errors) (k : form_field) : option jstr :=
  match List.find (fun p => bool_decide (p.1 = k)) es with Some (_, m) => Some m | None => None end.

(** [if (errors[name])]: a non-empty message. *)
Definition error_shown (es : errors) (k : form_field) : bool :=
  match error_of es k with Some (_ :: _) => true | _ => false end.

(** [{ ...prev, [name]: m }]: an existing key keeps its place. *)
Definition set_error (es : errors) (k : form_field) (m : jstr) : errors :=
  if existsb (fun p => bool_decide (p.1 = k)) es
  then map (fun p => if decide (p.1 = k) then (k, m) else p) es
  else es ++ [(k, m)].

(** [submitStatus]: [{ type, message }], [type] being ['success'] or ['error']. *)
Record submit_status := { st_success : bool; st_message : jvalue }.

(** What the build sees: [import.meta.env.VITE_API_URL],
    [import.meta.env.DEV] and [window.location.origin]. *)
Record client_env := { ce_api_url : option jstr; ce_dev : bool; ce_origin : jstr }.

(** The request [fetch] sends: its URL and its JSON body as the server
    parses it. *)
Record post := { p_url : jstr; p_body : jvalue }.

Record state := {
  cs_form : form_data;
  cs_errors : errors;
  cs_submitting : bool;
  cs_status : option submit_status;
  cs_inflight : option post
}.

(** The state of the first render, lines 12-20. *)
Definition init : state :=
  {| cs_form := blank_form; cs_errors := []; cs_submitting := false; cs_status := None;
     cs_inflight := None |}.

(** How the [fetch] promise settles: it rejects (no connection), or the
    response body is parsed as JSON ([response.json()], which rejects on
    a body that is not JSON: [FetchFailed] too). *)
Inductive fetch_result := FetchFailed | FetchJson (v : jvalue).

Inductive ui_event :=
| EvChange (k : form_field) (v : jstr)
| EvSubmit
| EvSettle (r : fetch_result).

Section Component.
Context (lower_unit : Z -> list Z).

(** [apiUrl], lines 72-75: [.replace(/\/$/, '')] drops one final slash. *)
Definition apiUrl (ce : client_env) : jstr :=
  let base := match ce_api_url ce with
              | Some (c :: r) => c :: r
              | _ => if ce_dev ce then u16 "http://localhost:5000" else ce_origin ce
              end in
  match last base with Some 47 => removelast base | _ => base end.

(** [handleChange], lines 25-32. *)
Definition handleChange (s : state) (k : form_field) (v : jstr) : state :=
  {| cs_form := set_field (cs_form s) k v;
     cs_errors := if error_shown (cs_errors s) k then set_error (cs_errors s) k [] else cs_errors s;
     cs_submitting := cs_submitting s; cs_status := cs_status s; cs_inflight := cs_inflight s |}.

(** [handleSubmit] up to the [await fetch], lines 61-83: [validateForm]
    stores [newErrors]; when it is empty the request starts. *)
Definition handleSubmit (ce : client_env) (s : state) : state :=
  match form_errors lower_unit (cs_form s) with
  | [] => {| cs_form := cs_form s; cs_errors := []; cs_submitting := true; cs_status := None;
             cs_inflight := Some {| p_url := apiUrl ce ++ u16 "/api/contact";
                                    p_body := form_body (cs_form s) |} |}
  | es => {| cs_form := cs_form s; cs_errors := es; cs_submitting := cs_submitting s;
             cs_status := cs_status s; cs_inflight := cs_inflight s |}
  end.

Definition msg_default_ok : jstr := u16 "Email sent successfully! I will get back to you soon.".
Definition msg_default_fail : jstr := u16 "Failed to send email. Please try again.".
Definition msg_network : jstr := u16 "Network error. Please check your connection and try again.".

(** [result.message || default] *)
Definition message_or (result : jvalue) (d : jstr) : jvalue :=
  match get_prop result k_message with Some m => if truthy m then m else JStr d | None => JStr d end.

(** Lines 85-108: the [try] after the [await], its [catch] and its
    [finally].  Reading [result.success] on [null] throws, as the failed
    fetch does. *)
Definition settle (s : state) (r : fetch_result) : state :=
  let done_with (f : form_data) (st : submit_status) :=
    {| cs_form := f; cs_errors := cs_errors s; cs_submitting := false; cs_status := Some st;
       cs_inflight := None |} in
  match r with
  | FetchFailed | FetchJson JNull => done_with (cs_form s) {| st_success := false; st_message := JStr msg_network |}
  | FetchJson result =>
      if truthy_prop (get_prop result (u16 "success"))
      then done_with blank_form {| st_success := true; st_message := message_or result msg_default_ok |}
      else done_with (cs_form s) {| st_success := false; st_message := message_or result msg_default_fail |}
  end.

(** The component's transitions; [EvSubmit] is possible only while the
    button is enabled, [EvSettle] only while a request is in flight. *)
Inductive step (ce : client_env) : state -> ui_event -> state -> Prop :=
| step_change s k v : step ce s (EvChange k v) (handleChange s k v)
| step_submit s : cs_submitting s = false -> step ce s EvSubmit (handleSubmit ce s)
| step_settle s p r : cs_inflight s = Some p -> step ce s (EvSettle r) (settle s r).

(** The states a sequence of events leads to from the first render. *)
Inductive reachable (ce : client_env) : state -> Prop :=
| reach_init : reachable ce init
| reach_step s ev s' : reachable ce s -> step ce s ev s' -> reachable ce s'.

End Component.

(** ** The view, lines 185-336 *)

Record field_view := {
  fv_value : jstr;          (** [value={formData.k}] *)
  fv_red_border : bool;     (** [errors.k ? 'border-red-500' : ...] *)
  fv_error_line : option jstr  (** [{errors.k && <p>⚠ {errors.k}</p>}] *)
}.

Record view := {
  v_fields : list (form_field * field_view);
  v_button_disabled : bool;
  v_button_label : jstr;
  v_spinner : bool;
  v_banner : option (bool * jstr * jvalue)  (** success, icon, message *)
}.

Definition field_view_of (s : state) (k : form_field) : field_view :=
  {| fv_value := get_field (cs_form s) k;
     fv_red_border := error_shown (cs_errors s) k;
     fv_error_line := if error_shown (cs_errors s) k then error_of (cs_errors s) k else None |}.

Definition render (s : state) : view :=
  {| v_fields := map (fun k => (k, field_view_of s k)) [FName; FEmail; FSubject; FMessage];
     v_button_disabled := cs_submitting s;
     v_button_label := if cs_submitting s then u16 "Sending..." else u16 "Send Message";
     v_spinner := cs_submitting s;
     v_banner := match cs_status s with
                 | Some st => Some (st_success st, if st_success st then u16 "✓" else u16 "✗", st_message st)
                 | None => None
                 end |}.

(** ** A session *)

(** The production build served from the portfolio's own domain. *)
Definition demo_ce : client_env :=
  {| ce_api_url := None; ce_dev := false; ce_origin := u16 "https://vishalsodmise.vercel.app/" |}.

(** The spec's example submission typed in, then sent. *)
Definition typed : state :=
  handleChange (handleChange (handleChange (handleChange init FName (u16 "Ada"))
    FEmail (u16 "ada@example.com")) FSubject (u16 "Hi")) FMessage (u16 "Loved your site!").

Definition sent : state := handleSubmit ascii_lower demo_ce typed.

Definition server_ok : fetch_result :=
  FetchJson (JObj [(u16 "success", JBool true);
                   (u16 "message", JStr (u16 "Email sent successfully! I will get back to you soon."))]).

End ContactForm.

(** ** Properties of the component *)

Module ContactFormProps.
Import ContactForm.

Section Props.
Context (lower_unit : Z -> list Z) (ce : client_env).

(** What every reachable state satisfies: [isSubmitting] is set exactly
    while a request is in flight, and the request in flight posts a form
    that passed [validateForm] to [apiUrl/api/contact]. *)
Definition inv (s : state) : Prop :=
  (cs_submitting s = true <-> is_Some (cs_inflight s)) /\
  forall p, cs_inflight s = Some p ->
    exists f, form_errors lower_unit f = [] /\ p_body p = form_body f /\
              p_url p = apiUrl ce ++ u16 "/api/contact".

Lemma inv_init : inv init.
Proof. split; [split; [discriminate|by intros []]|done]. Qed.

Lemma inv_step s ev s' : inv s -> step lower_unit ce s ev s' -> inv s'.
Proof.
  intros [Hsub Hp] Hst. destruct Hst as [s k v|s Hs|s p r Hin].
  - exact (conj Hsub Hp).
  - unfold handleSubmit. destruct (form_errors lower_unit (cs_form s)) as [|e es] eqn:Ef.
    + split; [split; [eauto|done]|]. intros p [= <-]. eauto.
    + exact (conj Hsub Hp).
  - unfold settle. destruct r as [|[]]; try (split; [split; [discriminate|by intros []]|done]).
    all: destruct (truthy_prop _); (split; [split; [discriminate|by intros []]|done]).
Qed.

Lemma reachable_inv s : reachable lower_unit ce s -> inv s.
Proof. induction 1; eauto using inv_init, inv_step. Qed.

Lemma error_of_app es1 es2 k :
  error_of (es1 ++ es2) k = match error_of es1 k with Some m => Some m | None => error_of es2 k end.
Proof.
  unfold error_of. induction es1 as [|[k' m'] es1 IH]; [done|]. cbn.
  case_bool_decide; [done|]. exact IH.
Qed.

Lemma find_replace_other (es : errors) k m k' :
  k' <> k ->
  List.find (fun p => bool_decide (p.1 = k')) (map (fun p => if decide (p.1 = k) then (k, m) else p) es) =
  List.find (fun p => bool_decide (p.1 = k')) es.
Proof.
  intros Hne. induction es as [|[k1 m1] es IH]; [done|]. cbn.
  destruct (decide (k1 = k)) as [->|Hk]; cbn.
  - rewrite !bool_decide_eq_false_2 by congruence. exact IH.
  - case_bool_decide; [done|]. exact IH.
Qed.

Lemma find_replace_same (es : errors) k m :
  existsb (fun p => bool_decide (p.1 = k)) es = true ->
  List.find (fun p => bool_decide (p.1 = k)) (map (fun p => if decide (p.1 = k) then (k, m) else p) es) =
  Some (k, m).
Proof.
  induction es as [|[k1 m1] es IH]; [done|]. cbn.
  destruct (decide (k1 = k)) as [->|Hk]; cbn.
  - by rewrite bool_decide_eq_true_2.
  - rewrite !bool_decide_eq_false_2 by done. exact IH.
Qed.

Lemma error_of_set_error es k m k' :
  error_of (set_error es k m) k' = if decide (k' = k) then Some m else error_of es k'.
Proof.
  unfold set_error. destruct (existsb _ es) eqn:Ex.
  - unfold error_of. case_decide as Hk.
    + subst. by rewrite find_replace_same.
    + by rewrite find_replace_other.
  - rewrite error_of_app. unfold error_of at 2. cbn.
    assert (Hn : error_of es k = None).
    { unfold error_of. destruct (List.find _ es) as [[k1 m1]|] eqn:Ef; [|done].
      apply find_some in Ef as [Hin Hk].
      exfalso. apply not_true_iff_false in Ex. apply Ex, existsb_exists. by exists (k1, m1). }
    case_decide; case_bool_decide; subst; try done.
    + by rewrite Hn.
    + by destruct (error_of es k').
Qed.

Lemma form_errors_msgs f : Forall (fun p => p.2 <> []) (form_errors lower_unit f).
Proof.
  unfold form_errors.
  repeat apply Forall_app_2; repeat case_match; repeat constructor; vm_compute; discriminate.
Qed.

Lemma error_of_msgs es k m : Forall (fun p => p.2 <> []) es -> error_of es k = Some m -> m <> [].
Proof.
  intros Hall. unfold error_of. destruct (List.find _ es) as [[k1 m1]|] eqn:Ef; [|done].
  intros [= <-]. apply find_some in Ef as [Hin _]. rewrite List.Forall_forall in Hall.
  exact (Hall _ Hin).
Qed.

Lemma get_set_field f k v k' :
  get_field (set_field f k v) k' = if decide (k' = k) then v else get_field f k'.
Proof. by destruct k, k'. Qed.

Lemma error_of_set_other es k m k' : k' <> k -> error_of (set_error es k m) k' = error_of es k'.
Proof. intros Hk. by rewrite error_of_set_error, decide_False. Qed.

Lemma error_shown_set_other es k m k' : k' <> k -> error_shown (set_error es k m) k' = error_shown es k'.
Proof. intros Hk. unfold error_shown. by rewrite error_of_set_other. Qed.

Lemma error_shown_some es k : error_shown es k = true <-> exists m, error_of es k = Some m /\ m <> [].
Proof.
  unfold error_shown. destruct (error_of es k) as [[|c r]|]; split; try done; eauto.
  - by intros (m & [= <-] & ?).
  - by intros (m & ? & _).
Qed.

(** C9: Every request the form posts passes the server's [validatePayload]:
    the browser's rules are at least as strict as the server's, and only a
    form they accept is posted. *)
Theorem posted_bodies_valid (Hlower : case_table_ok lower_unit) s p :
  reachable lower_unit ce s -> cs_inflight s = Some p ->
  validatePayload (Some (p_body p)) = Valid.
Proof.
  intros Hr Hin. destruct (reachable_inv s Hr) as [_ Hp].
  destruct (Hp p Hin) as (f & Hf & -> & _). exact (form_accepted_valid lower_unit Hlower f Hf).
Qed.

(** C11: The submit button is disabled, and reads "Sending...", exactly while
    a request is in flight. *)
Theorem button_disabled_iff s :
  reachable lower_unit ce s ->
  (v_button_disabled (render s) = true <-> is_Some (cs_inflight s)) /\
  v_button_label (render s) = if cs_submitting s then u16 "Sending..." else u16 "Send Message".
Proof. intros Hr. destruct (reachable_inv s Hr) as [Hs _]. by split. Qed.

(** C12: After a submit, each input shows exactly the error [validateForm]
    found for it, and nothing when the form was accepted. *)
Theorem submit_shows_errors s k :
  fv_error_line (field_view_of (handleSubmit lower_unit ce s) k) =
  error_of (form_errors lower_unit (cs_form s)) k.
Proof.
  unfold handleSubmit. pose proof (form_errors_msgs (cs_form s)) as Hm.
  destruct (form_errors lower_unit (cs_form s)) as [|e es] eqn:Ef; [done|].
  unfold field_view_of. cbn [cs_errors]. destruct (error_shown (e :: es) k) eqn:Es; [done|].
  destruct (error_of (e :: es) k) as [m|] eqn:Eo; [|done]. exfalso.
  apply not_true_iff_false in Es. apply Es, error_shown_some. eauto using error_of_msgs.
Qed.

(** Typing into an input sets its value and hides its error line, and
    leaves the other inputs as they were. *)
Theorem change_clears_error s k v :
  fv_value (field_view_of (handleChange s k v) k) = v /\
  fv_error_line (field_view_of (handleChange s k v) k) = None /\
  forall k', k' <> k -> field_view_of (handleChange s k v) k' = field_view_of s k'.
Proof.
  unfold field_view_of, handleChange. cbn [cs_form cs_errors fv_value fv_error_line].
  rewrite get_set_field, decide_True by done.
  split; [done|]. split.
  - destruct (error_shown (cs_errors s) k) eqn:Es; [|by rewrite Es].
    unfold error_shown at 1. rewrite error_of_set_error, decide_True by done. done.
  - intros k' Hk. rewrite get_set_field, decide_False by done.
    destruct (error_shown (cs_errors s) k); [|done].
    by rewrite error_shown_set_other, error_of_set_other.
Qed.

End Props.
End ContactFormProps.

(** ** Witnesses *)

Import ContactForm ContactFormProps.

Lemma sent_reachable : reachable ascii_lower demo_ce sent.
Proof.
  unfold sent, typed.
  repeat (eapply reach_step; [|first [apply step_submit; reflexivity | apply step_change]]).
  apply reach_init.
Qed.

Lemma posted_bodies_valid_witness :
  exists p, cs_inflight sent = Some p /\ validatePayload (Some (p_body p)) = Valid.
Proof.
  eexists. split; [vm_compute; reflexivity|].
  apply (posted_bodies_valid ascii_lower demo_ce ascii_lower_ok sent); [apply sent_reachable|].
  vm_compute. reflexivity.
Defined.

Lemma button_disabled_iff_witness :
  (v_button_disabled (render sent) = true <-> is_Some (cs_inflight sent)) /\
  v_button_label (render sent) = if cs_submitting sent then u16 "Sending..." else u16 "Send Message".
Proof. exact (button_disabled_iff ascii_lower demo_ce sent sent_reachable). Defined.

(** The request goes to the page's own origin, its final slash dropped. *)
Example sent_url :
  option_map p_url (cs_inflight sent) = Some (u16 "https://vishalsodmise.vercel.app/api/contact").
Proof. vm_compute. reflexivity. Qed.

(** What the visitor types while the mail is being sent is lost: the
    success resets the whole form. *)
Example edit_during_send_lost :
  cs_form (settle (handleChange sent FMessage (u16 "One more thing: ...")) server_ok) = blank_form.
Proof. reflexivity. Qed.
