(* ===== verification/Navbar.v ===== *)
(** * The navigation bar: src/src/components/Navbar.jsx

    The component's three state hooks ([isScrolled], [isMobileMenuOpen],
    [activeSection]) and the events that change them: the window's
    [scroll] listener ([handleScroll], lines 15-32), a click on a link or
    on the logo ([handleNavClick], lines 38-41, which also scrolls the
    page through [scrollToSection] of src/src/utils/helpers.js lines 6-11)
    and the menu button (line 97).  The page's layout is what
    [document.getElementById] and [offsetTop]/[offsetHeight] give for a
    section id, in whole pixels.  The links are [navLinks] of
    src/src/utils/constants.js (lines 3-10).  React batches the
    [setActiveSection] calls of one scroll event, so the last one wins. *)

From S2P Require Import Prelude.

Module Navbar.

Record nav_link := { nl_id : jstr; nl_title : jstr }.

(** [navLinks], src/src/utils/constants.js lines 3-10. *)
Definition navLinks : list nav_link :=
  [{| nl_id := u16 "home"; nl_title := u16 "Home" |};
   {| nl_id := u16 "about"; nl_title := u16 "About" |};
   {| nl_id := u16 "projects"; nl_title := u16 "Projects" |};
   {| nl_id := u16 "skills"; nl_title := u16 "Skills" |};
   {| nl_id := u16 "experience"; nl_title := u16 "Experience" |};
   {| nl_id := u16 "contact"; nl_title := u16 "Contact" |}].

(** The page: a section's [offsetTop] and [offsetHeight], when
    [document.getElementById(id)] finds it. *)
Abbreviation layout := (jstr -> option (Z * Z)) (only parsing).

Record state := { isScrolled : bool; isMobileMenuOpen : bool; activeSection : jstr }.

(** Lines 9-11. *)
Definition init : state := {| isScrolled := false; isMobileMenuOpen := false; activeSection := u16 "home" |}.

(** Whether [scrollPosition] is inside the section of [link]. *)
Definition section_at (lay : layout) (pos : Z) (link : nav_link) : bool :=
  match lay (nl_id link) with
  | Some (top, height) => (top <=? pos) && (pos <? top + height)
  | None => false
  end.

(** [handleScroll], lines 15-32. *)
Definition handleScroll (lay : layout) (scrollY : Z) (s : state) : state :=
  let scrollPosition := scrollY + 100 in
  {| isScrolled := 50 <? scrollY;
     isMobileMenuOpen := isMobileMenuOpen s;
     activeSection := fold_left (fun acc link => if section_at lay scrollPosition link then nl_id link else acc)
                                navLinks (activeSection s) |}.

(** [scrollToSection(sectionId)]: the section scrolled into view, if the
    page has it. *)
Definition scrollToSection (lay : layout) (sectionId : jstr) : option jstr :=
  match lay sectionId with Some _ => Some sectionId | None => None end.

(** [handleNavClick(sectionId)], lines 38-41: the new state and where the
    page scrolls. *)
Definition handleNavClick (lay : layout) (sectionId : jstr) (s : state) : state * option jstr :=
  ({| isScrolled := isScrolled s; isMobileMenuOpen := false; activeSection := activeSection s |},
   scrollToSection lay sectionId).

(** The menu button, line 97. *)
Definition toggleMenu (s : state) : state :=
  {| isScrolled := isScrolled s; isMobileMenuOpen := negb (isMobileMenuOpen s); activeSection := activeSection s |}.

Inductive event :=
| EvScroll (scrollY : Z)
| EvNavClick (sectionId : jstr)
| EvToggle.

(** A click can only name an id the component renders: a link's, or
    ['home'] for the logo (line 56). *)
Inductive step (lay : layout) : state -> event -> state -> Prop :=
| step_scroll s y : step lay s (EvScroll y) (handleScroll lay y s)
| step_click s id : (id = u16 "home" \/ In id (map nl_id navLinks)) ->
    step lay s (EvNavClick id) (handleNavClick lay id s).1
| step_toggle s : step lay s EvToggle (toggleMenu s).

Inductive reachable (lay : layout) : state -> Prop :=
| reach_init : reachable lay init
| reach_step s ev s' : reachable lay s -> step lay s ev s' -> reachable lay s'.

(** The desktop links, lines 67-90: which one is highlighted. *)
Definition highlighted (s : state) : list bool :=
  map (fun link => bool_decide (activeSection s = nl_id link)) navLinks.

(** The menu button's icon, lines 101-123. *)
Inductive menu_icon := IconClose | IconHamburger.

Record mobile_view := {
  m_icon : menu_icon;
  m_icon_rotated : bool;                  (** [rotate-90], line 102 *)
  m_panel_open : bool;                    (** [max-h-screen opacity-100], line 132 *)
  m_links : list (jstr * bool * Z) }.     (** key, highlighted, [animationDelay] in ms *)

(** The mobile menu, lines 95-151: the button's icon and the panel of
    links, each keyed by its id, highlighted when it is the active
    section and delayed by [index * 50] ms. *)
Definition mobile (s : state) : mobile_view :=
  {| m_icon := if isMobileMenuOpen s then IconClose else IconHamburger;
     m_icon_rotated := isMobileMenuOpen s;
     m_panel_open := isMobileMenuOpen s;
     m_links := imap (fun i link => (nl_id link, bool_decide (activeSection s = nl_id link), Z.of_nat i * 50)) navLinks |}.

(** A page with every section, 700 px each, and a scroll to the third. *)
Definition demo_layout (id : jstr) : option (Z * Z) :=
  let fix find (ls : list nav_link) (top : Z) :=
    match ls with
    | [] => None
    | l :: r => if bool_decide (id = nl_id l) then Some (top, 700) else find r (top + 700)
    end in
  find navLinks 0.

Definition scrolled : state := handleScroll demo_layout 1400 init.

End Navbar.

(** ** Properties *)

Import Navbar.

Lemma fold_last {A B} (p : A -> bool) (f : A -> B) (l : list A) (b : B) :
  fold_left (fun acc x => if p x then f x else acc) l b =
  match last (List.filter p l) with Some x => f x | None => b end.
Proof.
  induction l as [|x l IH] using rev_ind; [done|].
  rewrite fold_left_app, IH. cbn. rewrite List.filter_app. cbn.
  destruct (p x); cbn.
  - by rewrite last_snoc.
  - by rewrite app_nil_r.
Qed.

(** The active section is the last link, in the order of [navLinks],
    whose section contains [scrollY + 100]; when none does it stays. *)
Theorem handleScroll_active lay y s :
  activeSection (handleScroll lay y s) =
  match last (List.filter (section_at lay (y + 100)) navLinks) with
  | Some link => nl_id link
  | None => activeSection s
  end.
Proof. apply fold_last. Qed.

Lemma fold_in_links lay pos (l : list nav_link) acc :
  (forall x, In x l -> In (nl_id x) (map nl_id navLinks)) ->
  In acc (map nl_id navLinks) ->
  In (fold_left (fun acc link => if section_at lay pos link then nl_id link else acc) l acc)
     (map nl_id navLinks).
Proof.
  revert acc. induction l as [|x l IH]; intros acc Hl Hacc; [done|]. cbn.
  apply IH; [intros y Hy; apply Hl; by right|].
  destruct (section_at lay pos x); [apply Hl; by left | exact Hacc].
Qed.

Lemma active_in_links lay s : reachable lay s -> In (activeSection s) (map nl_id navLinks).
Proof.
  induction 1 as [|s ev s' Hr IH Hst]; [by left|].
  destruct Hst as [s y|s id Hid|s]; cbn [activeSection handleScroll handleNavClick toggleMenu fst];
    [|exact IH|exact IH].
  apply fold_in_links; [|exact IH]. intros x Hx. by apply in_map.
Qed.

(** C22: In every state the component reaches, exactly one desktop link is
    highlighted. *)
Theorem one_highlighted lay s :
  reachable lay s -> length (List.filter (fun b : bool => b) (highlighted s)) = 1%nat.
Proof.
  intros Hr. unfold highlighted.
  change (map (fun link => bool_decide (activeSection s = nl_id link)) navLinks)
    with (map (fun x => bool_decide (activeSection s = x)) (map nl_id navLinks)).
  apply exactly_one_selected; [| by apply active_in_links with lay].
  repeat constructor; vm_compute; intuition discriminate.
Qed.

Lemma one_highlighted_witness :
  reachable demo_layout scrolled /\ length (List.filter (fun b : bool => b) (highlighted scrolled)) = 1%nat.
Proof.
  assert (H : reachable demo_layout scrolled) by (eapply reach_step; [apply reach_init | apply step_scroll]).
  split; [exact H|]. exact (one_highlighted demo_layout scrolled H).
Defined.

(** The scroll of the example makes [projects] active. *)
Example scrolled_active : activeSection scrolled = u16 "projects".
Proof. vm_compute. reflexivity. Qed.

(** The mobile menu highlights the same link as the desktop bar, its
    links are keyed by the distinct ids of [navLinks], and choosing one of
    them closes the panel and turns the icon back into the hamburger. *)
Lemma mobile_menu lay id s :
  map (fun x => x.1.2) (m_links (mobile s)) = highlighted s
  /\ map (fun x => x.1.1) (m_links (mobile s)) = map nl_id navLinks
  /\ m_panel_open (mobile (handleNavClick lay id s).1) = false
  /\ m_icon (mobile (handleNavClick lay id s).1) = IconHamburger.
Proof.
  unfold mobile, highlighted. cbn [m_links m_panel_open m_icon handleNavClick fst isMobileMenuOpen].
  rewrite !map_imap. split; [| split; [| done]].
  - exact (imap_index_free (fun link => bool_decide (activeSection s = nl_id link)) navLinks).
  - exact (imap_index_free nl_id navLinks).
Qed.

