(* ===== verification/Loader.v ===== *)
(** * The loading screen: src/src/components/Loader.jsx and src/src/App.jsx

    [WaterDropLoader] (Loader.jsx lines 21-255) simulates progress: an
    interval of 150 ms adds [Math.random() * 8 + 2] to [progress], capped
    at 100 (lines 27-40); the first tick that finds 100 clears the
    interval and schedules, 800 ms later, the end of the screen
    ([isVisible] false and [onLoadingComplete()]).  [App] (App.jsx lines
    16-73) shows the loader while [isLoading], which
    [handleLoadingComplete] clears.  Progress is an exact rational, the
    random numbers are the inputs of the ticks, and the two timers are
    events.  The updater passed to [setProgress] runs its side effects
    once per update, as React runs it outside development's strict mode.
    [ScrollToTop] (App.jsx lines 78-140) is the scroll button.  The rest
    of the screen's picture is in [LoaderScreen], the loader's ticks on a
    clock in [StartUp]. *)

From Stdlib Require Import QArith Qminmax Qround Lqa.
From S2P Require Import Prelude Config Helpers.

Module Loader.

Record state := {
  progress : Q;
  isVisible : bool;
  ticking : bool;        (** the interval is set *)
  hidePending : bool;    (** the 800 ms timeout is scheduled *)
  isLoading : bool       (** [App]'s state: the loader is mounted *)
}.

Definition init : state :=
  {| progress := 0; isVisible := true; ticking := true; hidePending := false; isLoading := true |}.

(** The interval's callback, lines 27-40, with [Math.random()] = [r]. *)
Definition tick (r : Q) (s : state) : state :=
  if Qle_bool 100 (progress s)
  then {| progress := 100; isVisible := isVisible s; ticking := false; hidePending := true;
          isLoading := isLoading s |}
  else {| progress := Qmin (progress s + r * 8 + 2) 100; isVisible := isVisible s;
          ticking := ticking s; hidePending := hidePending s; isLoading := isLoading s |}.

(** The timeout, lines 31-34, and [handleLoadingComplete] (App.jsx lines
    29-31) that it calls. *)
Definition hide (s : state) : state :=
  {| progress := progress s; isVisible := false; ticking := ticking s; hidePending := false;
     isLoading := false |}.

Inductive event := Tick (r : Q) | HideTimeout.

(** A tick happens while the interval is set, with [0 <= r < 1]; the
    timeout fires once it is scheduled. *)
Inductive step : state -> event -> state -> Prop :=
| st_tick s r : ticking s = true -> (0 <= r < 1)%Q -> step s (Tick r) (tick r s)
| st_hide s : hidePending s = true -> step s HideTimeout (hide s).

Inductive reachable : state -> Prop :=
| reach_init : reachable init
| reach_step s ev s' : reachable s -> step s ev s' -> reachable s'.

(** The ticks of a run, each while the interval is set. *)
Definition run_ticks (rs : list Q) (s : state) : state :=
  fold_left (fun s r => if ticking s then tick r s else s) rs s.

(** [Math.round(x)] *)
Definition round (x : Q) : Z := Qfloor (x + (1 # 2)).

Record view := {
  bar_width : Q;        (** [width: `${progress}%`], line 224 *)
  percent : Z;          (** [{Math.round(progress)}%], line 236 *)
  dots : bool;          (** [{progress < 100 && ...}], line 238 *)
  fading : bool         (** [progress >= 100 ? 'opacity-0 scale-95' : ...], line 65 *)
}.

(** What is on the screen: nothing once [isVisible] is false (line 45) or
    [App] has unmounted the loader (App.jsx line 36). *)
Definition render (s : state) : option view :=
  if isLoading s && isVisible s
  then Some {| bar_width := progress s; percent := round (progress s);
               dots := negb (Qle_bool 100 (progress s)); fading := Qle_bool 100 (progress s) |}
  else None.

(** A run where [Math.random()] always returns 0, and one tick of 1/2. *)
Definition zeros : list Q := repeat 0%Q 51.
Definition finished : state := hide (run_ticks zeros init).
Definition one_tick : state := run_ticks [1 # 2] init.

End Loader.

Module ScrollToTop.

Record state := { isVisible : bool; scrollProgress : jsnum }.

(** [toggleVisibility], App.jsx lines 83-90, given [window.pageYOffset],
    [document.documentElement.scrollHeight] and [window.innerHeight]. *)
Definition toggleVisibility (scrolled scrollHeight innerHeight : Q) : state :=
  let winHeight := JsMath.sub (NFin scrollHeight) (NFin innerHeight) in
  {| isVisible := negb (Qle_bool scrolled 500);
     scrollProgress := JsMath.mul (JsMath.div (NFin scrolled) winHeight) (NFin 100) |}.

End ScrollToTop.

(** ** Properties *)

Import Loader.

Section LoaderProps.
Local Open Scope Q_scope.

Definition inv (s : state) : Prop :=
  0 <= progress s <= 100 /\ (hidePending s = true -> ticking s = false) /\
  (isLoading s = false -> ticking s = false /\ hidePending s = false).

Lemma tick_progress_bounds p r : 0 <= p -> 0 <= r -> 0 <= Qmin (p + r * 8 + 2) 100 <= 100.
Proof.
  intros Hp Hr. split; [|apply Q.le_min_r].
  apply Q.min_glb; [|unfold Qle; simpl; lia].
  apply Qle_trans with (p + r * 8); [|rewrite <- (Qplus_0_r (p + r * 8)) at 1; apply Qplus_le_compat;
    [apply Qle_refl | unfold Qle; simpl; lia]].
  rewrite <- (Qplus_0_r 0). apply Qplus_le_compat; [exact Hp|].
  apply Qmult_le_0_compat; [exact Hr | unfold Qle; simpl; lia].
Qed.

Lemma loader_inv_step s ev s' : inv s -> step s ev s' -> inv s'.
Proof.
  intros (Hb & Hh & Hl) Hst. destruct Hst as [s r Ht Hr|s Hp].
  - unfold tick. destruct (Qle_bool 100 (progress s)); cbn.
    + split; [split; unfold Qle; simpl; lia|]. split; [done|].
      intros Hi. destruct (Hl Hi). congruence.
    + split; [apply tick_progress_bounds; [apply Hb | apply Hr]|]. split; [exact Hh|exact Hl].
  - cbn. split; [exact Hb|]. split; [done|]. intros _. split; [apply Hh, Hp | done].
Qed.

Lemma loader_reachable_inv s : reachable s -> inv s.
Proof.
  induction 1 as [|s ev s' _ IH Hst]; [|eauto using loader_inv_step].
  split; [split; unfold Qle; simpl; lia|]. split; done.
Qed.

(** Once [App] has taken the loader down nothing more happens: the
    interval is cleared and no timeout is left, so [onLoadingComplete] is
    called at most once. *)
Theorem loader_done_is_final s ev s' :
  reachable s -> isLoading s = false -> ~ step s ev s'.
Proof.
  intros Hr Hl Hst. destruct (loader_reachable_inv s Hr) as (_ & _ & Hf). destruct (Hf Hl) as [Ht Hp].
  destruct Hst; congruence.
Qed.

Lemma run_ticks_stopped rs s : ticking s = false -> run_ticks rs s = s.
Proof.
  revert s. induction rs as [|r rs IH]; intros s Hs; [done|].
  unfold run_ticks. cbn. rewrite Hs. apply IH, Hs.
Qed.

Lemma run_ticks_cons r rs s :
  run_ticks (r :: rs) s = run_ticks rs (if ticking s then tick r s else s).
Proof. reflexivity. Qed.

(** From a progress [p] with [p + 2k >= 100], [k + 1] ticks stop the
    interval and schedule the end: every tick adds at least 2. *)
Lemma ticks_finish (k : nat) : forall s rs,
  ticking s = true -> 0 <= progress s -> 100 <= progress s + 2 * inject_Z (Z.of_nat k) ->
  (S k <= length rs)%nat -> Forall (fun r => 0 <= r < 1) rs ->
  ticking (run_ticks rs s) = false /\ hidePending (run_ticks rs s) = true.
Proof.
  induction k as [|k IH]; intros s rs Ht Hp Hk Hlen Hrs;
    (destruct rs as [|r rs]; [cbn in Hlen; lia|]); inversion Hrs as [|? ? [Hr0 Hr1] Hrs']; subst;
    rewrite run_ticks_cons, Ht; unfold tick;
    (destruct (Qle_bool 100 (progress s)) eqn:E;
     [rewrite run_ticks_stopped by reflexivity; done|]);
    apply not_true_iff_false in E; rewrite Qle_bool_iff in E; apply Qnot_le_lt in E.
  - change (inject_Z (Z.of_nat 0)) with 0 in Hk. lra.
  - apply IH; cbn [progress ticking length]; try done; [| | cbn in Hlen; lia].
    + apply Q.min_glb; lra.
    + assert (0 <= inject_Z (Z.of_nat k)) by (change 0 with (inject_Z 0); rewrite <- Zle_Qle; lia).
      rewrite Nat2Z.inj_succ, <- Z.add_1_r, inject_Z_plus in Hk. change (inject_Z 1) with 1 in Hk.
      destruct (Q.min_spec (progress s + r * 8 + 2) 100) as [[_ Em]|[_ Em]]; rewrite Em; lra.
Qed.

(** C23: Whatever [Math.random()] returns, the 51st tick at the latest clears
    the interval and schedules the end; the timeout then takes the screen
    down. *)
Theorem loader_stops rs :
  (51 <= length rs)%nat -> Forall (fun r => 0 <= r < 1) rs ->
  ticking (run_ticks rs init) = false /\ hidePending (run_ticks rs init) = true /\
  render (hide (run_ticks rs init)) = None.
Proof.
  intros Hl Hrs.
  assert (H0 : 0 <= progress init) by (cbn [progress init]; lra).
  assert (Hk : 100 <= progress init + 2 * inject_Z (Z.of_nat 50))
    by (change (inject_Z (Z.of_nat 50)) with 50; cbn [progress init]; lra).
  destruct (ticks_finish 50 init rs eq_refl H0 Hk Hl Hrs) as [Ht Hp].
  split; [exact Ht|]. split; [exact Hp|]. reflexivity.
Qed.

(** The percentage on the screen is between 0 and 100, and the bouncing
    dots show exactly while the progress is below 100. *)
Theorem render_percent s v :
  reachable s -> render s = Some v ->
  (0 <= percent v <= 100)%Z /\ (dots v = true <-> progress s < 100).
Proof.
  intros Hr Hv. destruct (loader_reachable_inv s Hr) as [[H0 H1] _].
  unfold render in Hv. destruct (isLoading s && isVisible s); [|discriminate].
  injection Hv as <-. cbn [percent dots]. split.
  - unfold round. split.
    + change 0%Z with (Qfloor (1 # 2)). apply Qfloor_resp_le. lra.
    + change 100%Z with (Qfloor (100 + (1 # 2))). apply Qfloor_resp_le. lra.
  - rewrite negb_true_iff, <- not_true_iff_false, Qle_bool_iff. split; [apply Qnot_le_lt | apply Qlt_not_le].
Qed.

Lemma reachable_run_ticks rs s :
  reachable s -> Forall (fun r => 0 <= r < 1) rs -> reachable (run_ticks rs s).
Proof.
  intros Hs Hrs. revert s Hs. induction Hrs as [|r rs Hr _ IH]; intros s Hs; [exact Hs|].
  rewrite run_ticks_cons. apply IH. destruct (ticking s) eqn:Ht; [|exact Hs].
  eapply reach_step; [exact Hs | by constructor].
Qed.

Lemma zeros_valid : Forall (fun r => 0 <= r < 1) zeros.
Proof. apply List.Forall_forall. intros r Hr%repeat_spec. subst. lra. Qed.

End LoaderProps.

(** ** Witnesses *)

Lemma finished_reachable : reachable finished.
Proof.
  eapply reach_step; [apply reachable_run_ticks; [apply reach_init | apply zeros_valid] |].
  apply st_hide. vm_compute. reflexivity.
Qed.

Lemma loader_done_is_final_witness : ~ step finished HideTimeout (hide finished).
Proof. apply loader_done_is_final; [apply finished_reachable | reflexivity]. Defined.

Lemma loader_stops_witness :
  ticking (run_ticks zeros init) = false /\ hidePending (run_ticks zeros init) = true /\
  render (hide (run_ticks zeros init)) = None.
Proof. apply loader_stops; [reflexivity | apply zeros_valid]. Defined.

Lemma render_percent_witness :
  exists v, render one_tick = Some v /\
  (0 <= percent v <= 100)%Z /\ (dots v = true <-> (progress one_tick < 100)%Q).
Proof.
  eexists. split; [reflexivity|].
  apply render_percent; [|reflexivity].
  apply reachable_run_ticks; [apply reach_init | repeat constructor; cbn; lra].
Defined.
