(* ===== verification/Hero.v ===== *)
(** * The hero section: src/src/components/Hero.jsx

    [Hero] (lines 49-401) holds two pieces of logic beside its three.js
    scene.  The typewriter (lines 55-58 and 111-135) types the titles of
    [heroData.titles] one code unit per timer tick, pauses 2000 ms on the
    full title, deletes it and moves to the next; its [useEffect] re-arms
    one [setTimeout] whenever one of its dependencies [text],
    [isDeleting], [loopNum], [typingSpeed] changes, and the pause is a
    second [setTimeout] that no cleanup clears.  The cursor trail (lines
    67-68 and 88-109) keeps the last twenty mouse positions with
    increasing ids.

    The titles come from [src/src/data/portfolioData.json], which the
    repository does not hold: they are a [Variable] of the sections, and
    the theorems state what they need of them.  A timer's callback and
    the re-render it causes are one step: React runs the updaters, then
    the effect's cleanup and body when a dependency changed. *)

From Stdlib Require Import QArith.
From S2P Require Import Prelude.

Module Typewriter.

Record state := {
  text : jstr;
  isDeleting : bool;
  loopNum : nat;
  typingSpeed : Z;
  timer : bool;          (** the effect's [setTimeout(handleTyping, typingSpeed)] is pending *)
  pauses : nat           (** pending [setTimeout(() => setIsDeleting(true), 2000)] *)
}.

Definition mk t d l sp tm p : state :=
  {| text := t; isDeleting := d; loopNum := l; typingSpeed := sp; timer := tm; pauses := p |}.

(** [HERO_CONFIG.typingSpeed], line 73. *)
Definition speed_normal : Z := 150.
Definition speed_deleting : Z := 50.

(** [s.substring(0, k)] for an integer [k]: a negative end is 0, an end
    past the string is its length. *)
Definition substring0 (s : jstr) (k : Z) : jstr := take (Z.to_nat k) s.

(** Lines 55-58: the state hooks, and the effect's first timer. *)
Definition init : state := mk [] false 0 speed_normal true 0.

Section Titles.
Variable titles : list jstr.

(** [titles[loopNum % titles.length]], lines 114-115. *)
Definition fullText (s : state) : jstr := nth (loopNum s mod length titles) titles [].

(** [handleTyping], lines 113-131, on the values its closure captured;
    [None] is the [TypeError] of [undefined.substring] when there are no
    titles ([loopNum % 0] is NaN). *)
Definition handleTyping (s : state) : option state :=
  match titles with
  | [] => None
  | _ =>
      let full := fullText s in
      let len := Z.of_nat (length (text s)) in
      let text' := if isDeleting s then substring0 full (len - 1) else substring0 full (len + 1) in
      let speed' := if isDeleting s then speed_deleting else speed_normal in
      if negb (isDeleting s) && bool_decide (text s = full)
      then Some (mk text' (isDeleting s) (loopNum s) speed' (timer s) (S (pauses s)))
      else if isDeleting s && bool_decide (text s = [])
      then Some (mk text' false (S (loopNum s)) speed' (timer s) (pauses s))
      else Some (mk text' (isDeleting s) (loopNum s) speed' (timer s) (pauses s))
  end.

(** The effect's dependencies, line 135 ([titles] is memoised). *)
Definition deps (s : state) : jstr * bool * nat * Z :=
  (text s, isDeleting s, loopNum s, typingSpeed s).

(** After the updaters: when a dependency changed, the cleanup clears the
    pending timer and the effect sets a new one (lines 133-134). *)
Definition rerender (old new : state) : state :=
  if bool_decide (deps old = deps new) then new
  else mk (text new) (isDeleting new) (loopNum new) (typingSpeed new) true (pauses new).

(** The typing timer fires. *)
Definition fire_timer (s : state) : state :=
  let s0 := mk (text s) (isDeleting s) (loopNum s) (typingSpeed s) false (pauses s) in
  match handleTyping s0 with
  | Some s1 => rerender s0 s1
  | None => s0
  end.

(** A pause timer fires: [setIsDeleting(true)], line 126. *)
Definition fire_pause (s : state) : state :=
  let s0 := mk (text s) (isDeleting s) (loopNum s) (typingSpeed s) (timer s) (pred (pauses s)) in
  rerender s0 (mk (text s0) true (loopNum s0) (typingSpeed s0) (timer s0) (pauses s0)).

Inductive step : state -> state -> Prop :=
| st_timer s : timer s = true -> step s (fire_timer s)
| st_pause s : (0 < pauses s)%nat -> step s (fire_pause s).

Inductive reachable : state -> Prop :=
| reach_init : reachable init
| reach_step s s' : reachable s -> step s s' -> reachable s'.

(** A scheduler: the typing timer if it is pending, else a pause. *)
Definition next (s : state) : state :=
  if timer s then fire_timer s
  else match pauses s with O => s | S _ => fire_pause s end.

Fixpoint run (n : nat) (s : state) : state :=
  match n with O => s | S n' => run n' (next s) end.

End Titles.

End Typewriter.

Module CursorTrail.

Record point := { px : Z; py : Z; pid : Z }.

(** [cursorTrail] (line 68) and [trailIdCounterRef] (line 67). *)
Record state := { cursorTrail : list point; trailIdCounter : Z }.

Definition init : state := {| cursorTrail := []; trailIdCounter := 0 |}.

(** [HERO_CONFIG.cursorTrailMaxLength], line 75. *)
Definition cursorTrailMaxLength : nat := 20.

(** [handleMouseMove], lines 89-105, for [e.clientX], [e.clientY]: the
    updater of lines 97-104 bumps the counter and puts the new point in
    front, keeping the first twenty ([slice(0, 20)]). *)
Definition handleMouseMove (x y : Z) (s : state) : state :=
  let c := trailIdCounter s + 1 in
  {| cursorTrail := take cursorTrailMaxLength ({| px := x; py := y; pid := c |} :: cursorTrail s);
     trailIdCounter := c |}.

(** The mouse moves of a session, in order. *)
Definition moves (ms : list (Z * Z)) (s : state) : state :=
  fold_left (fun s m => handleMouseMove m.1 m.2 s) ms s.

(** The points of a list of moves numbered from [i]. *)
Fixpoint label (i : Z) (ms : list (Z * Z)) : list point :=
  match ms with
  | [] => []
  | (x, y) :: r => {| px := x; py := y; pid := i |} :: label (i + 1) r
  end.

(** A trail dot's opacity and scale, lines 184-185: [(length - index) /
    length * 0.5] and [(length - index) / length]. *)
Definition dot_scale (len index : nat) : Q := inject_Z (Z.of_nat len - Z.of_nat index) / inject_Z (Z.of_nat len).
Definition dot_opacity (len index : nat) : Q := dot_scale len index * (1 # 2).

End CursorTrail.

Module ErrorBoundary.

(** [Canvas3DErrorBoundary], lines 20-44: its state, the message logged
    by [componentDidCatch] and what it renders. *)
Record state := { hasError : bool }.

Definition init : state := {| hasError := false |}.

(** A render of the children throws: [getDerivedStateFromError] (lines
    26-28) and [componentDidCatch] (lines 30-32). *)
Definition caught (s : state) : state * jstr := ({| hasError := true |}, u16 "3D Canvas Error:").

Inductive view := Fallback | Children.

(** [render()], lines 34-43. *)
Definition render (s : state) : view := if hasError s then Fallback else Children.

End ErrorBoundary.

(** Titles in the shape of [heroData.titles]. *)
Definition demo_titles : list jstr := [u16 "Full Stack Developer"; u16 "ML Engineer"].

(** ** Properties of the typewriter *)

Import Typewriter.

Lemma take_length_lt {A} (l : list A) j : (j < length l)%nat -> take j l <> l.
Proof. intros Hj E. apply (f_equal length) in E. rewrite length_take in E. lia. Qed.

Lemma substring0_take (l : jstr) j k :
  (j <= length l)%nat -> substring0 l (Z.of_nat (length (take j l)) + k) = take (Z.to_nat (Z.of_nat j + k)) l.
Proof. intros Hj. unfold substring0. by rewrite length_take, Nat.min_l by lia. Qed.

Lemma rerender_changed old new : deps old <> deps new ->
  rerender old new = mk (text new) (isDeleting new) (loopNum new) (typingSpeed new) true (pauses new).
Proof. intros Hd. unfold rerender. by rewrite bool_decide_eq_false_2. Qed.

Lemma rerender_same old new : deps old = deps new -> rerender old new = new.
Proof. intros Hd. unfold rerender. by rewrite bool_decide_eq_true_2. Qed.

Section Cases.
Variable titles : list jstr.
Hypothesis Hts : titles <> [].
Variable s : state.
Local Abbreviation full := (fullText titles s).

Lemma handleTyping_unfold s0 : loopNum s0 = loopNum s ->
  handleTyping titles s0 =
  let len := Z.of_nat (length (text s0)) in
  let text' := if isDeleting s0 then substring0 full (len - 1) else substring0 full (len + 1) in
  let speed' := if isDeleting s0 then speed_deleting else speed_normal in
  Some (if negb (isDeleting s0) && bool_decide (text s0 = full)
        then mk text' (isDeleting s0) (loopNum s0) speed' (timer s0) (S (pauses s0))
        else if isDeleting s0 && bool_decide (text s0 = [])
        then mk text' false (S (loopNum s0)) speed' (timer s0) (pauses s0)
        else mk text' (isDeleting s0) (loopNum s0) speed' (timer s0) (pauses s0)).
Proof.
  intros Hl. unfold handleTyping, fullText. rewrite Hl.
  destruct titles; [done|]. cbv zeta. by repeat case_match.
Qed.

(** A typing tick on a proper prefix adds the next code unit. *)
Lemma fire_timer_type j :
  isDeleting s = false -> text s = take j full -> (j < length full)%nat ->
  fire_timer titles s = mk (take (S j) full) false (loopNum s) speed_normal true (pauses s).
Proof.
  intros Hd Ht Hj. unfold fire_timer. rewrite handleTyping_unfold by done. cbn [text isDeleting loopNum timer pauses mk].
  rewrite Hd, Ht, bool_decide_eq_false_2 by (apply take_length_lt; lia). cbn.
  rewrite substring0_take by lia. replace (Z.to_nat (Z.of_nat j + 1)) with (S j) by lia.
  rewrite rerender_changed; [done|]. intros [= E]. apply (f_equal length) in E. rewrite !length_take in E. lia.
Qed.

(** The tick that finds the full title schedules the pause and, the
    dependencies being unchanged, no new typing timer. *)
Lemma fire_timer_typed :
  isDeleting s = false -> text s = full -> typingSpeed s = speed_normal ->
  fire_timer titles s = mk full false (loopNum s) speed_normal false (S (pauses s)).
Proof.
  intros Hd Ht Hsp. unfold fire_timer. rewrite handleTyping_unfold by done. cbn [text isDeleting loopNum timer pauses mk].
  rewrite Hd, Ht, bool_decide_eq_true_2 by done. cbn.
  unfold substring0. rewrite take_ge by lia.
  rewrite rerender_same; [done|]. unfold deps. cbn. by rewrite Hsp.
Qed.

(** A deleting tick removes the last code unit. *)
Lemma fire_timer_delete j :
  isDeleting s = true -> text s = take (S j) full -> (S j <= length full)%nat ->
  fire_timer titles s = mk (take j full) true (loopNum s) speed_deleting true (pauses s).
Proof.
  intros Hd Ht Hj. unfold fire_timer. rewrite handleTyping_unfold by done. cbn [text isDeleting loopNum timer pauses mk].
  rewrite Hd, Ht. cbn [negb andb].
  rewrite bool_decide_eq_false_2 by (intros E; apply (f_equal length) in E; rewrite length_take in E; cbn [length] in E; lia).
  cbn. unfold substring0. rewrite length_take, Nat.min_l by lia. replace (Z.to_nat (Z.of_nat (S j) - 1)) with j by lia.
  rewrite rerender_changed; [done|]. intros [= E]. apply (f_equal length) in E. rewrite !length_take in E. lia.
Qed.

(** The tick that finds the text deleted moves to the next title. *)
Lemma fire_timer_wrap :
  isDeleting s = true -> text s = [] ->
  fire_timer titles s = mk [] false (S (loopNum s)) speed_deleting true (pauses s).
Proof.
  intros Hd Ht. unfold fire_timer. rewrite handleTyping_unfold by done. cbn [text isDeleting loopNum timer pauses mk].
  rewrite Hd, Ht. cbn. rewrite rerender_changed; [done|]. by intros [= E].
Qed.

End Cases.

Lemma fire_pause_start s :
  isDeleting s = false ->
  fire_pause s = mk (text s) true (loopNum s) (typingSpeed s) true (pred (pauses s)).
Proof. intros Hd. unfold fire_pause. rewrite rerender_changed; [done|]. unfold deps. cbn. rewrite Hd. by intros [= E]. Qed.

(** Arithmetic on the length of the current title. *)
Ltac title_lia := unfold fullText in *; cbn [loopNum mk] in *; lia.

Lemma run_add titles n m s : run titles (n + m) s = run titles m (run titles n s).
Proof. revert s. induction n as [|n IH]; intros s; [done|]. apply IH. Qed.

Section TypewriterProps.
Variable titles : list jstr.
(** Every title has text; there is at least one. *)
Hypothesis Hne : Forall (fun t => t <> []) titles.
Hypothesis Hts : titles <> [].

Local Abbreviation title k := (nth (k mod length titles) titles []).

Lemma title_nonempty k : title k <> [].
Proof.
  apply (proj1 (List.Forall_forall _ _) Hne), nth_In, Nat.mod_upper_bound.
  destruct titles; [done|]. cbn. lia.
Qed.

(** The typewriter's invariant: the text is a prefix of the current
    title, a text being typed was typed at normal speed, and exactly one
    timer is pending: the typing timer, or the pause on a full title. *)
Definition inv (s : state) : Prop :=
  (exists j, (j <= length (fullText titles s))%nat /\ text s = take j (fullText titles s)) /\
  (isDeleting s = false -> text s <> [] -> typingSpeed s = speed_normal) /\
  ((timer s = true /\ pauses s = 0%nat) \/
   (timer s = false /\ pauses s = 1%nat /\ isDeleting s = false /\ text s = fullText titles s)).

Lemma typewriter_inv_init : inv init.
Proof. split; [exists 0%nat; split; [lia | by rewrite take_0] |]. split; [done|]. by left. Qed.

Lemma typewriter_inv_step s s' : inv s -> step titles s s' -> inv s'.
Proof.
  intros ((j & Hj & Ht) & Hsp & Hp) Hst. destruct Hst as [s Htm|s Hps].
  - destruct Hp as [[_ Hp0]|[Hf _]]; [|congruence].
    destruct (isDeleting s) eqn:Hd.
    + destruct j as [|j].
      * rewrite (fire_timer_wrap titles Hts s Hd Ht).
        split; [exists 0%nat; split; [lia|by rewrite take_0]|]. split; [done|]. by left.
      * rewrite (fire_timer_delete titles Hts s j Hd Ht Hj).
        split; [exists j; split; [unfold fullText in *; cbn [loopNum mk]; lia|done]|]. split; [done|]. by left.
    + destruct (decide (text s = fullText titles s)) as [Hf|Hf].
      * assert (Hs : typingSpeed s = speed_normal) by (apply Hsp; [done|rewrite Hf; apply title_nonempty]).
        rewrite (fire_timer_typed titles Hts s Hd Hf Hs), Hp0.
        split; [exists (length (fullText titles s)); split; [done|by rewrite take_ge]|].
        split; [done|]. right. done.
      * assert (Hlt : (j < length (fullText titles s))%nat).
        { destruct (decide (j < length (fullText titles s))%nat); [done|].
          rewrite take_ge in Ht by lia. congruence. }
        rewrite (fire_timer_type titles Hts s j Hd Ht Hlt).
        split; [exists (S j); split; [unfold fullText in *; cbn [loopNum mk]; lia|done]|]. split; [done|]. by left.
  - destruct Hp as [[_ Hp0]|(_ & Hp1 & Hd & Hf)]; [lia|].
    rewrite (fire_pause_start s Hd), Hp1. cbn.
    split; [exists j; split; done|]. split; [done|]. by left.
Qed.

Lemma typewriter_reachable_inv s : reachable titles s -> inv s.
Proof. induction 1; eauto using typewriter_inv_init, typewriter_inv_step. Qed.

(** C25: For a non-empty list of titles that are all non-empty (the
    section's hypotheses [Hne] and [Hts]), in every reachable state the
    text on the screen is a prefix of the current title, and exactly one
    timer is pending: the typing timer, or one pause after a full title
    (never two, so no title is skipped).  An empty title breaks the second
    half: [empty_title_double_pause]. *)
Theorem typewriter_one_timer s :
  reachable titles s ->
  text s `prefix_of` fullText titles s /\
  ((timer s = true /\ pauses s = 0%nat) \/ (timer s = false /\ pauses s = 1%nat)).
Proof.
  intros Hr. destruct (typewriter_reachable_inv s Hr) as ((j & _ & ->) & _ & Hp).
  split; [apply prefix_take|]. destruct Hp as [Hp|(? & ? & _)]; [by left|by right].
Qed.

Lemma next_reachable s : reachable titles s -> reachable titles (next titles s).
Proof.
  intros Hr. unfold next. destruct (timer s) eqn:Ht; [eapply reach_step; [exact Hr|by constructor]|].
  destruct (pauses s) eqn:Hp; [exact Hr|]. eapply reach_step; [exact Hr|]. constructor. lia.
Qed.

Lemma run_reachable n s : reachable titles s -> reachable titles (run titles n s).
Proof. revert s. induction n; intros s Hr; [done|]. apply IHn, next_reachable, Hr. Qed.

Lemma typing_run k p n : forall j sp, (j + n <= length (title k))%nat ->
  run titles n (mk (take j (title k)) false k sp true p) =
  mk (take (j + n) (title k)) false k (match n with O => sp | S _ => speed_normal end) true p.
Proof.
  induction n as [|n IH]; intros j sp Hj; [by rewrite Nat.add_0_r|].
  cbn [run next timer mk]. rewrite (fire_timer_type titles Hts _ j) by (done || title_lia).
  unfold fullText. cbn [text loopNum pauses mk]. rewrite IH by lia. rewrite Nat.add_succ_r. by destruct n.
Qed.

Lemma deleting_run k p n : forall j sp, (n <= j)%nat -> (j <= length (title k))%nat ->
  run titles n (mk (take j (title k)) true k sp true p) =
  mk (take (j - n) (title k)) true k (match n with O => sp | S _ => speed_deleting end) true p.
Proof.
  induction n as [|n IH]; intros j sp Hn Hj; [by rewrite Nat.sub_0_r|].
  destruct j as [|j]; [lia|].
  cbn [run next timer mk]. rewrite (fire_timer_delete titles Hts _ j) by (done || title_lia).
  unfold fullText. cbn [text loopNum pauses mk]. rewrite IH by lia. by destruct n.
Qed.

(** One round of the typewriter on title [k]: [length] typing ticks show
    the whole title, one tick schedules the pause, the pause starts the
    deletion, [length] ticks delete it and one tick moves to title [k+1];
    [2 * length + 3] timer callbacks in all. *)
Lemma typewriter_round k sp :
  text (run titles (length (title k)) (mk [] false k sp true 0)) = title k /\
  run titles (2 * length (title k) + 3) (mk [] false k sp true 0) = mk [] false (S k) speed_deleting true 0.
Proof.
  pose proof (title_nonempty k) as Hk.
  assert (HL : (0 < length (title k))%nat) by (destruct (title k); [done|cbn; lia]).
  assert (Ht : run titles (length (title k)) (mk [] false k sp true 0) = mk (title k) false k speed_normal true 0).
  { change (mk [] false k sp true 0) with (mk (take 0 (title k)) false k sp true 0).
    rewrite typing_run by lia. cbn [Nat.add].
    rewrite take_ge by lia. by destruct (length (title k)); [lia|]. }
  split; [by rewrite Ht|].
  replace (2 * length (title k) + 3)%nat with (length (title k) + (2 + (length (title k) + 1)))%nat by lia.
  rewrite !run_add, Ht. cbn [run next timer pauses mk].
  rewrite (fire_timer_typed titles Hts) by done. cbn [timer pauses mk text loopNum typingSpeed].
  unfold fullText; cbn [next timer pauses mk loopNum text typingSpeed isDeleting].
  rewrite fire_pause_start by done. cbn [text loopNum typingSpeed pauses pred mk].
  replace (mk (title k) true k speed_normal true 0) with (mk (take (length (title k)) (title k)) true k speed_normal true 0) by (by rewrite take_ge).
  rewrite deleting_run by lia. rewrite Nat.sub_diag, take_0.
  unfold fullText; cbn [run next timer mk]. rewrite fire_timer_wrap by (done || by destruct (length (title k)); [lia|]).
  done.
Qed.

Lemma typewriter_reaches_round k : exists m sp, run titles m init = mk [] false k sp true 0.
Proof.
  induction k as [|k (m & sp & Hm)]; [by exists 0%nat, speed_normal|].
  exists (m + (2 * length (title k) + 3))%nat, speed_deleting.
  rewrite run_add, Hm. apply typewriter_round.
Qed.

End TypewriterProps.

(** C24: The typewriter shows every title in full, in order: for each [k] the
    run of the timers reaches a state of round [k] with the whole title
    [titles[k % titles.length]] on the screen. *)
Theorem typewriter_shows_every_title titles k :
  Forall (fun t => t <> []) titles -> titles <> [] ->
  exists m, reachable titles (run titles m init) /\ loopNum (run titles m init) = k /\
            text (run titles m init) = nth (k mod length titles) titles [].
Proof.
  intros Hne Hts. destruct (typewriter_reaches_round titles Hne Hts k) as (m & sp & Hm).
  exists (m + length (nth (k mod length titles) titles []))%nat.
  split; [apply run_reachable, reach_init|].
  rewrite run_add, Hm. destruct (typewriter_round titles Hne Hts k sp) as [Htext _]. split; [|exact Htext].
  change (mk [] false k sp true 0) with (mk (take 0 (nth (k mod length titles) titles [])) false k sp true 0).
  rewrite (typing_run titles Hts) by lia. done.
Qed.

(** ** Properties of the cursor trail *)

Import CursorTrail.

Lemma label_app i ms m :
  label i (ms ++ [m]) = label i ms ++ [{| px := m.1; py := m.2; pid := i + Z.of_nat (length ms) |}].
Proof.
  revert i. induction ms as [|[x y] ms IH]; intros i; cbn [label app length].
  - destruct m. by rewrite Z.add_0_r.
  - rewrite IH. do 4 f_equal. lia.
Qed.

Lemma label_xy i ms : map (fun p => (px p, py p)) (label i ms) = ms.
Proof. revert i. induction ms as [|[x y] ms IH]; intros i; [done|]. cbn. by rewrite IH. Qed.

Lemma label_pid (i : nat) ms : map pid (label (Z.of_nat i) ms) = map Z.of_nat (seq i (length ms)).
Proof.
  revert i. induction ms as [|[x y] ms IH]; intros i; [done|]. cbn.
  by rewrite <- IH, Nat2Z.inj_succ, Z.add_1_r.
Qed.

Lemma moves_label ms :
  cursorTrail (moves ms init) = take cursorTrailMaxLength (rev (label 1 ms)) /\
  trailIdCounter (moves ms init) = Z.of_nat (length ms).
Proof.
  induction ms as [|m ms [IHt IHc]] using rev_ind; [done|].
  unfold moves. rewrite fold_left_app. fold (moves ms init). cbn [fold_left handleMouseMove cursorTrail trailIdCounter].
  rewrite IHt, IHc, label_app, rev_app_distr, length_app. cbn [rev app length].
  split; [|lia]. unfold cursorTrailMaxLength. cbn [firstn]. rewrite take_take.
  replace (Z.of_nat (length ms) + 1) with (1 + Z.of_nat (length ms)) by lia. done.
Qed.

(** After any session of mouse moves the trail holds the last (at most)
    twenty positions, newest first, with the ids [n, n-1, ...] of the
    [n] moves: the ids used as React keys are distinct. *)
Theorem cursor_trail_recent ms :
  let s := moves ms init in
  trailIdCounter s = Z.of_nat (length ms) /\
  map (fun p => (px p, py p)) (cursorTrail s) = take 20 (rev ms) /\
  map pid (cursorTrail s) = take 20 (rev (map Z.of_nat (seq 1 (length ms)))).
Proof.
  destruct (moves_label ms) as [Ht Hc]. cbv zeta. rewrite Ht, Hc.
  split; [done|]. unfold cursorTrailMaxLength. rewrite <- !firstn_map, !map_rev.
  split; [by rewrite label_xy|]. by rewrite (label_pid 1).
Qed.

(** With an empty title the tick on it schedules a pause twice (the first
    time it also resets the deleting speed to 150, which re-arms the
    timer): two pauses are pending, and the second one will start
    deleting the next title before it is typed in full. *)
Example empty_title_double_pause :
  Typewriter.pauses (Typewriter.run [[]; u16 "a"] 10 Typewriter.init) = 2%nat.
Proof. vm_compute. reflexivity. Qed.

(** ** Witnesses *)

Lemma demo_titles_nonempty : Forall (fun t => t <> []) demo_titles.
Proof. repeat constructor; vm_compute; discriminate. Qed.

Lemma typewriter_one_timer_witness :
  text (Typewriter.run demo_titles 30 Typewriter.init) `prefix_of`
    fullText demo_titles (Typewriter.run demo_titles 30 Typewriter.init) /\
  ((timer (Typewriter.run demo_titles 30 Typewriter.init) = true /\
    pauses (Typewriter.run demo_titles 30 Typewriter.init) = 0%nat) \/
   (timer (Typewriter.run demo_titles 30 Typewriter.init) = false /\
    pauses (Typewriter.run demo_titles 30 Typewriter.init) = 1%nat)).
Proof. apply typewriter_one_timer; [apply demo_titles_nonempty | discriminate | apply run_reachable, reach_init]. Defined.

Lemma typewriter_shows_every_title_witness :
  exists m, reachable demo_titles (Typewriter.run demo_titles m Typewriter.init) /\
            loopNum (Typewriter.run demo_titles m Typewriter.init) = 3%nat /\
            text (Typewriter.run demo_titles m Typewriter.init) = nth (3 mod length demo_titles) demo_titles [].
Proof. apply typewriter_shows_every_title; [apply demo_titles_nonempty | discriminate]. Defined.
