(* ===== verification/Animations.v ===== *)
(** * Scroll animations: src/src/hooks/useScrollAnimation.js and Hero.jsx

    [useScrollAnimation] (lines 12-79), [useStaggerAnimation] (lines
    84-135), [useParallax] (lines 140-165) and the scroll effect of [Hero]
    (Hero.jsx lines 138-168) each create ScrollTriggers in one registry
    that GSAP keeps for the page, and each cleanup kills every trigger of
    that registry ([ScrollTrigger.getAll().forEach(t => t.kill())]).

    The registry is shared state: a [world] holds the owners of the live
    triggers, the hook instances of the page with the dependencies their
    effect last ran with and whether it registered a cleanup, and a heap
    counter that gives each object literal its identity, since React
    compares dependencies with [Object.is].  A render of an instance
    commits its effect when a dependency changed; an unmount runs its
    cleanup.  The values [gsap.set] receives are computed from the
    [animation] option as the code merges it with its defaults. *)

From Stdlib Require Import QArith.
From stdpp Require Import gmap.
From S2P Require Import Prelude.

Module Anim.

(** A value of an [animation] property. *)
Inductive jv := JUndef | JNum (q : Q) | JStr (s : jstr).

Definition truthy (v : jv) : bool :=
  match v with JUndef => false | JNum q => negb (Qeq_bool q 0) | JStr s => negb (bool_decide (s = [])) end.

(** [v || d] *)
Definition or_else (v d : jv) : jv := if truthy v then v else d.

(** An [animation] object: the properties the hooks read, [None] when the
    object has no such own property. *)
Record anim_obj := {
  an_opacity : option jv; an_y : option jv; an_x : option jv; an_scale : option jv;
  an_rotation : option jv; an_duration : option jv; an_ease : option jv }.

Definition no_props : anim_obj := Build_anim_obj None None None None None None None.

(** [{ ...defaults, ...animation }]: a property of [animation] wins, also
    when its value is [undefined]. *)
Definition spread (d : jv) (a : option jv) : jv := match a with Some v => v | None => d end.

Record props := { p_opacity : jv; p_y : jv; p_x : jv; p_scale : jv; p_rotation : jv; p_duration : jv; p_ease : jv }.

(** [useScrollAnimation]'s [defaultAnimation], lines 31-36, merged at line 38. *)
Definition scroll_props (a : anim_obj) : props :=
  {| p_opacity := spread (JNum 0) (an_opacity a); p_y := spread (JNum 50) (an_y a);
     p_x := spread JUndef (an_x a); p_scale := spread JUndef (an_scale a);
     p_rotation := spread JUndef (an_rotation a);
     p_duration := spread (JNum 1) (an_duration a); p_ease := spread (JStr (u16 "power3.out")) (an_ease a) |}.

(** The initial state [gsap.set] gives the element. *)
Record style := { s_opacity : jv; s_y : jv; s_x : jv; s_scale : jv; s_rotation : jv }.

(** Lines 41-47. *)
Definition scroll_initial (a : anim_obj) : style :=
  let p := scroll_props a in
  {| s_opacity := p_opacity p; s_y := p_y p; s_x := or_else (p_x p) (JNum 0);
     s_scale := or_else (p_scale p) (JNum 1); s_rotation := or_else (p_rotation p) (JNum 0) |}.

(** [useStaggerAnimation]'s defaults, lines 98-105, and the initial state
    of the children, lines 108-111. *)
Definition stagger_props (a : anim_obj) : props :=
  {| p_opacity := spread (JNum 0) (an_opacity a); p_y := spread (JNum 50) (an_y a);
     p_x := spread JUndef (an_x a); p_scale := spread JUndef (an_scale a);
     p_rotation := spread JUndef (an_rotation a);
     p_duration := spread (JNum (4 # 5)) (an_duration a); p_ease := spread (JStr (u16 "power3.out")) (an_ease a) |}.

Definition stagger_initial (a : anim_obj) : jv * jv :=
  (JNum 0, or_else (p_y (stagger_props a)) (JNum 50)).

End Anim.

Module Triggers.

(** A dependency value, compared with [Object.is]: objects by identity (a
    heap location), DOM elements by node. *)
Inductive dep := DUndef | DBool (b : bool) | DNum (q : Q) | DStr (s : jstr) | DObj (loc : nat) | DEl (node : nat).

Definition dep_is (a b : dep) : bool :=
  match a, b with
  | DUndef, DUndef => true
  | DBool x, DBool y => Bool.eqb x y
  | DNum x, DNum y => Qeq_bool x y
  | DStr x, DStr y => bool_decide (x = y)
  | DObj x, DObj y => Nat.eqb x y
  | DEl x, DEl y => Nat.eqb x y
  | _, _ => false
  end.

(** React's comparison of the previous and the next dependency arrays. *)
Fixpoint deps_same (prev next : list dep) : bool :=
  match prev, next with
  | [], [] => true
  | a :: p, b :: n => dep_is a b && deps_same p n
  | _, _ => false
  end.

(** A mounted hook instance: the dependencies its effect last ran with,
    and whether that run returned the cleanup (it returns nothing when the
    element ref is empty). *)
Record inst := { i_deps : list dep; i_cleanup : bool }.

Record world := { triggers : list nat; insts : gmap nat inst; heap : nat }.

(** [ScrollTrigger.getAll().forEach((trigger) => trigger.kill())]. *)
Definition kill_all (w : world) : world := {| triggers := []; insts := insts w; heap := heap w |}.

(** The effect body: with the element present it creates one trigger
    (the timeline's [scrollTrigger], [ScrollTrigger.create] or the tween's
    [scrollTrigger]) and returns the cleanup; without it, it returns
    early. *)
Definition run_effect (i : nat) (ds : list dep) (has_el : bool) (w : world) : world :=
  {| triggers := if has_el then i :: triggers w else triggers w;
     insts := <[i := {| i_deps := ds; i_cleanup := has_el |}]> (insts w); heap := heap w |}.

(** Committing a render of instance [i] whose effect has dependencies [ds]. *)
Definition commit (i : nat) (ds : list dep) (has_el : bool) (w : world) : world :=
  match insts w !! i with
  | Some st => if deps_same (i_deps st) ds then w
               else run_effect i ds has_el (if i_cleanup st then kill_all w else w)
  | None => run_effect i ds has_el w
  end.

Definition unmount (i : nat) (w : world) : world :=
  match insts w !! i with
  | Some st => let w' := if i_cleanup st then kill_all w else w in
               {| triggers := triggers w'; insts := delete i (insts w'); heap := heap w' |}
  | None => w
  end.

(** An object literal evaluated during a render: a new identity. *)
Definition alloc (w : world) : nat * world :=
  (heap w, {| triggers := triggers w; insts := insts w; heap := S (heap w) |}).

(** [useScrollAnimation(options)], lines 12-22 and 76: the options with
    their defaults; [trigger] is an element or [undefined], [animation]
    the caller's object or a new [{}]. *)
Record scroll_options := {
  so_trigger : option nat; so_start : option jstr; so_end : option jstr; so_scrub : option bool;
  so_markers : option bool; so_once : option bool; so_animation : option nat }.

Definition or_default {A} (o : option A) (d : A) : A := match o with Some x => x | None => d end.

Definition useScrollAnimation (i : nat) (o : scroll_options) (has_el : bool) (w : world) : world :=
  let '(loc, w1) := match so_animation o with Some l => (l, w) | None => alloc w end in
  commit i [match so_trigger o with Some n => DEl n | None => DUndef end; DStr (or_default (so_start o) (u16 "top 80%"));
            DStr (or_default (so_end o) (u16 "bottom 20%")); DBool (or_default (so_scrub o) false);
            DBool (or_default (so_markers o) false); DBool (or_default (so_once o) false); DObj loc]
         has_el w1.

(** [useStaggerAnimation(options)], lines 84-91 and 132. *)
Record stagger_options := {
  sg_childSelector : option jstr; sg_start : option jstr; sg_stagger : option Q; sg_animation : option nat }.

Definition useStaggerAnimation (i : nat) (o : stagger_options) (has_el : bool) (w : world) : world :=
  let '(loc, w1) := match sg_animation o with Some l => (l, w) | None => alloc w end in
  commit i [DStr (or_default (sg_childSelector o) (u16 ".animate-item"));
            DStr (or_default (sg_start o) (u16 "top 80%")); DNum (or_default (sg_stagger o) (1 # 10)); DObj loc]
         has_el w1.

(** [useParallax(speed = 0.5)], lines 140 and 162. *)
Definition useParallax (i : nat) (speed : option Q) (has_el : bool) (w : world) : world :=
  commit i [DNum (or_default speed (1 # 2))] has_el w.

(** [Hero]'s scroll effect, Hero.jsx lines 138-168: no dependencies. *)
Definition heroScrollEffect (i : nat) (has_el : bool) (w : world) : world := commit i [] has_el w.

Definition init : world := {| triggers := []; insts := ∅; heap := 0 |}.

(** Options as most callers pass them: none, so every default applies. *)
Definition no_scroll_options : scroll_options := Build_scroll_options None None None None None None None.
Definition no_stagger_options : stagger_options := Build_stagger_options None None None None.

(** A page: [Hero] (instance 0) and a section with a default
    [useStaggerAnimation] (instance 1), both mounted, then the section
    re-renders. *)
Definition page_mounted : world := useStaggerAnimation 1 no_stagger_options true (heroScrollEffect 0 true init).
Definition page_rerendered : world := useStaggerAnimation 1 no_stagger_options true page_mounted.

(** The events of a page: a caller evaluates an object literal once (a
    constant or a memoised object), an instance renders, or unmounts. *)
Inductive step : world -> world -> Prop :=
| st_alloc w : step w (alloc w).2
| st_scroll w i o e : (forall l, so_animation o = Some l -> l < heap w)%nat -> step w (useScrollAnimation i o e w)
| st_stagger w i o e : (forall l, sg_animation o = Some l -> l < heap w)%nat -> step w (useStaggerAnimation i o e w)
| st_parallax w i sp e : step w (useParallax i sp e w)
| st_hero w i e : step w (heroScrollEffect i e w)
| st_unmount w i : step w (unmount i w).

Inductive reachable : world -> Prop :=
| reach_init : reachable init
| reach_step w w' : reachable w -> step w w' -> reachable w'.

End Triggers.

(** ** Properties of the trigger registry *)

Import Triggers.

(** Every live trigger belongs to a mounted instance whose cleanup will
    run, and every object a stored dependency names is allocated. *)
Definition reg_inv (w : world) : Prop :=
  (forall o, In o (triggers w) -> exists st, insts w !! o = Some st /\ i_cleanup st = true) /\
  (forall i st l, insts w !! i = Some st -> In (DObj l) (i_deps st) -> (l < heap w)%nat).

Lemma deps_same_obj p n l : deps_same p n = true -> In (DObj l) n -> In (DObj l) p.
Proof.
  revert n. induction p as [|a p IH]; intros [|b n] Hs Hin; try done.
  cbn in Hs. apply andb_prop in Hs as [Hab Hs]. destruct Hin as [Hb|Hin].
  - left. subst b. destruct a; try discriminate. cbn in Hab. apply Nat.eqb_eq in Hab. by subst.
  - right. by apply (IH n).
Qed.

Lemma commit_inv i ds e w :
  reg_inv w -> (forall l, In (DObj l) ds -> (l < heap w)%nat) -> reg_inv (commit i ds e w).
Proof.
  intros [Ht Hd] Hds. unfold commit.
  assert (Hrun : forall T, (forall o, In o T -> In o (triggers w)) ->
            ~ In i T ->
            reg_inv {| triggers := if e then i :: T else T;
                       insts := <[i := {| i_deps := ds; i_cleanup := e |}]> (insts w); heap := heap w |}).
  { intros T HT Hi. split; cbn.
    - intros o Ho. destruct (decide (o = i)) as [->|Hne].
      + rewrite lookup_insert_eq. eexists; split; [done|]. destruct e; [done|]. by destruct Hi.
      + rewrite lookup_insert_ne by congruence. apply Ht, HT. destruct e; [destruct Ho|]; congruence || done.
    - intros j st l Hj Hl. destruct (decide (j = i)) as [->|Hne].
      + rewrite lookup_insert_eq in Hj. injection Hj as <-. by apply Hds.
      + rewrite lookup_insert_ne in Hj by congruence. eauto. }
  destruct (insts w !! i) as [st|] eqn:Ei.
  - destruct (deps_same (i_deps st) ds); [by split|].
    destruct (i_cleanup st) eqn:Ec; apply Hrun; cbn; try done.
    all: intros Hin; try done; destruct (Ht i Hin) as (st' & Hst & Hc); congruence.
  - apply Hrun; [done|]. intros Hin. destruct (Ht i Hin) as (st' & Hst & Hc). congruence.
Qed.

(** The objects named in a literal array of dependencies. *)
Ltac dep_objs H :=
  cbn in H; repeat (destruct H as [H|H]; [first [discriminate H | injection H as <-] |]); try contradiction.

Lemma alloc_inv w : reg_inv w -> reg_inv (alloc w).2.
Proof. intros [Ht Hd]. split; [exact Ht|]. intros i st l Hi Hl. cbn. specialize (Hd i st l Hi Hl). lia. Qed.

Lemma useScrollAnimation_inv i o e w :
  reg_inv w -> (forall l, so_animation o = Some l -> (l < heap w)%nat) -> reg_inv (useScrollAnimation i o e w).
Proof.
  intros Hi Ho. unfold useScrollAnimation. destruct (so_animation o) as [l|] eqn:Ea.
  - apply commit_inv; [done|]. intros l' Hl. destruct (so_trigger o); dep_objs Hl; by apply Ho.
  - apply commit_inv; [by apply alloc_inv|]. intros l' Hl. destruct (so_trigger o); dep_objs Hl; cbn; lia.
Qed.

Lemma useStaggerAnimation_inv i o e w :
  reg_inv w -> (forall l, sg_animation o = Some l -> (l < heap w)%nat) -> reg_inv (useStaggerAnimation i o e w).
Proof.
  intros Hi Ho. unfold useStaggerAnimation. destruct (sg_animation o) as [l|] eqn:Ea.
  - apply commit_inv; [done|]. intros l' Hl. dep_objs Hl. by apply Ho.
  - apply commit_inv; [by apply alloc_inv|]. intros l' Hl. dep_objs Hl. cbn. lia.
Qed.

Lemma unmount_inv i w : reg_inv w -> reg_inv (unmount i w).
Proof.
  intros [Ht Hd]. unfold unmount. destruct (insts w !! i) as [st|] eqn:Ei; [|by split].
  split; cbn.
  - intros o Ho. destruct (i_cleanup st) eqn:Ec; [done|]. cbn in Ho |- *.
    destruct (Ht o Ho) as (st' & Hst & Hc). rewrite lookup_delete_ne; [eauto|]. congruence.
  - intros j st' l Hj Hl. destruct (i_cleanup st); cbn in Hj |- *;
      (destruct (decide (i = j)) as [->|Hne]; [by rewrite lookup_delete_eq in Hj|]);
      rewrite lookup_delete_ne in Hj by done; eauto.
Qed.

Lemma reachable_reg_inv w : reachable w -> reg_inv w.
Proof.
  induction 1 as [|w w' _ IH Hst]; [split; [done|]; intros i st l Hi; cbn in Hi; by rewrite lookup_empty in Hi|].
  destruct Hst.
  - by apply alloc_inv.
  - by apply useScrollAnimation_inv.
  - by apply useStaggerAnimation_inv.
  - apply commit_inv; [done|]. intros l Hl. dep_objs Hl.
  - apply commit_inv; [done|]. intros l Hl. dep_objs Hl.
  - by apply unmount_inv.
Qed.

(** C26: No trigger outlives its component: every live ScrollTrigger belongs to
    a mounted hook instance whose effect returned the cleanup. *)
Theorem no_leaked_triggers w o :
  reachable w -> In o (triggers w) -> exists st, insts w !! o = Some st /\ i_cleanup st = true.
Proof. intros Hr Ho. exact (proj1 (reachable_reg_inv w Hr) o Ho). Qed.

(** C27: With the default [animation = {}] every render of a mounted
    [useScrollAnimation] gives a new object, so the effect re-runs: its
    cleanup kills the ScrollTriggers of every other component, and only
    the new trigger of this one is left. *)
Theorem default_animation_kills_others w i st o :
  reachable w -> insts w !! i = Some st -> i_cleanup st = true -> so_animation o = None ->
  triggers (useScrollAnimation i o true w) = [i].
Proof.
  intros Hr Hi Hc Ho. destruct (reachable_reg_inv w Hr) as [_ Hd].
  unfold useScrollAnimation. rewrite Ho. unfold commit. cbn [alloc fst snd insts]. rewrite Hi.
  destruct (deps_same (i_deps st) _) eqn:Hs.
  - exfalso. eapply deps_same_obj in Hs; [|by do 6 right; left].
    specialize (Hd i st _ Hi Hs). lia.
  - by rewrite Hc.
Qed.

(** The page of the example: when the section re-renders, [Hero] is still
    mounted with its effect unchanged, but its ScrollTrigger is gone. *)
Example hero_trigger_killed :
  triggers page_mounted = [1%nat; 0%nat] /\
  triggers page_rerendered = [1%nat] /\ insts page_rerendered !! 0%nat = Some {| i_deps := []; i_cleanup := true |}.
Proof. vm_compute. auto. Qed.

(** [animation.scale = 0] is falsy, so the element starts at scale 1; in
    [useStaggerAnimation] [animation.y = 0] is replaced by 50. *)
Example zero_values_ignored :
  Anim.s_scale (Anim.scroll_initial {| Anim.an_opacity := None; Anim.an_y := None; Anim.an_x := None;
      Anim.an_scale := Some (Anim.JNum 0); Anim.an_rotation := None; Anim.an_duration := None; Anim.an_ease := None |})
    = Anim.JNum 1 /\
  Anim.stagger_initial {| Anim.an_opacity := None; Anim.an_y := Some (Anim.JNum 0); Anim.an_x := None;
      Anim.an_scale := None; Anim.an_rotation := None; Anim.an_duration := None; Anim.an_ease := None |}
    = (Anim.JNum 0, Anim.JNum 50).
Proof. split; reflexivity. Qed.

(** ** Witnesses *)

Lemma page_mounted_reachable : reachable page_mounted.
Proof. eapply reach_step; [eapply reach_step; [apply reach_init | apply st_hero] | by apply st_stagger]. Qed.

Lemma no_leaked_triggers_witness :
  exists st, insts page_mounted !! 0%nat = Some st /\ i_cleanup st = true.
Proof. apply no_leaked_triggers; [apply page_mounted_reachable | vm_compute; auto]. Defined.

Lemma default_animation_kills_others_witness :
  triggers (useScrollAnimation 2 no_scroll_options true (useScrollAnimation 2 no_scroll_options true page_mounted)) = [2%nat].
Proof.
  apply (default_animation_kills_others _ 2 {| i_deps := [DUndef; DStr (u16 "top 80%"); DStr (u16 "bottom 20%");
           DBool false; DBool false; DBool false; DObj 1]; i_cleanup := true |});
    [| vm_compute; reflexivity | reflexivity | reflexivity].
  eapply reach_step; [apply page_mounted_reachable | by apply st_scroll].
Defined.
