(* ===== verification/Icons.v ===== *)
(** * Icon lookup: src/src/utils/iconMap.jsx

    [iconMap] (lines 28-50) is a plain object literal from icon names to
    lucide-react components, and [getIcon] (lines 58-65) reads
    [iconMap[iconName]]: an own property, or else one of
    [Object.prototype]'s, since the literal inherits from it.  A missing
    name logs a warning and gives [null]. *)

From S2P Require Import Prelude.

Module Icons.

(** The lucide-react components imported at lines 1-23. *)
Inductive lucide :=
| Briefcase | Star | Rocket | Code | Palette | Zap | GraduationCap | Mail | Github | Linkedin
| Twitter | Box | Server | Wrench | User | TrendingUp | MapPin | Phone | ExternalLink | Brain | Cpu.

(** What [iconMap[name]] can be: an icon, or an inherited member of
    [Object.prototype]. *)
Inductive component := Lucide (c : lucide) | ProtoMember (name : jstr).

(** Lines 28-50. *)
Definition iconMap : list (jstr * lucide) :=
  [(u16 "briefcase", Briefcase); (u16 "code", Code); (u16 "palette", Palette); (u16 "zap", Zap);
   (u16 "graduation-cap", GraduationCap); (u16 "star", Star); (u16 "rocket", Rocket);
   (u16 "mail", Mail); (u16 "github", Github); (u16 "linkedin", Linkedin); (u16 "twitter", Twitter);
   (u16 "cube", Box); (u16 "server", Server); (u16 "wrench", Wrench); (u16 "user", User);
   (u16 "trending-up", TrendingUp); (u16 "map-pin", MapPin); (u16 "phone", Phone);
   (u16 "external-link", ExternalLink); (u16 "brain", Brain); (u16 "cpu", Cpu)].

(** The properties every object literal inherits; all are truthy. *)
Definition object_prototype : list jstr :=
  map u16 ["constructor"; "__defineGetter__"; "__defineSetter__"; "hasOwnProperty";
           "__lookupGetter__"; "__lookupSetter__"; "isPrototypeOf"; "propertyIsEnumerable";
           "toString"; "valueOf"; "__proto__"; "toLocaleString"].

Fixpoint own (name : jstr) (m : list (jstr * lucide)) : option lucide :=
  match m with
  | [] => None
  | (k, c) :: r => if bool_decide (k = name) then Some c else own name r
  end.

(** [iconMap[iconName]], line 59. *)
Definition lookup (name : jstr) : option component :=
  match own name iconMap with
  | Some c => Some (Lucide c)
  | None => if bool_decide (name ∈ object_prototype) then Some (ProtoMember name) else None
  end.

(** [getIcon(iconName, props)], lines 58-65: the element it returns and
    the warnings it logs. *)
Definition getIcon (name : jstr) : option component * list jstr :=
  match lookup name with
  | Some c => (Some c, [])
  | None => (None, [u16 "Icon " ++ [34] ++ name ++ [34] ++ u16 " not found in iconMap"])
  end.

End Icons.

Import Icons.

Lemma own_In name m c : own name m = Some c -> In (name, c) m.
Proof.
  induction m as [|[k c'] m IH]; cbn; [done|].
  case_bool_decide as E; [intros [= <-]; subst; by left | intros H; right; auto].
Qed.

(** [getIcon] gives a lucide icon exactly for the names of [iconMap],
    without a warning. *)
Theorem getIcon_icon name c :
  getIcon name = (Some (Lucide c), []) <-> In (name, c) iconMap.
Proof.
  unfold getIcon, lookup. split.
  - destruct (own name iconMap) eqn:E.
    + intros [= ->]. by apply own_In.
    + case_bool_decide; discriminate.
  - intros Hin. repeat (destruct Hin as [Hin|Hin]; [injection Hin as <- <-; reflexivity|]). done.
Qed.

(** A name that is neither an icon nor inherited gives [null] and one
    warning that quotes it. *)
Theorem getIcon_missing name :
  own name iconMap = None -> name ∉ object_prototype ->
  getIcon name = (None, [u16 "Icon " ++ [34] ++ name ++ [34] ++ u16 " not found in iconMap"]).
Proof. intros Ho Hp. unfold getIcon, lookup. rewrite Ho. by rewrite bool_decide_eq_false_2. Qed.

(** The inherited names are not caught: [getIcon('constructor')] hands
    [Object] to React as a component, without a warning. *)
Example getIcon_constructor : getIcon (u16 "constructor") = (Some (ProtoMember (u16 "constructor")), []).
Proof. vm_compute. reflexivity. Qed.

Lemma getIcon_missing_witness :
  getIcon (u16 "gitlab") = (None, [u16 "Icon " ++ [34] ++ u16 "gitlab" ++ [34] ++ u16 " not found in iconMap"]).
Proof. apply getIcon_missing; [reflexivity | apply (bool_decide_unpack (u16 "gitlab" ∉ object_prototype)); vm_compute; reflexivity]. Defined.
