(* ===== verification/MouseHooks.v ===== *)
(** * Mouse hooks: src/src/hooks/useMouseTracking.js

    Three hooks read the mouse.  [useMouseTracking] (lines 8-31) keeps the
    last position and its normalised coordinates in refs, updated by a
    handler that [throttle] (of [Helpers]) lets through at most every
    16 ms.  [useCursorTrail] (lines 36-53) keeps the last ten points in a
    ref and copies it into state.  [useMagneticCursor] (lines 58-84) moves
    [currentPos] towards the mouse by a fraction [strength] of the gap on
    every animation frame, from a [requestAnimationFrame] loop that its
    cleanup never cancels.

    Coordinates are exact rationals: [clientX], [clientY] and the window
    size are whole pixels, and the code only adds, multiplies and
    divides them.  A mouse event is its time in milliseconds and its
    position. *)

From Stdlib Require Import QArith Qabs Lqa.
From S2P Require Import Prelude.
From S2P Require Import Helpers.

Module MouseTracking.
Local Open Scope Q_scope.

Record refs := { mousePosition : Q * Q; normalizedMouse : Q * Q }.

(** Lines 9-10. *)
Definition init : refs := {| mousePosition := (0, 0); normalizedMouse := (0, 0) |}.

(** Lines 21-22, for a window of [innerWidth] by [innerHeight]. *)
Definition normalize (innerWidth innerHeight : Q) (x y : Q) : Q * Q :=
  (x / innerWidth * 2 - 1, - (y / innerHeight) * 2 + 1).

(** The throttled handler's body, lines 14-23. *)
Definition handleMouseMove (innerWidth innerHeight : Q) (p : Q * Q) (r : refs) : refs :=
  {| mousePosition := p; normalizedMouse := normalize innerWidth innerHeight p.1 p.2 |}.

(** The refs after the [mousemove] events [es], through [throttle(..., 16)]
    (line 24). *)
Definition track (innerWidth innerHeight : Q) (es : list (Z * (Q * Q))) : refs :=
  fold_left (fun r e => handleMouseMove innerWidth innerHeight e.2 r) (Throttle.throttle 16 es) init.

End MouseTracking.

Module CursorTrail10.
Local Open Scope Q_scope.

Record point := { px : Q; py : Q; pid : Z }.

(** [maxTrailLength], line 39. *)
Definition maxTrailLength : nat := 10.

(** The handler of lines 42-46 at time [now] ([Date.now()]): the new
    point in front of the first nine; the state gets a copy. *)
Definition handleMouseMove (now : Z) (p : Q * Q) (trailRef : list point) : list point :=
  {| px := p.1; py := p.2; pid := now |} :: take (maxTrailLength - 1) trailRef.

Definition trail_after (es : list (Z * (Q * Q))) : list point :=
  fold_left (fun tr e => handleMouseMove e.1 e.2 tr) es [].

End CursorTrail10.

Module Magnetic.
Local Open Scope Q_scope.

(** [targetPos] and [currentPos] (lines 60-61), the strengths of the
    [animate] loops that are running, [cursorPos] (line 59), and whether
    the [mousemove] listener is attached. *)
Record state := { targetPos : Q * Q; currentPos : Q * Q; loops : list Q; cursorPos : Q * Q; listening : bool }.

(** The effect's first run attaches the listener and starts one loop
    (lines 77-78); its first [animate] leaves [(0, 0)] in place. *)
Definition init (strength : Q) : state :=
  {| targetPos := (0, 0); currentPos := (0, 0); loops := [strength]; cursorPos := (0, 0); listening := true |}.

(** One step of [animate] with its [strength], lines 70-73: both loops
    share the one [currentPos] object. *)
Definition approach (strength : Q) (target current : Q * Q) : Q * Q :=
  (current.1 + (target.1 - current.1) * strength, current.2 + (target.2 - current.2) * strength).

Definition animate (strength : Q) (s : state) : state :=
  let c := approach strength (targetPos s) (currentPos s) in
  {| targetPos := targetPos s; currentPos := c; loops := loops s; cursorPos := c; listening := listening s |}.

Inductive event :=
| MouseMove (x y : Q)      (** [handleMouseMove], lines 64-66 *)
| Frame                    (** an animation frame: every running loop runs once *)
| StrengthChange (s : Q)   (** the effect re-runs (line 81): cleanup, then a new listener and loop *)
| Unmount.                 (** the cleanup (line 80) removes the listener only *)

Definition step (e : event) (s : state) : state :=
  match e with
  | MouseMove x y =>
      if listening s
      then {| targetPos := (x, y); currentPos := currentPos s; loops := loops s; cursorPos := cursorPos s;
              listening := true |}
      else s
  | Frame => fold_left (fun s k => animate k s) (loops s) s
  | StrengthChange k => animate k {| targetPos := targetPos s; currentPos := currentPos s;
                                     loops := loops s ++ [k]; cursorPos := cursorPos s; listening := true |}
  | Unmount => {| targetPos := targetPos s; currentPos := currentPos s; loops := loops s;
                  cursorPos := cursorPos s; listening := false |}
  end.

Definition run (es : list event) (s : state) : state := fold_left (fun s e => step e s) es s.

(** [n] frames without mouse events. *)
Fixpoint frames (n : nat) (s : state) : state :=
  match n with O => s | S n' => frames n' (step Frame s) end.

End Magnetic.

(** ** Properties of [useMouseTracking] *)

Section Tracking.
Local Open Scope Q_scope.
Import MouseTracking.

Lemma div_unit (x w : Q) : 0 < w -> 0 <= x <= w -> 0 <= x / w <= 1.
Proof.
  intros Hw [H0 H1]. split.
  - apply Qle_shift_div_l; [exact Hw|]. by rewrite Qmult_0_l.
  - apply Qle_shift_div_r; [exact Hw|]. by rewrite Qmult_1_l.
Qed.

Lemma normalize_bounds w h x y :
  0 < w -> 0 < h -> 0 <= x <= w -> 0 <= y <= h ->
  let n := normalize w h x y in -1 <= n.1 <= 1 /\ -1 <= n.2 <= 1.
Proof.
  intros Hw Hh Hx Hy. cbn. pose proof (div_unit x w Hw Hx). pose proof (div_unit y h Hh Hy).
  split; split; lra.
Qed.

(** Whatever the pointer does inside the window, the normalised
    coordinates the hook exposes stay in [[-1, 1]]. *)
Theorem track_bounds w h es :
  0 < w -> 0 < h -> Forall (fun e => 0 <= e.2.1 <= w /\ 0 <= e.2.2 <= h) es ->
  let n := normalizedMouse (track w h es) in -1 <= n.1 <= 1 /\ -1 <= n.2 <= 1.
Proof.
  intros Hw Hh Hes. unfold track.
  apply (fold_left_invariant (fun r => -1 <= (normalizedMouse r).1 <= 1 /\ -1 <= (normalizedMouse r).2 <= 1)).
  - cbn. split; split; lra.
  - intros r [t [x y]] Hin _. apply throttle_run_in in Hin.
    destruct (proj1 (List.Forall_forall _ _) Hes _ Hin) as [Hx Hy]. by apply normalize_bounds.
Qed.

End Tracking.

Section Examples.
Local Open Scope Q_scope.

(** A move 10 ms after the previous one is dropped and not replayed: the
    refs keep reporting the first position. *)
Example track_last_move_lost :
  MouseTracking.mousePosition (MouseTracking.track 1000 800 [(0%Z, (100, 100)); (10%Z, (600, 400))]) = (100, 100).
Proof. reflexivity. Qed.

End Examples.

(** ** Properties of [useCursorTrail] *)

Import CursorTrail10.

Definition to_point (e : Z * (Q * Q)) : point := {| px := e.2.1; py := e.2.2; pid := e.1 |}.

(** The trail holds the last (at most) ten points, newest first. *)
Theorem cursor_trail_last_ten es :
  trail_after es = take maxTrailLength (rev (map to_point es)) /\ (length (trail_after es) <= 10)%nat.
Proof.
  assert (E : trail_after es = take maxTrailLength (rev (map to_point es))).
  { induction es as [|e es IH] using rev_ind; [done|].
    unfold trail_after. rewrite fold_left_app. fold (trail_after es). rewrite IH.
    rewrite map_app, rev_app_distr. unfold handleMouseMove, maxTrailLength. cbn [app rev map firstn Nat.sub].
    cbn [fold_left]. by rewrite take_take. }
  split; [exact E|]. rewrite E, length_take. unfold maxTrailLength. lia.
Qed.

Section TrailExamples.
Local Open Scope Q_scope.

(** Two moves in the same millisecond get the same [id], which the trail
    uses as a React key. *)
Example cursor_trail_duplicate_ids :
  map pid (trail_after [(1700000000000%Z, (1, 1)); (1700000000000%Z, (2, 2))]) = [1700000000000%Z; 1700000000000%Z].
Proof. reflexivity. Qed.

End TrailExamples.

(** ** Properties of [useMagneticCursor] *)

Import Magnetic.

Section MagneticProps.
Local Open Scope Q_scope.

Fixpoint qpow (q : Q) (n : nat) : Q := match n with O => 1 | S n' => q * qpow q n' end.

Definition is_change (e : event) : bool := match e with StrengthChange _ => true | _ => false end.

Lemma frames_one_loop k n s :
  loops s = [k] ->
  targetPos (frames n s) = targetPos s /\ loops (frames n s) = [k] /\
  (targetPos s).1 - (currentPos (frames n s)).1 == qpow (1 - k) n * ((targetPos s).1 - (currentPos s).1) /\
  (targetPos s).2 - (currentPos (frames n s)).2 == qpow (1 - k) n * ((targetPos s).2 - (currentPos s).2).
Proof.
  revert s. induction n as [|n IH]; intros s Hl; [cbn; repeat split; try done; ring|].
  cbn [frames]. cbn [step]. rewrite Hl. cbn [fold_left].
  destruct (IH (animate k s)) as (Ht & Hl' & H1 & H2); [exact Hl|].
  cbn [animate targetPos loops currentPos approach fst snd] in *.
  split; [exact Ht|]. split; [exact Hl'|]. cbn [qpow].
  split; [rewrite H1 | rewrite H2]; ring.
Qed.

Lemma qpow_unit q n : 0 <= q <= 1 -> 0 <= qpow q n <= 1.
Proof.
  intros Hq. induction n as [|n IH]; cbn; [lra|]. split.
  - apply Qmult_le_0_compat; lra.
  - nra.
Qed.

Lemma gap_bound q g : 0 <= q <= 1 -> Qabs (q * g) <= Qabs g.
Proof.
  intros Hq. rewrite Qabs_Qmult, (Qabs_pos q) by lra.
  apply Qle_trans with (1 * Qabs g); [apply Qmult_le_compat_r; [lra | apply Qabs_nonneg] | lra].
Qed.

(** With one loop of [strength] in [[0, 1]] and the mouse still, every
    frame multiplies the gap between the cursor and the mouse by
    [1 - strength]: after [n] frames it is [(1 - strength)^n] times the
    first, so it never grows. *)
Theorem magnetic_converges s k n :
  loops s = [k] -> 0 <= k <= 1 ->
  let c := currentPos (frames n s) in let t := targetPos s in
  t.1 - c.1 == qpow (1 - k) n * (t.1 - (currentPos s).1) /\
  t.2 - c.2 == qpow (1 - k) n * (t.2 - (currentPos s).2) /\
  Qabs (t.1 - c.1) <= Qabs (t.1 - (currentPos s).1) /\ Qabs (t.2 - c.2) <= Qabs (t.2 - (currentPos s).2).
Proof.
  intros Hl Hk. destruct (frames_one_loop k n s Hl) as (_ & _ & H1 & H2). cbv zeta.
  assert (Hq : 0 <= qpow (1 - k) n <= 1) by (apply qpow_unit; lra).
  split; [exact H1|]. split; [exact H2|]. rewrite H1, H2. split; apply gap_bound, Hq.
Qed.

Lemma frame_loops ks s : loops (fold_left (fun s k => animate k s) ks s) = loops s.
Proof. apply (fold_left_invariant (fun s' => loops s' = loops s)); [done|]. intros a b _ <-. done. Qed.

(** C33: The [requestAnimationFrame] loops are never cancelled: each change of
    [strength] adds one, the unmount removes none. *)
Theorem magnetic_loops_leak es s :
  length (loops (run es s)) = (length (loops s) + length (List.filter is_change es))%nat.
Proof.
  revert s. induction es as [|e es IH]; intros s; cbn; [lia|]. rewrite IH.
  destruct e; cbn [step is_change]; [destruct (listening s) | rewrite frame_loops | |]; cbn;
    rewrite ?length_app; cbn; lia.
Qed.

End MagneticProps.

Section MagneticExamples.
Local Open Scope Q_scope.

(** After the unmount the mouse is no longer read, but the loop still
    moves the cursor and sets the state of the unmounted component. *)
Example magnetic_after_unmount :
  let c := cursorPos (run [MouseMove 10 0; Unmount; MouseMove 90 90; Frame] (init (1 # 2))) in
  c.1 == 5 /\ c.2 == 0.
Proof. split; vm_compute; reflexivity. Qed.

Lemma magnetic_converges_witness :
  let s := run [MouseMove 10 20] (init (3 # 10)) in
  let c := currentPos (frames 5 s) in let t := targetPos s in
  t.1 - c.1 == qpow (1 - (3 # 10)) 5 * (t.1 - (currentPos s).1) /\
  t.2 - c.2 == qpow (1 - (3 # 10)) 5 * (t.2 - (currentPos s).2) /\
  Qabs (t.1 - c.1) <= Qabs (t.1 - (currentPos s).1) /\ Qabs (t.2 - c.2) <= Qabs (t.2 - (currentPos s).2).
Proof. apply magnetic_converges; [reflexivity | split; unfold Qle; cbn; lia]. Defined.

Lemma track_bounds_witness :
  let n := MouseTracking.normalizedMouse (MouseTracking.track 1000 800 [(0%Z, (250, 600)); (40%Z, (1000, 0))]) in
  -1 <= n.1 <= 1 /\ -1 <= n.2 <= 1.
Proof.
  apply track_bounds; [unfold Qlt; cbn; lia | unfold Qlt; cbn; lia |].
  repeat constructor; unfold Qle; cbn; lia.
Defined.

End MagneticExamples.
