(* ===== verification/ThreeHooks.v ===== *)
(** * Frame hooks of the 3D scene: src/src/hooks/use3DAnimation.js

    Each hook registers a [useFrame] callback that react-three-fiber runs
    once per rendered frame with the clock ([elapsedTime]) and the time
    since the last frame ([delta]); the callbacks write the mesh's
    rotation, position, scale or vertex coordinates.  A mesh is [None]
    while its ref is empty.

    Numbers are real numbers: the hooks use [Math.sin] and [Math.cos],
    and the properties proved (bounds, the effect of a frame) are those of
    the exact arithmetic the code means; rounding of doubles is not
    modelled. *)

From Stdlib Require Import Reals Lra.
From Equations Require Import Equations.
From S2P Require Import Prelude.

Module Rotation.
Local Open Scope R_scope.

Record vec3 := { vx : R; vy : R; vz : R }.

(** [use3DRotation(options)], line 12, after the defaults. *)
Record options := { speed : R; axis : jstr; autoRotate : bool }.

Definition defaults (speed' : option R) (axis' : option jstr) (autoRotate' : option bool) : options :=
  {| speed := match speed' with Some v => v | None => 1 end;
     axis := match axis' with Some a => a | None => u16 "y" end;
     autoRotate := match autoRotate' with Some b => b | None => true end |}.

(** The frame callback, lines 14-25: four independent tests of [axis]. *)
Definition frame (o : options) (delta : R) (rot : option vec3) : option vec3 :=
  match rot with
  | None => None
  | Some r =>
      if autoRotate o then
        let r := if bool_decide (axis o = u16 "x") then {| vx := vx r + delta * speed o; vy := vy r; vz := vz r |} else r in
        let r := if bool_decide (axis o = u16 "y") then {| vx := vx r; vy := vy r + delta * speed o; vz := vz r |} else r in
        let r := if bool_decide (axis o = u16 "z") then {| vx := vx r; vy := vy r; vz := vz r + delta * speed o |} else r in
        let r := if bool_decide (axis o = u16 "all")
                 then {| vx := vx r + delta * speed o * 0.5; vy := vy r + delta * speed o;
                         vz := vz r + delta * speed o * 0.3 |} else r in
        Some r
      else Some r
  end.

Definition frames (o : options) (deltas : list R) (rot : option vec3) : option vec3 :=
  fold_left (fun r d => frame o d r) deltas rot.

End Rotation.

Module Float.
Local Open Scope R_scope.

(** [use3DFloat], lines 37-44: the mesh's [position.y] at [elapsedTime]. *)
Definition position_y (speed intensity floatIntensity elapsedTime : R) : R :=
  sin (elapsedTime * speed) * intensity * floatIntensity.

End Float.

Module Mouse3D.
Local Open Scope R_scope.

(** [use3DMouseInteraction]: the handler of lines 58-63 and the frame
    callback of lines 69-74, which sets [rotation.y] and [rotation.x]. *)
Definition normalize (innerWidth innerHeight clientX clientY : R) : R * R :=
  ((clientX / innerWidth) * 2 - 1, - (clientY / innerHeight) * 2 + 1).

Definition rotation (mouse : R * R) : R * R := (fst mouse * 0.5, snd mouse * 0.5).

End Mouse3D.

Module Hover.
Local Open Scope R_scope.

(** [THREE.MathUtils.lerp(x, y, t)]: [(1 - t) * x + t * y]. *)
Definition lerp (x y t : R) : R := (1 - t) * x + t * y.

(** [use3DHover]'s refs, lines 86-88: [targetScale], [isHovered], and
    [meshRef]: [attached] when it holds the mesh, whose [scale.x] is
    [scale_x]. *)
Record state := { targetScale : R; isHovered : bool; attached : bool; scale_x : R }.

(** The hook's first render: [useRef()] is still empty. *)
Definition init : state := {| targetScale := 1; isHovered := false; attached := false; scale_x := 1 |}.

(** React sets [meshRef.current] to a new mesh, of scale 1, when the
    element is committed, and back to [null] when it is removed. *)
Inductive event := Attach | Detach | PointerOver | PointerOut | Frame (delta : R).

(** [handlePointerOver], [handlePointerOut] (lines 90-98) and the frame
    callback (lines 100-111), for the option [scale] and [duration]: a
    frame changes nothing while [meshRef.current] is empty. *)
Definition step (scale duration : R) (e : event) (s : state) : state :=
  match e with
  | Attach => {| targetScale := targetScale s; isHovered := isHovered s; attached := true; scale_x := 1 |}
  | Detach => {| targetScale := targetScale s; isHovered := isHovered s; attached := false; scale_x := scale_x s |}
  | PointerOver => {| targetScale := scale; isHovered := true; attached := attached s; scale_x := scale_x s |}
  | PointerOut => {| targetScale := 1; isHovered := false; attached := attached s; scale_x := scale_x s |}
  | Frame delta =>
      if attached s
      then {| targetScale := targetScale s; isHovered := isHovered s; attached := true;
              scale_x := lerp (scale_x s) (targetScale s) (delta / duration) |}
      else s
  end.

Definition run (scale duration : R) (es : list event) (s : state) : state :=
  fold_left (fun s e => step scale duration e s) es s.

End Hover.

Module Wave.
Local Open Scope R_scope.

(** The loop of lines 133-138 over the vertices [(x, y, z)] at [time]
    ([elapsedTime * speed]): [z] becomes the wave's height. *)
Definition wave_frame (time amplitude : R) (vs : list (R * R * R)) : list (R * R * R) :=
  map (fun v => let '(x, y, _) := v in (x, y, sin (x * 2 + time) * cos (y * 2 + time) * amplitude)) vs.

End Wave.

Module Particles.
Local Open Scope R_scope.

(** The loop of lines 159-161 over the flat array of coordinates: for
    [i = 0, 3, 6, ...] below its length, [positions[i + 1]] becomes
    [Math.sin(t + positions[i]) * 0.5], where [t] is
    [elapsedTime * speed].  A write past the end of a typed array is
    dropped, as stdpp's [<[_ := _]>] drops it. *)
Equations particles_loop (t : R) (i : nat) (ps : list R) : list R by wf (length ps - i)%nat lt :=
  particles_loop t i ps with lt_dec i (length ps) => {
    | left _ => particles_loop t (i + 3)%nat (<[S i := sin (t + nth i ps 0) * 0.5]> ps);
    | right _ => ps }.
Next Obligation. intros t i ps Hi _. rewrite length_insert. lia. Qed.

End Particles.

(** ** Bounds of the trigonometric factors, shared with [Canvas] *)

Section Trig.
Local Open Scope R_scope.

Lemma abs_sin_le z : Rabs (sin z) <= 1.
Proof. pose proof (SIN_bound z). apply Rabs_le. lra. Qed.

Lemma abs_cos_le z : Rabs (cos z) <= 1.
Proof. pose proof (COS_bound z). apply Rabs_le. lra. Qed.

Lemma abs_scale_le u a : Rabs u <= 1 -> Rabs (u * a) <= Rabs a.
Proof. intros Hu. rewrite Rabs_mult. pose proof (Rabs_pos a). nra. Qed.

(** A sine or cosine scaled by a non-negative factor stays within it. *)
Lemma abs_sin_scale (x k : R) : 0 <= k -> Rabs (sin x * k) <= k.
Proof. intros Hk. rewrite <- (Rabs_pos_eq k) at 2 by exact Hk. apply abs_scale_le, abs_sin_le. Qed.

Lemma abs_cos_scale (x k : R) : 0 <= k -> Rabs (cos x * k) <= k.
Proof. intros Hk. rewrite <- (Rabs_pos_eq k) at 2 by exact Hk. apply abs_scale_le, abs_cos_le. Qed.

End Trig.

(** ** The particle loop *)

Section ParticlesProps.
Local Open Scope R_scope.
Import Particles.

Variable t : R.

Local Abbreviation f := (fun x => sin (t + x) * 0.5).

Lemma mod3 q r : (r < 3)%nat -> ((3 * q + r) mod 3 = r)%nat.
Proof. intros Hr. rewrite Nat.mul_comm, Nat.add_comm, Nat.Div0.mod_add. by apply Nat.mod_small. Qed.

Lemma particles_loop_length i ps : length (particles_loop t i ps) = length ps.
Proof.
  funelim (particles_loop t i ps); [|done].
  match goal with IH : length (particles_loop _ _ _) = _ |- _ => rewrite IH end. apply length_insert.
Qed.

(** What index [k] holds once the loop has passed [i]. *)
Definition particle_at (ps0 : list R) (i k : nat) : option R :=
  if (k <? i)%nat && (k mod 3 =? 1)%nat then f <$> ps0 !! (k - 1)%nat else ps0 !! k.

Lemma particle_at_step ps0 q k :
  k <> S (3 * q) -> particle_at ps0 (3 * q) k = particle_at ps0 (3 * q + 3) k.
Proof.
  intros Hk. unfold particle_at.
  destruct (Nat.ltb_spec k (3 * q)), (Nat.ltb_spec k (3 * q + 3)); cbn [andb]; try (exfalso; lia); try done.
  assert (Hk' : k = (3 * q + 0)%nat \/ k = (3 * q + 2)%nat) by lia.
  destruct Hk' as [-> | ->]; rewrite mod3 by lia; done.
Qed.

Lemma particles_loop_inv i ps : forall ps0,
  (exists q, i = 3 * q)%nat -> length ps = length ps0 ->
  (forall k, (k < length ps0)%nat -> ps !! k = particle_at ps0 i k) ->
  forall k, (k < length ps0)%nat -> particles_loop t i ps !! k = particle_at ps0 (length ps0) k.
Proof.
  funelim (particles_loop t i ps); intros ps0 [q ->] Hlen Hinv k Hk.
  - match goal with IH : context [particles_loop _ _ _] |- _ => apply IH end; [by exists (S q); lia | by rewrite length_insert | | done].
    intros j Hj. destruct (decide (j = S (3 * q))) as [->|Hne].
    + rewrite list_lookup_insert by lia.
      assert (Hi : ps !! (3 * q)%nat = ps0 !! (3 * q)%nat).
      { rewrite Hinv by lia. unfold particle_at. by rewrite Nat.ltb_irrefl. }
      destruct (lookup_lt_is_Some_2 ps0 (3 * q) ltac:(lia)) as [v Hv].
      rewrite nth_lookup, Hi, Hv. unfold particle_at.
      replace (S (3 * q)) with (3 * q + 1)%nat by lia. rewrite mod3 by lia.
      replace (3 * q + 1 - 1)%nat with (3 * q)%nat by lia. rewrite Hv.
      rewrite decide_True by lia. destruct (Nat.ltb_spec (3 * q + 1) (3 * q + 3)); [done | lia].
    + rewrite list_lookup_insert_ne by done. rewrite Hinv by done. by apply particle_at_step.
  - rewrite Hinv by done. unfold particle_at.
    destruct (Nat.ltb_spec k (3 * q)), (Nat.ltb_spec k (length ps0)); cbn [andb]; try lia; done.
Qed.

Lemma half_sin_bound z : Rabs (sin z * 0.5) <= 0.5.
Proof. apply abs_sin_scale. lra. Qed.

(** One frame of [use3DParticles] rewrites exactly the [y] coordinate of
    each particle (the indices [3j + 1]) to [Math.sin(t + x) * 0.5],
    which lies in [[-0.5, 0.5]], and leaves the array's length and every
    other coordinate unchanged. *)
Theorem particles_frame ps :
  length (particles_loop t 0 ps) = length ps /\
  (forall k, (k < length ps)%nat ->
     particles_loop t 0 ps !! k = if (k mod 3 =? 1)%nat then f <$> ps !! (k - 1)%nat else ps !! k) /\
  (forall k y, (k mod 3 = 1)%nat -> particles_loop t 0 ps !! k = Some y -> Rabs y <= 0.5).
Proof.
  assert (Hk : forall k, (k < length ps)%nat ->
     particles_loop t 0 ps !! k = if (k mod 3 =? 1)%nat then f <$> ps !! (k - 1)%nat else ps !! k).
  { intros k Hk.
    assert (H0 : forall j, (j < length ps)%nat -> ps !! j = particle_at ps 0 j)
      by (intros j _; unfold particle_at; by destruct (Nat.ltb_spec j 0); [lia|]).
    rewrite (particles_loop_inv 0 ps ps); [| by exists 0%nat | done | exact H0 | exact Hk].
    unfold particle_at. by destruct (Nat.ltb_spec k (length ps)); [|lia]. }
  split; [apply particles_loop_length|]. split; [exact Hk|].
  intros k y Hm Hy. assert (Hl : (k < length ps)%nat).
  { rewrite <- (particles_loop_length 0 ps). apply lookup_lt_is_Some_1. by rewrite Hy. }
  rewrite Hk, Hm in Hy by exact Hl. cbn in Hy.
  destruct (ps !! (k - 1)%nat); cbn in Hy; [|discriminate]. injection Hy as <-. apply half_sin_bound.
Qed.

End ParticlesProps.

(** ** Rotation, float, mouse and wave *)

Section FrameProps.
Local Open Scope R_scope.

(** How much each axis turns per unit of [delta * speed]: the four tests
    of [use3DRotation]; any other [axis] string turns nothing. *)
Definition axis_weights (a : jstr) : R * R * R :=
  if bool_decide (a = u16 "x") then (1, 0, 0)
  else if bool_decide (a = u16 "y") then (0, 1, 0)
  else if bool_decide (a = u16 "z") then (0, 0, 1)
  else if bool_decide (a = u16 "all") then (0.5, 1, 0.3)
  else (0, 0, 0).

Ltac axis_contra :=
  match goal with H1 : ?a = u16 ?x, H2 : ?a = u16 ?y |- _ =>
    rewrite H1 in H2; vm_compute in H2; congruence end.

Lemma rotation_frame_weights o d r :
  Rotation.autoRotate o = true ->
  let w := axis_weights (Rotation.axis o) in
  Rotation.frame o d (Some r) =
    Some {| Rotation.vx := Rotation.vx r + d * Rotation.speed o * w.1.1;
            Rotation.vy := Rotation.vy r + d * Rotation.speed o * w.1.2;
            Rotation.vz := Rotation.vz r + d * Rotation.speed o * w.2 |}.
Proof.
  intros Ha. unfold Rotation.frame, axis_weights. rewrite Ha. cbv zeta.
  destruct r as [x y z]. repeat case_bool_decide; try axis_contra; cbn; f_equal; f_equal; ring.
Qed.

(** With [autoRotate], any sequence of frames turns the mesh by
    [speed] times the elapsed time on the axes [axis] names, in the
    proportions of the code: frames compose additively. *)
Theorem rotation_frames o ds r :
  Rotation.autoRotate o = true ->
  let w := axis_weights (Rotation.axis o) in let T := fold_right Rplus 0 ds in
  Rotation.frames o ds (Some r) =
    Some {| Rotation.vx := Rotation.vx r + T * Rotation.speed o * w.1.1;
            Rotation.vy := Rotation.vy r + T * Rotation.speed o * w.1.2;
            Rotation.vz := Rotation.vz r + T * Rotation.speed o * w.2 |}.
Proof.
  intros Ha. cbv zeta. unfold Rotation.frames. revert r. induction ds as [|d ds IH]; intros r.
  - destruct r. cbn. f_equal. f_equal; ring.
  - cbn [fold_left]. rewrite rotation_frame_weights by exact Ha.
    rewrite IH. cbn. f_equal. f_equal; ring.
Qed.

(** [use3DFloat] keeps the mesh within [intensity * floatIntensity] of
    the origin. *)
Theorem float_bounds speed intensity floatIntensity elapsed :
  Rabs (Float.position_y speed intensity floatIntensity elapsed) <= Rabs (intensity * floatIntensity).
Proof. unfold Float.position_y. rewrite Rmult_assoc. apply abs_scale_le, abs_sin_le. Qed.

(** Every vertex [use3DWave] moves keeps its [x] and [y] and gets a
    height within [amplitude]. *)
Theorem wave_bounds time amplitude vs :
  map (fun v => v.1) (Wave.wave_frame time amplitude vs) = map (fun v => v.1) vs /\
  Forall (fun v => Rabs v.2 <= Rabs amplitude) (Wave.wave_frame time amplitude vs).
Proof.
  unfold Wave.wave_frame. split.
  - rewrite map_map. apply map_ext. by intros [[x y] z].
  - apply List.Forall_forall. intros v (w & <- & _)%in_map_iff. destruct w as [[x y] z]. cbn.
    apply abs_scale_le. rewrite Rabs_mult.
    pose proof (abs_sin_le (x * 2 + time)). pose proof (abs_cos_le (y * 2 + time)).
    pose proof (Rabs_pos (sin (x * 2 + time))). pose proof (Rabs_pos (cos (y * 2 + time))). nra.
Qed.

Lemma div_unit_R x w : 0 < w -> 0 <= x <= w -> 0 <= x / w <= 1.
Proof.
  intros Hw [H0 H1]. pose proof (Rinv_0_lt_compat w Hw) as Hi. unfold Rdiv. split.
  - apply Rmult_le_pos; lra.
  - rewrite <- (Rinv_r w) by lra. apply Rmult_le_compat_r; lra.
Qed.

(** For a pointer inside the window the mesh of
    [use3DMouseInteraction] turns by at most half a radian on each
    axis. *)
Theorem mouse3d_rotation_bounds w h x y :
  0 < w -> 0 < h -> 0 <= x <= w -> 0 <= y <= h ->
  let r := Mouse3D.rotation (Mouse3D.normalize w h x y) in
  -0.5 <= fst r <= 0.5 /\ -0.5 <= snd r <= 0.5.
Proof.
  intros Hw Hh Hx Hy. cbn. pose proof (div_unit_R x w Hw Hx). pose proof (div_unit_R y h Hh Hy). lra.
Qed.

End FrameProps.

(** ** The hover scale *)

Section HoverProps.
Local Open Scope R_scope.
Import Hover.

Lemma lerp_between m M x y t :
  m <= x <= M -> m <= y <= M -> 0 <= t <= 1 -> m <= lerp x y t <= M.
Proof. intros Hx Hy Ht. unfold lerp. split; nra. Qed.

(** C31: When no frame takes longer than [duration], the hover animation never
    overshoots: [scale.x] stays between 1 and [scale], whatever the order
    of pointer events and frames. *)
Theorem hover_scale_bounds scale duration es :
  0 < duration ->
  Forall (fun e => match e with Frame d => 0 <= d <= duration | _ => True end) es ->
  Rmin 1 scale <= scale_x (run scale duration es init) <= Rmax 1 scale.
Proof.
  intros Hd Hes. unfold run.
  pose proof (Rmin_l 1 scale). pose proof (Rmin_r 1 scale). pose proof (Rmax_l 1 scale). pose proof (Rmax_r 1 scale).
  enough (Hinv : (targetScale (fold_left (fun s e => step scale duration e s) es init) = 1 \/
               targetScale (fold_left (fun s e => step scale duration e s) es init) = scale) /\
              Rmin 1 scale <= scale_x (fold_left (fun s e => step scale duration e s) es init) <= Rmax 1 scale)
    by apply Hinv.
  apply (fold_left_invariant (fun s => (targetScale s = 1 \/ targetScale s = scale) /\
                                       Rmin 1 scale <= scale_x s <= Rmax 1 scale)).
  - cbn. split; [by left | lra].
  - intros s e He [Ht Hx]. destruct e as [| | | |d]; cbn;
      [split; [done | lra] | done | split; [by right | done] | split; [by left | done] |].
    destruct (attached s); [|done]. cbn.
    split; [exact Ht|]. apply lerp_between; [exact Hx | destruct Ht as [-> | ->]; lra |].
    apply div_unit_R; [exact Hd|]. exact (proj1 (List.Forall_forall _ _) Hes _ He).
Qed.

End HoverProps.

(** A frame of 0.5 s against the default [duration] of 0.3 s makes
    [delta / duration] exceed 1: [THREE.MathUtils.lerp] extrapolates and
    the mesh grows past the target scale 1.2. *)
Example hover_overshoot :
  (Hover.scale_x (Hover.run 1.2 0.3 [Hover.Attach; Hover.PointerOver; Hover.Frame 0.5] Hover.init) > 1.2)%R.
Proof. cbn. unfold Hover.lerp. lra. Qed.

(** ** Witnesses *)

Lemma rotation_frames_witness :
  let o := Rotation.defaults None None None in
  let w := axis_weights (Rotation.axis o) in let T := fold_right Rplus 0%R [0.016; 0.017]%R in
  Rotation.frames o [0.016; 0.017]%R (Some {| Rotation.vx := 0; Rotation.vy := 0; Rotation.vz := 0 |}) =
    Some {| Rotation.vx := 0 + T * Rotation.speed o * w.1.1;
            Rotation.vy := 0 + T * Rotation.speed o * w.1.2;
            Rotation.vz := 0 + T * Rotation.speed o * w.2 |}%R.
Proof. apply rotation_frames. reflexivity. Defined.

Lemma mouse3d_rotation_bounds_witness :
  let r := Mouse3D.rotation (Mouse3D.normalize 1920 1080 300 900) in
  (-0.5 <= fst r <= 0.5 /\ -0.5 <= snd r <= 0.5)%R.
Proof. apply mouse3d_rotation_bounds; lra. Defined.

Lemma hover_scale_bounds_witness :
  (Rmin 1 1.2 <= Hover.scale_x (Hover.run 1.2 0.3 [Hover.Attach; Hover.PointerOver; Hover.Frame 0.016; Hover.PointerOut; Hover.Frame 0.02] Hover.init) <= Rmax 1 1.2)%R.
Proof. apply hover_scale_bounds; [lra | repeat constructor; lra]. Defined.
