(* ===== verification/Canvas.v ===== *)
(** * The hero's 3D elements: src/src/components/Canvas/InteractiveElements.jsx

    Four components animate the hero scene through [useFrame] callbacks.
    [InteractiveParticles] (lines 8-118) places [count] particles on a
    spherical shell with [Math.random()], keeps their first positions in
    the ref [originalPositions], and on every frame moves each particle
    around its original position and away from the mouse.
    [OrbitingObjects] (lines 120-158) sets satellites on a circle,
    [MorphingHeroObject] (lines 163-206) rotates, pulses and recolours the
    central mesh, [DynamicLights] (lines 211-237) moves two lights.

    Numbers are reals, as in [ThreeHooks]; the values of [Math.random()]
    are inputs in [[0, 1)].  The mouse is [None] when the prop
    [mousePosition] is absent.  The velocities the particle memo computes
    (lines 42-46) are stored in a ref that nothing reads, and are not
    modelled. *)

From Stdlib Require Import Reals Lra.
From S2P Require Import Prelude.
From S2P Require Import ThreeHooks.

Module ParticleField.
Local Open Scope R_scope.

Record vec3 := { px : R; py : R; pz : R }.

(** One particle of the memo's loop, lines 21-27, from the three
    [Math.random()] values it draws. *)
Definition gen_position (r1 r2 r3 : R) : vec3 :=
  let radius := 15 + r1 * 10 in
  let theta := r2 * PI * 2 in
  let phi := r3 * PI in
  {| px := radius * sin phi * cos theta; py := radius * sin phi * sin theta; pz := radius * cos phi |}.

(** The gradient colour of particle [i], lines 36-39. *)
Definition gen_color (i count : nat) : vec3 :=
  let gradient := INR i / INR count in
  {| px := 0.1 + gradient * 0.5; py := 0.5 + gradient * 0.3; pz := 0.9 |}.

Definition flatten (ps : list vec3) : list R := flat_map (fun p => [px p; py p; pz p]) ps.

(** The memo, lines 14-52, for the random draws [rs] of its [count]
    particles: the positions and colours it returns, and
    [originalPositions.current] after its [push]es (the ref keeps what
    earlier runs pushed). *)
Definition generate (rs : list (R * R * R)) (originals : list R) : list vec3 * list vec3 * list R :=
  let positions := map (fun r => gen_position r.1.1 r.1.2 r.2) rs in
  (positions, map (fun i => gen_color i (length rs)) (seq 0 (length rs)), originals ++ flatten positions).

(** [mousePosition?.x || 0]: the coordinate, or 0 without a mouse. *)
Definition or0 (o : option R) : R := match o with Some v => v | None => 0 end.

(** The frame callback's body for particle [i], lines 61-79, from its
    original position. *)
Definition particle_frame (time : R) (mouse : option (R * R)) (i : nat) (o : vec3) : vec3 :=
  let x := px o + sin (time + INR i * 0.1) * 0.5 in
  let y := py o + cos (time + INR i * 0.15) * 0.5 in
  let z := pz o + sin (time + INR i * 0.2) * 0.3 in
  match mouse with
  | None => {| px := x; py := y; pz := z |}
  | Some (mx, my) =>
      let dx := x - mx * 10 in
      let dy := y - my * 10 in
      let distance := sqrt (dx * dx + dy * dy) in
      if Rlt_dec distance 5
      then let force := (5 - distance) / 5 in
           {| px := x + dx * force * 0.1; py := y + dy * force * 0.1; pz := z |}
      else {| px := x; py := y; pz := z |}
  end.

(** [originalPositions.current[i3]], [[i3 + 1]], [[i3 + 2]]; the frame
    only reads indices the memo has pushed ([original_generate]), so the
    default of [nth] is never used. *)
Definition original (originals : list R) (i : nat) : vec3 :=
  {| px := nth (3 * i) originals 0; py := nth (3 * i + 1) originals 0; pz := nth (3 * i + 2) originals 0 |}.

(** The whole frame, lines 54-82: the loop over the [count] particles. *)
Definition frame (time : R) (mouse : option (R * R)) (originals : list R) (count : nat) : list vec3 :=
  map (fun i => particle_frame time mouse i (original originals i)) (seq 0 count).

End ParticleField.

Module Orbiting.
Local Open Scope R_scope.

(** Satellite [i] of [count], lines 139-142, and its hue, line 148. *)
Definition satellite (i count : nat) : R * R :=
  let angle := INR i / INR count * PI * 2 in (cos angle * 3, sin angle * 3).

Definition hue (i count : nat) : R := INR i / INR count * 360.

Record rotation := { rx : R; ry : R; rz : R }.

(** The frame callback, lines 123-134: the group turns about [y]; the
    mouse, when present, sets the other two angles, which otherwise keep
    their values. *)
Definition frame (time : R) (mouse : option (R * R)) (r : rotation) : rotation :=
  match mouse with
  | Some (mx, my) => {| rx := my * 0.3; ry := time * 0.2; rz := mx * 0.2 |}
  | None => {| rx := rx r; ry := time * 0.2; rz := rz r |}
  end.

End Orbiting.

Module Morph.
Local Open Scope R_scope.

(** [x % y] on numbers: the remainder of the division truncated towards
    zero. *)
Definition js_rem (x y : R) : R :=
  let q := x / y in
  x - y * IZR (if Rle_dec 0 q then Int_part q else - Int_part (- q)).

Record pose := { rot_x : R; rot_y : R; scale : R; hue : R }.

(** The frame callback, lines 167-188, at [time], with the mouse and the
    prop [scrollProgress]. *)
Definition frame (time : R) (mouse : option (R * R)) (scrollProgress : R) : pose :=
  let pulse := 1 + sin (time * 2) * 0.1 in
  let morphScale := 1 + scrollProgress * 0.5 in
  {| rot_x := time * 0.2 + ParticleField.or0 (option_map snd mouse) * 0.5;
     rot_y := time * 0.3 + ParticleField.or0 (option_map fst mouse) * 0.5;
     scale := pulse * morphScale;
     hue := js_rem (time * 20 + scrollProgress * 360) 360 |}.

End Morph.

Module Lights.
Local Open Scope R_scope.

(** The frame callback, lines 215-227: the first light's position and
    intensity, the second light's position in its plane. *)
Definition light1 (time : R) (mouse : option (R * R)) : R * R * R :=
  (sin time * 5 + ParticleField.or0 (option_map fst mouse) * 3,
   cos time * 5 + ParticleField.or0 (option_map snd mouse) * 3,
   1 + sin (time * 2) * 0.5).

Definition light2 (time : R) : R * R := (cos (time * 1.5) * 5, sin (time * 1.5) * 5).

(** The two [pointLight]s as three.js holds them: created from the JSX
    of lines 230-235 (three's default position is the origin), then
    written by each frame callback, which sets some of their fields and
    leaves the others as they were. *)
Record light := { lx : R; ly : R; lz : R; intensity : R; distance : R }.

Definition light1_init : light := {| lx := 0; ly := 0; lz := 0; intensity := 1; distance := 20 |}.
Definition light2_init : light := {| lx := 0; ly := 5; lz := 0; intensity := 0.8; distance := 15 |}.

Definition frame (time : R) (mouse : option (R * R)) (ls : light * light) : light * light :=
  let '(x1, y1, i1) := light1 time mouse in
  let '(x2, z2) := light2 time in
  ({| lx := x1; ly := y1; lz := lz ls.1; intensity := i1; distance := distance ls.1 |},
   {| lx := x2; ly := ly ls.2; lz := z2; intensity := intensity ls.2; distance := distance ls.2 |}).

(** The frames of a run, each with its clock time and mouse. *)
Definition run (fs : list (R * option (R * R))) : light * light :=
  fold_left (fun ls f => frame f.1 f.2 ls) fs (light1_init, light2_init).

End Lights.

(** ** Properties *)

Create HintDb canvas.

Section CanvasProps.
Local Open Scope R_scope.
Import ParticleField.

Lemma sin2_cos2_R x : sin x * sin x + cos x * cos x = 1.
Proof. pose proof (sin2_cos2 x) as H. unfold Rsqr in H. lra. Qed.

Lemma circle_scale (r a : R) : (cos a * r) * (cos a * r) + (sin a * r) * (sin a * r) = r * r.
Proof. pose proof (sin2_cos2_R a). nra. Qed.

(** Every particle the memo generates lies on the sphere of its radius,
    and the radius lies in [[15, 25)] when the draw does: the particles fill
    a spherical shell. *)
Theorem particles_on_sphere (r1 r2 r3 : R) :
  0 <= r1 < 1 ->
  let p := gen_position r1 r2 r3 in
  px p * px p + py p * py p + pz p * pz p = (15 + r1 * 10) * (15 + r1 * 10)
  /\ 15 <= 15 + r1 * 10 < 25.
Proof.
  intros Hr p. split; [| lra].
  unfold p, gen_position; cbn [px py pz].
  set (rad := 15 + r1 * 10). set (t := r2 * PI * 2). set (f := r3 * PI).
  transitivity (rad * rad * ((sin f * sin f) * (cos t * cos t + sin t * sin t) + cos f * cos f)); [ring |].
  rewrite (Rplus_comm (cos t * _)), sin2_cos2_R, Rmult_1_r, sin2_cos2_R. ring.
Qed.

Lemma particles_on_sphere_witness :
  let p := gen_position (1 / 2) (1 / 4) (1 / 3) in
  px p * px p + py p * py p + pz p * pz p = 20 * 20.
Proof.
  cbv zeta. replace 20 with (15 + 1 / 2 * 10) by lra.
  apply (particles_on_sphere (1 / 2) (1 / 4) (1 / 3)). lra.
Defined.

Lemma abs_coord_le (dx dy : R) : Rabs dx <= sqrt (dx * dx + dy * dy) /\ Rabs dy <= sqrt (dx * dx + dy * dy).
Proof.
  rewrite <- !sqrt_Rsqr_abs. unfold Rsqr. split; apply sqrt_le_1_alt; nra.
Qed.

(** The repulsion of lines 79-81 moves each coordinate by at most half a
    unit. *)
Lemma repel_bound (dx dy : R) :
  let force := (5 - sqrt (dx * dx + dy * dy)) / 5 in
  sqrt (dx * dx + dy * dy) < 5 -> Rabs (dx * force * 0.1) <= 0.5 /\ Rabs (dy * force * 0.1) <= 0.5.
Proof.
  intros force Hd. destruct (abs_coord_le dx dy) as [Hx Hy].
  pose proof (sqrt_pos (dx * dx + dy * dy)).
  unfold force. set (d := sqrt (dx * dx + dy * dy)) in *.
  rewrite !Rabs_mult, (Rabs_pos_eq ((5 - d) / 5)), (Rabs_pos_eq 0.1) by lra.
  pose proof (Rabs_pos dx). pose proof (Rabs_pos dy). split; nra.
Qed.

Lemma drift_le (o w : R) b : Rabs w <= b -> Rabs (o + w - o) <= b.
Proof. intros H. by replace (o + w - o) with w by ring. Qed.

Lemma drift_repel_le (o w r : R) : Rabs w <= 0.5 -> Rabs r <= 0.5 -> Rabs (o + w + r - o) <= 1.
Proof.
  intros Hw Hr. replace (o + w + r - o) with (w + r) by ring.
  pose proof (Rabs_triang w r). lra.
Qed.

#[local] Hint Resolve abs_sin_scale abs_cos_scale : canvas.
#[local] Hint Extern 1 (0 <= _) => lra : canvas.

(** C30: On every frame, a particle stays within one unit of its original
    position in [x] and [y] (half a unit of floating plus at most half a
    unit of repulsion) and within 0.3 in [z], with or without a mouse. *)
Theorem particle_frame_bounds time mouse i o :
  let p := particle_frame time mouse i o in
  Rabs (px p - px o) <= 1 /\ Rabs (py p - py o) <= 1 /\ Rabs (pz p - pz o) <= 0.3.
Proof.
  intros p. unfold p, particle_frame.
  assert (Hz : Rabs (pz o + sin (time + INR i * 0.2) * 0.3 - pz o) <= 0.3) by auto using drift_le with canvas.
  destruct mouse as [[mx my] |]; [destruct Rlt_dec as [Hd |] |]; cbn [px py pz];
    [destruct (repel_bound _ _ Hd) | ..];
    repeat split; auto using drift_le, drift_repel_le with canvas;
    apply drift_le; eapply Rle_trans; eauto with canvas; lra.
Qed.

Lemma original_cons p ps i : original (px p :: py p :: pz p :: ps) (S i) = original ps i.
Proof.
  unfold original.
  replace (3 * S i)%nat with (S (S (S (3 * i)))) by lia.
  replace (3 * S i + 1)%nat with (S (S (S (3 * i + 1)))) by lia.
  replace (3 * S i + 2)%nat with (S (S (S (3 * i + 2)))) by lia.
  reflexivity.
Qed.

(** Reading back what the memo pushed: the [i]-th triple of a flattened
    list of positions is the [i]-th position, whatever follows it. *)
Lemma original_flatten ps tl i d : (i < length ps)%nat -> original (flatten ps ++ tl) i = nth i ps d.
Proof.
  revert i. induction ps as [| p ps IH]; intros [| i] Hi; cbn in Hi; try lia.
  - by destruct p.
  - cbn [flatten flat_map app]. rewrite original_cons. apply IH. lia.
Qed.

Lemma nth_frame t m originals n i d :
  (i < n)%nat -> nth i (frame t m originals n) d = particle_frame t m i (original originals i).
Proof.
  intros Hi. unfold frame.
  rewrite (nth_indep _ _ (particle_frame t m 0 (original originals 0))) by (rewrite length_map, length_seq; lia).
  rewrite (map_nth (fun i => particle_frame t m i (original originals i))), seq_nth by lia. reflexivity.
Qed.

Lemma generate_positions_length rs o : length (generate rs o).1.1 = length rs.
Proof. apply length_map. Qed.

(** C29: The frame animates each particle around a position the memo
    generated.  On the first mount, particle [i] floats around the memo's
    [i]-th position; but the memo [push]es onto [originalPositions] without
    clearing it, so after it re-runs for a new [count], particle [i] (for
    [i] below the old count) still floats around the FIRST run's [i]-th
    position, not the one the new run generated. *)
Theorem frame_originals rs0 rs t m i d :
  (i < length rs0)%nat ->
  nth i (frame t m (generate rs0 []).2 (length rs0)) d = particle_frame t m i (nth i (generate rs0 []).1.1 d)
  /\ ((i < length rs)%nat ->
      nth i (frame t m (generate rs (generate rs0 []).2).2 (length rs)) d
      = particle_frame t m i (nth i (generate rs0 []).1.1 d)).
Proof.
  intros Hi. pose proof (generate_positions_length rs0 []).
  split; [| intros Hi']; rewrite nth_frame by lia; f_equal; cbn [generate fst snd]; rewrite ?app_nil_l;
    [rewrite <- (app_nil_r (flatten _)) |]; rewrite <- ?app_assoc; apply original_flatten; rewrite length_map; lia.
Qed.

(** The memo draws once with [count = 1] and again with [count = 2]:
    particle 0 floats around the first draw's point, at height 15, while
    the memo's new position 0 is at height 20. *)
Example frame_originals_witness :
  nth 0 (frame 0 None (generate [(1/2, 0, 0); (0, 0, 0)] (generate [(0, 0, 0)] []).2).2 2) (gen_position 0 0 0)
  = particle_frame 0 None 0 (gen_position 0 0 0)
  /\ pz (gen_position 0 0 0) = 15 /\ pz (nth 0 (generate [(1/2, 0, 0); (0, 0, 0)] []).1.1 (gen_position 0 0 0)) = 20.
Proof.
  split.
  - apply (frame_originals [(0, 0, 0)] [(1/2, 0, 0); (0, 0, 0)] 0 None 0 (gen_position 0 0 0)); cbn; lia.
  - cbn. rewrite !Rmult_0_l, cos_0. split; lra.
Defined.

Lemma js_rem_range x y : 0 < y -> 0 <= x -> 0 <= Morph.js_rem x y < y.
Proof.
  intros Hy Hx. unfold Morph.js_rem.
  assert (Hq : 0 <= x / y) by (unfold Rdiv; apply Rmult_le_pos; [lra | left; apply Rinv_0_lt_compat; lra]).
  destruct (Rle_dec 0 (x / y)) as [_ | []]; [| exact Hq].
  destruct (base_Int_part (x / y)) as [H1 H2].
  assert (x = y * (x / y)) as Ex by (field; lra).
  set (q := x / y) in *. nra.
Qed.

(** The central mesh's scale stays in [[0.9, 1.65]] for a scroll
    progress in [[0, 1]], and its hue, the JavaScript remainder of a
    non-negative number by 360, lies in [[0, 360)]. *)
Theorem morph_bounds time mouse sp :
  0 <= sp <= 1 -> 0 <= time ->
  let pose := Morph.frame time mouse sp in
  0.9 <= Morph.scale pose <= 1.65 /\ 0 <= Morph.hue pose < 360.
Proof.
  intros Hsp Ht pose. unfold pose, Morph.frame; cbn [Morph.scale Morph.hue].
  pose proof (SIN_bound (time * 2)). split; [nra |].
  apply js_rem_range; lra.
Qed.

Lemma morph_bounds_witness :
  0 <= 1 / 2 <= 1 /\ 0 <= 3 /\ 0.9 <= Morph.scale (Morph.frame 3 None (1 / 2)) <= 1.65.
Proof.
  assert (H : 0 <= 1 / 2 <= 1 /\ 0 <= 3) by lra. split; [apply H |]. split; [apply H |].
  apply (morph_bounds 3 None (1 / 2)); lra.
Defined.

(** The first light's intensity stays in [[0.5, 1.5]]; the second light
    circles at distance 5 from the axis. *)
Lemma lights_bounds time mouse :
  0.5 <= (Lights.light1 time mouse).2 <= 1.5
  /\ (Lights.light2 time).1 * (Lights.light2 time).1 + (Lights.light2 time).2 * (Lights.light2 time).2 = 25.
Proof.
  cbn. pose proof (SIN_bound (time * 2)). split; [lra |].
  rewrite circle_scale. lra.
Qed.

(** Along any run of frames the first light stays in the plane [z = 0]
    and its intensity in [[0.5, 1.5]]; the second stays at the height 5
    of its JSX position, with its intensity and distance, and once a frame
    has run it circles the axis at distance 5. *)
Lemma lights_run fs :
  Lights.lz (Lights.run fs).1 = 0 /\ 0.5 <= Lights.intensity (Lights.run fs).1 <= 1.5
  /\ Lights.ly (Lights.run fs).2 = 5 /\ Lights.intensity (Lights.run fs).2 = 0.8
  /\ Lights.distance (Lights.run fs).1 = 20 /\ Lights.distance (Lights.run fs).2 = 15
  /\ (fs <> [] -> Lights.lx (Lights.run fs).2 * Lights.lx (Lights.run fs).2
                  + Lights.lz (Lights.run fs).2 * Lights.lz (Lights.run fs).2 = 25).
Proof.
  assert (Hf : forall t m ls, Lights.frame t m ls =
            ({| Lights.lx := (Lights.light1 t m).1.1; Lights.ly := (Lights.light1 t m).1.2; Lights.lz := Lights.lz ls.1;
                Lights.intensity := (Lights.light1 t m).2; Lights.distance := Lights.distance ls.1 |},
             {| Lights.lx := (Lights.light2 t).1; Lights.ly := Lights.ly ls.2; Lights.lz := (Lights.light2 t).2;
                Lights.intensity := Lights.intensity ls.2; Lights.distance := Lights.distance ls.2 |})) by reflexivity.
  unfold Lights.run.
  destruct (fold_left_invariant (fun ls => Lights.lz ls.1 = 0 /\ 0.5 <= Lights.intensity ls.1 <= 1.5
              /\ Lights.ly ls.2 = 5 /\ Lights.intensity ls.2 = 0.8 /\ Lights.distance ls.1 = 20 /\ Lights.distance ls.2 = 15)
              (fun ls f => Lights.frame f.1 f.2 ls) fs (Lights.light1_init, Lights.light2_init))
    as (H1 & H2 & H3 & H4 & H5 & H6);
    [cbn; lra | intros ls [t m] _ (H1 & H2 & H3 & H4 & H5 & H6); rewrite Hf;
     cbn [fst snd Lights.lx Lights.ly Lights.lz Lights.intensity Lights.distance]; destruct (lights_bounds t m); lra |].
  do 6 (split; [assumption |]).
  intros Hne. destruct (exists_last Hne) as (fs' & [t m] & ->). rewrite fold_left_app. cbn [fold_left fst snd].
  rewrite Hf. cbn [snd Lights.lx Lights.lz]. exact (proj2 (lights_bounds t m)).
Qed.

(** Every satellite lies on the circle of radius 3, and the hues of the
    [count] satellites lie in [[0, 360)]. *)
Lemma satellites_on_circle i count :
  (Orbiting.satellite i count).1 * (Orbiting.satellite i count).1
  + (Orbiting.satellite i count).2 * (Orbiting.satellite i count).2 = 9
  /\ ((i < count)%nat -> 0 <= Orbiting.hue i count < 360).
Proof.
  split; [cbn; rewrite circle_scale; lra |].
  intros Hi. unfold Orbiting.hue.
  assert (0 <= INR i) by apply pos_INR. assert (INR i < INR count) by (apply lt_INR; lia).
  assert (0 <= INR i / INR count < 1); [| nra].
  split; [apply Rmult_le_pos; [lra | left; apply Rinv_0_lt_compat; lra] |].
  apply Rmult_lt_reg_r with (INR count); [lra |]. unfold Rdiv. rewrite Rmult_assoc, Rinv_l; lra.
Qed.

End CanvasProps.
