(* ===== verification/Models.v ===== *)
(** * The 3D models: src/src/components/Canvas/Models.jsx

    Seven components built on the hooks of [ThreeHooks]: [AnimatedSphere]
    and [AnimatedTorus] call [use3DRotation] with [axis: 'all'];
    [AnimatedCube] combines [use3DHover] (scale 1.3) with a frame callback
    of its own that sets the rotation; [FloatingOctahedron],
    [MorphingGeometry] and [GlowingSphere] have their own frame callbacks;
    [Particles] fills its position and colour arrays with [Math.random()]
    in the body of the component, on every render.

    Numbers are reals, as in [ThreeHooks]; the [k]-th value [Math.random()]
    returns during a render is [rnd k]. *)

From Stdlib Require Import Reals Lra.
From S2P Require Import Prelude.
From S2P Require Import ThreeHooks.

Module Models.
Local Open Scope R_scope.

(** [use3DRotation({ speed: 0.5, axis: 'all' })], line 11, and
    [use3DRotation({ speed: 1, axis: 'all' })], line 58. *)
Definition sphere_options : Rotation.options := Rotation.defaults (Some 0.5) (Some (u16 "all")) None.
Definition torus_options : Rotation.options := Rotation.defaults (Some 1) (Some (u16 "all")) None.

(** [AnimatedCube], lines 30-38: the hover state of [use3DHover({ scale:
    1.3 })] (default [duration] 0.3) and the rotation its own callback
    sets.  The hook's callback was registered first, so it runs first;
    both do nothing while [meshRef.current] is empty. *)
Record cube := { cube_hover : Hover.state; cube_rot_x : R; cube_rot_y : R }.

Definition cube_scale : R := 1.3.
Definition cube_duration : R := 0.3.

Definition cube_frame (elapsedTime delta : R) (c : cube) : cube :=
  let h := Hover.step cube_scale cube_duration (Hover.Frame delta) (cube_hover c) in
  if Hover.attached h
  then {| cube_hover := h; cube_rot_x := elapsedTime * 0.5; cube_rot_y := elapsedTime * 0.7 |}
  else {| cube_hover := h; cube_rot_x := cube_rot_x c; cube_rot_y := cube_rot_y c |}.

Definition cube_pointer (over : bool) (c : cube) : cube :=
  {| cube_hover := Hover.step cube_scale cube_duration (if over then Hover.PointerOver else Hover.PointerOut) (cube_hover c);
     cube_rot_x := cube_rot_x c; cube_rot_y := cube_rot_y c |}.

(** [FloatingOctahedron]'s callback, lines 73-79: height, then the two
    rotation angles. *)
Definition octahedron_frame (position_y elapsedTime : R) : R * R * R :=
  (position_y + sin elapsedTime * 0.3, elapsedTime * 0.4, elapsedTime * 0.6).

(** [Particles]' loop, lines 94-105: particle [i] reads the draws
    [6i .. 6i + 5], three for its position and three for its colour. *)
Definition particle_position (rnd : nat -> R) (i : nat) : list R :=
  [(rnd (6 * i)%nat - 0.5) * 10; (rnd (6 * i + 1)%nat - 0.5) * 10; (rnd (6 * i + 2)%nat - 0.5) * 10].

Definition particle_color (rnd : nat -> R) (i : nat) : list R :=
  [rnd (6 * i + 3)%nat; rnd (6 * i + 4)%nat; rnd (6 * i + 5)%nat].

Definition particles_render (count : nat) (rnd : nat -> R) : list R * list R :=
  (flat_map (particle_position rnd) (seq 0 count), flat_map (particle_color rnd) (seq 0 count)).

(** Its frame callback, lines 107-111. *)
Definition particles_rotation_y (elapsedTime : R) : R := elapsedTime * 0.05.

(** [MorphingGeometry]'s callback, lines 141-151: rotation and scale. *)
Definition morphing_frame (time : R) : R * R * R := (time * 0.3, time * 0.5, 1 + sin time * 0.2).

(** [GlowingSphere]'s callback, lines 173-181: the sphere's rotation and
    the glow's pulse. *)
Definition glowing_frame (elapsedTime : R) : R * R :=
  (elapsedTime * 0.5, sin (elapsedTime * 2) * 0.1 + 1).

End Models.

(** ** Properties *)

Section ModelsProps.
Local Open Scope R_scope.
Import Models.

(** The cube once [Box] is committed: [meshRef] holds its mesh before the
    first frame. *)
Definition cube_init : cube :=
  {| cube_hover := Hover.step cube_scale cube_duration Hover.Attach Hover.init; cube_rot_x := 0; cube_rot_y := 0 |}.

(** The states of [AnimatedCube] reachable by pointer events and frames
    no longer than the hover's [duration]. *)
Inductive cube_reachable : cube -> Prop :=
| cube_reach_init : cube_reachable cube_init
| cube_reach_frame t d c : 0 <= d <= cube_duration -> cube_reachable c -> cube_reachable (cube_frame t d c)
| cube_reach_pointer over c : cube_reachable c -> cube_reachable (cube_pointer over c).

Definition cube_inv (c : cube) : Prop :=
  Hover.attached (cube_hover c) = true /\
  (Hover.targetScale (cube_hover c) = 1 \/ Hover.targetScale (cube_hover c) = cube_scale)
  /\ 1 <= Hover.scale_x (cube_hover c) <= cube_scale.

Lemma cube_inv_reachable c : cube_reachable c -> cube_inv c.
Proof.
  unfold cube_inv, cube_scale, cube_duration.
  induction 1 as [| t d c Hd _ (Ha & Ht & Hx) | [|] c _ (Ha & Ht & Hx)];
    [cbn; split; [done | split; [by left | lra]] | | cbn; by rewrite Ha; auto | cbn; by rewrite Ha; auto].
  unfold cube_frame. cbn [Hover.step]. rewrite Ha. cbn.
  split; [done|]. split; [exact Ht |]. apply lerp_between; [exact Hx | destruct Ht as [-> | ->]; lra |].
  apply div_unit_R; unfold cube_duration in *; lra.
Qed.

(** The cube's hover scale stays between 1 and 1.3 while no frame is
    longer than 0.3 s, and after a frame at [elapsedTime = t] its
    rotation is [(0.5 t, 0.7 t)], whatever happened before. *)
Theorem cube_scale_bounds c :
  cube_reachable c -> 1 <= Hover.scale_x (cube_hover c) <= 1.3
  /\ forall t d, cube_rot_x (cube_frame t d c) = t * 0.5 /\ cube_rot_y (cube_frame t d c) = t * 0.7.
Proof.
  intros (Ha & _ & Hx)%cube_inv_reachable. split; [exact Hx|].
  intros t d. unfold cube_frame. cbn [Hover.step]. by rewrite Ha.
Qed.

(** [AnimatedSphere] and [AnimatedTorus] turn by [(0.5, 1, 0.3)] times
    [speed] times the elapsed time: 0.25, 0.5 and 0.15 radians per second
    for the sphere. *)
Theorem animated_sphere_turns ds r :
  let T := fold_right Rplus 0 ds in
  Rotation.frames sphere_options ds (Some r) =
    Some {| Rotation.vx := Rotation.vx r + T * 0.25; Rotation.vy := Rotation.vy r + T * 0.5;
            Rotation.vz := Rotation.vz r + T * 0.15 |}.
Proof.
  cbv zeta. rewrite rotation_frames by reflexivity.
  assert (Hw : axis_weights (u16 "all") = (0.5, 1, 0.3)).
  { unfold axis_weights.
    rewrite !(bool_decide_eq_false_2 (u16 "all" = u16 _)) by (vm_compute; discriminate).
    by rewrite bool_decide_eq_true_2. }
  change (Rotation.axis sphere_options) with (u16 "all"). change (Rotation.speed sphere_options) with 0.5.
  rewrite Hw. cbn -[Rmult Rplus]. f_equal. f_equal; lra.
Qed.

(** The floating octahedron stays within 0.3 of its height, the
    morphing geometry's scale within [[0.8, 1.2]], the glow's pulse within
    [[0.9, 1.1]]. *)
Theorem models_frame_bounds py t :
  Rabs ((octahedron_frame py t).1.1 - py) <= 0.3
  /\ 0.8 <= (morphing_frame t).2 <= 1.2 /\ 0.9 <= (glowing_frame t).2 <= 1.1.
Proof.
  cbn. pose proof (SIN_bound t). pose proof (SIN_bound (t * 2)).
  split; [| split; lra].
  replace (py + sin t * 0.3 - py) with (sin t * 0.3) by ring. apply abs_sin_scale. lra.
Qed.

Lemma Forall_flat_map_seq {A} (P : A -> Prop) (f : nat -> list A) n :
  (forall i, (i < n)%nat -> Forall P (f i)) -> Forall P (flat_map f (seq 0 n)).
Proof.
  intros H. apply List.Forall_forall. intros x Hx. apply in_flat_map in Hx as (i & Hi%in_seq & Hx).
  exact (proj1 (List.Forall_forall _ _) (H i ltac:(lia)) x Hx).
Qed.

(** When every draw of [Math.random()] lies in [[0, 1)], a render of
    [Particles] fills [3 count] coordinates in [[-5, 5)] and [3 count]
    colour channels in [[0, 1)]. *)
Theorem particles_render_bounds count rnd :
  (forall k, 0 <= rnd k < 1) ->
  let '(positions, colors) := particles_render count rnd in
  length positions = (3 * count)%nat /\ length colors = (3 * count)%nat
  /\ Forall (fun x => -5 <= x < 5) positions /\ Forall (fun c => 0 <= c < 1) colors.
Proof.
  intros Hr. cbn [particles_render]. rewrite !length_flat_map.
  unfold particle_position, particle_color. cbn [length].
  replace (list_sum _) with (3 * count)%nat by (induction count as [| n IH];
    [done | rewrite seq_S, map_app, list_sum_app, <- IH; cbn; lia]).
  replace (list_sum (map (fun _ => 3%nat) (seq 0 count))) with (3 * count)%nat by (induction count as [| n IH];
    [done | rewrite seq_S, map_app, list_sum_app, <- IH; cbn; lia]).
  split; [done |]. split; [done |].
  split; apply Forall_flat_map_seq; intros i _;
    repeat (apply List.Forall_cons; [match goal with |- context [rnd ?k] => pose proof (Hr k) end; lra |]);
    apply List.Forall_nil.
Qed.

End ModelsProps.

(** ** Witnesses *)

Lemma cube_scale_bounds_witness :
  (1 <= Hover.scale_x (Models.cube_hover (Models.cube_frame 1 0.1 (Models.cube_pointer true cube_init))) <= 1.3)%R.
Proof.
  apply (cube_scale_bounds (Models.cube_frame 1 0.1 (Models.cube_pointer true cube_init))).
  apply cube_reach_frame; [unfold Models.cube_duration; lra |]. apply cube_reach_pointer, cube_reach_init.
Defined.

Lemma particles_render_bounds_witness :
  let '(positions, colors) := Models.particles_render 2 (fun _ => 1 / 2)%R in
  length positions = 6%nat /\ length colors = 6%nat
  /\ Forall (fun x => -5 <= x < 5)%R positions /\ Forall (fun c => 0 <= c < 1)%R colors.
Proof. apply (particles_render_bounds 2 (fun _ => 1 / 2)%R). intros _. lra. Defined.
