(* ===== verification/Sections.v ===== *)
(** * Content sections and cards: src/src/components/sections, cards, layout

    The sections render the portfolio data ([usePortfolioData], which
    returns the imported JSON file) through cards.  The only state is the
    projects section's [filter] (sections/Projects.jsx); the cards decide
    what to show from the data (cards/ProjectCard.jsx), the timeline
    alternates sides (sections/Journey.jsx with cards/MilestoneCard.jsx),
    and every section sits in [SectionBackground]
    (layout/SectionBackground.jsx), which draws 40 floating particles from
    [Math.random()] on every render and, for [showStars], mounts a Stars
    canvas of its own; [Background] also holds the props each section
    passes it.

    A view is a record of what the JSX shows: the keys, labels and flags
    of its elements; class strings are left out.  [String.prototype
    .toUpperCase] is a parameter [upper] of the view: the labels are
    correct for any case mapping.  Numbers of the background are
    rationals; the [k]-th draw of [Math.random()] in a render is
    [rnd k]. *)

From Stdlib Require Import QArith Lqa.
From S2P Require Import Prelude.
From S2P Require Import Regex.
From S2P Require Import Validation.
From S2P Require Import Navbar.

Module ProjectsSection.

(** The fields of a project the section and its card read. *)
Record project := {
  p_id : jstr; p_category : jstr; p_title : jstr; p_shortDescription : jstr;
  p_badges : option (list jstr); p_technologies : list jstr;
  p_liveUrl : option jstr; p_githubUrl : option jstr }.

(** [data.projects]: its title, subtitle, filters and items. *)
Record projects_data := { pd_title : jstr; pd_subtitle : jstr; pd_filters : list jstr; pd_items : list project }.

(** [useState('all')], line 12. *)
Record state := { filter : jstr }.

Definition init : state := {| filter := u16 "all" |}.

(** The filter predicate, line 16. *)
Definition shown (f : jstr) (p : project) : bool :=
  bool_decide (f = u16 "all") || bool_decide (p_category p = f).

(** [filteredProjects], lines 15-17. *)
Definition filteredProjects (d : projects_data) (s : state) : list project :=
  List.filter (shown (filter s)) (pd_items d).

(** The click handler of the button of [f], line 37. *)
Definition setFilter (f : jstr) (s : state) : state := {| filter := f |}.

(** The states reachable by clicks on the buttons, which are those of
    [projectsData.filters]. *)
Inductive reachable (d : projects_data) : state -> Prop :=
| reach_init : reachable d init
| reach_click f s : In f (pd_filters d) -> reachable d s -> reachable d (setFilter f s).

(** A filter button: its key, whether it has the active classes (line
    39) and its label (line 44). *)
Record button := { b_key : jstr; b_active : bool; b_label : jstr }.

(** The grid, lines 51-59: the cards by their keys, or the message. *)
Inductive grid := Cards (keys : list jstr) | NoProjects.

Record view := { v_title : jstr; v_subtitle : jstr; v_buttons : list button; v_grid : grid }.

(** [f.charAt(0).toUpperCase() + f.slice(1)]: [charAt(0)] is the first
    code unit (or the empty string), [slice(1)] the rest. *)
Definition label (upper : jstr -> jstr) (f : jstr) : jstr := upper (take 1 f) ++ drop 1 f.

(** The section's JSX, lines 19-63. *)
Definition render (upper : jstr -> jstr) (d : projects_data) (s : state) : view :=
  let fp := filteredProjects d s in
  {| v_title := pd_title d; v_subtitle := pd_subtitle d;
     v_buttons := map (fun f => {| b_key := f; b_active := bool_decide (filter s = f); b_label := label upper f |})
                      (pd_filters d);
     v_grid := if (0 <? length fp)%nat then Cards (map p_id fp) else NoProjects |}.

End ProjectsSection.

Module ProjectCard.
Import ProjectsSection.

(** A badge or technology tag with its [animationDelay] in ms. *)
Record tag := { t_text : jstr; t_delay_ms : Z }.

Record card := {
  c_badges : list tag; c_title : jstr; c_description : jstr; c_technologies : list tag;
  c_live : option jstr; c_code : option jstr }.

(** A string prop is truthy when it is present and non-empty. *)
Definition truthy_str (o : option jstr) : bool := match o with Some (_ :: _) => true | _ => false end.

(** [xs.map((x, index) => ... index * step ms)]. *)
Definition delays (step : Z) (xs : list jstr) : list tag :=
  imap (fun i x => {| t_text := x; t_delay_ms := Z.of_nat i * step |}) xs.

(** The card, lines 6-82: badges only when [project.badges] is a
    non-empty array (line 21), the technologies, and each link only when
    its URL is truthy (lines 57 and 68). *)
Definition render (p : project) : card :=
  {| c_badges := match p_badges p with Some bs => if (0 <? length bs)%nat then delays 50 bs else [] | None => [] end;
     c_title := p_title p; c_description := p_shortDescription p;
     c_technologies := delays 30 (p_technologies p);
     c_live := if truthy_str (p_liveUrl p) then p_liveUrl p else None;
     c_code := if truthy_str (p_githubUrl p) then p_githubUrl p else None |}.

End ProjectCard.

Module Timeline.

Record milestone := { m_year : jstr; m_icon : jstr; m_title : jstr; m_description : jstr }.

(** [isEven], MilestoneCard.jsx line 7: [index % 2 === 0]. *)
Definition isEven (index : nat) : bool := (index mod 2 =? 0)%nat.

(** The timeline of sections/Journey.jsx, lines 29-35: each milestone's
    key ([milestone.year]) and the side of its card (the content on the
    left, [flex-row], when [isEven], lines 10-14 of MilestoneCard.jsx). *)
Definition journey (ms : list milestone) : list (jstr * bool) :=
  imap (fun i m => (m_year m, isEven i)) ms.

End Timeline.

Module Background.
Local Open Scope Q_scope.

Record particle := { size : Q; left : Q; top : Q; delay : Q; duration : Q; opacity : Q }.

(** The [i]-th particle, lines 25-30: six draws in order. *)
Definition particle_of (rnd : nat -> Q) (i : nat) : particle :=
  {| size := 1 + rnd (6 * i)%nat * 3; left := rnd (6 * i + 1)%nat * 100; top := rnd (6 * i + 2)%nat * 100;
     delay := rnd (6 * i + 3)%nat * 10; duration := 15 + rnd (6 * i + 4)%nat * 25;
     opacity := 0.15 + rnd (6 * i + 5)%nat * 0.25 |}.

(** The particle layer, lines 22-48: 40 particles when [showParticles]
    (default [true]). *)
Definition particles (showParticles : bool) (rnd : nat -> Q) : list particle :=
  if showParticles then map (particle_of rnd) (seq 0 40) else [].

(** The vignette's background, lines 69-71. *)
Definition vignette (variant : jstr) : jstr :=
  if bool_decide (variant = u16 "light")
  then u16 "radial-gradient(ellipse 70% 60% at center, rgba(0, 0, 0, 0) 0%, rgba(0, 0, 0, 0.05) 70%, rgba(0, 0, 0, 0.3) 100%)"
  else u16 "radial-gradient(ellipse 70% 60% at center, rgba(0, 0, 0, 0) 0%, rgba(0, 0, 0, 0.1) 70%, rgba(0, 0, 0, 0.4) 100%)".

(** The props of [SectionBackground], lines 8-15, with their defaults. *)
Record props := { variant : jstr; className : jstr; showStars : bool; showParticles : bool; id : jstr }.

Definition defaults : props :=
  {| variant := u16 "default"; className := []; showStars := false; showParticles := true; id := [] |}.

(** What a section shows, lines 16-82: its [id] and class, the particle
    layer, the Stars canvas when [showStars], the vignette, then the
    children. *)
Record view := { v_id : jstr; v_class : jstr; v_particles : list particle; v_stars : bool; v_vignette : jstr }.

Definition render (p : props) (rnd : nat -> Q) : view :=
  {| v_id := id p; v_class := u16 "relative min-h-screen overflow-hidden bg-dark-300 " ++ className p;
     v_particles := particles (showParticles p) rnd; v_stars := showStars p; v_vignette := vignette (variant p) |}.

(** The backgrounds the sections ask for: About.jsx line 13, Skills.jsx
    line 13, Experience.jsx line 13, Contact.jsx line 112 and
    sections/Projects.jsx line 20. *)
Definition with_id (i : jstr) (stars : bool) : props :=
  {| variant := variant defaults; className := className defaults; showStars := stars;
     showParticles := showParticles defaults; id := i |}.
Definition about_bg : props := with_id (u16 "about") false.
Definition skills_bg : props := with_id (u16 "skills") true.
Definition experience_bg : props := with_id (u16 "experience") false.
Definition contact_bg : props := with_id (u16 "contact") true.
Definition projects_bg : props := with_id (u16 "projects") true.

End Background.

Module Footer.

(** The quick links, Footer.jsx line 41. *)
Definition quickLinks : list jstr :=
  map u16 ["Home"; "About"; "Projects"; "Skills"; "Experience"; "Contact"].

(** A click on the quick link [link], line 44:
    [scrollToSection(link.toLowerCase())] over the page [lay], with the
    case table [lower_unit] of [toLowerCase]. *)
Definition click (lower_unit : Z -> list Z) (lay : jstr -> option (Z * Z)) (link : jstr) : option jstr :=
  Navbar.scrollToSection lay (Client.toLowerCase lower_unit link).

End Footer.

(** ** The projects section *)

Section ProjectsProps.
Import ProjectsSection.
Context (upper : jstr -> jstr) (d : projects_data).

(** A project is on the grid exactly when it is an item of the data and
    the filter is ["all"] or its category; the grid keeps the data's
    order, and shows the message exactly when no project passes. *)
Theorem projects_grid s :
  (forall p, In p (filteredProjects d s) <-> In p (pd_items d) /\ (filter s = u16 "all" \/ p_category p = filter s))
  /\ (v_grid (render upper d s) = NoProjects <-> filteredProjects d s = [])
  /\ (forall ks, v_grid (render upper d s) = Cards ks -> ks = map p_id (filteredProjects d s)).
Proof.
  split; [| split].
  - intros p. unfold filteredProjects, shown. rewrite filter_In, orb_true_iff, !bool_decide_eq_true.
    naive_solver.
  - cbn. destruct (filteredProjects d s); cbn; split; congruence.
  - cbn. intros ks. case_match; congruence.
Qed.

Lemma filter_in_filters s : In (u16 "all") (pd_filters d) -> reachable d s -> In (filter s) (pd_filters d).
Proof. intros Hall. induction 1; cbn; assumption. Qed.

(** When the filters are distinct and include ["all"], exactly one filter
    button has the active classes in every reachable state. *)
Theorem one_filter_active s :
  List.NoDup (pd_filters d) -> In (u16 "all") (pd_filters d) -> reachable d s ->
  length (List.filter (fun b : bool => b) (map b_active (v_buttons (render upper d s)))) = 1%nat.
Proof.
  intros Hnd Hall Hr. cbn. rewrite List.map_map. cbn.
  apply exactly_one_selected; [exact Hnd | exact (filter_in_filters s Hall Hr)].
Qed.

End ProjectsProps.

(** Without ["all"] among the filters, no button is active at first,
    although every project is shown. *)
Example no_active_filter_without_all :
  let d := {| ProjectsSection.pd_title := []; ProjectsSection.pd_subtitle := [];
              ProjectsSection.pd_filters := [u16 "React"; u16 "AI"]; ProjectsSection.pd_items := [] |} in
  map ProjectsSection.b_active (ProjectsSection.v_buttons (ProjectsSection.render id d ProjectsSection.init)) = [false; false].
Proof. vm_compute. reflexivity. Qed.

(** ** The project card *)

Section CardProps.
Import ProjectsSection ProjectCard.

Lemma delays_lookup step xs i x : xs !! i = Some x -> delays step xs !! i = Some {| t_text := x; t_delay_ms := Z.of_nat i * step |}.
Proof. intros Hx. unfold delays. by rewrite list_lookup_imap, Hx. Qed.

(** The card links to the live demo and to the code exactly when the
    URL is a non-empty string; the [i]-th badge and technology appear
    after [50 i] and [30 i] ms. *)
Theorem card_links p :
  (forall u, c_live (ProjectCard.render p) = Some u <-> p_liveUrl p = Some u /\ u <> [])
  /\ (forall u, c_code (ProjectCard.render p) = Some u <-> p_githubUrl p = Some u /\ u <> [])
  /\ (forall i t, p_technologies p !! i = Some t ->
        c_technologies (ProjectCard.render p) !! i = Some {| t_text := t; t_delay_ms := Z.of_nat i * 30 |}).
Proof.
  cbn. unfold truthy_str. split; [| split; [| intros i t; apply delays_lookup]]; intros u;
    [destruct (p_liveUrl p) as [[|c l]|] | destruct (p_githubUrl p) as [[|c l]|]]; (split; [intros Hs | intros [Hs Hn]]); simplify_eq; auto; discriminate.
Qed.

End CardProps.

(** ** The timeline *)

Section TimelineProps.
Import Timeline.

Lemma isEven_S i : isEven (S i) = negb (isEven i).
Proof.
  unfold isEven. replace (S i) with (i + 1)%nat by lia. rewrite Nat.Div0.add_mod.
  destruct (Nat.mod_bound_pos i 2 ltac:(lia) ltac:(lia)) as [_ Hlt].
  destruct (i mod 2)%nat as [| [|]]; cbn; [done | done | lia].
Qed.

(** The timeline's keys are the milestones' years in order, and two
    consecutive cards sit on opposite sides of the line. *)
Theorem journey_alternates ms :
  map fst (journey ms) = map m_year ms
  /\ forall i y b y' b', journey ms !! i = Some (y, b) -> journey ms !! S i = Some (y', b') -> b' = negb b.
Proof.
  split.
  - unfold journey. induction ms as [| m ms IH] using rev_ind; [done |].
    rewrite imap_app, !map_app, IH. done.
  - unfold journey. intros i y b y' b'. rewrite !list_lookup_imap.
    destruct (ms !! i), (ms !! S i); cbn; intros; simplify_eq. apply isEven_S.
Qed.

End TimelineProps.

(** ** The section background *)

Section BackgroundProps.
Local Open Scope Q_scope.
Import Background.

Definition particle_ok (p : particle) : Prop :=
  1 <= size p < 4 /\ 0 <= left p < 100 /\ 0 <= top p < 100 /\ 0 <= delay p < 10
  /\ 15 <= duration p < 40 /\ 0.15 <= opacity p < 0.4.

(** When every draw lies in [[0, 1)], the background shows 40 particles
    (none when [showParticles] is false), each of size in [[1, 4)] px,
    inside the section, with a delay below 10 s, a period in [[15, 40)] s
    and an opacity in [[0.15, 0.4)]. *)
Theorem background_bounds showParticles rnd :
  (forall k, 0 <= rnd k < 1) ->
  length (particles showParticles rnd) = (if showParticles then 40 else 0)%nat
  /\ Forall particle_ok (particles showParticles rnd).
Proof.
  intros Hr. unfold particles. destruct showParticles; [| split; [done | constructor]].
  rewrite length_map, length_seq. split; [done |].
  apply List.Forall_forall. intros p (i & <- & _)%in_map_iff.
  pose proof (Hr (6 * i)%nat). pose proof (Hr (6 * i + 1)%nat). pose proof (Hr (6 * i + 2)%nat).
  pose proof (Hr (6 * i + 3)%nat). pose proof (Hr (6 * i + 4)%nat). pose proof (Hr (6 * i + 5)%nat).
  unfold particle_ok; cbn [size left top delay duration opacity particle_of]. repeat split; lra.
Qed.

End BackgroundProps.

(** ** The footer *)

Section FooterProps.
Import Footer.

(** The case mapping of the ASCII letters: [A-Z] to [a-z], [a-z] to
    themselves.  Unicode's lower-case mapping does this. *)
Context (lower_unit : Z -> list Z).
Hypothesis lower_ascii : forall c,
  (65 <= c <= 90 -> lower_unit c = [c + 32]) /\ (97 <= c <= 122 -> lower_unit c = [c]).

Definition ascii_letter (c : Z) : bool := (65 <=? c) && (c <=? 90) || (97 <=? c) && (c <=? 122).

Definition ascii_lower (c : Z) : Z := if c <=? 90 then c + 32 else c.

Lemma toLowerCase_ascii (w : jstr) :
  forallb ascii_letter w = true -> Client.toLowerCase lower_unit w = map ascii_lower w.
Proof.
  unfold Client.toLowerCase. induction w as [| c w IH]; [done |].
  cbn. intros [Hc Hw]%andb_true_iff. rewrite IH by exact Hw. unfold ascii_letter, ascii_lower in *.
  apply orb_true_iff in Hc as [Hc | Hc]; apply andb_true_iff in Hc as [H1 H2]; apply Z.leb_le in H1, H2;
    [rewrite (proj1 (lower_ascii c)) by lia | rewrite (proj2 (lower_ascii c)) by lia];
    destruct (Z.leb_spec c 90); cbn; f_equal; lia.
Qed.

(** Each quick link of the footer scrolls to the section of the
    navigation link at the same position: the same target as a click on
    that link of the navigation bar, on any page. *)
Theorem footer_links_navbar lay :
  map (click lower_unit lay) quickLinks
  = map (fun link => snd (Navbar.handleNavClick lay (Navbar.nl_id link) Navbar.init)) Navbar.navLinks.
Proof.
  assert (E : map (Client.toLowerCase lower_unit) quickLinks = map Navbar.nl_id Navbar.navLinks).
  { assert (HL : forallb (forallb ascii_letter) quickLinks = true) by (vm_compute; reflexivity).
    rewrite (map_ext_in _ (map ascii_lower)); [vm_compute; reflexivity |].
    intros w Hw. apply toLowerCase_ascii. exact (proj1 (forallb_forall _ _) HL w Hw). }
  unfold click. rewrite <- List.map_map, E, List.map_map. apply map_ext. intros link. reflexivity.
Qed.

End FooterProps.

(** ** Witnesses *)

Definition demo_projects : ProjectsSection.projects_data :=
  {| ProjectsSection.pd_title := u16 "Projects"; ProjectsSection.pd_subtitle := [];
     ProjectsSection.pd_filters := [u16 "all"; u16 "React"; u16 "AI"]; ProjectsSection.pd_items := [] |}.

Lemma one_filter_active_witness :
  length (List.filter (fun b : bool => b)
    (map ProjectsSection.b_active (ProjectsSection.v_buttons
       (ProjectsSection.render id demo_projects (ProjectsSection.setFilter (u16 "AI") ProjectsSection.init))))) = 1%nat.
Proof.
  apply one_filter_active; [repeat constructor; vm_compute; intuition discriminate | cbn; auto |].
  apply ProjectsSection.reach_click; [cbn; auto | apply ProjectsSection.reach_init].
Defined.

Lemma background_bounds_witness :
  length (Background.particles true (fun _ => 1 # 2)) = 40%nat
  /\ Forall particle_ok (Background.particles true (fun _ => 1 # 2)).
Proof. apply (background_bounds true (fun _ => 1 # 2)). intros _. lra. Defined.

(** The ASCII part of Unicode's lower-case table. *)
Definition ascii_table (c : Z) : list Z := if (65 <=? c) && (c <=? 90) then [c + 32] else [c].

Lemma footer_links_navbar_witness :
  map (Footer.click ascii_table Navbar.demo_layout) Footer.quickLinks
  = map (fun link => snd (Navbar.handleNavClick Navbar.demo_layout (Navbar.nl_id link) Navbar.init)) Navbar.navLinks.
Proof.
  apply footer_links_navbar. intros c. unfold ascii_table.
  split; intros Hc; [rewrite (proj2 (Z.leb_le 65 c)), (proj2 (Z.leb_le c 90)) by lia; reflexivity |].
  by rewrite (proj2 (Z.leb_gt c 90)), andb_false_r by lia.
Defined.
