(* ===== verification/HeroScene.v ===== *)
(** * The hero's mouse and its 3D scene: src/src/components/Hero.jsx

    Hero's [mousemove] listener (lines 88-109) writes two refs
    ([mouseRef], [normalizedMouseRef]) and, through [setCursorTrail]
    ([Hero.CursorTrail.handleMouseMove]), the trail state.  The scroll
    trigger of lines 141-149 sets [scrollProgress].  Each render passes
    [normalizedMouseRef.current] and [scrollProgress] as props to the 3D
    elements of [Canvas] (lines 199-229): the lights, the hero mesh, the
    satellites and the 800 particles.

    A render is explicit here: React renders again after a state update
    whose new value differs ([Object.is]) from the old one; the trail's
    updater always returns a new array, [setScrollProgress] with the same
    number does not.  The window is [innerWidth] by [innerHeight]
    ([w], [h]); coordinates are reals, as in [Canvas]. *)

From Stdlib Require Import Reals Lra.
From S2P Require Import Prelude.
From S2P Require Import Hero.
From S2P Require Import ThreeHooks.
From S2P Require Import Canvas.

Module HeroMouse.
Local Open Scope R_scope.

Record state := {
  mouseRef : Z * Z;                    (** line 65 *)
  normalizedMouseRef : R * R;          (** line 66 *)
  trail : CursorTrail.state;           (** lines 67-68 *)
  scrollProgress : R;                  (** line 59 *)
  renders : nat;                       (** renders of Hero so far *)
  shownMouse : R * R                   (** [normalizedMouseRef.current] at the last render *)
}.

Definition init : state :=
  {| mouseRef := (0%Z, 0%Z); normalizedMouseRef := (0, 0); trail := CursorTrail.init;
     scrollProgress := 0; renders := 1; shownMouse := (0, 0) |}.

(** A render reads the ref into the children's [mousePosition]. *)
Definition render (s : state) : state :=
  {| mouseRef := mouseRef s; normalizedMouseRef := normalizedMouseRef s; trail := trail s;
     scrollProgress := scrollProgress s; renders := S (renders s); shownMouse := normalizedMouseRef s |}.

(** Lines 91-94. *)
Definition normalize (w h : R) (x y : Z) : R * R := (IZR x / w * 2 - 1, - (IZR y / h) * 2 + 1).

(** [handleMouseMove], lines 89-105: both refs, then the trail's update,
    which always changes the state and so renders Hero again. *)
Definition handleMouseMove (w h : R) (x y : Z) (s : state) : state :=
  render {| mouseRef := (x, y); normalizedMouseRef := normalize w h x y;
            trail := CursorTrail.handleMouseMove x y (trail s);
            scrollProgress := scrollProgress s; renders := renders s; shownMouse := shownMouse s |}.

(** [onUpdate], lines 147-149: [setScrollProgress(self.progress)]; React
    skips the render when the value is unchanged. *)
Definition onScrollUpdate (progress : R) (s : state) : state :=
  if Req_dec_T progress (scrollProgress s) then s
  else render {| mouseRef := mouseRef s; normalizedMouseRef := normalizedMouseRef s; trail := trail s;
                 scrollProgress := progress; renders := renders s; shownMouse := shownMouse s |}.

Inductive event := MouseMove (x y : Z) | ScrollUpdate (progress : R).

Definition step (w h : R) (e : event) (s : state) : state :=
  match e with
  | MouseMove x y => handleMouseMove w h x y s
  | ScrollUpdate p => onScrollUpdate p s
  end.

Definition run (w h : R) (es : list event) (s : state) : state := fold_left (fun s e => step w h e s) es s.

(** What the 3D elements compute in a frame at [time] from the props of
    the last render (lines 199-229): the first light, the hero mesh and
    the particles around their originals. *)
Definition light1 (s : state) (time : R) : R * R * R := Lights.light1 time (Some (shownMouse s)).
Definition hero_mesh (s : state) (time : R) : Morph.pose := Morph.frame time (Some (shownMouse s)) (scrollProgress s).
Definition particles (s : state) (time : R) (originals : list R) : list ParticleField.vec3 :=
  ParticleField.frame time (Some (shownMouse s)) originals 800.

End HeroMouse.

(** ** Properties *)

Section HeroMouseProps.
Local Open Scope R_scope.
Import HeroMouse.

Definition is_move (e : event) : bool := match e with MouseMove _ _ => true | _ => false end.

Definition inside (w h : R) (e : event) : Prop :=
  match e with MouseMove x y => 0 <= IZR x <= w /\ 0 <= IZR y <= h | ScrollUpdate p => 0 <= p <= 1 end.

Lemma renders_step w h e s : (renders s <= renders (step w h e s) <= S (renders s))%nat.
Proof. destruct e; cbn; [lia | unfold onScrollUpdate; destruct Req_dec_T; cbn; lia]. Qed.

(** Every mouse move renders Hero again: contrary to the comment of line
    87, the ref-based tracking does not spare renders, because the same
    handler sets the trail state.  After [n] moves (and any scroll
    updates) Hero has rendered at least [n] more times, and the mouse the
    3D elements see is the normalised last move. *)
Theorem hero_renders_per_move w h es s :
  (renders s + length (List.filter is_move es) <= renders (run w h es s))%nat
  /\ forall x y, last es = Some (MouseMove x y) -> shownMouse (run w h es s) = normalize w h x y.
Proof.
  split.
  - revert s. induction es as [| e es IH]; intros s; [cbn; lia |].
    change (run w h (e :: es) s) with (run w h es (step w h e s)).
    specialize (IH (step w h e s)). pose proof (renders_step w h e s).
    destruct e as [x y | p]; cbn [is_move List.filter length] in *; [| lia].
    assert (E : renders (step w h (MouseMove x y) s) = S (renders s)) by reflexivity. lia.
  - intros x y Hl. destruct es as [| e es] using rev_ind; [discriminate |].
    rewrite last_snoc in Hl. injection Hl as ->. unfold run. rewrite fold_left_app. reflexivity.
Qed.

Lemma normalize_unit w h x y :
  0 < w -> 0 < h -> 0 <= IZR x <= w -> 0 <= IZR y <= h ->
  -1 <= (normalize w h x y).1 <= 1 /\ -1 <= (normalize w h x y).2 <= 1.
Proof.
  intros Hw Hh Hx Hy. cbn. pose proof (div_unit_R _ _ Hw Hx). pose proof (div_unit_R _ _ Hh Hy). lra.
Qed.

Definition scene_ok (s : state) : Prop :=
  -1 <= (shownMouse s).1 <= 1 /\ -1 <= (shownMouse s).2 <= 1
  /\ -1 <= (normalizedMouseRef s).1 <= 1 /\ -1 <= (normalizedMouseRef s).2 <= 1
  /\ 0 <= scrollProgress s <= 1.

Lemma scene_ok_run w h es s :
  0 < w -> 0 < h -> Forall (inside w h) es -> scene_ok s -> scene_ok (run w h es s).
Proof.
  intros Hw Hh Hes Hs. unfold run. apply fold_left_invariant; [exact Hs |].
  intros s' e He Hs'. pose proof (proj1 (List.Forall_forall _ _) Hes e He) as Hi.
  unfold scene_ok in *. destruct e as [x y | p]; cbn in Hi |- *.
  - destruct (normalize_unit w h x y Hw Hh (proj1 Hi) (proj2 Hi)). cbn. tauto.
  - unfold onScrollUpdate. destruct Req_dec_T; cbn; tauto.
Qed.

Lemma abs_light_coord a m : Rabs a <= 5 -> -1 <= m <= 1 -> Rabs (a + m * 3) <= 8.
Proof.
  intros Ha Hm. pose proof (Rabs_triang a (m * 3)) as Ht.
  rewrite Rabs_mult, (Rabs_pos_eq 3) in Ht by lra. assert (Rabs m <= 1) by (apply Rabs_le; lra). lra.
Qed.

(** While the pointer stays in the window and the scroll progress in
    [[0, 1]], the first light stays within 8 of the axis in [x] and [y]
    and its intensity in [[0.5, 1.5]], and the hero mesh's scale stays in
    [[0.9, 1.65]]. *)
Theorem hero_scene_bounds w h es time :
  0 < w -> 0 < h -> Forall (inside w h) es -> 0 <= time ->
  let s := run w h es init in
  Rabs (light1 s time).1.1 <= 8 /\ Rabs (light1 s time).1.2 <= 8 /\ 0.5 <= (light1 s time).2 <= 1.5
  /\ 0.9 <= Morph.scale (hero_mesh s time) <= 1.65.
Proof.
  intros Hw Hh Hes Ht s.
  destruct (scene_ok_run w h es init Hw Hh Hes) as (Hx & Hy & _ & _ & Hp); [unfold scene_ok; cbn; lra |].
  fold s in Hx, Hy, Hp. unfold light1, hero_mesh.
  destruct (morph_bounds time (Some (shownMouse s)) (scrollProgress s) Hp Ht) as [Hm _].
  destruct (lights_bounds time (Some (shownMouse s))) as [Hi _].
  cbn in Hi |- *. pose proof (abs_sin_scale time 5 ltac:(lra)). pose proof (abs_cos_scale time 5 ltac:(lra)).
  split; [| split]; [| | split; [exact Hi | exact Hm]]; apply abs_light_coord; assumption.
Qed.

End HeroMouseProps.

(** ** Witnesses *)

Lemma hero_renders_per_move_witness :
  let es := [HeroMouse.MouseMove 10 20; HeroMouse.ScrollUpdate (1 / 2); HeroMouse.MouseMove 30 40] in
  HeroMouse.shownMouse (HeroMouse.run 1920 1080 es HeroMouse.init) = HeroMouse.normalize 1920 1080 30 40.
Proof. apply (proj2 (hero_renders_per_move 1920 1080 _ HeroMouse.init)). reflexivity. Defined.

Lemma hero_scene_bounds_witness :
  let s := HeroMouse.run 1920 1080 [HeroMouse.MouseMove 960 540; HeroMouse.ScrollUpdate (1 / 2)] HeroMouse.init in
  (Rabs (HeroMouse.light1 s 1).1.1 <= 8 /\ Rabs (HeroMouse.light1 s 1).1.2 <= 8
   /\ 0.5 <= (HeroMouse.light1 s 1).2 <= 1.5 /\ 0.9 <= Morph.scale (HeroMouse.hero_mesh s 1) <= 1.65)%R.
Proof.
  apply hero_scene_bounds; [lra | lra | | lra].
  repeat apply List.Forall_cons; [cbn; lra | cbn; lra | apply List.Forall_nil].
Defined.
