(* ===== verification/App.v ===== *)
(** * The page: src/src/App.jsx

    [App] imports the sections (lines 2-11), renders the loading screen
    while [isLoading] (line 36, modelled in [Loader]), then the navigation
    bar, the six sections in a [Suspense], the footer and the scroll
    button (lines 33-72).  The sections are stacked one under the other;
    each is a [section] element whose [id] is the one its component
    writes (Hero.jsx line 173, About.jsx line 13, sections/Projects.jsx
    line 20, Skills.jsx line 13, Experience.jsx line 13, Contact.jsx line
    112).  The navigation bar ([Navbar]) reads that page through
    [document.getElementById] and [offsetTop]/[offsetHeight].

    [App]'s mount effect (lines 19-27) warns when [hasWebGLSupport] is
    false ([Helpers.Dom]); the scroll button [ScrollToTop] (lines 78-140)
    shows a progress ring and scrolls smoothly to the top, delivering
    scroll events down to offset 0.

    Paths are strings of code units.  Module resolution (the bundler's
    rule for a relative import without extension) and the files of the
    repository are inputs of the model: they are not code of src/. *)

From Stdlib Require Import QArith Lqa.
From S2P Require Import Prelude.
From S2P Require Import Config.
From S2P Require Import Helpers.
From S2P Require Import Navbar.
From S2P Require Import Loader.
From S2P Require Import Sections.

Module AppModule.

(** The relative imports of App.jsx, lines 2-11, in order. *)
Definition imports : list jstr :=
  map u16 ["./components/Navbar"; "./components/Hero"; "./components/About"; "./components/Projects";
           "./components/Skills"; "./components/Experience"; "./components/Contact";
           "./components/Footer"; "./components/Loader"; "./utils/helpers"].

(** The files under src/src of the repository. *)
Definition repo_files : list jstr :=
  map u16 ["src/src/App.jsx"; "src/src/components/About.jsx"; "src/src/components/Canvas/Effects.jsx";
           "src/src/components/Canvas/InteractiveElements.jsx"; "src/src/components/Canvas/Models.jsx";
           "src/src/components/Canvas/Scene.jsx"; "src/src/components/Contact.jsx";
           "src/src/components/Experience.jsx"; "src/src/components/Experience_old2.jsx";
           "src/src/components/Footer.jsx"; "src/src/components/Hero.jsx"; "src/src/components/Loader.jsx";
           "src/src/components/Navbar.jsx"; "src/src/components/Projects_old.jsx";
           "src/src/components/Skills.jsx"; "src/src/components/cards/ExperienceCard.jsx";
           "src/src/components/cards/MilestoneCard.jsx"; "src/src/components/cards/ProjectCard.jsx";
           "src/src/components/cards/SkillCategory.jsx"; "src/src/components/layout/SectionBackground.jsx";
           "src/src/components/sections/Experience.jsx"; "src/src/components/sections/Journey.jsx";
           "src/src/components/sections/Projects.jsx"; "src/src/components/sections/Skills.jsx";
           "src/src/hooks/use3DAnimation.js"; "src/src/hooks/useMouseTracking.js";
           "src/src/hooks/usePortfolioData.js"; "src/src/hooks/useScrollAnimation.js";
           "src/src/hooks/useWindowSize.js"; "src/src/utils/constants.js"; "src/src/utils/helpers.js";
           "src/src/utils/iconMap.jsx"].

(** The bundler's resolution of an import [./p] of a module of [src/src]:
    the path itself, then with the extensions [.js], [.jsx], [.json],
    then the index files of a directory of that name. *)
Definition candidates (p : jstr) : list jstr :=
  let base := u16 "src/src" ++ drop 1 p in
  [base; base ++ u16 ".js"; base ++ u16 ".jsx"; base ++ u16 ".json";
   base ++ u16 "/index.js"; base ++ u16 "/index.jsx"].

Definition resolve (files : list jstr) (p : jstr) : option jstr :=
  List.find (fun f => bool_decide (f ∈ files)) (candidates p).

(** Loading App.jsx: the files of its imports, or the first import that
    resolves to no file, which stops the build. *)
Fixpoint load (files : list jstr) (ps : list jstr) : jstr + list jstr :=
  match ps with
  | [] => inr []
  | p :: r =>
      match resolve files p with
      | None => inl p
      | Some f => match load files r with inl e => inl e | inr fs => inr (f :: fs) end
      end
  end.

End AppModule.

(** [App]'s mount effect, App.jsx lines 19-27: the console warning when
    [hasWebGLSupport()] is false, and the value it gives
    [document.documentElement.style.scrollBehavior]. *)
Definition mount_effect (e : Dom.webgl_env) : list jstr * jstr :=
  (if Dom.hasWebGLSupport e then [] else [u16 "WebGL is not supported in this browser"], u16 "smooth").

Module Page.

(** The six sections of [App] (lines 46-61), by the [id] their
    components give their root element. *)
Definition app_sections : list jstr :=
  map u16 ["home"; "about"; "projects"; "skills"; "experience"; "contact"].

(** The sections stacked from [top], each with its height: their
    [offsetTop] and [offsetHeight]. *)
Fixpoint stack (top : Z) (secs : list (jstr * Z)) : list (jstr * (Z * Z)) :=
  match secs with
  | [] => []
  | (id, h) :: r => (id, (top, h)) :: stack (top + h) r
  end.

(** [document.getElementById(id)] on that page: the first element with
    the id. *)
Definition layout (ents : list (jstr * (Z * Z))) (id : jstr) : option (Z * Z) :=
  option_map snd (List.find (fun e => bool_decide (e.1 = id)) ents).

(** The section the position [pos] is in, if any: what the reader sees
    at the top of the window. *)
Definition contains (pos : Z) (e : jstr * (Z * Z)) : bool := (e.2.1 <=? pos) && (pos <? e.2.1 + e.2.2).

Definition in_view (ents : list (jstr * (Z * Z))) (pos : Z) : option jstr :=
  option_map fst (List.find (contains pos) ents).

(** The [id] of the section element each of those components renders:
    Hero's own [<section id="home">] (Hero.jsx line 173), then the
    [SectionBackground] of each section (the projects section being
    sections/Projects.jsx, the one the repository has). *)
Definition rendered_ids (rnd : nat -> Q) : list jstr :=
  u16 "home" :: map (fun p => Background.v_id (Background.render p rnd))
    [Background.about_bg; Background.projects_bg; Background.skills_bg; Background.experience_bg; Background.contact_bg].

End Page.

Module HeroButtons.

(** [handleViewWork] and [handleGetInTouch], Hero.jsx lines 84-85. *)
Definition handleViewWork (lay : jstr -> option (Z * Z)) : option jstr := Navbar.scrollToSection lay (u16 "projects").
Definition handleGetInTouch (lay : jstr -> option (Z * Z)) : option jstr := Navbar.scrollToSection lay (u16 "contact").

End HeroButtons.

Module ScrollRing.
Local Open Scope Q_scope.

(** The progress ring of the scroll button, App.jsx lines 125-126: the
    dash offset [C * (1 - scrollProgress / 100)], where [C] is the double
    [2 * Math.PI * 26]. *)
Definition dashOffset (C : Q) (scrollProgress : jsnum) : jsnum :=
  JsMath.mul (NFin C) (JsMath.sub (NFin 1) (JsMath.div scrollProgress (NFin 100))).

(** The button's class, App.jsx lines 103-105: hidden and not clickable
    while [isVisible] is false. *)
Definition button_class (s : ScrollToTop.state) : jstr :=
  u16 "fixed bottom-8 right-8 z-50 w-14 h-14 bg-gradient-to-br from-primary-600 to-primary-700 text-white rounded-full shadow-xl hover:shadow-2xl hover:shadow-primary-600/50 hover:scale-110 transition-all duration-300 flex items-center justify-center group "
  ++ (if ScrollToTop.isVisible s then u16 "opacity-100 translate-y-0" else u16 "opacity-0 translate-y-16 pointer-events-none").

(** The scroll events the window delivers to [toggleVisibility] (added
    at mount and removed at unmount, lines 92-93), at the offsets [ys];
    [scrollToTop] (lines 96-98) asks for a smooth scroll to 0, whose
    events end at offset 0. *)
Definition scroll_events (ys : list Q) (scrollHeight innerHeight : Q) (s : ScrollToTop.state) : ScrollToTop.state :=
  fold_left (fun _ y => ScrollToTop.toggleVisibility y scrollHeight innerHeight) ys s.

(** A [<circle>] of the ring, lines 110-128. *)
Record circle := { c_cx : Z; c_cy : Z; c_r : Z; c_stroke : jstr; c_strokeWidth : Z }.

(** What [ScrollToTop] renders, lines 100-139: the button with its class
    and label, the track and the progress circle with its dash array
    (the circumference [C]) and dash offset; a click asks for
    [scrollToTop]. *)
Record view := {
  v_class : jstr; v_label : jstr; v_track : circle; v_ring : circle; v_dasharray : jsnum; v_dashoffset : jsnum }.

Definition render (C : Q) (s : ScrollToTop.state) : view :=
  {| v_class := button_class s; v_label := u16 "Scroll to top";
     v_track := {| c_cx := 28; c_cy := 28; c_r := 26; c_stroke := u16 "rgba(255,255,255,0.1)"; c_strokeWidth := 2 |};
     v_ring := {| c_cx := 28; c_cy := 28; c_r := 26; c_stroke := u16 "white"; c_strokeWidth := 2 |};
     v_dasharray := NFin C; v_dashoffset := dashOffset C (ScrollToTop.scrollProgress s) |}.

End ScrollRing.

(** ** App cannot be built *)

(** The fourth import, [./components/Projects], names no file: the
    projects section lives in sections/Projects.jsx (and an unused
    Projects_old.jsx), so the bundler stops and no page is served; every
    other import resolves. *)
Example app_projects_unresolved :
  AppModule.load AppModule.repo_files AppModule.imports = inl (u16 "./components/Projects")
  /\ AppModule.resolve AppModule.repo_files (u16 "./components/Projects") = None
  /\ AppModule.resolve AppModule.repo_files (u16 "./components/Navbar") = Some (u16 "src/src/components/Navbar.jsx").
Proof. split; [| split]; vm_compute; reflexivity. Qed.

(** ** The stacked page *)

Section StackedPage.
Import Page.

Lemma stack_fst top secs : map fst (stack top secs) = map fst secs.
Proof. revert top. induction secs as [| [id h] r IH]; intros top; cbn; [done | by rewrite IH]. Qed.

Lemma stack_tops_ge top secs :
  Forall (fun e => 0 <= e.2) secs -> Forall (fun e => top <= e.2.1) (stack top secs).
Proof.
  revert top. induction secs as [| [id h] r IH]; intros top Hs; cbn; [constructor |].
  inversion Hs as [| ? ? Hh Hr]; subst. cbn in Hh. constructor; [cbn; lia |].
  eapply List.Forall_impl; [| exact (IH (top + h) Hr)]. intros e He. cbn in He |- *. lia.
Qed.

(** The stacked sections do not overlap: one position is in one entry at
    most. *)
Lemma stack_disjoint top secs pos e1 e2 :
  Forall (fun e => 0 <= e.2) secs -> In e1 (stack top secs) -> In e2 (stack top secs) ->
  contains pos e1 = true -> contains pos e2 = true -> e1 = e2.
Proof.
  revert top. induction secs as [| [id h] r IH]; intros top Hs H1 H2 C1 C2; [destruct H1 |].
  inversion Hs as [| ? ? Hh Hr]; subst. cbn in Hh.
  pose proof (stack_tops_ge (top + h) r Hr) as Ht. rewrite List.Forall_forall in Ht.
  unfold contains in C1, C2. apply andb_true_iff in C1 as [C1 C1'], C2 as [C2 C2'].
  apply Z.leb_le in C1, C2. apply Z.ltb_lt in C1', C2'.
  destruct H1 as [<- | H1], H2 as [<- | H2]; [done | ..].
  - specialize (Ht e2 H2). cbn in *. lia.
  - specialize (Ht e1 H1). cbn in *. lia.
  - apply (IH (top + h)); [exact Hr | exact H1 | exact H2 | ..]; unfold contains;
      apply andb_true_iff; split; try apply Z.leb_le; try apply Z.ltb_lt; lia.
Qed.

Lemma layout_in ents id iv : layout ents id = Some iv -> In (id, iv) ents.
Proof.
  unfold layout. destruct (List.find _ ents) as [e |] eqn:E; [| discriminate].
  intros [= <-]. apply find_some in E as [He Hid]. apply bool_decide_eq_true in Hid.
  destruct e as [i v]. cbn in *. by subst.
Qed.

Lemma layout_of_in ents id iv : List.NoDup (map fst ents) -> In (id, iv) ents -> layout ents id = Some iv.
Proof.
  unfold layout. induction ents as [| [i v] r IH]; intros Hnd Hin; [destruct Hin |].
  inversion Hnd as [| ? ? Hni Hr]; subst. cbn.
  destruct Hin as [[= -> ->] | Hin].
  - by rewrite bool_decide_eq_true_2.
  - rewrite bool_decide_eq_false_2; [exact (IH Hr Hin) |].
    intros ->. apply Hni. exact (in_map fst _ (id, iv) Hin).
Qed.

Context (top : Z) (secs : list (jstr * Z)).
Hypothesis heights_nonneg : Forall (fun e => 0 <= e.2) secs.
Hypothesis ids_distinct : List.NoDup (map fst secs).

Local Abbreviation ents := (stack top secs).

(** A link is lit by the scroll handler's test exactly when its section
    is the one in view. *)
Lemma section_at_in_view pos l :
  Navbar.section_at (layout ents) pos l = bool_decide (in_view ents pos = Some (Navbar.nl_id l)).
Proof.
  assert (Hnd : List.NoDup (map fst ents)) by (rewrite stack_fst; exact ids_distinct).
  unfold Navbar.section_at, in_view.
  destruct (layout ents (Navbar.nl_id l)) as [[t h] |] eqn:El.
  - apply layout_in in El.
    destruct (List.find (contains pos) ents) as [e |] eqn:Ef; cbn.
    + apply find_some in Ef as [He Hc].
      destruct ((t <=? pos) && (pos <? t + h)) eqn:Hin.
      * assert (e = (Navbar.nl_id l, (t, h))) as -> by (eapply stack_disjoint; eauto).
        symmetry. by apply bool_decide_eq_true.
      * symmetry. apply bool_decide_eq_false. intros [= Hid].
        destruct e as [i v]. cbn in Hid. subst i.
        assert (v = (t, h)) as ->; [| unfold contains in Hc; cbn in Hc; congruence].
        pose proof (layout_of_in _ _ _ Hnd He) as E1. pose proof (layout_of_in _ _ _ Hnd El) as E2. congruence.
    + pose proof (find_none _ _ Ef _ El) as Hc. unfold contains in Hc. cbn in Hc.
      rewrite Hc. symmetry. by apply bool_decide_eq_false.
  - symmetry. apply bool_decide_eq_false.
    destruct (List.find (contains pos) ents) as [e |] eqn:Ef; cbn; [| discriminate].
    intros [= Hid]. apply find_some in Ef as [He _]. destruct e as [i v]. cbn in Hid. subst i.
    rewrite (layout_of_in _ _ _ Hnd He) in El. discriminate.
Qed.

Lemma last_filter_nav id :
  In id (map Navbar.nl_id Navbar.navLinks) ->
  option_map Navbar.nl_id (last (List.filter (fun l => bool_decide (Some id = Some (Navbar.nl_id l))) Navbar.navLinks))
  = Some id.
Proof.
  intros H. unfold Navbar.navLinks in H. cbn [map Navbar.nl_id] in H.
  repeat destruct H as [<- | H]; [vm_compute; reflexivity .. | destruct H].
Qed.

Hypothesis ids_in_nav : forall id, In id (map fst secs) -> In id (map Navbar.nl_id Navbar.navLinks).

(** C32: The navigation bar lights the link of the section the reader is
    looking at: after a scroll to [y], the active section is the section
    of the stacked page that contains [y + 100] (the offset of
    handleScroll), and it is left unchanged between sections. *)
Theorem navbar_tracks_view y s :
  Navbar.activeSection (Navbar.handleScroll (layout ents) y s)
  = match in_view ents (y + 100) with Some id => id | None => Navbar.activeSection s end.
Proof.
  rewrite handleScroll_active.
  rewrite (List.filter_ext _ (fun l => bool_decide (in_view ents (y + 100) = Some (Navbar.nl_id l))))
    by (intros; apply section_at_in_view).
  destruct (in_view ents (y + 100)) as [id |] eqn:Ev.
  - assert (Hid : In id (map fst secs)).
    { unfold in_view in Ev. destruct (List.find _ _) as [e |] eqn:Ef; [| discriminate].
      injection Ev as <-. apply find_some in Ef as [He _]. rewrite <- (stack_fst top). by apply in_map. }
    pose proof (last_filter_nav id (ids_in_nav id Hid)) as Hl.
    destruct (last _); [by injection Hl | discriminate].
  - by rewrite (List.filter_ext _ (fun _ => false)), filter_false by (intros; by apply bool_decide_eq_false).
Qed.

End StackedPage.

(** ** The hero's buttons on App's page *)

Section HeroButtonsProps.
Import Page.

Lemma app_sections_distinct : List.NoDup app_sections.
Proof. repeat constructor; vm_compute; intuition discriminate. Qed.

Lemma app_sections_in_nav id : In id app_sections -> In id (map Navbar.nl_id Navbar.navLinks).
Proof. intros H. unfold app_sections in H. cbn [map] in H. vm_compute. tauto. Qed.

(** The page of App for the six heights [hs]. *)
Definition app_page (top : Z) (hs : list Z) : list (jstr * (Z * Z)) := stack top (combine app_sections hs).

(** "View My Work" scrolls the projects section to the top of the window;
    when that section is taller than the navigation bar's offset of 100
    px, the bar then lights the Projects link, whatever it lit before. *)
Theorem view_work_lights_projects top h1 h2 h3 h4 h5 h6 s :
  Forall (fun h => 0 <= h) [h1; h2; h4; h5; h6] -> 100 < h3 ->
  let p := app_page top [h1; h2; h3; h4; h5; h6] in
  HeroButtons.handleViewWork (layout p) = Some (u16 "projects")
  /\ layout p (u16 "projects") = Some (top + h1 + h2, h3)
  /\ Navbar.activeSection (Navbar.handleScroll (layout p) (top + h1 + h2) s) = u16 "projects".
Proof.
  intros Hh H3 p.
  assert (0 <= h1 /\ 0 <= h2 /\ 0 <= h4 /\ 0 <= h5 /\ 0 <= h6) as (G1 & G2 & G4 & G5 & G6)
    by (rewrite List.Forall_forall in Hh; repeat split; apply Hh; cbn; tauto).
  assert (Lp : layout p (u16 "projects") = Some (top + h1 + h2, h3)) by (vm_compute; reflexivity).
  split; [unfold HeroButtons.handleViewWork, Navbar.scrollToSection; by rewrite Lp |]. split; [exact Lp |].
  rewrite (navbar_tracks_view top (combine app_sections [h1; h2; h3; h4; h5; h6])).
  - unfold in_view, contains. cbn [stack combine app_sections map u16 List.find fst snd].
    rewrite (proj2 (Z.ltb_ge _ _)) by lia. rewrite andb_false_r.
    rewrite (proj2 (Z.ltb_ge _ _)) by lia. rewrite andb_false_r.
    rewrite (proj2 (Z.leb_le _ _)), (proj2 (Z.ltb_lt _ _)) by lia. reflexivity.
  - repeat constructor; cbn; lia.
  - exact app_sections_distinct.
  - intros id Hid. apply app_sections_in_nav. cbn in Hid |- *. exact Hid.
Qed.

End HeroButtonsProps.

(** ** The scroll button's ring *)

Section RingProps.
Local Open Scope Q_scope.

Lemma Qeq_bool_pos q : 0 < q -> Qeq_bool q 0 = false.
Proof. intros Hq. apply not_true_iff_false. intros E%Qeq_bool_iff. rewrite E in Hq. discriminate. Qed.

(** On a page that scrolls, the ring's dash offset runs from the whole
    circumference [C] at the top to 0 at the bottom; on a page that does
    not scroll ([scrollHeight = innerHeight]) the progress is [0 / 0] and
    the offset is NaN. *)
Theorem ring_offset_range C scrolled scrollHeight innerHeight :
  0 < C -> 0 <= scrolled <= scrollHeight - innerHeight -> 0 < scrollHeight - innerHeight ->
  (exists o, ScrollRing.dashOffset C (ScrollToTop.scrollProgress (ScrollToTop.toggleVisibility scrolled scrollHeight innerHeight))
             = NFin o /\ 0 <= o <= C)
  /\ ScrollRing.dashOffset C (ScrollToTop.scrollProgress (ScrollToTop.toggleVisibility 0 innerHeight innerHeight)) = NNaN.
Proof.
  intros HC [H0 H1] Hw. split.
  - unfold ScrollRing.dashOffset, ScrollToTop.toggleVisibility, JsMath.sub, JsMath.add, JsMath.neg, JsMath.div, JsMath.mul.
    cbn [ScrollToTop.scrollProgress]. rewrite Qeq_bool_pos by lra. cbn [Qeq_bool].
    rewrite (Qeq_bool_pos 100) by lra.
    set (w := scrollHeight + - innerHeight) in *.
    assert (Ew : w == scrollHeight - innerHeight) by (unfold w; ring).
    assert (Hq : 0 <= scrolled / w <= 1).
    { split; [apply Qle_shift_div_l; lra | apply Qle_shift_div_r; lra]. }
    eexists. split; [reflexivity |].
    assert (E : scrolled / w * 100 / 100 == scrolled / w) by (field; lra).
    rewrite E. split; nra.
  - unfold ScrollRing.dashOffset, ScrollToTop.toggleVisibility, JsMath.sub, JsMath.add, JsMath.neg, JsMath.div.
    cbn. replace (Qeq_bool (innerHeight + - innerHeight) 0) with true; [reflexivity |].
    symmetry. apply Qeq_bool_iff. ring.
Qed.

Lemma button_class_visible s1 s2 :
  ScrollToTop.isVisible s1 = ScrollToTop.isVisible s2 -> ScrollRing.button_class s1 = ScrollRing.button_class s2.
Proof. unfold ScrollRing.button_class. by intros ->. Qed.

(** Once the smooth scroll of [scrollToTop] has delivered its last event,
    at offset 0, the button is hidden and not clickable, and the ring's
    dash offset is the whole circumference, whatever came before. *)
Theorem scroll_top_resets C ys sh ih s :
  0 < sh - ih ->
  let s' := ScrollRing.scroll_events (ys ++ [0]) sh ih s in
  ScrollToTop.isVisible s' = false
  /\ ScrollRing.button_class s' = ScrollRing.button_class {| ScrollToTop.isVisible := false; ScrollToTop.scrollProgress := NFin 0 |}
  /\ exists o, ScrollRing.dashOffset C (ScrollToTop.scrollProgress s') = NFin o /\ o == C.
Proof.
  intros Hw s'. unfold s', ScrollRing.scroll_events. rewrite fold_left_app. cbn [fold_left].
  unfold ScrollToTop.toggleVisibility; cbn [ScrollToTop.isVisible ScrollToTop.scrollProgress].
  split; [reflexivity |]. split; [apply button_class_visible; reflexivity |].
  unfold ScrollRing.dashOffset, JsMath.sub, JsMath.add, JsMath.neg, JsMath.div, JsMath.mul.
  rewrite (Qeq_bool_pos (sh + - ih)) by lra. rewrite (Qeq_bool_pos 100) by lra.
  eexists. split; [reflexivity |]. field. lra.
Qed.

End RingProps.

(** App warns about WebGL exactly when [hasWebGLSupport] fails, and also
    when [getContext('webgl')] throws on a browser whose
    ['experimental-webgl'] context would have worked. *)
Lemma mount_effect_warns e :
  ((mount_effect e).1 = [] <-> Dom.hasWebGLSupport e = true)
  /\ (Dom.getContext e (u16 "webgl") = Dom.CtxThrows ->
      (mount_effect e).1 = [u16 "WebGL is not supported in this browser"]).
Proof.
  unfold mount_effect. cbn [fst]. split.
  - destruct (Dom.hasWebGLSupport e); split; done.
  - intros H. unfold Dom.hasWebGLSupport. rewrite H.
    by destruct (Dom.createElement_throws e), (Dom.has_WebGLRenderingContext e).
Qed.

(** The sections' elements carry, in render order, exactly the ids of
    [app_sections], the page the navigation bar and the buttons scroll
    on; three of them (projects, skills, contact) mount a Stars canvas
    of their own besides the hero's. *)
Lemma rendered_ids_sections rnd :
  Page.rendered_ids rnd = Page.app_sections
  /\ map Background.id (List.filter Background.showStars
       [Background.about_bg; Background.projects_bg; Background.skills_bg; Background.experience_bg; Background.contact_bg])
     = [u16 "projects"; u16 "skills"; u16 "contact"].
Proof. split; reflexivity. Qed.

(** ** Witnesses *)

Lemma navbar_tracks_view_witness :
  Navbar.activeSection
    (Navbar.handleScroll (Page.layout (Page.stack 0 (combine Page.app_sections [800; 700; 900; 600; 600; 900]))) 1000
       Navbar.init) = u16 "about".
Proof.
  rewrite (navbar_tracks_view 0 (combine Page.app_sections [800; 700; 900; 600; 600; 900])).
  - vm_compute. reflexivity.
  - repeat constructor; cbn; lia.
  - exact app_sections_distinct.
  - intros id Hid. apply app_sections_in_nav. exact Hid.
Defined.

Lemma view_work_lights_projects_witness :
  let p := app_page 0 [800; 700; 900; 600; 600; 900] in
  HeroButtons.handleViewWork (Page.layout p) = Some (u16 "projects")
  /\ Page.layout p (u16 "projects") = Some (0 + 800 + 700, 900)
  /\ Navbar.activeSection (Navbar.handleScroll (Page.layout p) (0 + 800 + 700) Navbar.init) = u16 "projects".
Proof. apply view_work_lights_projects; [repeat constructor; cbn; lia | lia]. Defined.

Lemma ring_offset_range_witness :
  (exists o, ScrollRing.dashOffset (163 # 1) (ScrollToTop.scrollProgress (ScrollToTop.toggleVisibility 300 2000 800))
             = NFin o /\ (0 <= o <= 163 # 1)%Q)
  /\ ScrollRing.dashOffset (163 # 1) (ScrollToTop.scrollProgress (ScrollToTop.toggleVisibility 0 800 800)) = NNaN.
Proof. apply ring_offset_range; unfold Qlt, Qle; cbn; lia. Defined.

Lemma scroll_top_resets_witness :
  (0 < 2000 - 800)%Q /\
  ScrollToTop.isVisible (ScrollRing.scroll_events [1200; 600; 0]%Q 2000 800
                           {| ScrollToTop.isVisible := true; ScrollToTop.scrollProgress := NFin 100 |}) = false.
Proof.
  split; [unfold Qlt; cbn; lia |].
  destruct (scroll_top_resets 163 [1200; 600]%Q 2000 800
              {| ScrollToTop.isVisible := true; ScrollToTop.scrollProgress := NFin 100 |}
              ltac:(unfold Qlt; cbn; lia)) as [H _].
  exact H.
Defined.
