(* ===== verification/Views.v ===== *)
(** * The content sections: About, Skills, Experience, Contact details, Footer

    These components render the portfolio data ([usePortfolioData]) and
    call [getIcon] ([Icons]) for every icon name they show:
    About.jsx (the highlights, lines 36-47), Skills.jsx and
    sections/Skills.jsx with cards/SkillCategory.jsx (a bar per skill),
    Experience.jsx and sections/Experience.jsx with
    cards/ExperienceCard.jsx, the contact details and social links of
    Contact.jsx (lines 140-174), the footer (Footer.jsx lines 8-116:
    brand, quick links, social links and the bottom bar) and the
    journey's milestone cards (sections/Journey.jsx with
    cards/MilestoneCard.jsx).

    A view is a record of what a component shows: texts, React keys,
    links with their [target] and [rel], and the icon element [getIcon]
    returns; [logs] collects the console warnings of the render, in the
    order React calls the components (depth first, in document order).
    The footer's year is [new Date().getFullYear()] at the render, a
    parameter of its view. *)

From S2P Require Import Prelude.
From S2P Require Import JsValue.
From S2P Require Import Icons.
From S2P Require Import Sections.
Import Icons.

Module Data.

Record highlight := { h_icon : jstr; h_title : jstr; h_description : jstr }.
Record about := { a_title : jstr; a_subtitle : jstr; a_description : jstr; a_highlights : list highlight }.

Record skill := { s_name : jstr; s_proficiency : Z }.
Record category := { c_name : jstr; c_icon : jstr; c_skills : list skill }.
Record skills := { sk_title : jstr; sk_subtitle : jstr; sk_description : jstr; sk_categories : list category }.

Record experience := {
  e_id : jstr; e_icon : jstr; e_position : jstr; e_company : jstr; e_duration : jstr;
  e_description : jstr; e_achievements : list jstr; e_technologies : list jstr }.
Record experiences := { ex_title : jstr; ex_subtitle : jstr; ex_items : list experience }.

Record social := { so_name : jstr; so_url : jstr; so_icon : jstr }.
(** A contact detail; its [link] may be absent or empty. *)
Record info := { i_icon : jstr; i_label : jstr; i_value : jstr; i_link : option jstr }.
Record contact := {
  ct_title : jstr; ct_subtitle : jstr; ct_heading : jstr; ct_description : jstr;
  ct_contactInfo : list info; ct_socialLinks : list social }.

Record personal := { p_name : jstr; p_bio : jstr }.

End Data.

Module Views.
Import Data.

(** [getIcon(name, { size })]: the element, a component with its size,
    or [null]; and the warnings. *)
Definition icon (name : jstr) (size : Z) : option (component * Z) := option_map (fun c => (c, size)) (getIcon name).1.
Definition warn (name : jstr) : list jstr := (getIcon name).2.

(** A card of a list: its React key, its icon and its texts. *)
Record card := { k_key : jstr + nat; k_icon : option (component * Z); k_texts : list jstr }.

(** About.jsx, lines 12-51: the header and a card per highlight, keyed
    by its index. *)
Definition about_cards (a : about) : list card :=
  imap (fun i h => {| k_key := inr i; k_icon := icon (h_icon h) 32; k_texts := [h_title h; h_description h] |})
       (a_highlights a).

Definition about_view (a : about) : jstr * jstr * jstr * list card :=
  (a_title a, a_subtitle a, a_description a, about_cards a).

Definition about_logs (a : about) : list jstr := flat_map (fun h => warn (h_icon h)) (a_highlights a).

(** A skill bar of SkillCategory.jsx (lines 19-35): the name, the
    percentage text and the bar's CSS width, both [proficiency] followed
    by [%], keyed by the name. *)
Record bar := { b_key : jstr; b_label : jstr; b_width : Z }.

Definition skill_bar (s : skill) : bar := {| b_key := s_name s; b_label := s_name s; b_width := s_proficiency s |}.

(** SkillCategory.jsx, lines 6-39: the icon at 24 px, the name and a
    bar per skill. *)
Definition category_card (c : category) : option (component * Z) * jstr * list bar :=
  (icon (c_icon c) 24, c_name c, map skill_bar (c_skills c)).

(** The two Skills sections: Skills.jsx (lines 12-35) keys the categories
    by index and shows [description]; sections/Skills.jsx (lines 12-33)
    keys them by name and shows [subtitle]. *)
Definition skills_view (d : skills) : jstr * jstr * list ((jstr + nat) * (option (component * Z) * jstr * list bar)) :=
  (sk_title d, sk_description d, imap (fun i c => (inr i, category_card c)) (sk_categories d)).
Definition skills_section_view (d : skills) : jstr * jstr * list ((jstr + nat) * (option (component * Z) * jstr * list bar)) :=
  (sk_title d, sk_subtitle d, map (fun c => (inl (c_name c), category_card c)) (sk_categories d)).

Definition skills_logs (d : skills) : list jstr := flat_map (fun c => warn (c_icon c)) (sk_categories d).

(** ExperienceCard.jsx, lines 6-58: the icon, position, company and
    duration, the description, the achievements keyed by index and the
    technologies keyed by name. *)
Record exp_card := {
  x_icon : option (component * Z); x_texts : list jstr;
  x_achievements : list (nat * jstr); x_technologies : list (jstr * jstr) }.

Definition experience_card (e : experience) : exp_card :=
  {| x_icon := icon (e_icon e) 24;
     x_texts := [e_position e; e_company e; e_duration e; e_description e];
     x_achievements := imap pair (e_achievements e);
     x_technologies := map (fun t => (t, t)) (e_technologies e) |}.

(** Experience.jsx (lines 34-36) and sections/Experience.jsx (lines
    32-34): the cards keyed by [exp.id], in the data's order. *)
Definition experience_cards (d : experiences) : list (jstr * exp_card) :=
  map (fun e => (e_id e, experience_card e)) (ex_items d).

(** Both Experience sections, lines 12-41 and 12-39: the title, the
    subtitle and the timeline of cards. *)
Definition experience_view (d : experiences) : jstr * jstr * list (jstr * exp_card) :=
  (ex_title d, ex_subtitle d, experience_cards d).

Definition experience_logs (d : experiences) : list jstr := flat_map (fun e => warn (e_icon e)) (ex_items d).

(** A link: key, [href], [target], [rel], [title] and its icon. *)
Record anchor := {
  an_key : nat; an_href : jstr; an_target : option jstr; an_rel : option jstr;
  an_title : option jstr; an_icon : option (component * Z) }.

(** The social links of Contact.jsx (lines 163-174) and of Footer.jsx
    (lines 63-82): the same attributes, the icon at a different size. *)
Definition contact_social (i : nat) (s : social) : anchor :=
  {| an_key := i; an_href := so_url s; an_target := Some (u16 "_blank");
     an_rel := Some (u16 "noopener noreferrer"); an_title := Some (so_name s); an_icon := icon (so_icon s) 24 |}.

Definition footer_social (i : nat) (s : social) : anchor :=
  {| an_key := i; an_href := so_url s; an_target := Some (u16 "_blank");
     an_rel := Some (u16 "noopener noreferrer"); an_title := Some (so_name s); an_icon := icon (so_icon s) 20 |}.

Definition contact_socials (c : contact) : list anchor := imap contact_social (ct_socialLinks c).
Definition footer_socials (c : contact) : list anchor := imap footer_social (ct_socialLinks c).

(** A contact detail, Contact.jsx lines 140-156: the value is a link to
    [info.link] when it is truthy (a non-empty string), plain text
    otherwise. *)
Inductive detail_value := DLink (href text : jstr) | DText (text : jstr).

Definition detail (i : info) : option (component * Z) * jstr * detail_value :=
  (icon (i_icon i) 24, i_label i,
   match i_link i with Some (c :: l) => DLink (c :: l) (i_value i) | _ => DText (i_value i) end).

Definition contact_details (c : contact) : list (nat * (option (component * Z) * jstr * detail_value)) :=
  imap (fun k i => (k, detail i)) (ct_contactInfo c).

Definition contact_logs (c : contact) : list jstr :=
  flat_map (fun i => warn (i_icon i)) (ct_contactInfo c) ++ flat_map (fun s => warn (so_icon s)) (ct_socialLinks c).

Definition footer_logs (c : contact) : list jstr := flat_map (fun s => warn (so_icon s)) (ct_socialLinks c).

(** Footer.jsx lines 23-32: the brand block. *)
Definition footer_brand (p : personal) : jstr * jstr := (p_name p, p_bio p).

(** The warnings of one render of the page's content sections, in App's
    order: About, Skills, Experience, Contact, then the footer. *)
Definition page_logs (a : about) (s : skills) (e : experiences) (c : contact) : list jstr :=
  about_logs a ++ skills_logs s ++ experience_logs e ++ contact_logs c ++ footer_logs c.

(** The icon names the page passes to [getIcon], in the same order. *)
Definition page_icon_names (a : about) (s : skills) (e : experiences) (c : contact) : list jstr :=
  map h_icon (a_highlights a) ++ map c_icon (sk_categories s) ++ map e_icon (ex_items e)
  ++ map i_icon (ct_contactInfo c) ++ map so_icon (ct_socialLinks c) ++ map so_icon (ct_socialLinks c).

(** The footer, Footer.jsx lines 8-116: the brand, the quick links
    (keyed and labelled by their name, [Footer.quickLinks]), the social
    links and the bottom bar. *)
Record footer := {
  f_brand : jstr * jstr; f_links : list (jstr * jstr); f_socials : list anchor;
  f_note : jstr; f_copyright : jstr; f_built_with : list jstr }.

(** [© {currentYear} {personalData.name}. All rights reserved.], line 98. *)
Definition copyright (year : Z) (p : personal) : jstr :=
  u16 "© " ++ number_to_string year ++ u16 " " ++ p_name p ++ u16 ". All rights reserved.".

(** [currentYear] is [new Date().getFullYear()] (line 12), the year of
    the render. *)
Definition footer_view (year : Z) (p : personal) (c : contact) : footer :=
  {| f_brand := footer_brand p;
     f_links := map (fun l => (l, l)) Footer.quickLinks;
     f_socials := footer_socials c;
     f_note := u16 "Made with passion & code";
     f_copyright := copyright year p;
     f_built_with := map u16 ["Built with"; "React"; "•"; "Three.js"; "•"; "Tailwind CSS"] |}.

(** A card of the timeline, cards/MilestoneCard.jsx lines 6-32: its side
    ([isEven]), the icon at 24 px, the year, the title and the
    description. *)
Record milestone_card := {
  mc_even : bool; mc_icon : option (component * Z); mc_year : jstr; mc_title : jstr; mc_description : jstr }.

Definition milestone_view (m : Timeline.milestone) (index : nat) : milestone_card :=
  {| mc_even := Timeline.isEven index; mc_icon := icon (Timeline.m_icon m) 24; mc_year := Timeline.m_year m;
     mc_title := Timeline.m_title m; mc_description := Timeline.m_description m |}.

(** sections/Journey.jsx lines 8-40: the background with [id="journey"],
    the title, the subtitle and a card per milestone keyed by its year. *)
Definition journey_view (title subtitle : jstr) (ms : list Timeline.milestone)
  : Background.props * jstr * jstr * list (jstr * milestone_card) :=
  (Background.with_id (u16 "journey") (Background.showStars Background.defaults), title, subtitle,
   imap (fun i m => (Timeline.m_year m, milestone_view m i)) ms).

Definition journey_logs (ms : list Timeline.milestone) : list jstr := flat_map (fun m => warn (Timeline.m_icon m)) ms.

End Views.

(** ** Properties *)

Section ViewsProps.
Import Data Views.

(** A name [getIcon] finds: an own or an inherited property of
    [iconMap]. *)
Definition known (name : jstr) : bool := match lookup name with Some _ => true | None => false end.

Lemma warn_length name : length (warn name) = if known name then 0%nat else 1%nat.
Proof. unfold warn, getIcon, known. by destruct (lookup name). Qed.

Lemma flat_map_warn_length (names : list jstr) :
  length (flat_map warn names) = length (List.filter (fun n => negb (known n)) names).
Proof.
  induction names as [| n r IH]; [done |]. cbn. rewrite length_app, IH, warn_length.
  by destruct (known n).
Qed.

Lemma flat_map_map_comp {A B C} (f : B -> list C) (g : A -> B) (l : list A) :
  flat_map (fun x => f (g x)) l = flat_map f (map g l).
Proof. induction l as [| x l IH]; cbn; [done | by rewrite IH]. Qed.

(** C34: One render of the content sections logs exactly one warning for each
    icon occurrence whose name [iconMap] does not have (neither as its
    own nor as an inherited property), in render order, and each warning
    quotes that name. *)
Theorem page_warnings a s e c :
  page_logs a s e c = flat_map warn (page_icon_names a s e c)
  /\ length (page_logs a s e c) = length (List.filter (fun n => negb (known n)) (page_icon_names a s e c))
  /\ forall w, In w (page_logs a s e c) ->
       exists n, In n (page_icon_names a s e c) /\ known n = false
                 /\ w = u16 "Icon " ++ [34] ++ n ++ [34] ++ u16 " not found in iconMap".
Proof.
  assert (E : page_logs a s e c = flat_map warn (page_icon_names a s e c)).
  { unfold page_logs, page_icon_names, about_logs, skills_logs, experience_logs, contact_logs, footer_logs.
    rewrite !flat_map_app, <- !flat_map_map_comp, !app_assoc. reflexivity. }
  split; [exact E |]. split; [rewrite E; apply flat_map_warn_length |].
  intros w Hw. rewrite E in Hw. apply in_flat_map in Hw as (n & Hn & Hw).
  exists n. unfold warn, getIcon, known in *. destruct (lookup n); [destruct Hw |].
  destruct Hw as [<- | []]. auto.
Qed.

(** The footer and the contact section show the same social links: the
    same keys, addresses, titles and icons, in the data's order, the
    icons at 20 and 24 px; every one opens in a new tab with
    [rel="noopener noreferrer"]. *)
Theorem socials_agree c :
  map (fun x => (an_key x, an_href x, an_title x, option_map fst (an_icon x))) (footer_socials c)
  = map (fun x => (an_key x, an_href x, an_title x, option_map fst (an_icon x))) (contact_socials c)
  /\ map an_href (footer_socials c) = map so_url (ct_socialLinks c)
  /\ (forall x, In x (footer_socials c ++ contact_socials c) ->
        an_target x = Some (u16 "_blank") /\ an_rel x = Some (u16 "noopener noreferrer")).
Proof.
  unfold footer_socials, contact_socials. split; [| split].
  - rewrite !map_imap. apply imap_ext. intros i so _. cbn [an_key an_href an_title an_icon footer_social contact_social].
    unfold icon. by destruct (getIcon (so_icon so)).1.
  - rewrite map_imap. exact (imap_index_free so_url (ct_socialLinks c)).
  - intros x [Hx | Hx]%in_app_or; apply list_elem_of_In, elem_of_lookup_imap in Hx as (i & so & -> & _); done.
Qed.

(** A contact detail is a link exactly when [info.link] is a non-empty
    string, and then it links there. *)
Theorem detail_link i href text :
  (detail i).2 = DLink href text <-> i_link i = Some href /\ href <> [] /\ text = i_value i.
Proof.
  unfold detail. cbn. destruct (i_link i) as [[| c l] |]; split;
    try (intros [=]; fail); try (intros (? & ? & ?); congruence).
  - intros [= <- <-]. auto.
Qed.

Lemma map_fst_imap {A B D} (g : nat -> B) (h : A -> D) (l : list A) :
  map fst (imap (fun i x => (g i, h x)) l) = map g (seq 0 (length l)).
Proof.
  revert g. induction l as [| x l IH]; intros g; cbn; [done |].
  f_equal. etransitivity; [exact (IH (fun i => g (S i))) | by rewrite <- seq_shift, map_map].
Qed.

Lemma NoDup_map_inl {A B} (l : list A) : List.NoDup (map (@inl A B) l) <-> List.NoDup l.
Proof.
  split; [apply NoDup_map_inv |].
  apply Finite.Injective_map_NoDup. intros x y H. by injection H.
Qed.

(** The React keys of the skill categories: Skills.jsx keys them by
    index, so they are always distinct; sections/Skills.jsx keys them by
    name, so they are distinct exactly when no two categories share a
    name. *)
Theorem skills_keys d :
  List.NoDup (map fst (skills_view d).2)
  /\ (List.NoDup (map fst (skills_section_view d).2) <-> List.NoDup (map c_name (sk_categories d))).
Proof.
  unfold skills_view, skills_section_view. cbn [snd]. split.
  - rewrite (map_fst_imap (@inr jstr nat) category_card).
    apply Finite.Injective_map_NoDup; [intros x y H; by injection H | apply seq_NoDup].
  - rewrite map_map. cbn [fst]. rewrite <- (map_map c_name inl). apply NoDup_map_inl.
Qed.

(** The journey's cards are keyed by year and alternate sides exactly as
    [Timeline.journey] lays them out, each card showing its milestone's
    year. *)
Lemma journey_cards title subtitle ms :
  map (fun kc => (kc.1, mc_even kc.2)) (journey_view title subtitle ms).2 = Timeline.journey ms
  /\ Forall (fun kc => mc_year kc.2 = kc.1) (journey_view title subtitle ms).2.
Proof.
  unfold journey_view, Timeline.journey. cbn [snd]. split.
  - rewrite map_imap. apply imap_ext. intros i m _. reflexivity.
  - apply List.Forall_forall. intros kc (i & m & -> & _)%list_elem_of_In%elem_of_lookup_imap. reflexivity.
Qed.

End ViewsProps.
