(* ===== verification/Effects.v ===== *)
(** * The 3D scene wrapper and its effects: src/src/components/Canvas/Scene.jsx
      and src/src/components/Canvas/Effects.jsx

    These components hold no state: each maps its props to a tree of
    React elements for react-three-fiber.  What they compute is in the
    JavaScript of the props: a destructuring default ([count = 5000])
    applies only when the prop is [undefined], [null] is kept; the rest
    pattern [...props] collects the other props and a spread after fixed
    attributes overrides them; a child [{flag && <X />}] is the element
    when [flag] is truthy and [flag] itself otherwise, which React renders
    as nothing for [false], [null], [undefined] and [''], and as a text
    node for a number ([0] gives ["0"], [NaN] gives ["NaN"]); and
    [camera.position] throws a
    [TypeError] when [camera] is [null].

    Props are values with rational numbers and [NaN] (the infinities,
    truthy and never rendered as text here, are not modelled; a prop given
    as [undefined] is an absent prop); a function is known by the
    name of its binding, and a [ref] is not a prop.  [BlendFunction.SCREEN] and
    [BlendFunction.NORMAL] are the enum members, kept by name. *)

From Stdlib Require Import QArith.
From S2P Require Import Prelude.

Module Scene3D.
Local Open Scope Q_scope.

(** A prop value. *)
#[warnings="-register-all"]
Inductive val :=
| VNull
| VBool (b : bool)
| VNum (q : Q)
| VNaN                                (** the number [NaN] *)
| VStr (s : jstr)
| VArr (xs : list val)
| VObj (members : list (jstr * val))
| VFun (name : jstr).                 (** a function, named by its binding *)

Definition truthy (v : val) : bool :=
  match v with
  | VNull => false
  | VBool b => b
  | VNum q => negb (Qeq_bool q 0)
  | VNaN => false
  | VStr s => match s with [] => false | _ => true end
  | VArr _ | VObj _ | VFun _ => true
  end.

(** A React node: an element with its attributes and children, or a text. *)
#[warnings="-register-all"]
Inductive node := El (tag : jstr) (attrs : list (jstr * val)) (children : list node) | Text (s : jstr).

(** Props as an object; a JSX attribute list where a later attribute
    overrides an earlier one of the same name. *)
Abbreviation props := (list (jstr * val)) (only parsing).

Definition get (ps : props) (k : jstr) : option val :=
  match List.find (fun kv => bool_decide (kv.1 = k)) (rev ps) with Some kv => Some kv.2 | None => None end.

(** [{ k = d }] in a parameter pattern. *)
Definition dflt (p : option val) (d : val) : val := match p with Some v => v | None => d end.

(** [{ a, b, ...rest }]: the props other than [a] and [b]. *)
Definition rest (ps : props) (named : list jstr) : props :=
  List.filter (fun kv => negb (bool_decide (kv.1 ∈ named))) ps.

(** What React renders for the child [{c && x}]: [x] when [c] is truthy,
    else [c] itself: text for a number ([String(0)] or [String(NaN)]),
    nothing for the other falsy values ([''] included). *)
Definition and_child (c : option val) (x : list node) : list node :=
  match c with
  | Some v => if truthy v then x
              else match v with VNum q => [Text (u16 "0")] | VNaN => [Text (u16 "NaN")] | _ => [] end
  | None => []
  end.

Definition num (q : Q) : val := VNum q.
Definition vec (qs : list Q) : val := VArr (map VNum qs).
Definition sky : val := VStr (u16 "#0ea5e9").

(** [Lights], Effects.jsx lines 8-23. *)
Definition Lights : list node :=
  [El (u16 "ambientLight") [(u16 "intensity", num 0.5)] [];
   El (u16 "directionalLight") [(u16 "position", vec [10; 10; 5]); (u16 "intensity", num 1); (u16 "castShadow", VBool true)] [];
   El (u16 "pointLight") [(u16 "position", vec [-10; -10; -5]); (u16 "intensity", num 0.5); (u16 "color", sky)] [];
   El (u16 "spotLight") [(u16 "position", vec [0; 10; 0]); (u16 "angle", num 0.3); (u16 "penumbra", num 1);
                         (u16 "intensity", num 1); (u16 "castShadow", VBool true)] []].

(** [StarField], lines 28-40. *)
Definition StarField (ps : props) : node :=
  El (u16 "Stars") [(u16 "radius", num 100); (u16 "depth", num 50); (u16 "count", dflt (get ps (u16 "count")) (num 5000));
                    (u16 "factor", num 4); (u16 "saturation", num 0); (u16 "fade", VBool true); (u16 "speed", num 1)] [].

(** [SparkleEffect], lines 45-57: the caller's other props are spread
    after the fixed ones. *)
Definition SparkleEffect (ps : props) : node :=
  El (u16 "Sparkles")
     ([(u16 "count", dflt (get ps (u16 "count")) (num 50)); (u16 "scale", num 10); (u16 "size", num 2);
       (u16 "speed", num 0.4); (u16 "opacity", num 0.6); (u16 "color", sky)] ++ rest ps [u16 "count"]) [].

(** [SceneEnvironment], lines 62-64. *)
Definition SceneEnvironment (ps : props) : node :=
  El (u16 "Environment") [(u16 "preset", dflt (get ps (u16 "preset")) (VStr (u16 "night")))] [].

(** [GroundShadows], lines 69-79. *)
Definition GroundShadows : node :=
  El (u16 "ContactShadows") [(u16 "position", vec [0; -1.4; 0]); (u16 "opacity", num 0.5); (u16 "scale", num 10);
                             (u16 "blur", num 2.5); (u16 "far", num 4)] [].

(** [PostProcessing], lines 84-105. *)
Definition PostProcessing (ps : props) : node :=
  El (u16 "EffectComposer") []
     (El (u16 "Bloom") [(u16 "intensity", dflt (get ps (u16 "bloomIntensity")) (num 0.5));
                        (u16 "luminanceThreshold", dflt (get ps (u16 "bloomLuminanceThreshold")) (num 0.9));
                        (u16 "luminanceSmoothing", num 0.9); (u16 "blendFunction", VStr (u16 "SCREEN"))] []
      :: and_child (Some (dflt (get ps (u16 "chromaticAberration")) (VBool true)))
           [El (u16 "ChromaticAberration") [(u16 "blendFunction", VStr (u16 "NORMAL")); (u16 "offset", vec [0.002; 0.002])] []]).

(** The six flags [SceneEffects] destructures, lines 110-117. *)
Definition effect_props : list jstr :=
  [u16 "lights"; u16 "stars"; u16 "sparkles"; u16 "environment"; u16 "shadows"; u16 "postProcessing"].

(** [SceneEffects], lines 110-128: each part behind its flag, in this
    order, each rendered without props. *)
Definition flag (ps : props) (k : jstr) (d : bool) : option val := Some (dflt (get ps k) (VBool d)).

Definition SceneEffects (ps : props) : list node :=
  and_child (flag ps (u16 "lights") true) Lights
  ++ and_child (flag ps (u16 "stars") true) [StarField []]
  ++ and_child (flag ps (u16 "sparkles") false) [SparkleEffect []]
  ++ and_child (flag ps (u16 "environment") true) [SceneEnvironment []]
  ++ and_child (flag ps (u16 "shadows") false) [GroundShadows]
  ++ and_child (flag ps (u16 "postProcessing") false) [PostProcessing []].

(** [v.k] for the two members [Scene] reads: [undefined] on a value
    without it, a [TypeError] on [null]. *)
Definition member (v : val) (k : jstr) : jstr + option val :=
  match v with
  | VNull => inl (u16 "Cannot read properties of null (reading '" ++ k ++ u16 "')")
  | VObj ms => inr (get ms k)
  | _ => inr None
  end.

(** An attribute whose value may be [undefined]. *)
Definition opt_attr (k : jstr) (o : option val) : props := match o with Some v => [(k, v)] | None => [] end.

Definition default_camera : val := VObj [(u16 "position", vec [0; 0; 5]); (u16 "fov", num 75)].

(** [Scene], Scene.jsx lines 9-25: the canvas with the caller's other
    props spread after [className] and [dpr], the camera, the children
    under [Suspense] and the orbit controls behind [controls]. *)
Definition Scene (ps : props) (children : list node) : jstr + node :=
  let camera := dflt (get ps (u16 "camera")) default_camera in
  let controls := dflt (get ps (u16 "controls")) (VBool true) in
  match member camera (u16 "position"), member camera (u16 "fov") with
  | inl e, _ | _, inl e => inl e
  | inr pos, inr fov =>
      inr (El (u16 "Canvas")
              ([(u16 "className", VStr (u16 "w-full h-full")); (u16 "dpr", vec [1; 2])]
               ++ rest ps [u16 "children"; u16 "camera"; u16 "controls"])
              (El (u16 "PerspectiveCamera") ((u16 "makeDefault", VBool true) :: opt_attr (u16 "position") pos ++ opt_attr (u16 "fov") fov) []
               :: El (u16 "Suspense") [(u16 "fallback", VNull)] children
               :: and_child (Some controls) [El (u16 "OrbitControls") [(u16 "enableZoom", VBool false); (u16 "enablePan", VBool false)] []]))
  end.

End Scene3D.

(** ** Properties *)

Section EffectsProps.
Import Scene3D.

Definition attrs_of (n : node) : props := match n with El _ a _ => a | Text _ => [] end.

Lemma find_app {A} (f : A -> bool) (l1 l2 : list A) :
  List.find f (l1 ++ l2) = match List.find f l1 with Some x => Some x | None => List.find f l2 end.
Proof. induction l1 as [| x l1 IH]; cbn; [done |]. by destruct (f x). Qed.

(** A later attribute overrides an earlier one. *)
Lemma get_app (ps1 ps2 : props) k :
  get (ps1 ++ ps2) k = match get ps2 k with Some v => Some v | None => get ps1 k end.
Proof.
  unfold get. rewrite rev_app_distr, find_app.
  by destruct (List.find _ (rev ps2)) as [[]|].
Qed.

Lemma get_cons kv (ps : props) k :
  get (kv :: ps) k = match get ps k with Some v => Some v | None => if bool_decide (kv.1 = k) then Some kv.2 else None end.
Proof. rewrite (get_app [kv] ps). unfold get at 2. cbn. by case_bool_decide. Qed.

(** The rest of the props has no member named in the pattern and the
    others of the props. *)
Lemma get_rest (ps : props) named k :
  get (rest ps named) k = if bool_decide (k ∈ named) then None else get ps k.
Proof.
  induction ps as [| [k' v] ps IH]; [cbn; by case_bool_decide |].
  unfold rest in *. cbn [List.filter fst snd]. rewrite (get_cons (k', v) ps). cbn [fst snd].
  destruct (decide (k' ∈ named)) as [Hn | Hn];
    [rewrite (bool_decide_eq_true_2 _ Hn) | rewrite (bool_decide_eq_false_2 _ Hn)]; cbn [negb];
    [| rewrite get_cons; cbn [fst snd]]; rewrite IH; repeat case_bool_decide; subst; try done; by destruct (get ps k).
Qed.

Lemma truthy_zero q : truthy (VNum q) = false <-> (q == 0)%Q.
Proof. cbn. rewrite negb_false_iff. apply Qeq_bool_iff. Qed.

Definition is_el (n : node) : bool := match n with El _ _ _ => true | Text _ => false end.

(** The texts a falsy value [p] renders as: ["0"] for a zero, ["NaN"]
    for [NaN]. *)
Definition falsy_text (p : option val) (t : jstr) : Prop :=
  (t = u16 "0" /\ exists q, p = Some (VNum q) /\ (q == 0)%Q) \/ (t = u16 "NaN" /\ p = Some VNaN).

(** The text [{c && x}] renders, for a part [x] without text. *)
Lemma and_child_text c x t :
  forallb is_el x = true -> In (Text t) (and_child c x) <-> falsy_text c t.
Proof.
  intros Hx. unfold falsy_text. destruct c as [v |]; cbn.
  - destruct (truthy v) eqn:E.
    + split; [intros H | intros [(_ & q & [= ->] & Hq) | (_ & [= ->])]].
      * by apply (proj1 (forallb_forall _ _) Hx) in H.
      * by apply truthy_zero in Hq; rewrite Hq in E.
      * discriminate.
    + destruct v; cbn; split; try (intros []; fail);
        try (intros [(_ & q & [=] & _) | (_ & [=])]; fail).
      * intros [[= <-] | []]. left. split; [done |]. exists q. split; [done |]. by apply truthy_zero.
      * intros [[-> _] | (_ & [=])]. by left.
      * intros [[= <-] | []]. by right.
      * intros [(_ & q & [=] & _) | [-> _]]. by left.
  - split; [done | intros [(_ & q & [=] & _) | (_ & [=])]].
Qed.

(** A flag renders the text its prop does; an absent flag renders none. *)
Lemma flag_text ps k d t : falsy_text (flag ps k d) t <-> falsy_text (get ps k) t.
Proof. unfold falsy_text, flag. destruct (get ps k); cbn; [done|]. split; intros [(_ & ? & [=] & _)|(_ & [=])]. Qed.

(** The caller's props reach [Sparkles] after the fixed attributes:
    each of them overrides the fixed one of its name, except [count],
    which the pattern takes out and defaults to 50. *)
Theorem sparkles_attrs ps :
  get (attrs_of (SparkleEffect ps)) (u16 "count") = Some (dflt (get ps (u16 "count")) (num 50))
  /\ forall k, k <> u16 "count" ->
     get (attrs_of (SparkleEffect ps)) k = match get ps k with Some v => Some v | None => get (attrs_of (SparkleEffect [])) k end.
Proof.
  unfold SparkleEffect, attrs_of. split.
  - rewrite get_app, get_rest, bool_decide_eq_true_2 by (by apply list_elem_of_singleton). reflexivity.
  - intros k Hk. rewrite !get_app, !get_rest, bool_decide_eq_false_2 by (by rewrite list_elem_of_singleton).
    destruct (get ps k); [done |]. cbn [rest List.filter]. rewrite !get_cons. cbn [fst snd].
    by rewrite (bool_decide_eq_false_2 (u16 "count" = k)) by congruence.
Qed.

(** [Scene] throws exactly when the [camera] prop is [null], with the
    [TypeError] of reading [camera.position]; an absent camera takes the
    default one. *)
Theorem scene_error ps ch e :
  Scene ps ch = inl e <->
  get ps (u16 "camera") = Some VNull /\ e = u16 "Cannot read properties of null (reading 'position')".
Proof.
  unfold Scene. destruct (get ps (u16 "camera")) as [[] |]; cbn -[u16].
  all: split; [intros H | intros [Hc He]]; try discriminate.
  - injection H as <-. split; [done | reflexivity].
  - subst e. reflexivity.
Qed.

(** On the canvas the caller's props override [className] and [dpr];
    [children], [camera] and [controls] never reach it. *)
Theorem scene_canvas_attrs ps ch n k :
  Scene ps ch = inr n ->
  get (attrs_of n) k =
    if bool_decide (k ∈ [u16 "children"; u16 "camera"; u16 "controls"])
    then get [(u16 "className", VStr (u16 "w-full h-full")); (u16 "dpr", vec [1; 2]%Q)] k
    else match get ps k with
         | Some v => Some v
         | None => get [(u16 "className", VStr (u16 "w-full h-full")); (u16 "dpr", vec [1; 2]%Q)] k
         end.
Proof.
  unfold Scene. intros H.
  destruct (member (dflt (get ps (u16 "camera")) default_camera) (u16 "position")); [discriminate |].
  destruct (member (dflt (get ps (u16 "camera")) default_camera) (u16 "fov")); [discriminate |].
  injection H as <-. cbn [attrs_of]. rewrite !get_cons, get_rest. cbn [fst snd].
  case_bool_decide; [done |]. by destruct (get ps k).
Qed.

(** C35: A flag of [SceneEffects] given as a falsy number is rendered by
    React as text among the 3D elements: ["0"] for a zero, ["NaN"] for
    [NaN]; no other text is rendered. *)
Theorem scene_effects_text ps t :
  In (Text t) (SceneEffects ps) <->
  exists k, In k effect_props /\
    ((t = u16 "0" /\ exists q, get ps k = Some (VNum q) /\ (q == 0)%Q) \/
     (t = u16 "NaN" /\ get ps k = Some VNaN)).
Proof.
  unfold SceneEffects. rewrite !in_app_iff, !and_child_text, !flag_text by reflexivity.
  match goal with |- ?L <-> _ => change (L <-> exists k, In k effect_props /\ falsy_text (get ps k) t) end.
  cbn [effect_props In]. split.
  - intros [H|[H|[H|[H|[H|H]]]]]; eexists; (split; [| exact H]);
      repeat first [left; reflexivity | right].
  - intros (k & Hk & H). repeat destruct Hk as [<- | Hk]; try done; tauto.
Qed.

(** Without any of its six flags, [SceneEffects] renders the lights,
    the star field and the environment, in this order. *)
Theorem scene_effects_defaults ps :
  (forall k, In k effect_props -> get ps k = None) ->
  SceneEffects ps = Lights ++ [StarField []; SceneEnvironment []].
Proof.
  intros H. unfold SceneEffects, flag.
  repeat rewrite H by (cbn [effect_props In]; repeat first [left; reflexivity | right]). reflexivity.
Qed.

(** [<SceneEffects stars={0} />] renders the lights, then the text ["0"]
    where the star field would be. *)
Example scene_effects_stars_zero :
  exists rest, SceneEffects [(u16 "stars", num 0)] = Lights ++ Text (u16 "0") :: rest.
Proof. eexists. reflexivity. Qed.

(** [<SceneEffects stars={NaN} />] renders the text ["NaN"] there. *)
Example scene_effects_stars_nan :
  exists rest, SceneEffects [(u16 "stars", VNaN)] = Lights ++ Text (u16 "NaN") :: rest.
Proof. eexists. reflexivity. Qed.

End EffectsProps.
