(* ===== verification/HeroContent.v ===== *)
(** * The hero's content: src/src/components/Hero.jsx, lines 71-78 and 252-366

    [HERO_CONFIG] (lines 71-78) gathers the typewriter's titles and
    speeds, the trail length and the stats of the JSON data.  The content
    block shows the greeting with the name, the typewriter line
    [{text || 'Full Stack Developer'}] (line 282), the description and
    the bio as two adjacent expressions (lines 298-299), the two call to
    action labels and a card per stat keyed by its index.  The View My
    Work button also writes its own [style.transform] on mouse enter and
    leave (lines 309-315); React leaves that write alone on the re-renders
    of Hero, since the [style] prop it renders never changes.  The
    canvas takes its pixel-ratio range from [HERO_CONFIG.dpr] and
    [window.devicePixelRatio] (line 194).

    The typewriter's state is [Hero.Typewriter]'s; the line it shows is
    followed along the runs of its timers. *)

From Stdlib Require Import QArith Qminmax Lqa.
From S2P Require Import Prelude.
From S2P Require Import Hero.

Module HeroContent.
Import Typewriter.

Record stat := { st_value : jstr; st_label : jstr }.
(** [data.hero] and [data.personal], as the component reads them. *)
Record hero := { h_titles : list jstr; h_cta_primary : jstr; h_cta_secondary : jstr; h_stats : list stat }.
Record personal := { p_name : jstr; p_description : jstr; p_bio : jstr }.

Record config := {
  typewriterTitles : list jstr; typingSpeed_normal : Z; typingSpeed_deleting : Z;
  pauseAfterComplete : Z; cursorTrailMaxLength : nat; stats : list stat; dpr_min : Z; dpr_max : Z }.

(** [HERO_CONFIG], lines 71-78. *)
Definition HERO_CONFIG (h : hero) : config :=
  {| typewriterTitles := h_titles h; typingSpeed_normal := 150; typingSpeed_deleting := 50;
     pauseAfterComplete := 2000; cursorTrailMaxLength := 20; stats := h_stats h; dpr_min := 1; dpr_max := 2 |}.

(** [{text || 'Full Stack Developer'}], line 282. *)
Definition typed_text (t : jstr) : jstr := match t with [] => u16 "Full Stack Developer" | _ => t end.

Record view := {
  v_heading : jstr; v_typed : jstr; v_description : jstr; v_cta : jstr * jstr;
  v_stats : list (nat * jstr * jstr) }.

(** The content block, lines 252-366: [Hi, I'm {name}], the typewriter
    line, [{description}{bio}] with nothing between them, the labels of
    the two buttons and the stats of [HERO_CONFIG] keyed by index. *)
Definition render (p : personal) (h : hero) (s : state) : view :=
  {| v_heading := u16 "Hi, I'm " ++ p_name p;
     v_typed := typed_text (text s);
     v_description := p_description p ++ p_bio p;
     v_cta := (h_cta_primary h, h_cta_secondary h);
     v_stats := imap (fun i st => (i, st_value st, st_label st)) (stats (HERO_CONFIG h)) |}.

(** The canvas's [dpr] range, line 194:
    [[HERO_CONFIG.dpr.min, Math.min(HERO_CONFIG.dpr.max, window.devicePixelRatio || 1)]];
    [None] is an undefined [devicePixelRatio], and 0 is falsy too. *)
Definition canvas_dpr (c : config) (devicePixelRatio : option Q) : Q * Q :=
  let ratio := match devicePixelRatio with Some r => if Qeq_bool r 0 then 1%Q else r | None => 1%Q end in
  (inject_Z (dpr_min c), Qmin (inject_Z (dpr_max c)) ratio).

(** The View My Work button's [style.transform], lines 307-315. *)
Inductive button_event := MouseEnter | MouseLeave | Rerender.

Definition transform_initial : jstr := u16 "perspective(1000px) rotateX(0deg)".

Definition button_step (e : button_event) (transform : jstr) : jstr :=
  match e with
  | MouseEnter => u16 "perspective(1000px) rotateX(-5deg) scale(1.1)"
  | MouseLeave => u16 "perspective(1000px) rotateX(0deg) scale(1)"
  | Rerender => transform
  end.

Definition button_run (es : list button_event) : jstr := fold_left (fun t e => button_step e t) es transform_initial.

End HeroContent.

(** ** Properties *)

Import Typewriter HeroContent.

(** By the typewriter's invariant the text is empty, or a non-empty
    prefix of the current title. *)
Lemma text_inv titles s :
  inv titles s ->
  text s = [] \/ exists j, (0 < j <= length (fullText titles s))%nat /\ text s = take j (fullText titles s) /\ text s <> [].
Proof.
  intros [(j & Hj & Ht) _]. rewrite Ht.
  destruct j as [| j]; [left; by rewrite take_0 |].
  right. exists (S j). split; [lia |]. split; [done |].
  intros E. apply (f_equal length) in E. rewrite length_take in E. cbn [length] in E. lia.
Qed.

(** C36: The typewriter line of the hero is never empty: in every state
    the timers reach it shows a non-empty prefix of the current title, or
    ['Full Stack Developer'] while the text is empty; and the fallback is
    on the screen at the start of every round, between two titles. *)
Theorem hero_typed_line p h :
  Forall (fun t => t <> []) (h_titles h) -> h_titles h <> [] ->
  (forall s, reachable (h_titles h) s ->
     v_typed (render p h s) <> [] /\
     ((text s = [] /\ v_typed (render p h s) = u16 "Full Stack Developer")
      \/ exists j, (0 < j <= length (fullText (h_titles h) s))%nat /\
                   v_typed (render p h s) = take j (fullText (h_titles h) s)))
  /\ forall k, exists m, reachable (h_titles h) (run (h_titles h) m init) /\
       loopNum (run (h_titles h) m init) = k /\
       v_typed (render p h (run (h_titles h) m init)) = u16 "Full Stack Developer".
Proof.
  intros Hne Hts. cbn [render v_typed]. split.
  - intros s Hs. destruct (text_inv (h_titles h) s) as [He | (j & Hj & Ht & Hn)];
      [by apply typewriter_reachable_inv | rewrite He; split; [done | by left] |].
    destruct (text s) as [| c l]; [done |]. split; [done |]. right. by exists j.
  - intros k. destruct (typewriter_reaches_round (h_titles h) Hne Hts k) as (m & sp & Hm).
    exists m. rewrite Hm. split; [rewrite <- Hm; apply run_reachable, reach_init | done].
Qed.

(** The button's transform is the one its last mouse event wrote,
    whatever re-renders of Hero came after it. *)
Lemma button_run_rerenders es e rs :
  Forall (fun x => x = Rerender) rs -> button_run (es ++ e :: rs) = button_step e (button_run es).
Proof.
  intros H. unfold button_run. rewrite fold_left_app. cbn [fold_left].
  generalize (button_step e (fold_left (fun t e => button_step e t) es transform_initial)).
  induction H as [| x rs -> _ IH]; intros t; [done | apply IH].
Qed.

Lemma hero_typed_line_witness :
  Forall (fun t => t <> []) demo_titles /\ demo_titles <> [] /\
  v_typed (render {| p_name := []; p_description := []; p_bio := [] |}
                  {| h_titles := demo_titles; h_cta_primary := []; h_cta_secondary := []; h_stats := [] |} init)
  = u16 "Full Stack Developer".
Proof.
  split; [apply demo_titles_nonempty |]. split; [discriminate |].
  destruct (hero_typed_line {| p_name := []; p_description := []; p_bio := [] |}
              {| h_titles := demo_titles; h_cta_primary := []; h_cta_secondary := []; h_stats := [] |}
              demo_titles_nonempty ltac:(discriminate)) as [_ _].
  reflexivity.
Defined.

Lemma Qeq_bool_nonzero q : ~ q == 0 -> Qeq_bool q 0 = false.
Proof. intros H. apply not_true_iff_false. intros E%Qeq_bool_iff. contradiction. Qed.

(** The canvas's pixel-ratio range is [[1, min(2, devicePixelRatio)]]: a
    proper range within [[1, 2]] on a screen whose ratio is at least 1,
    but an inverted one, its upper end below 1, on a page zoomed out
    below a ratio of 1. *)
Lemma canvas_dpr_range h r :
  (1 <= r -> (canvas_dpr (HERO_CONFIG h) (Some r)).1 == 1 /\
             1 <= (canvas_dpr (HERO_CONFIG h) (Some r)).2 <= 2)%Q
  /\ (0 < r < 1 -> (canvas_dpr (HERO_CONFIG h) (Some r)).2 < (canvas_dpr (HERO_CONFIG h) (Some r)).1)%Q
  /\ (canvas_dpr (HERO_CONFIG h) None).2 == 1%Q.
Proof.
  unfold canvas_dpr. cbn [HERO_CONFIG dpr_min dpr_max fst snd]. split; [| split].
  - intros Hr. rewrite Qeq_bool_nonzero by lra. split; [reflexivity |].
    change (inject_Z 2) with 2%Q. split; [apply Q.min_glb; lra | apply Q.le_min_l].
  - intros Hr. rewrite Qeq_bool_nonzero by lra.
    eapply Qle_lt_trans; [apply Q.le_min_r | change (inject_Z 1) with 1%Q; lra].
  - reflexivity.
Qed.

