(* ===== verification/ModelViews.v ===== *)
(** * The elements of the 3D models: src/src/components/Canvas/Models.jsx

    Each model of Models.jsx renders a drei or three.js element from its
    props: [position] and [color] defaults, the caller's other props
    spread after the fixed attributes, the material as the only child.
    The frame callbacks and the hover hook that animate them are in
    [Models]; this file holds the element trees, in the props language of
    [Effects] ([Scene3D]): a [ref] is not a prop, and the hook's
    handlers are the function values [handlePointerOver] and
    [handlePointerOut].  [Particles] is rendered from the two arrays its
    loop fills ([Models.particles_render]). *)

From Stdlib Require Import QArith.
From S2P Require Import Prelude.
From S2P Require Import Effects.

Module ModelJsx.
Import Scene3D.
Local Open Scope Q_scope.

Definition origin : val := vec [0; 0; 0].
Definition position (ps : props) : val := dflt (get ps (u16 "position")) origin.
Definition color (ps : props) (d : string) : val := dflt (get ps (u16 "color")) (VStr (u16 d)).
Definition others (ps : props) : props := rest ps [u16 "position"; u16 "color"].

(** [AnimatedSphere], lines 10-25. *)
Definition AnimatedSphere (ps : props) : node :=
  El (u16 "Sphere") ([(u16 "position", position ps); (u16 "args", vec [1; 64; 64])] ++ others ps)
     [El (u16 "MeshDistortMaterial")
         [(u16 "color", color ps "#0ea5e9"); (u16 "attach", VStr (u16 "material")); (u16 "distort", num 0.3);
          (u16 "speed", num 2); (u16 "roughness", num 0.2); (u16 "metalness", num 0.8)] []].

(** [AnimatedCube], lines 30-52: the hover hook's handlers, then the
    caller's props. *)
Definition AnimatedCube (ps : props) : node :=
  El (u16 "Box")
     ([(u16 "position", position ps); (u16 "args", vec [1; 1; 1]);
       (u16 "onPointerOver", VFun (u16 "handlePointerOver")); (u16 "onPointerOut", VFun (u16 "handlePointerOut"))]
      ++ others ps)
     [El (u16 "meshStandardMaterial") [(u16 "color", color ps "#0ea5e9"); (u16 "metalness", num 0.6); (u16 "roughness", num 0.3)] []].

(** [AnimatedTorus], lines 57-65. *)
Definition AnimatedTorus (ps : props) : node :=
  El (u16 "Torus") ([(u16 "position", position ps); (u16 "args", vec [1; 0.4; 16; 100])] ++ others ps)
     [El (u16 "meshStandardMaterial") [(u16 "color", color ps "#38bdf8"); (u16 "metalness", num 0.8); (u16 "roughness", num 0.2)] []].

(** [FloatingOctahedron], lines 70-86. *)
Definition FloatingOctahedron (ps : props) : node :=
  El (u16 "Octahedron") ([(u16 "position", position ps); (u16 "args", vec [1; 0])] ++ others ps)
     [El (u16 "meshStandardMaterial")
         [(u16 "color", color ps "#7dd3fc"); (u16 "metalness", num 0.7); (u16 "roughness", num 0.3); (u16 "wireframe", VBool true)] []].

(** [Particles], lines 113-131, from the arrays [positions] and
    [colors] its loop filled; [count] is taken out of the props. *)
Definition Particles (ps : props) (positions colors : list Q) : node :=
  El (u16 "points") (rest ps [u16 "count"])
     [El (u16 "bufferGeometry") []
         [El (u16 "bufferAttribute") [(u16 "attach", VStr (u16 "attributes-position"));
                                      (u16 "count", num (inject_Z (Z.of_nat (length positions)) / 3));
                                      (u16 "array", vec positions); (u16 "itemSize", num 3)] [];
          El (u16 "bufferAttribute") [(u16 "attach", VStr (u16 "attributes-color"));
                                      (u16 "count", num (inject_Z (Z.of_nat (length colors)) / 3));
                                      (u16 "array", vec colors); (u16 "itemSize", num 3)] []];
      El (u16 "pointsMaterial") [(u16 "size", num 0.05); (u16 "vertexColors", VBool true); (u16 "transparent", VBool true);
                                 (u16 "opacity", num 0.8)] []].

(** [MorphingGeometry], lines 137-164: only [position] is named. *)
Definition MorphingGeometry (ps : props) : node :=
  El (u16 "mesh") ((u16 "position", position ps) :: rest ps [u16 "position"])
     [El (u16 "icosahedronGeometry") [(u16 "args", vec [1; 1])] [];
      El (u16 "meshStandardMaterial") [(u16 "color", VStr (u16 "#0ea5e9")); (u16 "wireframe", VBool true);
                                       (u16 "transparent", VBool true); (u16 "opacity", num 0.8)] []].

(** [GlowingSphere], lines 169-196: the position goes to the group, the
    caller's props to the main sphere only. *)
Definition GlowingSphere (ps : props) : node :=
  El (u16 "group") [(u16 "position", position ps)]
     [El (u16 "Sphere") ((u16 "args", vec [1; 32; 32]) :: others ps)
         [El (u16 "meshStandardMaterial") [(u16 "color", color ps "#0ea5e9"); (u16 "emissive", color ps "#0ea5e9");
                                           (u16 "emissiveIntensity", num 0.5)] []];
      El (u16 "Sphere") [(u16 "args", vec [1.2; 32; 32])]
         [El (u16 "meshBasicMaterial") [(u16 "color", color ps "#0ea5e9"); (u16 "transparent", VBool true);
                                        (u16 "opacity", num 0.2)] []]].

End ModelJsx.

(** ** Properties *)

Import Scene3D ModelJsx.

(** The cube's pointer handlers are the hover hook's only while the
    caller passes none: a caller's [onPointerOver] or [onPointerOut],
    spread after them, replaces the hook's, and the cube then no longer
    scales on hover.  Its [position] is always the named prop or the
    origin. *)
Theorem cube_handlers ps :
  get (attrs_of (AnimatedCube ps)) (u16 "onPointerOver")
    = match get ps (u16 "onPointerOver") with Some v => Some v | None => Some (VFun (u16 "handlePointerOver")) end
  /\ get (attrs_of (AnimatedCube ps)) (u16 "onPointerOut")
    = match get ps (u16 "onPointerOut") with Some v => Some v | None => Some (VFun (u16 "handlePointerOut")) end
  /\ get (attrs_of (AnimatedCube ps)) (u16 "position") = Some (position ps).
Proof.
  unfold AnimatedCube, others. cbv beta iota delta [attrs_of]. rewrite !get_app, !get_rest.
  split; [| split]; vm_compute; reflexivity.
Qed.

Definition children_of (n : node) : list node := match n with El _ _ c => c | Text _ => [] end.

(** The glow of [GlowingSphere] takes nothing from the caller but the
    colour: the other props go to the main sphere, which is the first
    child, and not to the glow. *)
Lemma glow_only_color ps :
  nth 1 (children_of (GlowingSphere ps)) (Text [])
  = nth 1 (children_of (GlowingSphere (opt_attr (u16 "color") (get ps (u16 "color"))))) (Text []).
Proof.
  cbn [GlowingSphere children_of nth]. unfold color.
  destruct (get ps (u16 "color")) eqn:E; [| reflexivity]. cbn [opt_attr]. vm_compute. reflexivity.
Qed.
