(* ===== verification/StartUp.v ===== *)
(** * The first seconds of the page: src/src/App.jsx, Loader.jsx and Hero.jsx

    [App]'s first render (App.jsx lines 33-72) mounts the loading screen
    and, under it, the whole page: the navigation bar, the six sections,
    the footer and the scroll button; [isLoading] only decides whether
    [WaterDropLoader] is there.  The effects of that first commit start
    together, at time 0: the loader's interval ticks every 150 ms
    (Loader.jsx lines 27-40) and, 800 ms after the tick that finds 100,
    its timeout takes the screen down (lines 31-34); Hero's scroll effect
    builds its entrance timeline (Hero.jsx lines 152-159), a
    [gsap.timeline({ delay: 0.3 })] whose one tween brings the content
    from [y: 30] to its place in 0.8 s with the [power3.out] ease, then
    calls [setIsLoaded(true)].

    Times are milliseconds after mount, as rationals; the [k]-th tick, at
    [150 k] ms, draws the [k]-th number of a list for [Math.random()].  A
    [.from] tween renders its start values at once, so the content sits at
    [y = 30] until the timeline's delay has passed. *)

From Stdlib Require Import QArith Qround Qminmax Lqa.
From S2P Require Import Prelude.
From S2P Require Import Loader.
From S2P Require Import App.

Module AppView.

(** The children of [App]'s fragment, lines 33-72. *)
Inductive child := CLoader | CNavbar | CMain (sections : list jstr) | CFooter | CScrollToTop.

(** [{isLoading && <WaterDropLoader .../>}] (line 36), then the page,
    whose sections are the Suspense's children (lines 44-62). *)
Definition render (isLoading : bool) : list child :=
  (if isLoading then [CLoader] else []) ++ [CNavbar; CMain Page.app_sections; CFooter; CScrollToTop].

End AppView.

Module Entrance.
Local Open Scope Q_scope.

(** The timeline's [delay: 0.3] (line 153), the tween's [y: 30] and
    [duration: 0.8] (lines 156-157), in milliseconds. *)
Definition delay : Q := 300.
Definition duration : Q := 800.
Definition from_y : Q := 30.

(** GSAP's [power3.out] (line 158): [1 - (1 - p)^3]. *)
Definition ease (p : Q) : Q := 1 - (1 - p) * (1 - p) * (1 - p).

(** The content's [y] at time [t]: the start value until the delay has
    passed, the eased way back to 0 during the tween, 0 after it. *)
Definition content_y (t : Q) : Q :=
  if Qle_bool t delay then from_y
  else if Qle_bool (delay + duration) t then 0
  else from_y * (1 - ease ((t - delay) / duration)).

(** [.add(() => setIsLoaded(true))], line 159: the callback sits at the
    end of the tween. *)
Definition isLoaded (t : Q) : bool := Qle_bool (delay + duration) t.

End Entrance.

Module Clock.
Import Loader.
Local Open Scope Q_scope.

(** [setInterval(..., 150)] and [setTimeout(..., 800)], lines 39 and 34. *)
Definition interval : Q := 150.
Definition hide_delay : Q := 800.

(** The ticks that have fired by time [t]. *)
Definition ticks_by (t : Q) : nat := Z.to_nat (Qfloor (t / interval)).

(** The tick that clears the interval, counted from 1, if the draws
    reach it. *)
Fixpoint stop_index (rs : list Q) (s : state) : option nat :=
  match rs with
  | [] => None
  | r :: rs =>
      if ticking s then
        if ticking (tick r s) then option_map S (stop_index rs (tick r s)) else Some 1%nat
      else Some 0%nat
  end.

(** The loader at time [t]: the ticks so far, and the timeout once it has
    fired. *)
Definition loader_at (rs : list Q) (t : Q) : state :=
  let s := run_ticks (firstn (ticks_by t) rs) init in
  match stop_index rs init with
  | Some k => if Qle_bool (interval * inject_Z (Z.of_nat k) + hide_delay) t then hide s else s
  | None => s
  end.

(** What [App] renders at time [t]. *)
Definition app_at (rs : list Q) (t : Q) : list AppView.child := AppView.render (isLoading (loader_at rs t)).

End Clock.

(** ** Properties *)

Import Loader Clock.

Section StartUpProps.
Local Open Scope Q_scope.

(** [Math.random()] draws are in [[0, 1)]. *)
Definition draws (rs : list Q) : Prop := Forall (fun r => 0 <= r < 1) rs.

Lemma run_ticks_shown rs s :
  isVisible (run_ticks rs s) = isVisible s /\ isLoading (run_ticks rs s) = isLoading s.
Proof.
  revert s. induction rs as [|r rs IH]; intros s; [done|].
  rewrite run_ticks_cons. destruct (IH (if ticking s then tick r s else s)) as [-> ->].
  destruct (ticking s); [unfold tick; by destruct (Qle_bool 100 (progress s))|done].
Qed.

Lemma inject_Z_of_nat_S n : inject_Z (Z.of_nat (S n)) = inject_Z (Z.of_nat n) + 1.
Proof. by rewrite Nat2Z.inj_succ, <- Z.add_1_r, inject_Z_plus. Qed.

Lemma inject_Z_of_nat_nonneg n : 0 <= inject_Z (Z.of_nat n).
Proof. change 0 with (inject_Z 0). rewrite <- Zle_Qle. lia. Qed.

(** While the progress stays below 100 a tick adds less than 10 and
    leaves the interval running. *)
Lemma ticks_running rs s :
  draws rs -> ticking s = true -> hidePending s = false -> 0 <= progress s ->
  progress s + 10 * inject_Z (Z.of_nat (length rs)) < 110 ->
  ticking (run_ticks rs s) = true /\ hidePending (run_ticks rs s) = false /\
  (rs = [] \/ progress (run_ticks rs s) < progress s + 10 * inject_Z (Z.of_nat (length rs))).
Proof.
  intros Hrs. revert s. induction Hrs as [|r rs [Hr0 Hr1] Hrs IH]; intros [p v tk hp il] Ht Hh Hp Hlen;
    cbn [ticking hidePending progress] in *; subst tk hp; [by split; [|split; [|left]]|].
  rewrite run_ticks_cons. cbn [ticking length] in *. unfold tick. cbn [progress isVisible ticking hidePending isLoading].
  rewrite inject_Z_of_nat_S in *. pose proof (inject_Z_of_nat_nonneg (length rs)).
  destruct (Qle_bool 100 p) eqn:E; [apply Qle_bool_iff in E; lra|].
  set (p' := Qmin (p + r * 8 + 2) 100).
  assert (Hp' : 0 <= p' /\ p' < p + 10)
    by (subst p'; destruct (Q.min_spec (p + r * 8 + 2) 100) as [[? ->]|[? ->]]; lra).
  destruct (IH {| progress := p'; isVisible := v; ticking := true; hidePending := false; isLoading := il |})
    as (Ht' & Hh' & Hr'); cbn [progress ticking hidePending]; try done; try lra.
  split; [done|]. split; [done|]. right.
  destruct Hr' as [->|Hr']; [cbn in *; lra|cbn [progress] in Hr'; lra].
Qed.

(** A tick at which the interval still runs comes before the one that
    clears it. *)
Lemma stop_index_after n rs s k :
  ticking s = true -> ticking (run_ticks (firstn n rs) s) = true -> stop_index rs s = Some k -> (n < k)%nat.
Proof.
  revert n s k. induction rs as [|r rs IH]; intros n s k Ht Hn Hk; [discriminate|].
  cbn [stop_index] in Hk. rewrite Ht in Hk. destruct n as [|n]; cbn [firstn] in Hn.
  - destruct (ticking (tick r s)); [destruct (stop_index rs (tick r s))|]; cbn in Hk; try discriminate; injection Hk as <-; lia.
  - rewrite run_ticks_cons, Ht in Hn. destruct (ticking (tick r s)) eqn:Et.
    + destruct (stop_index rs (tick r s)) as [k'|] eqn:Ek; cbn in Hk; [|discriminate]. injection Hk as <-.
      specialize (IH n (tick r s) k' Et Hn Ek). lia.
    + rewrite run_ticks_stopped in Hn by exact Et. congruence.
Qed.

(** The ticks by time [t] are [floor (t / 150)]: fewer than [k] when
    [t < 150 k]. *)
Lemma ticks_by_lt t k : 0 <= t -> t < interval * inject_Z (Z.of_nat k) -> (ticks_by t < k)%nat.
Proof.
  intros H0 Hk. unfold ticks_by, interval in *.
  assert (Hf : (Qfloor (t / 150) < Z.of_nat k)%Z).
  { rewrite Zlt_Qlt. apply Qle_lt_trans with (t / 150); [apply Qfloor_le|].
    apply Qlt_shift_div_r; [reflexivity|]. rewrite Qmult_comm. exact Hk. }
  assert (0 <= Qfloor (t / 150))%Z.
  { change 0%Z with (Qfloor 0). apply Qfloor_resp_le. apply Qle_shift_div_l; [reflexivity|lra]. }
  lia.
Qed.

Lemma ticks_by_ge t : 0 <= t -> t < interval * (inject_Z (Z.of_nat (ticks_by t)) + 1).
Proof.
  intros H0. unfold ticks_by, interval.
  assert (0 <= Qfloor (t / 150))%Z.
  { change 0%Z with (Qfloor 0). apply Qfloor_resp_le. apply Qle_shift_div_l; [reflexivity|lra]. }
  rewrite Z2Nat.id by lia.
  assert (Hl := Qlt_floor (t / 150)). rewrite inject_Z_plus in Hl. change (inject_Z 1) with 1 in Hl.
  rewrite Qmult_comm. assert (Ht : t == t / 150 * 150) by field. rewrite Ht at 1. apply Qmult_lt_compat_r; [reflexivity|exact Hl].
Qed.

(** Until the interval is cleared the timeout is not due: the loader at
    time [t] is the loader after the ticks so far. *)
Lemma loader_at_running rs t :
  0 <= t -> ticking (run_ticks (firstn (ticks_by t) rs) init) = true ->
  loader_at rs t = run_ticks (firstn (ticks_by t) rs) init.
Proof.
  intros H0 Ht. unfold loader_at. destruct (stop_index rs init) as [k|] eqn:Ek; [|done].
  assert (Hn := stop_index_after _ _ init _ eq_refl Ht Ek).
  assert (Hlt := ticks_by_ge t H0).
  assert (inject_Z (Z.of_nat (ticks_by t)) + 1 <= inject_Z (Z.of_nat k)).
  { rewrite <- inject_Z_of_nat_S, <- Zle_Qle. lia. }
  destruct (Qle_bool _ t) eqn:E; [apply Qle_bool_iff in E; unfold interval, hide_delay in *; lra|done].
Qed.

(** The tick that [stop_index] names clears the interval and schedules
    the timeout. *)
Lemma stop_index_stops rs s k :
  ticking s = true -> stop_index rs s = Some k ->
  ticking (run_ticks (firstn k rs) s) = false /\ hidePending (run_ticks (firstn k rs) s) = true.
Proof.
  revert s k. induction rs as [|r rs IH]; intros s k Ht Hk; [discriminate|].
  cbn [stop_index] in Hk. rewrite Ht in Hk. destruct (ticking (tick r s)) eqn:Et.
  - destruct (stop_index rs (tick r s)) as [k'|] eqn:Ek; cbn in Hk; [|discriminate]. injection Hk as <-.
    cbn [firstn]. rewrite run_ticks_cons, Ht. exact (IH _ _ Et Ek).
  - injection Hk as <-. cbn [firstn]. rewrite run_ticks_cons, Ht, run_ticks_stopped by exact Et.
    split; [exact Et|]. unfold tick in *. destruct (Qle_bool 100 (progress s)); [done|]. cbn in Et. congruence.
Qed.

(** A run of ticks that clears the interval has a stopping tick. *)
Lemma stop_index_exists n rs s :
  ticking s = true -> ticking (run_ticks (firstn n rs) s) = false -> exists k, stop_index rs s = Some k /\ (k <= n)%nat.
Proof.
  revert n s. induction rs as [|r rs IH]; intros n s Ht Hn.
  - rewrite firstn_nil in Hn. cbn in Hn. congruence.
  - destruct n as [|n]; [cbn in Hn; congruence|]. cbn [firstn] in Hn. rewrite run_ticks_cons, Ht in Hn.
    cbn [stop_index]. rewrite Ht. destruct (ticking (tick r s)) eqn:Et; [|exists 1%nat; split; [done|lia]].
    destruct (IH n (tick r s) Et Hn) as (k & -> & Hk). exists (S k). split; [done|lia].
Qed.

(** The loader on the clock is a run of [Loader.step]: its ticks, then
    the timeout once it has fired. *)
Lemma loader_at_reachable rs t : draws rs -> 0 <= t -> reachable (loader_at rs t).
Proof.
  intros Hrs H0. unfold loader_at.
  assert (Hn : reachable (run_ticks (firstn (ticks_by t) rs) init))
    by (apply reachable_run_ticks; [apply reach_init | apply Forall_take, Hrs]).
  destruct (stop_index rs init) as [k|] eqn:Ek; [|exact Hn].
  destruct (Qle_bool _ t) eqn:E; [|exact Hn]. apply Qle_bool_iff in E.
  destruct (stop_index_stops rs init k eq_refl Ek) as [Hs Hp].
  assert (Hk : (k <= ticks_by t)%nat).
  { destruct (le_lt_dec k (ticks_by t)) as [|Hlt]; [done|]. exfalso.
    assert (Hlt' := ticks_by_ge t H0).
    assert (inject_Z (Z.of_nat (ticks_by t)) + 1 <= inject_Z (Z.of_nat k)).
    { rewrite <- inject_Z_of_nat_S, <- Zle_Qle. lia. }
    unfold interval, hide_delay in *. lra. }
  replace (firstn (ticks_by t) rs) with (firstn k rs ++ firstn (ticks_by t - k) (skipn k rs))
    by (rewrite take_take_drop; f_equal; lia).
  unfold run_ticks at 1. rewrite fold_left_app. fold (run_ticks (firstn k rs) init).
  fold (run_ticks (firstn (ticks_by t - k) (skipn k rs)) (run_ticks (firstn k rs) init)).
  rewrite run_ticks_stopped by exact Hs.
  eapply reach_step; [|apply st_hide, Hp].
  apply reachable_run_ticks; [apply reach_init | apply Forall_take, Hrs].
Qed.

(** Whatever [Math.random()] draws, from 8450 ms on [App] renders the
    page alone: the 51st tick at the latest clears the interval, and the
    timeout fires 800 ms later. *)
Lemma loader_gone_by rs t :
  draws rs -> (51 <= length rs)%nat -> 8450 <= t -> app_at rs t = AppView.render false.
Proof.
  intros Hrs Hl Ht. unfold app_at, loader_at.
  assert (H0 : 0 <= progress init) by (cbn [progress init]; lra).
  assert (H2 : 100 <= progress init + 2 * inject_Z (Z.of_nat 50)) by (change (inject_Z (Z.of_nat 50)) with 50; cbn [progress init]; lra).
  destruct (ticks_finish 50 init (firstn 51 rs) eq_refl H0 H2) as [Hs _];
    [rewrite length_take; lia | apply Forall_take, Hrs |].
  destruct (stop_index_exists 51 rs init eq_refl Hs) as (k & -> & Hk).
  destruct (Qle_bool _ t) eqn:E; [reflexivity|]. exfalso. apply not_true_iff_false in E. apply E.
  apply Qle_bool_iff. unfold interval, hide_delay.
  assert (inject_Z (Z.of_nat k) <= 51) by (change 51 with (inject_Z (Z.of_nat 51)); rewrite <- Zle_Qle; lia).
  lra.
Qed.

Lemma ease_rest x : 1 - Entrance.ease x == (1 - x) * (1 - x) * (1 - x).
Proof. unfold Entrance.ease. ring. Qed.

(** C38: Hero's entrance animation runs under the loading screen: whatever
    [Math.random()] draws, for the first 1650 ms the loader is on the
    screen and opaque (its progress is below 100, so it has not begun to
    fade), with the page mounted under it; the content moves away from
    [y = 30] until 1100 ms and is at rest, [isLoaded] set, from then on. *)
Theorem entrance_under_loader rs t :
  draws rs -> 0 <= t < 1650 ->
  (exists v, Loader.render (loader_at rs t) = Some v /\ fading v = false)
  /\ In AppView.CLoader (app_at rs t) /\ In (AppView.CMain Page.app_sections) (app_at rs t)
  /\ (t < 1100 -> 0 < Entrance.content_y t)
  /\ (1100 <= t -> Entrance.content_y t = 0 /\ Entrance.isLoaded t = true).
Proof.
  intros Hrs [H0 H1].
  set (pre := firstn (ticks_by t) rs).
  assert (Hlen : (length pre <= 10)%nat).
  { subst pre. rewrite length_take. enough (ticks_by t < 11)%nat by lia.
    apply ticks_by_lt; [exact H0|]. unfold interval. change (inject_Z (Z.of_nat 11)) with 11. lra. }
  assert (Hpre : draws pre) by (apply Forall_take, Hrs).
  assert (Hq : inject_Z (Z.of_nat (length pre)) <= 10)
    by (change 10 with (inject_Z (Z.of_nat 10)); rewrite <- Zle_Qle; lia).
  assert (Hl : progress init + 10 * inject_Z (Z.of_nat (length pre)) < 110) by (cbn [progress init]; lra).
  destruct (ticks_running pre init Hpre eq_refl eq_refl ltac:(cbn; lra) Hl) as (Ht & Hh & Hp).
  assert (Hat := loader_at_running rs t H0 Ht). fold pre in Hat.
  destruct (run_ticks_shown pre init) as [Hv Hi].
  assert (Hload : isLoading (loader_at rs t) = true) by (rewrite Hat, Hi; reflexivity).
  split; [|split; [|split; [|split]]].
  - unfold Loader.render. rewrite Hat, Hv, Hi. eexists. split; [reflexivity|]. cbn [fading].
    apply not_true_iff_false. rewrite Qle_bool_iff.
    destruct Hp as [->|Hp]; [cbn [run_ticks fold_left progress init]; lra|]. cbn [progress init] in Hp. lra.
  - unfold app_at. rewrite Hload. left. reflexivity.
  - unfold app_at. rewrite Hload. cbn. tauto.
  - intros Ht1. unfold Entrance.content_y, Entrance.delay, Entrance.duration, Entrance.from_y.
    destruct (Qle_bool t 300); [reflexivity|].
    destruct (Qle_bool (300 + 800) t) eqn:E; [apply Qle_bool_iff in E; lra|].
    rewrite ease_rest. set (x := (t - 300) / 800).
    destruct (Qlt_le_dec 0 (1 - x)) as [Hx|Hx].
    + apply Qmult_lt_0_compat; [reflexivity|]. repeat apply Qmult_lt_0_compat; exact Hx.
    + exfalso. assert (x < 1); [|lra]. subst x. apply Qlt_shift_div_r; [reflexivity|lra].
  - intros Ht1. unfold Entrance.content_y, Entrance.isLoaded, Entrance.delay, Entrance.duration.
    destruct (Qle_bool t 300) eqn:E1; [apply Qle_bool_iff in E1; lra|].
    destruct (Qle_bool (300 + 800) t) eqn:E2; [done|]. apply not_true_iff_false in E2.
    rewrite Qle_bool_iff in E2. lra.
Qed.

End StartUpProps.

(** Every draw 1/2: at 1.2 s the loader is still up. *)
Definition halves : list Q := repeat (1 # 2) 20.

Lemma entrance_under_loader_witness :
  draws halves /\ (0 <= 1200 < 1650)%Q /\
  Entrance.content_y 1200 = 0%Q /\ In AppView.CLoader (app_at halves 1200).
Proof.
  assert (Hd : draws halves) by (apply List.Forall_forall; intros r Hr%repeat_spec; subst; lra).
  assert (Hb : (0 <= 1200 < 1650)%Q) by lra.
  destruct (entrance_under_loader halves 1200 Hd Hb) as (_ & Hin & _ & _ & Hr).
  split; [exact Hd|]. split; [exact Hb|]. split; [apply Hr; lra | exact Hin].
Defined.
