(* ===== verification/HeroCanvas.v ===== *)
(** * The hero's render around its content: src/src/components/Hero.jsx
      lines 169-251 and 367-398, with the elements of
      src/src/components/Canvas/InteractiveElements.jsx

    Besides the content block ([HeroContent]) Hero renders the dots of
    the cursor trail (lines 176-188), the 3D background inside
    [Canvas3DErrorBoundary] (lines 190-244), the vignette (lines 247-249)
    and the scroll indicator (lines 368-398).  The canvas holds a camera,
    an ambient light, [DynamicLights], drei's [Stars], the morphing hero
    object, six orbiting satellites, 800 interactive particles and the
    post-processing passes; the four interactive elements receive
    [normalizedMouseRef.current] as read by the render
    ([HeroMouse.shownMouse]).

    [ElementsJsx] is what the elements of InteractiveElements.jsx render:
    the points of [InteractiveParticles] with their two buffer attributes
    (lines 89-114), whose arrays are the memo's two [Float32Array]s of
    [count * 3] zeros filled by its loop (lines 14-51), the satellites of
    [OrbitingObjects] (lines 136-157) and the mesh of [MorphingHeroObject]
    (lines 192-205).  Their frame callbacks are in [Canvas].  Numbers are
    reals, as there (the rounding of a [Float32Array] to single precision
    is not modelled), except the dots' opacity and scale and the canvas's
    pixel ratio, which are the rationals of [Hero] and [HeroContent].
    Class strings and the SVG
    arrow are not modelled. *)

From Stdlib Require Import QArith Reals Lra.
From S2P Require Import Prelude.
From S2P Require Import Hero.
From S2P Require Import Canvas.
From S2P Require Import HeroScene.
From S2P Require Import HeroContent.

Module ElementsJsx.
Local Open Scope R_scope.

(** A [<bufferAttribute attach count array itemSize />]. *)
Record buffer_attribute := { ba_attach : jstr; ba_count : nat; ba_array : list R; ba_itemSize : nat }.

(** The [<pointsMaterial>] of lines 105-112. *)
Record points_material := {
  pm_size : R; pm_vertexColors : bool; pm_transparent : bool; pm_opacity : R;
  pm_sizeAttenuation : bool; pm_blending : jstr }.

(** [<points {...props}>] with its geometry's two attributes and its
    material; [V] is the type of the caller's other props. *)
Record points (V : Type) := {
  pt_props : list (jstr * V); pt_position : buffer_attribute; pt_color : buffer_attribute;
  pt_material : points_material }.
Arguments pt_props {V}. Arguments pt_position {V}. Arguments pt_color {V}. Arguments pt_material {V}.

(** [a[i * 3] = v.x; a[i * 3 + 1] = v.y; a[i * 3 + 2] = v.z] on a typed
    array: a write past its end is dropped, as stdpp's [<[_ := _]>] drops
    it. *)
Definition write3 (a : list R) (i : nat) (v : ParticleField.vec3) : list R :=
  <[(i * 3 + 2)%nat := ParticleField.pz v]>
    (<[(i * 3 + 1)%nat := ParticleField.py v]> (<[(i * 3)%nat := ParticleField.px v]> a)).

(** The memo's loop on its two typed arrays, lines 15-48: both start as
    [new Float32Array(count * 3)], all zeros, and iteration [i] writes
    particle [i]'s position, from its draws [rnd i], and its gradient
    colour. *)
Definition fill_step (count : nat) (rnd : nat -> R * R * R) (acc : list R * list R) (i : nat) : list R * list R :=
  let r := rnd i in
  (write3 acc.1 i (ParticleField.gen_position r.1.1 r.1.2 r.2),
   write3 acc.2 i (ParticleField.gen_color i count)).

Definition fill_arrays (count : nat) (rnd : nat -> R * R * R) : list R * list R :=
  fold_left (fill_step count rnd) (seq 0 count) (repeat 0 (count * 3)%nat, repeat 0 (count * 3)%nat).

(** [InteractiveParticles({ count = 1000, mousePosition, ...props })],
    lines 8-115: the typed arrays of the memo become the two attributes,
    each announcing [count] items of 3 numbers. *)
Definition InteractiveParticles {V} (count : option nat) (rnd : nat -> R * R * R) (rest : list (jstr * V)) : points V :=
  let count := match count with Some c => c | None => 1000%nat end in
  let '(positions, colors) := fill_arrays count rnd in
  {| pt_props := rest;
     pt_position := {| ba_attach := u16 "attributes-position"; ba_count := count;
                       ba_array := positions; ba_itemSize := 3 |};
     pt_color := {| ba_attach := u16 "attributes-color"; ba_count := count;
                    ba_array := colors; ba_itemSize := 3 |};
     pt_material := {| pm_size := 0.1; pm_vertexColors := true; pm_transparent := true; pm_opacity := 0.8;
                       pm_sizeAttenuation := true; pm_blending := u16 "AdditiveBlending" |} |}.

(** [hsl(${h}, s%, l%)] *)
Record hsl := { hsl_h : R; hsl_s : Z; hsl_l : Z }.

(** A satellite, lines 139-153: its key, position, octahedron, colours
    and [emissiveIntensity]; every satellite is a wireframe. *)
Record satellite := {
  sat_key : nat; sat_position : R * R * R; sat_args : R * R; sat_color : hsl; sat_emissive : hsl;
  sat_emissiveIntensity : R; sat_wireframe : bool }.

Definition satellite_view (count i : nat) : satellite :=
  let '(x, z) := Orbiting.satellite i count in
  {| sat_key := i; sat_position := (x, 0, z); sat_args := (0.3, 0);
     sat_color := {| hsl_h := Orbiting.hue i count; hsl_s := 70; hsl_l := 60 |};
     sat_emissive := {| hsl_h := Orbiting.hue i count; hsl_s := 70; hsl_l := 40 |};
     sat_emissiveIntensity := 0.5; sat_wireframe := true |}.

(** [OrbitingObjects({ count = 5, mainPosition = [0, 0, 0] })], lines
    120-158: a group at [mainPosition] with a satellite for each index of
    [Array.from({ length: count })]. *)
Record group := { g_position : R * R * R; g_children : list satellite }.

Definition OrbitingObjects (count : option nat) (mainPosition : option (R * R * R)) : group :=
  let count := match count with Some c => c | None => 5%nat end in
  {| g_position := match mainPosition with Some p => p | None => (0, 0, 0) end;
     g_children := map (satellite_view count) (seq 0 count) |}.

(** The mesh of [MorphingHeroObject], lines 192-205: an icosahedron of
    radius 2 and detail 2 and its material, whose colours the frame
    callback then rewrites. *)
Record mesh := {
  me_args : R * R; me_color : jstr; me_emissive : jstr; me_emissiveIntensity : R;
  me_metalness : R; me_roughness : R; me_wireframe : bool }.

Definition MorphingHeroObject : mesh :=
  {| me_args := (2, 2); me_color := u16 "#0ea5e9"; me_emissive := u16 "#0ea5e9"; me_emissiveIntensity := 0.5;
     me_metalness := 0.8; me_roughness := 0.2; me_wireframe := true |}.

End ElementsJsx.

Module HeroJsx.
Import CursorTrail.

(** A dot of the trail, lines 176-188: its key [point.id], its place
    and the opacity and scale of its rank. *)
Record dot := { d_key : Z; d_left : Z; d_top : Z; d_opacity : Q; d_scale : Q }.

Definition trail_dots (t : list point) : list dot :=
  imap (fun i p => {| d_key := pid p; d_left := px p; d_top := py p;
                      d_opacity := dot_opacity (length t) i; d_scale := dot_scale (length t) i |}) t.

(** The children of the canvas, lines 195-242, with their props. *)
Inductive element :=
| PerspectiveCamera (makeDefault : bool) (position : R * R * R) (fov : R)
| AmbientLight (intensity : R)
| DynamicLights (mousePosition : R * R)
| Stars (radius depth : R) (count : nat) (factor saturation : R) (fade : bool) (speed : R)
| MorphingHeroObject (mousePosition : R * R) (scrollProgress : R)
| OrbitingObjects (count : nat) (mousePosition : R * R)
| InteractiveParticles (count : nat) (mousePosition : R * R)
| EffectComposer (bloom : R * R * R * jstr) (chromaticAberration : jstr * (R * R)).

Local Open Scope R_scope.

(** The vignette's background, lines 247-249, and the scroll
    indicator's text, lines 368-398. *)
Definition vignette : jstr :=
  u16 "radial-gradient(ellipse 70% 60% at center, rgba(0, 0, 0, 0) 0%, rgba(0, 0, 0, 0.1) 70%, rgba(0, 0, 0, 0.4) 100%)".
Definition indicator : jstr := u16 "Scroll to explore".

Definition canvas_children (s : HeroMouse.state) : list element :=
  let m := HeroMouse.shownMouse s in
  [PerspectiveCamera true (0, 0, 8) 75; AmbientLight 0.3; DynamicLights m;
   Stars 100 50 3000 4 0 true 1;
   MorphingHeroObject m (HeroMouse.scrollProgress s);
   OrbitingObjects 6 m; InteractiveParticles 800 m;
   EffectComposer (0.8, 0.2, 0.9, u16 "SCREEN") (u16 "NORMAL", (0.002, 0.002))].

(** What Hero renders around its content: the trail's dots, the 3D
    background (the canvas with its pixel-ratio range and children, or
    the boundary's fallback), the vignette and the scroll indicator. *)
Record view := {
  v_trail : list dot; v_scene : option ((Q * Q) * list element); v_vignette : jstr; v_indicator : jstr }.

(** Lines 169-251 and 367-398, for the boundary's state [eb], the
    window's [devicePixelRatio] and Hero's state [s]. *)
Definition render (eb : ErrorBoundary.state) (devicePixelRatio : option Q) (h : HeroContent.hero)
  (s : HeroMouse.state) : view :=
  {| v_trail := trail_dots (cursorTrail (HeroMouse.trail s));
     v_scene := match ErrorBoundary.render eb with
                | ErrorBoundary.Children => Some (HeroContent.canvas_dpr (HeroContent.HERO_CONFIG h) devicePixelRatio,
                                                  canvas_children s)
                | ErrorBoundary.Fallback => None
                end;
     v_vignette := vignette; v_indicator := indicator |}.

(** What an element of the canvas renders, for the particles' draws. *)
Definition satellites_of (e : element) : option ElementsJsx.group :=
  match e with OrbitingObjects c _ => Some (ElementsJsx.OrbitingObjects (Some c) None) | _ => None end.

Definition particles_of (rnd : nat -> R * R * R) (e : element) : option (ElementsJsx.points False) :=
  match e with InteractiveParticles c _ => Some (ElementsJsx.InteractiveParticles (Some c) rnd []) | _ => None end.

(** The [mousePosition] prop of an element, when it has one. *)
Definition mouse_of (e : element) : option (R * R) :=
  match e with
  | DynamicLights m | MorphingHeroObject m _ | OrbitingObjects _ m | InteractiveParticles _ m => Some m
  | _ => None
  end.

End HeroJsx.

(** ** Properties *)

Import ElementsJsx HeroJsx.

Section HeroCanvasProps.
Local Open Scope R_scope.

Lemma flatten_length ps : length (ParticleField.flatten ps) = (3 * length ps)%nat.
Proof. unfold ParticleField.flatten. induction ps as [|p ps IH]; cbn; [done|]. rewrite IH. lia. Qed.

Lemma write3_app l i v a b c rest :
  length l = (i * 3)%nat ->
  write3 (l ++ [a; b; c] ++ rest) i v =
  l ++ [ParticleField.px v; ParticleField.py v; ParticleField.pz v] ++ rest.
Proof.
  intros Hl. unfold write3. rewrite !insert_app_r_alt by lia. rewrite Hl.
  replace (i * 3 - i * 3)%nat with 0%nat by lia. replace (i * 3 + 1 - i * 3)%nat with 1%nat by lia.
  replace (i * 3 + 2 - i * 3)%nat with 2%nat by lia. reflexivity.
Qed.

(** After [k] iterations of the memo's loop the arrays hold the first [k]
    particles' coordinates, then the zeros of the allocation. *)
Lemma fill_prefix count rnd k :
  (k <= count)%nat ->
  fold_left (fill_step count rnd) (seq 0 k) (repeat 0 (count * 3)%nat, repeat 0 (count * 3)%nat) =
  (ParticleField.flatten (map (fun i => ParticleField.gen_position (rnd i).1.1 (rnd i).1.2 (rnd i).2) (seq 0 k))
     ++ repeat 0 ((count - k) * 3)%nat,
   ParticleField.flatten (map (fun i => ParticleField.gen_color i count) (seq 0 k)) ++ repeat 0 ((count - k) * 3)%nat).
Proof.
  induction k as [|k IH]; intros Hk; [by rewrite Nat.sub_0_r|].
  rewrite seq_S, fold_left_app, IH by lia. cbn [fold_left]. unfold fill_step. cbn [fst snd].
  replace ((count - k) * 3)%nat with (3 + (count - S k) * 3)%nat by lia.
  rewrite (repeat_app (A := R) 0 3). cbn [repeat].
  rewrite !write3_app by (rewrite flatten_length, length_map, length_seq; lia).
  unfold ParticleField.flatten. rewrite !map_app, !flat_map_app. cbn [map flat_map].
  by rewrite <- !app_assoc.
Qed.

(** The typed arrays of the memo hold exactly the coordinates of the
    positions and colours it generates, three per particle in order. *)
Lemma fill_arrays_generate count rnd :
  fill_arrays count rnd =
  (ParticleField.flatten (ParticleField.generate (map rnd (seq 0 count)) []).1.1,
   ParticleField.flatten (ParticleField.generate (map rnd (seq 0 count)) []).1.2).
Proof.
  unfold fill_arrays. rewrite fill_prefix by lia. rewrite Nat.sub_diag. cbn [repeat].
  rewrite !app_nil_r. unfold ParticleField.generate. cbn [fst snd].
  by rewrite map_map, length_map, length_seq.
Qed.

(** The angle of satellite [i] of [count], line 140. *)
Definition sat_angle (i count : nat) : R := INR i / INR count * PI * 2.

(** The squared distance between two points. *)
Definition dist2 (p q : R * R * R) : R :=
  let '(x1, y1, z1) := p in let '(x2, y2, z2) := q in
  (x1 - x2) * (x1 - x2) + (y1 - y2) * (y1 - y2) + (z1 - z2) * (z1 - z2).

Lemma satellite_dist2 c i j :
  dist2 (sat_position (satellite_view c i)) (sat_position (satellite_view c j)) =
  18 - 18 * cos (sat_angle i c - sat_angle j c).
Proof.
  unfold satellite_view, Orbiting.satellite, sat_angle. cbn [sat_position dist2].
  rewrite cos_minus. set (a := INR i / INR c * PI * 2). set (b := INR j / INR c * PI * 2).
  pose proof (sin2_cos2 a). pose proof (sin2_cos2 b). unfold Rsqr in *. nra.
Qed.

Lemma satellite_origin c i : dist2 (sat_position (satellite_view c i)) (0, 0, 0) = 9.
Proof.
  unfold satellite_view, Orbiting.satellite. cbn [sat_position dist2].
  set (a := INR i / INR c * PI * 2). pose proof (sin2_cos2 a). unfold Rsqr in *. nra.
Qed.

Lemma INR_6 : INR 6 = 6.
Proof. cbn. lra. Qed.

(** Neighbouring satellites of six are a sixth of a turn apart, the last
    and the first included. *)
Lemma hexagon_step i : (i < 6)%nat -> cos (sat_angle i 6 - sat_angle ((i + 1) mod 6) 6) = 1 / 2.
Proof.
  intros Hi. unfold sat_angle. rewrite INR_6. rewrite <- cos_PI3.
  destruct (Nat.eq_dec i 5) as [->|Hne].
  - replace ((5 + 1) mod 6)%nat with 0%nat by reflexivity.
    replace (INR 5 / 6 * PI * 2 - INR 0 / 6 * PI * 2) with (- (PI / 3) + 2 * INR 1 * PI) by (cbn; field).
    by rewrite cos_period, cos_neg.
  - rewrite Nat.mod_small by lia. rewrite plus_INR.
    replace (INR i / 6 * PI * 2 - (INR i + INR 1) / 6 * PI * 2) with (- (PI / 3)) by (cbn; field).
    apply cos_neg.
Qed.

(** The satellites of [OrbitingObjects] by index. *)
Lemma orbiting_nth c i x :
  nth_error (g_children (ElementsJsx.OrbitingObjects (Some c) None)) i = Some x ->
  (i < c)%nat /\ x = satellite_view c i.
Proof.
  cbn [ElementsJsx.OrbitingObjects g_children]. rewrite nth_error_map, nth_error_seq.
  destruct (i <? c)%nat eqn:E; [|discriminate]. apply Nat.ltb_lt in E. intros [= <-]. by split.
Qed.

(** Six satellites form a regular hexagon of side 3 inscribed in the
    circle of radius 3, satellite [i] at hue [60 i]. *)
Lemma satellites_hexagon :
  let g := ElementsJsx.OrbitingObjects (Some 6%nat) None in
  g_position g = (0, 0, 0) /\ length (g_children g) = 6%nat /\
  forall i x, nth_error (g_children g) i = Some x ->
    sat_key x = i /\ hsl_h (sat_color x) = 60 * INR i /\ dist2 (sat_position x) (0, 0, 0) = 9 /\
    exists y, nth_error (g_children g) ((i + 1) mod 6) = Some y /\ dist2 (sat_position x) (sat_position y) = 9.
Proof.
  cbv zeta. split; [done|]. split; [cbn [ElementsJsx.OrbitingObjects g_children]; by rewrite length_map, length_seq|].
  intros i x (Hi & ->)%orbiting_nth. split; [done|]. split.
  { unfold satellite_view, Orbiting.satellite, Orbiting.hue. cbn [sat_color hsl_h]. rewrite INR_6. field. }
  split; [apply satellite_origin|]. exists (satellite_view 6 ((i + 1) mod 6)). split.
  - cbn [ElementsJsx.OrbitingObjects g_children]. rewrite nth_error_map, nth_error_seq.
    assert (Hm : ((i + 1) mod 6 < 6)%nat) by (apply Nat.mod_upper_bound; lia).
    apply Nat.ltb_lt in Hm. by rewrite Hm.
  - rewrite satellite_dist2, hexagon_step by done. lra.
Qed.

(** The trail's dots fade with their rank: the newest at opacity 1/2
    and full scale, each older one fainter and smaller, none invisible. *)
Lemma trail_dots_fade (t : list CursorTrail.point) i :
  (i < length t)%nat ->
  (0 < CursorTrail.dot_scale (length t) i <= 1)%Q /\
  CursorTrail.dot_opacity (length t) i == CursorTrail.dot_scale (length t) i * (1 # 2) /\
  ((S i < length t)%nat -> CursorTrail.dot_scale (length t) (S i) < CursorTrail.dot_scale (length t) i)%Q.
Proof.
  intros Hi. unfold CursorTrail.dot_opacity, CursorTrail.dot_scale.
  assert (Hn : (0 < inject_Z (Z.of_nat (length t)))%Q) by (change 0%Q with (inject_Z 0); rewrite <- Zlt_Qlt; lia).
  split; [|split; [reflexivity|]].
  - split.
    + apply Qlt_shift_div_l; [exact Hn|]. rewrite Qmult_0_l. change 0%Q with (inject_Z 0). rewrite <- Zlt_Qlt. lia.
    + apply Qle_shift_div_r; [exact Hn|]. rewrite Qmult_1_l, <- Zle_Qle. lia.
  - intros Hs. unfold Qdiv. apply Qmult_lt_r; [apply Qinv_lt_0_compat, Hn|]. rewrite <- Zlt_Qlt. lia.
Qed.

End HeroCanvasProps.

Local Open Scope R_scope.

(** C39: The hero's 3D background, when the error boundary has caught no
    error: the canvas gets the pixel-ratio range of [HERO_CONFIG];
    [OrbitingObjects] renders six satellites keyed 0 to 5 forming a
    regular hexagon of side 3 about the group's origin, satellite [i] at
    hue [60 i]; and each buffer attribute of the 800 interactive particles
    announces 800 items of 3 numbers, its typed array holding exactly the
    coordinates of the positions (or colours) the memo generates. *)
Theorem hero_scene eb dpr h s rnd :
  ErrorBoundary.hasError eb = false ->
  exists els,
    v_scene (render eb dpr h s) = Some (HeroContent.canvas_dpr (HeroContent.HERO_CONFIG h) dpr, els) /\
    (exists g, In (Some g) (map satellites_of els) /\ g_position g = (0, 0, 0) /\
       length (g_children g) = 6%nat /\
       forall i x, nth_error (g_children g) i = Some x ->
         sat_key x = i /\ hsl_h (sat_color x) = 60 * INR i /\ dist2 (sat_position x) (0, 0, 0) = 9 /\
         exists y, nth_error (g_children g) ((i + 1) mod 6) = Some y /\
                   dist2 (sat_position x) (sat_position y) = 9) /\
    (exists p, In (Some p) (map (particles_of rnd) els) /\
       ba_count (pt_position p) = 800%nat /\ ba_itemSize (pt_position p) = 3%nat /\
       ba_array (pt_position p) = ParticleField.flatten (ParticleField.generate (map rnd (seq 0 800)) []).1.1 /\
       ba_count (pt_color p) = 800%nat /\ ba_itemSize (pt_color p) = 3%nat /\
       ba_array (pt_color p) = ParticleField.flatten (ParticleField.generate (map rnd (seq 0 800)) []).1.2).
Proof.
  intros He. unfold render, ErrorBoundary.render. cbn [v_scene]. rewrite He.
  eexists. split; [reflexivity|]. split.
  - eexists. split.
    + apply (in_map satellites_of (canvas_children s) (OrbitingObjects 6 (HeroMouse.shownMouse s))).
      unfold canvas_children. do 5 right; left; reflexivity.
    + exact satellites_hexagon.
  - eexists. split.
    + apply (in_map (particles_of rnd) (canvas_children s) (InteractiveParticles 800 (HeroMouse.shownMouse s))).
      unfold canvas_children. do 6 right; left; reflexivity.
    + unfold ElementsJsx.InteractiveParticles. rewrite fill_arrays_generate. repeat split.
Qed.

(** The hero of empty data, before any event, with no error caught. *)
Definition demo_hero : HeroContent.hero :=
  {| HeroContent.h_titles := demo_titles; HeroContent.h_cta_primary := []; HeroContent.h_cta_secondary := [];
     HeroContent.h_stats := [] |}.

Lemma hero_scene_witness :
  ErrorBoundary.hasError ErrorBoundary.init = false /\
  exists els, v_scene (render ErrorBoundary.init None demo_hero HeroMouse.init)
              = Some (HeroContent.canvas_dpr (HeroContent.HERO_CONFIG demo_hero) None, els).
Proof.
  assert (He : ErrorBoundary.hasError ErrorBoundary.init = false) by reflexivity.
  split; [exact He|].
  destruct (hero_scene ErrorBoundary.init None demo_hero HeroMouse.init (fun _ => (0, 0, 0)%R) He)
    as (els & Hv & _). exists els. exact Hv.
Defined.
