(* ===== verification/LoaderScreen.v ===== *)
(** * The loading screen's picture: src/src/components/Loader.jsx lines 45-245

    [WaterDropLoader] renders, around the progress bar, percentage and
    dots of [Loader.render]: 50 floating particles whose places, sizes,
    delays, durations and opacities are drawn from [Math.random()] in the
    render (lines 68-83), three pulsing rings (lines 99-115), a
    constellation of nine particles joined by ten lines (lines 48-62 and
    118-166), four orbiting particles (lines 183-203) and the texts.

    A render draws its random numbers afresh: [rnd k] is the [k]-th call
    of [Math.random()] in that render, seven per floating particle in the
    order of the object literal.  The progress changes at every tick
    before it reaches 100, so each such tick renders the screen again with
    new draws.  Lengths, positions and times are reals; the class strings
    and the gradient definitions are not modelled. *)

From Stdlib Require Import QArith Reals Lra.
From S2P Require Import Prelude.
From S2P Require Import Loader.

Module LoaderScreen.
Local Open Scope R_scope.

(** A floating particle, lines 69-82: [left] and [top] in percent,
    [width] and [height] in pixels, [animationDelay] and
    [animationDuration] in seconds, and the opacity. *)
Record fparticle := {
  fp_key : nat; fp_left : R; fp_top : R; fp_width : R; fp_height : R;
  fp_delay : R; fp_duration : R; fp_opacity : R }.

Definition float_particle (rnd : nat -> R) (i : nat) : fparticle :=
  let r k := rnd (7 * i + k)%nat in
  {| fp_key := i; fp_left := r 0%nat * 100; fp_top := r 1%nat * 100;
     fp_width := 1 + r 2%nat * 3; fp_height := 1 + r 3%nat * 3;
     fp_delay := r 4%nat * 5; fp_duration := 10 + r 5%nat * 20; fp_opacity := 0.1 + r 6%nat * 0.3 |}.

(** [[...Array(50)].map((_, i) => ...)], lines 68-83. *)
Definition float_particles (rnd : nat -> R) : list fparticle := map (float_particle rnd) (seq 0 50).

(** A pulsing ring, lines 99-115: its key, its width and height, its
    delay and its duration. *)
Record ring := { rg_key : nat; rg_size : R; rg_delay : R; rg_duration : R }.

Definition rings : list ring :=
  map (fun i => {| rg_key := i; rg_size := 180 + INR i * 40; rg_delay := INR i * 0.7; rg_duration := 2.1 |}) [0; 1; 2]%nat.

(** The constellation's particles and connections, lines 48-62. *)
Record cparticle := { cp_x : R; cp_y : R; cp_size : R; cp_delay : R }.

Definition particles : list cparticle :=
  [ {| cp_x := 50; cp_y := 30; cp_size := 4; cp_delay := 0 |};
    {| cp_x := 30; cp_y := 45; cp_size := 3; cp_delay := 0.1 |};
    {| cp_x := 70; cp_y := 45; cp_size := 3; cp_delay := 0.2 |};
    {| cp_x := 20; cp_y := 60; cp_size := 2; cp_delay := 0.3 |};
    {| cp_x := 50; cp_y := 50; cp_size := 6; cp_delay := 0 |};
    {| cp_x := 80; cp_y := 60; cp_size := 2; cp_delay := 0.4 |};
    {| cp_x := 35; cp_y := 70; cp_size := 3; cp_delay := 0.5 |};
    {| cp_x := 65; cp_y := 70; cp_size := 3; cp_delay := 0.6 |};
    {| cp_x := 50; cp_y := 80; cp_size := 4; cp_delay := 0.7 |} ].

Definition connections : list (nat * nat) :=
  [(0, 1); (0, 2); (1, 4); (2, 4); (4, 3); (4, 5); (3, 6); (5, 7); (6, 8); (7, 8)]%nat.

(** A connection line, lines 124-140: [particles[start].x] and the like;
    an index past the array reads [undefined], whose [.x] throws a
    TypeError ([None]). *)
Record line := { ln_key : nat; ln_x1 : R; ln_y1 : R; ln_x2 : R; ln_y2 : R; ln_delay : R }.

Definition line_of (i : nat) (c : nat * nat) : option line :=
  match nth_error particles c.1, nth_error particles c.2 with
  | Some a, Some b =>
      Some {| ln_key := i; ln_x1 := cp_x a; ln_y1 := cp_y a; ln_x2 := cp_x b; ln_y2 := cp_y b;
              ln_delay := INR i * 0.1 |}
  | _, _ => None
  end.

(** [connections.map(...)]: the lines, or the TypeError of the first
    bad index. *)
Fixpoint all_some {A} (l : list (option A)) : option (list A) :=
  match l with
  | [] => Some []
  | Some x :: r => option_map (cons x) (all_some r)
  | None :: _ => None
  end.

Definition lines : option (list line) := all_some (imap line_of connections).

(** A particle of the constellation, lines 146-165: the glow of radius
    [size * 2.5] and the core of radius [size] with its delay. *)
Record dot := { dt_key : nat; dt_cx : R; dt_cy : R; dt_glow_r : R; dt_core_r : R; dt_delay : R }.

Definition dots : list dot :=
  imap (fun i p => {| dt_key := i; dt_cx := cp_x p; dt_cy := cp_y p; dt_glow_r := cp_size p * 2.5;
                      dt_core_r := cp_size p; dt_delay := cp_delay p |}) particles.

(** An orbiting particle, lines 183-203: its delay and duration, its
    size in pixels and its [left] in percent. *)
Record orbiter := { ob_key : nat; ob_delay : R; ob_duration : R; ob_size : R; ob_left : R }.

Definition orbiters : list orbiter :=
  map (fun i => {| ob_key := i; ob_delay := INR i * 0.5; ob_duration := 8 + INR i * 2; ob_size := 4 + INR i;
                   ob_left := 50 + 30 * cos (INR i * PI / 2) |}) [0; 1; 2; 3]%nat.

(** The texts, lines 215-222. *)
Definition texts : list jstr := [u16 "Loading Portfolio"; u16 "Assembling digital constellation..."].

Record screen := {
  sc_main : Loader.view; sc_float : list fparticle; sc_rings : list ring; sc_lines : list line;
  sc_dots : list dot; sc_orbiters : list orbiter; sc_texts : list jstr }.

(** The outcome of a render: the screen, nothing ([return null], line
    45, or App's [isLoading] false), or a thrown TypeError. *)
Inductive outcome := Shown (s : screen) | Hidden | Threw.

Definition render (s : Loader.state) (rnd : nat -> R) : outcome :=
  match Loader.render s with
  | None => Hidden
  | Some v =>
      match lines with
      | Some ls => Shown {| sc_main := v; sc_float := float_particles rnd; sc_rings := rings; sc_lines := ls;
                            sc_dots := dots; sc_orbiters := orbiters; sc_texts := texts |}
      | None => Threw
      end
  end.

End LoaderScreen.

(** ** Properties *)

Import LoaderScreen.

Section LoaderScreenProps.
Local Open Scope R_scope.

(** Every connection indexes one of the nine particles. *)
Lemma connections_in_range : forallb (fun c => (c.1 <? 9)%nat && (c.2 <? 9)%nat) connections = true.
Proof. reflexivity. Qed.

Lemma all_some_imap {A B} (f : nat -> A -> option B) (l : list A) :
  (forall i x, In x l -> f i x <> None) ->
  exists ys, all_some (imap f l) = Some ys /\ Forall2 (fun y x => exists i, f i x = Some y) ys l.
Proof.
  revert f. induction l as [|x l IH]; intros f Hf; [by exists []|].
  rewrite imap_cons. destruct (f 0%nat x) as [y|] eqn:Ey; [|by destruct (Hf 0%nat x (or_introl eq_refl))].
  destruct (IH (f ∘ S)) as (ys & Hys & H2); [intros i z Hz; apply (Hf (S i)); by right|].
  exists (y :: ys). cbn [all_some]. rewrite Hys. split; [done|]. constructor; [by exists 0%nat|].
  eapply Forall2_impl; [exact H2|]. intros y' x' [i Hi]. by exists (S i).
Qed.

Lemma line_of_some i c :
  (c.1 < 9)%nat -> (c.2 < 9)%nat ->
  exists a b, nth_error particles c.1 = Some a /\ nth_error particles c.2 = Some b /\
    line_of i c = Some {| ln_key := i; ln_x1 := cp_x a; ln_y1 := cp_y a; ln_x2 := cp_x b; ln_y2 := cp_y b;
                          ln_delay := INR i * 0.1 |}.
Proof.
  intros H1 H2. unfold line_of.
  destruct (nth_error particles c.1) as [a|] eqn:Ea; [|apply nth_error_None in Ea; cbn in Ea; lia].
  destruct (nth_error particles c.2) as [b|] eqn:Eb; [|apply nth_error_None in Eb; cbn in Eb; lia].
  by exists a, b.
Qed.

(** The ten lines are drawn: each joins two particles of the
    constellation, and none reads past the array. *)
Lemma lines_drawn :
  exists ls, lines = Some ls /\ length ls = 10%nat /\
    Forall2 (fun l c => exists a b, nth_error particles c.1 = Some a /\ nth_error particles c.2 = Some b /\
                                    (ln_x1 l, ln_y1 l, ln_x2 l, ln_y2 l) = (cp_x a, cp_y a, cp_x b, cp_y b))
            ls connections.
Proof.
  assert (Hr := connections_in_range). rewrite forallb_forall in Hr.
  assert (Hc : forall c, In c connections -> (c.1 < 9)%nat /\ (c.2 < 9)%nat).
  { intros c Hin. apply Hr, andb_prop in Hin as [H1 H2]. apply Nat.ltb_lt in H1, H2. done. }
  destruct (all_some_imap line_of connections) as (ls & Hls & H2).
  - intros i c Hin. destruct (Hc c Hin) as [H1 H3]. destruct (line_of_some i c H1 H3) as (a & b & _ & _ & ->).
    discriminate.
  - exists ls. split; [exact Hls|]. split; [by rewrite (Forall2_length _ _ _ H2)|].
    eapply Forall2_impl; [exact H2|]. intros l c [i Hi]. unfold line_of in Hi.
    destruct (nth_error particles c.1) as [a|], (nth_error particles c.2) as [b|]; try discriminate.
    injection Hi as <-. exists a, b. auto.
Qed.

(** Draws of [Math.random()], in [[0, 1)]. *)
Definition draws (rnd : nat -> R) : Prop := forall k, 0 <= rnd k < 1.

Definition on_screen (p : fparticle) : Prop :=
  0 <= fp_left p < 100 /\ 0 <= fp_top p < 100 /\ 1 <= fp_width p < 4 /\ 1 <= fp_height p < 4 /\
  0 <= fp_delay p < 5 /\ 10 <= fp_duration p < 30 /\ 0.1 <= fp_opacity p < 0.4.

Lemma float_particle_on_screen rnd i : draws rnd -> on_screen (float_particle rnd i).
Proof.
  intros Hd. unfold on_screen, float_particle.
  cbn [fp_left fp_top fp_width fp_height fp_delay fp_duration fp_opacity].
  pose proof (Hd (7 * i + 0)%nat). pose proof (Hd (7 * i + 1)%nat). pose proof (Hd (7 * i + 2)%nat).
  pose proof (Hd (7 * i + 3)%nat). pose proof (Hd (7 * i + 4)%nat). pose proof (Hd (7 * i + 5)%nat).
  pose proof (Hd (7 * i + 6)%nat). repeat split; lra.
Qed.

(** Each of the 350 draws of a render shows on the screen: two renders
    whose draws differ somewhere below 350 show different particles. *)
Lemma float_particles_draws rnd1 rnd2 k :
  (k < 350)%nat -> rnd1 k <> rnd2 k -> float_particles rnd1 <> float_particles rnd2.
Proof.
  intros Hk Hne E. set (i := (k / 7)%nat). set (j := (k mod 7)%nat).
  assert (Hi : (i < 50)%nat) by (subst i; apply Nat.Div0.div_lt_upper_bound; lia).
  assert (Hkij : k = (7 * i + j)%nat) by (subst i j; apply Nat.div_mod; lia).
  assert (Hj : (j < 7)%nat) by (subst j; apply Nat.mod_upper_bound; lia).
  apply (f_equal (fun l => nth_error l i)) in E. unfold float_particles in E.
  rewrite !nth_error_map, nth_error_seq in E. apply Nat.ltb_lt in Hi. rewrite Hi in E. cbn [option_map] in E. rewrite Nat.add_0_l in E.
  assert (E' : float_particle rnd1 i = float_particle rnd2 i) by congruence. clear E. rename E' into E.
  apply Hne. rewrite Hkij.
  destruct j as [|[|[|[|[|[|[|j]]]]]]]; [..|lia].
  - apply (f_equal fp_left) in E. cbn [float_particle fp_left] in E. lra.
  - apply (f_equal fp_top) in E. cbn [float_particle fp_top] in E. lra.
  - apply (f_equal fp_width) in E. cbn [float_particle fp_width] in E. lra.
  - apply (f_equal fp_height) in E. cbn [float_particle fp_height] in E. lra.
  - apply (f_equal fp_delay) in E. cbn [float_particle fp_delay] in E. lra.
  - apply (f_equal fp_duration) in E. cbn [float_particle fp_duration] in E. lra.
  - apply (f_equal fp_opacity) in E. cbn [float_particle fp_opacity] in E. lra.
Qed.

(** A tick before 100 changes the progress, so React renders the screen
    again, with new draws for the floating particles. *)
Lemma tick_rerenders s r :
  Loader.ticking s = true -> (Loader.progress s < 100)%Q -> (0 <= r)%Q ->
  ~ (Loader.progress (Loader.tick r s) == Loader.progress s)%Q.
Proof.
  intros _ Hp Hr. unfold Loader.tick.
  destruct (Qle_bool 100 (Loader.progress s)) eqn:E; [apply Qle_bool_iff in E; apply Qle_not_lt in E; contradiction|].
  cbn [Loader.progress]. intros Heq.
  destruct (Qminmax.Q.min_spec (Loader.progress s + r * 8 + 2) 100) as [[_ Em]|[_ Em]]; rewrite Em in Heq.
  - assert (H8 : (0 <= r * 8)%Q) by (apply Qmult_le_0_compat; [exact Hr|discriminate]).
    assert (Hlt : (Loader.progress s < Loader.progress s + r * 8 + 2)%Q).
    { rewrite <- Qplus_assoc. rewrite <- (Qplus_0_r (Loader.progress s)) at 1. apply Qplus_lt_r.
      apply Qlt_le_trans with 2%Q; [reflexivity|]. rewrite <- (Qplus_0_l 2) at 1. apply Qplus_le_l. exact H8. }
    rewrite Heq in Hlt. apply (Qlt_irrefl _ Hlt).
  - rewrite Heq in Hp. apply (Qlt_irrefl _ Hp).
Qed.

End LoaderScreenProps.
